(* ===== verification/_CoqProject ===== *)
-Q . S2P
Prelude.v
Json.v
Effects.v
JsonText.v
JsonLaws.v
Debounce.v
Template.v
TemplateLaws.v
Storage.v
Preview.v
Publish.v
Spec.v
App.v
Tracks.v
Saves.v
Hooks.v
Service.v
Session.v
Refine.v
View.v
