(* ===== verification/Prelude.v ===== *)
(** * Verification of the og-impact live template editor (src/src/App.js)

    ** The program

    [src/src/App.js] is a single-page editor.  The user edits three
    documents (a Handlebars template, a stylesheet, a JSON data payload);
    a preview shows the template rendered against the data; the documents
    are persisted to the browser's key-value store; a button publishes the
    template to a remote service under an API key.  Its parts:

    - [App] (lines 135-257) owns the state: [html], [css], [params] (the
      parsed data), [paramsJson] (the data text shown in the editor) and
      [apiKey].  It seeds them from the store, wires the three editors'
      [onChange] callbacks, and runs one effect that calls
      [debouncedWriteStorage] whenever [html], [css] or [params] change.
    - [Preview] (lines 69-123) keeps debounced copies of [html] and
      [params] (500 ms) and the compiled template; compilation is wrapped
      in [try]/[catch] and falls back to the raw template.
    - [debouncedWriteStorage] (lines 125-133) writes the three keys
      [html], [css], [params], debounced by 1000 ms with a 5000 ms ceiling.
    - [publish] (lines 148-174) refuses an empty key, otherwise posts
      [{body, styles}] to [host ++ "/publish"] and alerts the outcome.
    - [Button] (lines 47-67) sets its loading flag before it calls its
      handler and clears it when the handler has settled; it is disabled
      while the flag is set.
    - [Editor] (lines 27-45) wraps the Ace editor; the JSX of [App]
      (lines 180-256), [Preview] (lines 95-122) and [Button] (lines 50-66)
      lays the page out and wires the handlers.

    ** The development, file by file

    - [Prelude] (this file): the shared vocabulary.  JavaScript truthiness
      and the [||] default operator ([Truthy], [js_or]); the generic
      lemmas on runs ([foldl]) that every invariant proof uses; the hint
      database [editor] and the tactics of the development.
    - [Json]: JavaScript values as an inductive type [json], field access
      by path, JavaScript's string coercion, well-formed values
      ([json_wf]: no duplicate keys), and the interface of [JSON.parse] /
      [JSON.stringify] as the class [JsonCodec] with its laws
      [JsonCodecLaws].
    - [Effects]: the observable effects of the program ([effect]: console
      output, alerts, HTTP requests) and a writer monad [Eff] with its
      notation, in which handlers return their result together with the
      effects they emit.
    - [JsonText]: an executable codec for the interface: a lexer [jlex], a
      shift-reduce parser [jparse] and a printer [print] with the
      indentation of [JSON.stringify(v, null, n)].
    - [JsonLaws]: the proof that [JsonText] satisfies the laws
      ([json_round_trip], [json_parse_wf], instance [json_text_laws]).
    - [Debounce]: the debounce scheduler of the specification (section
      4.1) over a virtual clock: [schedule], [deadline], [fire], and a
      scheduler [sched] on which bursts of calls are run.
    - [Template]: the interface [TemplateEngine] of [handlebars.compile]
      on JavaScript values ([compile_value]; [compile] is its use on a
      text) with its two laws, and an executable engine that satisfies
      them: text, [{{path}}] with HTML escaping, the unescaped
      [{{{path}}}] and [{{&path}}], and [{{#if}}] with [{{else}}]; an
      input that is not a text is refused with the library's message.
    - [TemplateLaws]: the engine's lexer as a relation, a printer for
      syntax trees, and the two general results on the engine: parsing a
      printed tree gives the tree ([parse_print]) and escaped substitution
      adds no markup delimiter ([compile_adds_no_markup]).
    - [Storage]: the key-value store with a quota, the library's writer
      ([writeStorage], [stored_text]) and its parsing read ([tryParse],
      [useLocalStorage]), the three reads of the program (lines 136-138),
      and the body and policy of [debouncedWriteStorage] (lines
      125-133).
    - [Preview]: the hooks of the [Preview] component (lines 69-93): its
      state, its initialiser [compiledHtml_init], its effect [recompile]
      and the callbacks of its two timers.
    - [Publish]: [host], [publish] split at its [await] into
      [publish_start] and [publish_finish] (lines 148-174), and [Button]
      (lines 47-59): the turn of a click ([Button_onClick]), the states
      the button is rendered in during it ([Button_frames]) and the count
      of requests in flight.
    - [Spec]: the abstract machine of the specification (sections 4.5
      and 5), with no timers and no clock: a [view] of a session, the
      [input]s of the user and the service, the labelled moves
      [spec_step] (the one answer to each input, and the moves of the
      session's own: show, save) and its runs [spec_run].
    - [App]: the state of [App] (lines 136-146), its handlers ([on_html],
      [on_css], [on_data], [on_apiKey], [on_click]; lines 208-247), the
      first render [mount], the timer loop [run_timers], the event loop
      [step] over the events (edits, clicks, responses, elapsed time) and
      the invariant [world_ok] of all reachable states.
    - [Tracks]: what the three debounced parts of the session have in
      common (record [debounced]: a policy, a timer, a pending call, a
      value and what an execution does to it) and what [App] does for
      each (class [DebouncedLaws]); from the laws, the projection of a
      session onto the scheduler of [Debounce]: the calls and waits the
      events mean to the part ([session_actions]), and the proof that the
      scheduler run on them has the part's pending call and a log of
      executions whose replay is the part's value ([run_tracks]).  The
      instances are the storage writer ([storage_writer], lines 125-133)
      and the two hooks of the preview ([html_hook], [params_hook], lines
      70-71).
    - [Saves]: the three schedulers beside a session from mounting
      ([writer_sched], called by the first render; [hook_sched], idle).
    - [Hooks]: the same components as they are written: the cells of
      their hooks ([App_hooks], [Preview_hooks]), values with the identity
      of their reference ([jsval], [Object_is]), the dependency arrays of
      lines 93, 174 and 178, a render with its effects ([App_render],
      [Preview_render]) and the event loop on the cells ([hstep]); and
      the proof that forgetting the bookkeeping ([erase]) gives the
      session of [App].
    - [Service]: the remote service as the specification describes it
      ([service], [serve]) and a click answered by it ([publish_via]).
    - [Session]: the theorems on sessions, proved from the invariant, and
      their application to concrete sessions.
    - [Refine]: the abstraction [abs] from worlds to views, the reading
      [input_of] of events as inputs, and the simulation: every event of
      [App.step] is the move of [Spec] on its input ([step_refines]), so
      a session is a run of the abstract machine on its inputs
      ([session_refines]).
    - [View]: the JSX of the four components as functions to trees of
      elements ([Editor_view], [Button_view], [Preview_view], [App_view]),
      with the handlers as events of the loop, and collectors that read a
      tree (the clicks offered, the values shown, the frame's content);
      and, with the engine of [Template], what reaches the frame.

    ** How state and effects are modelled

    React state is explicit: every component is a [Record], every handler
    a function from the record to the new record.  The template and the
    stylesheet are JavaScript values ([json]), as the data is: at start
    they are what the store's library returned, which need not be a
    string, and an editor replaces them by its text ([JStr]).  So are the
    debounced template, what the preview shows, and the body and styles
    of a request.  A handler that logs,
    alerts or sends a request returns in [Eff], the writer monad over the
    list of effects, most recent last; the [trace] of a [world] collects
    them.  The browser is single-threaded and every handler runs to
    completion, so one event of [App.step] is one atomic transition.
    [publish] is an [async] function with a single [await]: the request
    leaves in the [ClickPublish] step and the rest of the function runs in
    the [Settled] step that carries the service's answer.

    Time is a virtual clock in milliseconds ([N]).  An [Elapse dt] event
    runs the timers whose deadline falls within [dt], earliest deadline
    first (on a tie: template, data, store; by [Session.timers_commute]
    the order of two due timers does not show in the state), each at its
    deadline, and then moves the clock.  There are three timers and a
    callback arms none, so [App.run_timers] runs with fuel 3:
    [App.run_timers_settles] proves that nothing is due afterwards and
    [Session.run_timers_enough] that more fuel changes nothing.  Because
    the callbacks run at their deadlines and not when the clock is read,
    it does not matter how a session slices time into [Elapse] events
    ([Session.elapse_additive]).

    React compares state and effect dependencies by [Object.is]: a string
    or another primitive equal to the current one changes nothing and
    triggers no effect, while an object or array produced by [JSON.parse]
    is always a new reference.  [App] follows this in its handlers: string
    setters are guarded by equality, and a successful parse restarts the
    timers unless it is the primitive the data already is
    ([Json.same_primitive]).  [Hooks] derives it: there the values carry
    their identity, a render compares the dependency arrays, and
    [Hooks.hooks_refine] shows that the handlers of [App] are what
    results.

    The store is a finite map with an optional quota, and a write that
    would exceed the quota throws.  The library that reads it is untyped:
    it parses whatever text it finds and falls back to the text
    ([Storage.tryParse]).  All three keys are read that way
    ([Storage.storedHtml], [storedCss], [storedParams], lines 136-138).
    The library's writer is untyped too: it stores the JSON text of an
    object, an array or [null] and the string coercion of any other value
    ([Storage.stored_text]), so a string is stored without quotes and
    comes back as whatever that text parses to: a template [123] comes
    back as a number.  [Storage.reads_back] names the values that come
    back as they were.

    [Button]'s click handler is an [async] function too.  In the turn of
    the click it sets the loading flag and calls [publish]; when
    [publish] returned without awaiting (no key) the handler's own
    [await] resumes before any other event, and the flag is cleared.
    [Publish.Button_onClick] is that turn, [Publish.Button_frames] the
    states the button is rendered in during it.

    ** What the theorems show

    - Sessions ([Session]): in every reachable state the preview shows the
      compilation of the debounced documents or the raw template
      ([preview_shows_compilation]); a pending save holds the current
      documents and is younger than the ceiling ([pending_save_is_fresh]);
      at most one request is in flight ([one_request_in_flight],
      [posts_bounded]); the data object is the parse of the data text
      ([data_always_parsed]); with no save pending the store is current
      ([store_current_when_idle]), and with one pending it holds the
      documents of a state less than 5000 ms old, however long the typing
      goes on ([store_staleness_bounded]).  After 500 ms of quiet the preview is
      current ([quiescence_updates_preview]), after 1000 ms the store is
      ([quiescence_saves]) and a session mounted on it starts where this
      one is, provided no document is falsy or a string holding a JSON
      text ([reload_after_quiescence]).  During a burst of template edits less
      than 500 ms apart the preview keeps the template it had, and after
      the burst it shows the last one ([typing_previews_last]).  The key never influences the store
      ([apiKey_never_stored]) and the store's quota never influences the
      session ([persistence_failures_swallowed]).  What a session saves
      is read back by the library as the values the session holds, unless
      a document is a string holding a JSON text ([reload_keeps_types]);
      a template that is such a text comes back as the value it denotes,
      and the engine refuses it when that is not a string
      ([json_text_reloaded_as_value]).  The handlers are characterised
      branch by branch, errors included ([invalid_data_changes_nothing],
      [valid_data_updates], [click_without_key], [click_with_key_posts],
      [click_while_loading]); what a save cut short by the quota wrote is
      loaded key by key ([partial_save_reloaded]); what is falsy does not
      survive a reload ([falsy_documents_replaced]).
    - Debounced parts ([Tracks], [Saves]): time passing runs a part's
      pending call exactly when it is due ([elapse_debounced]).  The store
      of a session is the replay of the executions of the debounced
      writer, as the scheduler of [Debounce] records them
      ([saves_are_scheduled]); so the writes are at least one second
      apart and none is in the future ([saves_spaced]).  The preview is
      the last template and data its hooks' schedulers delivered and the
      compilation of the two, and each hook delivers at most every half
      second ([preview_is_scheduled]).
    - Hooks ([Hooks]): the program as written refines the handlers
      ([hooks_refine]), so the theorems on sessions are theorems on the
      source's renders and effects; the memoised [publish] is never stale
      ([publish_closure_current]); a render without a change of state
      does nothing ([rerender_changes_nothing]); a pending data object is
      a newer reference than the one shown ([timer_newer]); the data
      editor's two setters give the same state batched or not
      ([batching_irrelevant]).
    - Refinement ([Refine]): a session is a run of the abstract machine
      on its inputs ([session_refines]).  Each edit, click and response
      is the machine's one answer to it, so the documents, the data text
      and the key are what was typed last and the trace is what the
      machine said; where time passes the machine makes moves of its own,
      so the preview only moves to the compilation of the current
      template or data and the store is only written with the current
      documents.  Properties of the abstract machine carry over, for
      instance that no other key of the store is ever touched
      ([session_other_keys]); composed with [Hooks.erase] the refinement
      holds of the components as written ([hooks_run_refines]).
    - The page ([View]): the publish button offers a click exactly when
      no request is in flight ([publish_offered_iff_idle]); every edit
      event is wired to one widget ([edits_wired]); the stylesheet
      reaches the frame at once and the template only after the debounce
      ([css_shown_at_once], [html_shown_later]).  With the engine of [Template]: a template
      typed as the printed form of a syntax tree is in the frame half a
      second later as the evaluation of the tree
      ([typed_template_shown]), and the data adds no markup to what is
      injected into the frame unless the template asks for an unescaped
      substitution ([data_adds_no_markup]).
    - Preview: fail-soft compilation ([recompile_failure_shows_raw],
      [recompile_success_shows_output]), the refusal of a template that
      is not a text ([value_template_refused]), the double compilation on
      mount,
      the trailing edge of the 500 ms debounce, and, with the engine of
      [Template], substitution of one variable ([substitution_renders])
      and one conditional block ([conditional_renders]).
    - The engine ([TemplateLaws]): parsing inverts printing on syntax
      trees in normal form ([parse_print], [compile_print]); a character
      that delimits markup occurs in the output of a template without
      unescaped substitutions at most as often as in the template
      ([compile_adds_no_markup]).
    - Storage: the writer touches only its three keys
      ([save_other_keys]), is not atomic under a quota
      ([save_partial_write]), runs once per burst
      ([save_trailing_edge]) and no later than 5000 ms after the first
      call of a burst ([save_ceiling]).
    - Publish: what each outcome of the request shows ([respond_rejected],
      [respond_success], [respond_malformed_success])
      and that it is exactly one alert ([respond_one_alert]); and, against
      the service of [Service], what the user sees for a key it accepts, a
      key it refuses and no key ([publish_accepted], [publish_refused],
      [publish_without_key]).
    - Debounce: one execution per burst with the last arguments
      ([burst_fires_once]); the ceiling ([maxWait_bound]); no pending call
      is ever overdue ([run_wf]); executions are at least the delay apart
      ([run_spaced]).
    - JSON: printing then parsing is the identity on well-formed values at
      every indentation, the parser returns only well-formed values, and
      the empty text is not JSON.

    The theorems with hypotheses are applied to concrete sessions (the
    lemmas named [_witness]) with the codec of [JsonText], the engine of
    [Template] and two small example documents.

    ** What is not modelled

    The widgets behind the elements (the Ace editor, the split panes, the
    frame and what the browser renders inside it): they are elements of
    the tree with their props; the style sheet [App.css] and the example
    documents, which are parameters ([Examples]); the Handlebars features
    outside substitution and [#if] (helpers, partials, [#each], [#with],
    [#unless], comments, whitespace control, and a precompiled syntax
    tree as input: a template that uses them throws in the executable
    engine; the theorems on sessions are proved for every engine of the
    class and do not depend on it); what React makes of a stylesheet or
    of markup that is not a string (the trees of [View] carry the value);
    fractions and exponents in JSON numbers (numbers are integers [Z], of
    any size: the rounding of integers beyond 2^53 is not modelled) and
    code points above U+007F in [\u] escapes; React's development-mode
    double invocation, concurrent rendering and unmounting; the
    distinction between [+0] and [-0], which [Object.is] makes and
    integers do not have; the remote service beyond which keys it accepts and
    which id it assigns (transport failures are [Rejected] events).  The
    libraries the source calls (handlebars, lodash.debounce, use-debounce,
    axios, the local-storage hooks) are not part of the repository: their
    behaviour is taken from the specification and, where it is silent
    (escaping, the parsing read of the store), from their documented
    behaviour, and enters the model through the interfaces named above. *)

From Stdlib Require Export NArith ZArith Lia Ascii.
From stdpp Require Export base tactics decidable option list strings gmap numbers.

(** ** JavaScript truthiness and the [||] default operator *)

(** [truthy x] is [true] when JavaScript treats [x] as true in a condition. *)
Class Truthy (A : Type) := truthy : A → bool.
Global Hint Mode Truthy ! : typeclass_instances.

(** A string is falsy exactly when it is empty. *)
#[export] Instance string_truthy : Truthy string :=
  λ s, bool_decide (s ≠ "").

(** [null] / [undefined] (modelled by [None]) is falsy. *)
#[export] Instance option_truthy `{Truthy A} : Truthy (option A) :=
  λ o, match o with Some x => truthy x | None => false end.

(** [a || d]: [a] when it is truthy, [d] otherwise. *)
Definition js_or `{Truthy A} (a : option A) (d : A) : A :=
  match a with
  | Some x => if truthy x then x else d
  | None => d
  end.

Declare Scope js_scope.
Delimit Scope js_scope with js.
Infix "|||" := js_or (at level 50, left associativity) : js_scope.

(** ** Strings *)

(** [acc] with the character [c] appended. *)
Definition snoc (acc : string) (c : ascii) : string := acc +:+ String c "".

(** ** Runs of a transition function *)

(** [run step s evs] feeds the events to [step], left to right. *)
Definition run {S E} (step : S → E → S) (s : S) (evs : list E) : S :=
  foldl step s evs.

(** The states a run from [s0] can reach. *)
Definition reachable {S E} (step : S → E → S) (s0 s : S) : Prop :=
  ∃ evs, s = run step s0 evs.

Create HintDb editor discriminated.
Create Rewrite HintDb editor.

(** ** Tactics *)

(** Invert a hypothesis and clean up. *)
Ltac invert H := inversion H; subst; clear H.

(** Case analysis on every [bool_decide], [decide] and [match] in sight. *)
Ltac split_cases :=
  repeat (case_bool_decide || case_decide || case_match);
  simplify_eq /=; try done.

(** ** Lemmas *)

Section truthy.
Context `{Truthy A}.

Lemma string_truthy_empty : truthy "" = false.
Proof. done. Qed.

Lemma string_truthy_iff (s : string) : truthy s = true ↔ s ≠ "".
Proof. unfold truthy, string_truthy. by rewrite bool_decide_eq_true. Qed.

Lemma js_or_None (d : A) : js_or None d = d.
Proof. done. Qed.

Lemma js_or_truthy (x d : A) : truthy x = true → js_or (Some x) d = x.
Proof. intros Hx. unfold js_or. by rewrite Hx. Qed.

Lemma js_or_falsy (x d : A) : truthy x = false → js_or (Some x) d = d.
Proof. intros Hx. unfold js_or. by rewrite Hx. Qed.

(** The result of [a || d] is [d] or the truthy content of [a]. *)
Lemma js_or_cases (a : option A) (d : A) :
  js_or a d = d ∨ (a = Some (js_or a d) ∧ truthy (js_or a d) = true).
Proof.
  destruct a as [x|]; [|by left]. unfold js_or.
  destruct (truthy x) eqn:Hx; [right|left]; by rewrite ?Hx.
Qed.
End truthy.

Section strings.
Implicit Types (s : string) (c : ascii).

Lemma string_app_nil_l s : "" +:+ s = s.
Proof. done. Qed.

Lemma string_app_cons c s1 s2 : String c s1 +:+ s2 = String c (s1 +:+ s2).
Proof. done. Qed.

Lemma string_app_nil_r s : s +:+ "" = s.
Proof. induction s as [|c s IH]; [done|]. by rewrite string_app_cons, IH. Qed.

Lemma string_app_assoc s1 s2 s3 : (s1 +:+ s2) +:+ s3 = s1 +:+ (s2 +:+ s3).
Proof.
  induction s1 as [|c s1 IH]; [done|]. by rewrite !string_app_cons, IH.
Qed.

Lemma string_app_length s1 s2 :
  String.length (s1 +:+ s2) = String.length s1 + String.length s2.
Proof.
  induction s1 as [|c s1 IH]; [done|]. rewrite string_app_cons. simpl. lia.
Qed.

Lemma string_app_eq_nil s1 s2 : s1 +:+ s2 = "" → s1 = "" ∧ s2 = "".
Proof. by destruct s1. Qed.

Lemma snoc_app acc c s : snoc acc c +:+ s = acc +:+ String c s.
Proof. unfold snoc. by rewrite string_app_assoc. Qed.

Lemma snoc_ne_nil acc c : snoc acc c ≠ "".
Proof. unfold snoc. by intros [_ ?]%string_app_eq_nil. Qed.
End strings.

(** Modus ponens under [Forall]. *)
Lemma Forall_mp {A} (P Q : A → Prop) (l : list A) :
  Forall (λ x, P x → Q x) l → Forall P l → Forall Q l.
Proof.
  induction 1 as [|x l Hx _ IH]; [done|].
  intros [??]%list.Forall_cons. constructor; auto.
Qed.

(** The last element of a non-empty list does not depend on the default. *)
Lemma last_cons_default {A} (a d : A) (l : list A) :
  List.last (a :: l) d = List.last l a.
Proof.
  revert a d. induction l as [|b l IH]; intros a d; [done|].
  change (List.last (a :: b :: l) d) with (List.last (b :: l) d).
  by rewrite !IH.
Qed.

Section run.
Context {S E : Type} (step : S → E → S).

Lemma run_nil s : run step s [] = s.
Proof. done. Qed.

Lemma run_cons s e evs : run step s (e :: evs) = run step (step s e) evs.
Proof. done. Qed.

Lemma run_app s evs1 evs2 :
  run step s (evs1 ++ evs2) = run step (run step s evs1) evs2.
Proof. apply foldl_app. Qed.

Lemma run_snoc s evs e : run step s (evs ++ [e]) = step (run step s evs) e.
Proof. by rewrite run_app. Qed.

(** A property that holds initially and is preserved by every step holds
    after every run. *)
Lemma run_invariant (P : S → Prop) s evs :
  P s → (∀ s e, P s → P (step s e)) → P (run step s evs).
Proof.
  intros Hs Hstep. revert s Hs.
  induction evs as [|e evs IH]; intros s Hs; [done|].
  rewrite run_cons. by apply IH, Hstep.
Qed.

Lemma reachable_refl s : reachable step s s.
Proof. by exists []. Qed.

Lemma reachable_step s0 s e : reachable step s0 s → reachable step s0 (step s e).
Proof. intros [evs ->]. exists (evs ++ [e]). by rewrite run_snoc. Qed.

Lemma reachable_invariant (P : S → Prop) s0 s :
  P s0 → (∀ s e, P s → P (step s e)) → reachable step s0 s → P s.
Proof. intros H0 Hstep [evs ->]. by apply run_invariant. Qed.

(** A relation between two runs on the same events. *)
Lemma run_related (R : S → S → Prop) s1 s2 evs :
  R s1 s2 → (∀ s1 s2 e, R s1 s2 → R (step s1 e) (step s2 e)) →
  R (run step s1 evs) (run step s2 evs).
Proof.
  intros Hs Hstep. revert s1 s2 Hs.
  induction evs as [|e evs IH]; intros s1 s2 Hs; [done|].
  rewrite !run_cons. by apply IH, Hstep.
Qed.
End run.

#[export] Hint Rewrite @run_nil @run_cons @run_snoc : editor.
#[export] Hint Rewrite string_app_nil_l string_app_nil_r string_app_cons snoc_app : editor.
#[export] Hint Resolve reachable_refl reachable_step : editor.
