(* ===== verification/Json.v ===== *)
(** * Json: the data payload

    The value the data editor holds ([params] in [App]) is whatever
    [JSON.parse] returned: [json] below.  This file defines the type, its
    JavaScript truthiness (for [storedParams || {...}]), property access
    ([data.template], template paths), the string coercion of template
    literals, and the interface [JsonCodec] through which the program uses
    [JSON.parse] and [JSON.stringify].  Numbers are integers. *)

From Stdlib Require Import DecimalString.
From S2P Require Import Prelude.

(** ** Values *)

#[local] Set Warnings "-register-all".

(** A JSON value.  An object keeps its fields in insertion order, as a
    JavaScript object does. *)
Inductive json :=
  | JNull
  | JBool (b : bool)
  | JNum (n : Z)
  | JStr (s : string)
  | JArr (xs : list json)
  | JObj (fields : list (string * json)).

(** Induction with hypotheses for the elements of arrays and objects. *)
Section json_ind.
Context (P : json → Prop).
Context (Hnull : P JNull) (Hbool : ∀ b, P (JBool b)).
Context (Hnum : ∀ n, P (JNum n)) (Hstr : ∀ s, P (JStr s)).
Context (Harr : ∀ xs, Forall P xs → P (JArr xs)).
Context (Hobj : ∀ fs, Forall (λ kv, P kv.2) fs → P (JObj fs)).

Definition json_ind' : ∀ v, P v :=
  fix go v :=
    match v with
    | JNull => Hnull
    | JBool b => Hbool b
    | JNum n => Hnum n
    | JStr s => Hstr s
    | JArr xs =>
        Harr xs ((fix gos xs : Forall P xs :=
          match xs with
          | [] => Forall_nil_2 P
          | x :: xs => Forall_cons_2 P x xs (go x) (gos xs)
          end) xs)
    | JObj fs =>
        Hobj fs ((fix gos fs : Forall (λ kv, P kv.2) fs :=
          match fs with
          | [] => Forall_nil_2 _
          | kv :: fs => Forall_cons_2 (λ kv, P kv.2) kv fs (go kv.2) (gos fs)
          end) fs)
    end.
End json_ind.

(** Structural equality test. *)
Fixpoint json_eqb (v w : json) : bool :=
  match v, w with
  | JNull, JNull => true
  | JBool a, JBool b => bool_decide (a = b)
  | JNum a, JNum b => bool_decide (a = b)
  | JStr a, JStr b => bool_decide (a = b)
  | JArr xs, JArr ys =>
      (fix go xs ys :=
         match xs, ys with
         | [], [] => true
         | x :: xs, y :: ys => json_eqb x y && go xs ys
         | _, _ => false
         end) xs ys
  | JObj fs, JObj gs =>
      (fix go fs gs :=
         match fs, gs with
         | [], [] => true
         | (k, x) :: fs, (l, y) :: gs =>
             bool_decide (k = l) && json_eqb x y && go fs gs
         | _, _ => false
         end) fs gs
  | _, _ => false
  end.

(** ** JavaScript views of a value *)

(** Truthiness: [null], [false], [0] and the empty string are falsy. *)
#[export] Instance json_truthy : Truthy json := λ v,
  match v with
  | JNull => false
  | JBool b => b
  | JNum n => bool_decide (n ≠ 0%Z)
  | JStr s => truthy s
  | JArr _ | JObj _ => true
  end.

(** First binding of a key in a field list. *)
Fixpoint assoc (k : string) (fs : list (string * json)) : option json :=
  match fs with
  | [] => None
  | (k', v) :: fs => if decide (k = k') then Some v else assoc k fs
  end.

(** [v.k] for a value that is not [null]: [None] is [undefined]. *)
Definition get_field (k : string) (v : json) : option json :=
  match v with
  | JObj fs => assoc k fs
  | _ => None
  end.

(** [v.k1.k2...]: stops with [undefined] as soon as a field is missing. *)
Fixpoint get_path (p : list string) (v : json) : option json :=
  match p with
  | [] => Some v
  | k :: p => get_field k v ≫= get_path p
  end.

(** Decimal digits of a number, as JavaScript prints an integer. *)
Definition print_N (n : N) : string := NilEmpty.string_of_uint (N.to_uint n).
Definition print_Z (z : Z) : string :=
  if bool_decide (z < 0)%Z then "-" +:+ print_N (Z.abs_N z) else print_N (Z.abs_N z).

(** [String(v)], the coercion a template literal applies.  Inside an
    array, [null] prints as the empty string. *)
Fixpoint js_to_string (v : json) : string :=
  match v with
  | JNull => "null"
  | JBool true => "true"
  | JBool false => "false"
  | JNum n => print_Z n
  | JStr s => s
  | JArr xs =>
      let elem x := match x with JNull => "" | _ => js_to_string x end in
      (fix go xs :=
         match xs with
         | [] => ""
         | [x] => elem x
         | x :: xs => elem x +:+ "," +:+ go xs
         end) xs
  | JObj _ => "[object Object]"
  end.

(** [String(x)] where [x] may be [undefined]. *)
Definition js_string_of (x : option json) : string :=
  match x with
  | Some v => js_to_string v
  | None => "undefined"
  end.

(** [typeof v]: [null], arrays and objects are all ["object"]. *)
Inductive js_type := TString | TNumber | TBoolean | TObject.

#[export] Instance js_type_eq_dec : EqDecision js_type.
Proof. solve_decision. Defined.

Definition typeof (v : json) : js_type :=
  match v with
  | JStr _ => TString
  | JNum _ => TNumber
  | JBool _ => TBoolean
  | JNull | JArr _ | JObj _ => TObject
  end.

(** Arrays and objects are references; every other value is a primitive. *)
Definition is_object (v : json) : bool :=
  match v with
  | JArr _ | JObj _ => true
  | _ => false
  end.

(** [Object.is(a, b)] for two values that are not one and the same
    reference: [a] is a primitive and [b] is the same primitive.  This is
    how React decides whether a state setter or an effect's dependency
    changed. *)
Definition same_primitive (a b : json) : bool :=
  negb (is_object a) && json_eqb a b.

(** ** Well-formed values *)

(** No object has two fields with the same key: what [JSON.parse] returns. *)
Fixpoint json_wf (v : json) : bool :=
  match v with
  | JArr xs => forallb json_wf xs
  | JObj fs =>
      bool_decide (NoDup fs.*1) &&
      (fix go fs := match fs with
                    | [] => true
                    | kv :: fs => json_wf kv.2 && go fs
                    end) fs
  | _ => true
  end.

(** ** The codec interface *)

(** [JSON.parse] and [JSON.stringify] as the program calls them.
    [parse s] is [None] when [JSON.parse(s)] throws; [stringify n v] is
    [JSON.stringify(v, null, n)], and [stringify 0 v] is [JSON.stringify(v)]. *)
Class JsonCodec := {
  parse : string → option json;
  stringify : nat → json → string
}.

(** What the program relies on: printing then parsing gives the value back,
    parsing only returns well-formed values, the empty text is not JSON
    ([JSON.parse('')] throws), and a number or a boolean prints as its
    string coercion ([JSON.stringify(5)] is [String(5)]). *)
Class JsonCodecLaws `{JsonCodec} : Prop := {
  parse_stringify : ∀ n v, json_wf v = true → parse (stringify n v) = Some v;
  parse_wf : ∀ s v, parse s = Some v → json_wf v = true;
  parse_empty : parse "" = None;
  stringify_atom : ∀ n v,
    typeof v = TNumber ∨ typeof v = TBoolean → stringify n v = js_to_string v
}.

(** ** Lemmas *)

Lemma json_eqb_eq (v w : json) : json_eqb v w = true ↔ v = w.
Proof.
  revert w. induction v as [| | | |xs IH|fs IH] using json_ind';
    intros [| | | |ys|gs]; simpl;
    rewrite ?bool_decide_eq_true; try (split; congruence).
  - revert ys. induction IH as [|x xs Hx _ IHxs]; intros [|y ys];
      try (split; congruence).
    rewrite andb_true_iff, Hx. specialize (IHxs ys).
    split; [intros [-> ?]; f_equal; naive_solver|intros [= -> ->]].
    split; [done|]. by apply IHxs.
  - revert gs. induction IH as [|[k x] fs Hx _ IHfs]; intros [|[l y] gs];
      try (split; congruence).
    rewrite !andb_true_iff, bool_decide_eq_true. simpl in Hx. rewrite Hx.
    specialize (IHfs gs).
    split; [intros [[-> ->] ?]; f_equal; naive_solver|intros [= -> -> ->]].
    split; [done|]. by apply IHfs.
Qed.

#[export] Instance json_eq_dec : EqDecision json.
Proof.
  intros v w. destruct (json_eqb v w) eqn:E.
  - left. by apply json_eqb_eq.
  - right. intros ?%json_eqb_eq. congruence.
Defined.

Lemma assoc_Some_elem k fs v : assoc k fs = Some v → (k, v) ∈ fs.
Proof.
  induction fs as [|[k' v'] fs IH]; simpl; [done|].
  case_decide; [intros [= ->]; subst; left|intros ?; right; auto].
Qed.

Lemma assoc_None k fs : assoc k fs = None ↔ k ∉ fs.*1.
Proof.
  induction fs as [|[k' v'] fs IH]; simpl; [by split; [intros _ ?%elem_of_nil|]|].
  rewrite not_elem_of_cons. case_decide; naive_solver.
Qed.

Lemma get_field_non_object k v :
  (∀ fs, v ≠ JObj fs) → get_field k v = None.
Proof. destruct v; naive_solver. Qed.

Lemma get_path_nil v : get_path [] v = Some v.
Proof. done. Qed.

Lemma get_path_app p q v : get_path (p ++ q) v = get_path p v ≫= get_path q.
Proof.
  revert v. induction p as [|k p IH]; intros v; simpl; [done|].
  destruct (get_field k v) as [w|]; simpl; [apply IH|done].
Qed.

Lemma json_truthy_obj fs : truthy (JObj fs) = true.
Proof. done. Qed.

Lemma json_eqb_decide a b : json_eqb a b = bool_decide (a = b).
Proof.
  case_bool_decide as E; [by apply json_eqb_eq|].
  apply not_true_is_false. by rewrite json_eqb_eq.
Qed.

Lemma same_primitive_eq a b : same_primitive a b = true → a = b.
Proof. by intros [_ ?%json_eqb_eq]%andb_true_iff. Qed.

Lemma same_primitive_object a b : is_object a = true → same_primitive a b = false.
Proof. unfold same_primitive. by intros ->. Qed.

Lemma same_primitive_refl a : same_primitive a a = negb (is_object a).
Proof.
  unfold same_primitive. rewrite (proj2 (json_eqb_eq a a) eq_refl). apply andb_true_r.
Qed.

#[export] Hint Rewrite get_path_nil json_truthy_obj : editor.
