(* ===== verification/Effects.v ===== *)
(** * Effects: what the program does to the outside world

    The observable effects of the program ([effect]: console output,
    alerts, HTTP requests), the requests and errors they carry, and the
    writer monad [Eff] with its notation, in which handlers return their
    result together with the effects they emit. *)

From S2P Require Import Prelude Json.

(** ** Observable effects *)

(** A request as [axios.post(url, data, {headers})] sends it; the payload
    [{ body, styles }] is kept as the two values the program puts in it. *)
Record request := Request {
  req_url : string;
  req_body : json;
  req_styles : json;
  req_headers : list (string * string)
}.

(** An error as [catch (e)] receives it and [console.log(e)] shows it: its
    message and, when axios raised it, the configuration of the request it
    belongs to. *)
Record error := Error {
  err_message : string;
  err_config : option request
}.

(** What the program does to the outside world, in the order it does it. *)
Inductive effect :=
  | ConsoleWarn (msg : string)
  | ConsoleLog (e : error)
  | Alert (msg : string)
  | HttpPost (r : request).

#[export] Instance request_eq_dec : EqDecision request.
Proof. solve_decision. Defined.
#[export] Instance error_eq_dec : EqDecision error.
Proof. solve_decision. Defined.
#[export] Instance effect_eq_dec : EqDecision effect.
Proof. solve_decision. Defined.

Definition is_post (e : effect) : bool :=
  match e with HttpPost _ => true | _ => false end.
Definition is_alert (e : effect) : bool :=
  match e with Alert _ => true | _ => false end.
Definition is_warn (e : effect) : bool :=
  match e with ConsoleWarn _ => true | _ => false end.

(** Number of effects of a kind in a trace. *)
Definition count (p : effect → bool) (es : list effect) : nat :=
  length (filter (λ e, p e = true) es).

(** ** The writer monad of handlers *)

(** A handler returns its result and the effects it emitted. *)
Definition Eff (A : Type) : Type := A * list effect.

Definition eff_ret {A} (a : A) : Eff A := (a, []).
Definition eff_bind {A B} (m : Eff A) (k : A → Eff B) : Eff B :=
  let (b, es) := k m.1 in (b, m.2 ++ es).
Definition emit (e : effect) : Eff unit := (tt, [e]).

Declare Scope eff_scope.
Delimit Scope eff_scope with eff.
Notation "'let*' x ':=' m 'in' k" := (eff_bind m (λ x, k))
  (at level 10, x name, m at level 100, k at level 200,
   format "'[v' 'let*'  x  ':='  m  'in' '/' k ']'") : eff_scope.
Notation "m ';;' k" := (eff_bind m (λ _, k))
  (at level 100, k at level 200, right associativity) : eff_scope.

(** [when b m]: run [m] if [b] holds. *)
Definition when (b : bool) (m : Eff unit) : Eff unit :=
  if b then m else eff_ret tt.

(** Unfold the writer monad's operations. *)
Ltac eff_simpl :=
  repeat (cbn [eff_bind eff_ret emit when fst snd] in * ||
          rewrite ?app_nil_r, ?app_nil_l in * ).

(** ** Lemmas *)

Section eff.
Context {A B C : Type}.

Lemma eff_bind_ret_l (a : A) (k : A → Eff B) : eff_bind (eff_ret a) k = k a.
Proof. unfold eff_bind, eff_ret. simpl. by destruct (k a). Qed.

Lemma eff_bind_ret_r (m : Eff A) : eff_bind m eff_ret = m.
Proof. destruct m. unfold eff_bind, eff_ret. simpl. by rewrite app_nil_r. Qed.

Lemma eff_bind_assoc (m : Eff A) (k : A → Eff B) (h : B → Eff C) :
  eff_bind (eff_bind m k) h = eff_bind m (λ a, eff_bind (k a) h).
Proof.
  destruct m as [a es]. unfold eff_bind. simpl.
  destruct (k a) as [b es1]. simpl. destruct (h b) as [c es2].
  by rewrite app_assoc.
Qed.

Lemma eff_bind_fst (m : Eff A) (k : A → Eff B) :
  (eff_bind m k).1 = (k m.1).1.
Proof. unfold eff_bind. by destruct (k m.1). Qed.

Lemma eff_bind_snd (m : Eff A) (k : A → Eff B) :
  (eff_bind m k).2 = m.2 ++ (k m.1).2.
Proof. unfold eff_bind. by destruct (k m.1). Qed.
End eff.

Section count.
Implicit Types (p : effect → bool) (es : list effect).

Lemma count_nil p : count p [] = 0.
Proof. done. Qed.

Lemma count_app p es1 es2 : count p (es1 ++ es2) = count p es1 + count p es2.
Proof. unfold count. by rewrite list.filter_app, length_app. Qed.

Lemma count_cons p e es :
  count p (e :: es) = (if p e then 1 else 0) + count p es.
Proof.
  unfold count. rewrite filter_cons.
  destruct (p e); [by rewrite decide_True|by rewrite decide_False].
Qed.

Lemma count_zero_iff p es : count p es = 0 ↔ ∀ e, e ∈ es → p e = false.
Proof.
  induction es as [|e es IH]; [by split; [intros _ ? ?%elem_of_nil|]|].
  rewrite count_cons. split.
  - intros Hc e' [->|Hin]%elem_of_cons; destruct (p e) eqn:?; try done.
    apply IH; [lia|done].
  - intros Hall. rewrite (Hall e) by left. apply IH.
    intros e' ?. apply Hall. by right.
Qed.
End count.

#[export] Hint Rewrite @eff_bind_ret_l @eff_bind_ret_r @eff_bind_fst @eff_bind_snd : editor.
#[export] Hint Rewrite count_nil count_app count_cons : editor.
