(* ===== verification/JsonText.v ===== *)
(** * JsonText: an executable JSON codec

    An instance of the interface [JsonCodec]: a lexer and a shift-reduce
    parser, both by structural recursion on their input (no fuel), and a
    printer with the indentation of [JSON.stringify(v, null, n)].

    Bounds of the model: numbers are integers (a fraction or an exponent
    does not parse); a [\u] escape is accepted below U+0080 only; strings
    are byte strings. *)

From Stdlib Require Import DecimalString.
From S2P Require Import Prelude Json.

(** ** Characters *)

Definition dquote : ascii := "034".
Definition backslash : ascii := "\".

Definition code (c : ascii) : N := Ascii.N_of_ascii c.

Definition is_ws (c : ascii) : bool :=
  bool_decide (code c ∈ [32; 9; 10; 13]%N).
Definition is_digit (c : ascii) : bool :=
  ((48 <=? code c) && (code c <=? 57))%N.
Definition is_lower (c : ascii) : bool :=
  ((97 <=? code c) && (code c <=? 122))%N.
Definition is_control (c : ascii) : bool := (code c <? 32)%N.

Definition hex_digit (c : ascii) : option N :=
  let n := code c in
  if ((48 <=? n) && (n <=? 57))%N then Some (n - 48)%N
  else if ((97 <=? n) && (n <=? 102))%N then Some (n - 87)%N
  else if ((65 <=? n) && (n <=? 70))%N then Some (n - 55)%N
  else None.

(** The character a one-letter escape stands for. *)
Definition unescape (c : ascii) : option ascii :=
  if decide (c = dquote) then Some dquote
  else if decide (c = backslash) then Some backslash
  else if decide (c = "/"%char) then Some "/"%char
  else if decide (c = "b"%char) then Some "008"%char
  else if decide (c = "f"%char) then Some "012"%char
  else if decide (c = "n"%char) then Some "010"%char
  else if decide (c = "r"%char) then Some "013"%char
  else if decide (c = "t"%char) then Some "009"%char
  else None.

(** ** Lexer *)

Inductive jtoken :=
  | KLBrace | KRBrace | KLBrack | KRBrack | KComma | KColon
  | KStr (s : string)
  | KNum (z : Z)
  | KLit (v : json).

(** Where the lexer is: between tokens, inside a string (after a backslash,
    inside a [\u] escape), inside a number, inside a word. *)
Inductive mode :=
  | MIdle
  | MStr (acc : string)
  | MEsc (acc : string)
  | MUni (acc : string) (hex : list N)
  | MNum (neg : bool) (ds : string)
  | MWord (w : string).

(** The number a run of digits denotes: no leading zero, at least one digit. *)
Definition number (neg : bool) (ds : string) : option jtoken :=
  match ds with
  | "" => None
  | String "0" (String _ _) => None
  | _ =>
      u ← NilEmpty.uint_of_string ds;
      let n := Z.of_N (N.of_uint u) in
      Some (KNum (if neg then - n else n)%Z)
  end.

Definition word (w : string) : option jtoken :=
  if decide (w = "null") then Some (KLit JNull)
  else if decide (w = "true") then Some (KLit (JBool true))
  else if decide (w = "false") then Some (KLit (JBool false))
  else None.

(** A character read between tokens: the tokens it completes and the mode
    it opens. *)
Definition idle_step (c : ascii) : option (list jtoken * mode) :=
  if is_ws c then Some ([], MIdle)
  else if decide (c = "{"%char) then Some ([KLBrace], MIdle)
  else if decide (c = "}"%char) then Some ([KRBrace], MIdle)
  else if decide (c = "["%char) then Some ([KLBrack], MIdle)
  else if decide (c = "]"%char) then Some ([KRBrack], MIdle)
  else if decide (c = ","%char) then Some ([KComma], MIdle)
  else if decide (c = ":"%char) then Some ([KColon], MIdle)
  else if decide (c = dquote) then Some ([], MStr "")
  else if decide (c = "-"%char) then Some ([], MNum true "")
  else if is_digit c then Some ([], MNum false (String c ""))
  else if is_lower c then Some ([], MWord (String c ""))
  else None.

(** The end of the input. *)
Definition flush (m : mode) : option (list jtoken) :=
  match m with
  | MIdle => Some []
  | MNum neg ds => t ← number neg ds; Some [t]
  | MWord w => t ← word w; Some [t]
  | MStr _ | MEsc _ | MUni _ _ => None
  end.

(** The character with the code of four hex digits, below U+0080. *)
Definition code_point (hex : list N) : option ascii :=
  let n := foldl (λ acc d, 16 * acc + d)%N 0%N hex in
  if (n <? 128)%N then Some (Ascii.ascii_of_N n) else None.

Fixpoint jlex (m : mode) (s : string) : option (list jtoken) :=
  match s with
  | "" => flush m
  | String c s =>
      match m with
      | MIdle => '(ts, m') ← idle_step c; (ts ++.) <$> jlex m' s
      | MStr acc =>
          if decide (c = dquote) then (KStr acc ::.) <$> jlex MIdle s
          else if decide (c = backslash) then jlex (MEsc acc) s
          else if is_control c then None
          else jlex (MStr (snoc acc c)) s
      | MEsc acc =>
          match unescape c with
          | Some c' => jlex (MStr (snoc acc c')) s
          | None => if decide (c = "u"%char) then jlex (MUni acc []) s else None
          end
      | MUni acc hex =>
          d ← hex_digit c;
          if decide (length hex = 3)
          then c' ← code_point (hex ++ [d]); jlex (MStr (snoc acc c')) s
          else jlex (MUni acc (hex ++ [d])) s
      | MNum neg ds =>
          if is_digit c then jlex (MNum neg (snoc ds c)) s
          else t ← number neg ds;
               '(ts, m') ← idle_step c;
               (λ r, t :: ts ++ r) <$> jlex m' s
      | MWord w =>
          if is_lower c then jlex (MWord (snoc w c)) s
          else t ← word w;
               '(ts, m') ← idle_step c;
               (λ r, t :: ts ++ r) <$> jlex m' s
      end
  end.

(** ** Parser *)

(** A container being read: an array with its elements so far, or an object
    with its fields so far and the key whose value is being read (latest
    first). *)
Inductive jframe :=
  | FArr (items : list json)
  | FObj (fields : list (string * json)) (key : string).

(** What the parser expects next. *)
Inductive pstate :=
  | SValue (stk : list jframe)
  | SArrFirst (stk : list jframe)
  | SAfterArr (items : list json) (stk : list jframe)
  | SObjFirst (stk : list jframe)
  | SKey (fields : list (string * json)) (stk : list jframe)
  | SColon (fields : list (string * json)) (key : string) (stk : list jframe)
  | SAfterObj (fields : list (string * json)) (stk : list jframe)
  | SDone (v : json).

(** A finished value goes to the container on top of the stack. *)
Definition deliver (v : json) (stk : list jframe) : pstate :=
  match stk with
  | [] => SDone v
  | FArr items :: stk => SAfterArr (v :: items) stk
  | FObj fields key :: stk => SAfterObj ((key, v) :: fields) stk
  end.

(** [obj[k] = v]: a key already present keeps its place and takes the new
    value. *)
Fixpoint set_field (k : string) (v : json) (fs : list (string * json))
    : list (string * json) :=
  match fs with
  | [] => [(k, v)]
  | (k', v') :: fs =>
      if decide (k = k') then (k, v) :: fs else (k', v') :: set_field k v fs
  end.

(** The object with the fields read, latest first. *)
Definition object_of (fields : list (string * json)) : json :=
  JObj (foldr (λ kv acc, set_field kv.1 kv.2 acc) [] fields).

(** A value must start with this token. *)
Definition start_value (t : jtoken) (stk : list jframe) : option pstate :=
  match t with
  | KStr s => Some (deliver (JStr s) stk)
  | KNum z => Some (deliver (JNum z) stk)
  | KLit v => Some (deliver v stk)
  | KLBrack => Some (SArrFirst stk)
  | KLBrace => Some (SObjFirst stk)
  | _ => None
  end.

Definition pstep (st : pstate) (t : jtoken) : option pstate :=
  match st, t with
  | SValue stk, _ => start_value t stk
  | SArrFirst stk, KRBrack => Some (deliver (JArr []) stk)
  | SArrFirst stk, _ => start_value t (FArr [] :: stk)
  | SAfterArr items stk, KComma => Some (SValue (FArr items :: stk))
  | SAfterArr items stk, KRBrack => Some (deliver (JArr (rev items)) stk)
  | SObjFirst stk, KRBrace => Some (deliver (JObj []) stk)
  | SObjFirst stk, KStr k => Some (SColon [] k stk)
  | SKey fields stk, KStr k => Some (SColon fields k stk)
  | SColon fields k stk, KColon => Some (SValue (FObj fields k :: stk))
  | SAfterObj fields stk, KComma => Some (SKey fields stk)
  | SAfterObj fields stk, KRBrace => Some (deliver (object_of fields) stk)
  | _, _ => None
  end.

Fixpoint jparse (st : pstate) (ts : list jtoken) : option json :=
  match ts with
  | [] => match st with SDone v => Some v | _ => None end
  | t :: ts => st' ← pstep st t; jparse st' ts
  end.

(** [JSON.parse]. *)
Definition json_parse (s : string) : option json :=
  ts ← jlex MIdle s; jparse (SValue []) ts.

(** ** Printer *)

Definition hex_char (n : N) : ascii :=
  Ascii.ascii_of_N (if (n <? 10)%N then n + 48 else n + 87)%N.

(** How a character is written inside a string literal. *)
Definition escape (c : ascii) : string :=
  if decide (c = dquote) then String backslash (String dquote "")
  else if decide (c = backslash) then String backslash (String backslash "")
  else if decide (c = "008"%char) then "\b"
  else if decide (c = "012"%char) then "\f"
  else if decide (c = "010"%char) then "\n"
  else if decide (c = "013"%char) then "\r"
  else if decide (c = "009"%char) then "\t"
  else if is_control c
  then "\u00" +:+ String (hex_char (code c / 16)) (String (hex_char (code c mod 16)) "")
  else String c "".

Fixpoint escape_all (s : string) : string :=
  match s with
  | "" => ""
  | String c s => escape c +:+ escape_all s
  end.

Definition quote (s : string) : string :=
  String dquote (escape_all s) +:+ String dquote "".

Fixpoint spaces (n : nat) : string :=
  match n with 0 => "" | S n => String " " (spaces n) end.

(** A line break and the indentation of [level], or nothing when compact. *)
Definition newline (gap level : nat) : string :=
  match gap with
  | 0 => ""
  | _ => String "010" (spaces (gap * level))
  end.

(** [items] separated by commas, each on its own line when indenting. *)
Fixpoint join (gap level : nat) (items : list string) : string :=
  match items with
  | [] => ""
  | [x] => x
  | x :: items => x +:+ "," +:+ newline gap level +:+ join gap level items
  end.

Definition block (opening closing : string) (gap level : nat)
    (items : list string) : string :=
  match items with
  | [] => opening +:+ closing
  | _ => opening +:+ newline gap (S level) +:+ join gap (S level) items
           +:+ newline gap level +:+ closing
  end.

Fixpoint print (gap level : nat) (v : json) : string :=
  match v with
  | JNull => "null"
  | JBool true => "true"
  | JBool false => "false"
  | JNum z => print_Z z
  | JStr s => quote s
  | JArr xs => block "[" "]" gap level (map (print gap (S level)) xs)
  | JObj fs =>
      block "{" "}" gap level
        (map (λ kv, quote kv.1 +:+ ":" +:+ (if gap is 0 then "" else " ")
                      +:+ print gap (S level) kv.2) fs)
  end.

(** [JSON.stringify(v, null, n)]: the indentation is at most ten spaces. *)
Definition json_stringify (n : nat) (v : json) : string :=
  print (Nat.min n 10) 0 v.

#[export] Instance json_text : JsonCodec := {|
  parse := json_parse;
  stringify := json_stringify
|}.
