(* ===== verification/JsonLaws.v ===== *)
(** * JsonLaws: the codec of [JsonText] satisfies the laws of [JsonCodec]

    The round trip [parse (stringify n v) = Some v] for every well-formed
    value and every indentation, in two halves that meet at the token
    stream [tokens v]: the lexer reads the printed text back into the
    tokens of the value ([jlex_print]), and the parser builds the value
    from its tokens ([jparse_tokens]).  The other law, that the parser
    only returns well-formed values, is an invariant of the parser's
    states ([pstate_ok]). *)

From Stdlib Require Import DecimalString DecimalFacts DecimalN.
From S2P Require Import Prelude Json JsonText.

(** ** The tokens of a value *)

(** Groups of tokens separated by commas. *)
Fixpoint commas (groups : list (list jtoken)) : list jtoken :=
  match groups with
  | [] => []
  | [g] => g
  | g :: groups => g ++ KComma :: commas groups
  end.

Fixpoint tokens (v : json) : list jtoken :=
  match v with
  | JNull => [KLit JNull]
  | JBool b => [KLit (JBool b)]
  | JNum z => [KNum z]
  | JStr s => [KStr s]
  | JArr xs => KLBrack :: commas (map tokens xs) ++ [KRBrack]
  | JObj fs =>
      KLBrace :: commas (map (λ kv, KStr kv.1 :: KColon :: tokens kv.2) fs)
        ++ [KRBrace]
  end.

(** What may follow a number or a word: the end of the text, or a
    character that is neither a digit nor a letter. *)
Definition boundary (rest : string) : Prop :=
  match rest with
  | "" => True
  | String c _ => is_digit c = false ∧ is_lower c = false
  end.

(** ** The lexer on printed text *)

Section lexer.
Implicit Types (s rest acc ds : string) (c : ascii) (ts : list jtoken).

Lemma boundary_newline gap level rest :
  boundary rest → boundary (newline gap level +:+ rest).
Proof. by destruct gap. Qed.

(** One character between tokens. *)
Lemma jlex_idle c s ts m :
  idle_step c = Some (ts, m) → jlex MIdle (String c s) = (ts ++.) <$> jlex m s.
Proof. intros Hc. simpl. by rewrite Hc. Qed.

Lemma jlex_ws c s : is_ws c = true → jlex MIdle (String c s) = jlex MIdle s.
Proof.
  intros Hc. rewrite (jlex_idle c s [] MIdle) by (unfold idle_step; by rewrite Hc).
  by destruct (jlex _ _).
Qed.

Lemma jlex_spaces n rest : jlex MIdle (spaces n +:+ rest) = jlex MIdle rest.
Proof.
  induction n as [|n IH]; [done|]. cbn [spaces]. by rewrite string_app_cons, jlex_ws.
Qed.

(** White space between tokens is skipped. *)
Lemma jlex_newline gap level rest :
  jlex MIdle (newline gap level +:+ rest) = jlex MIdle rest.
Proof.
  destruct gap; [done|]. cbn [newline].
  by rewrite string_app_cons, jlex_ws, jlex_spaces.
Qed.

(** A punctuation character is a token. *)
Lemma jlex_punct c t s ts :
  idle_step c = Some ([t], MIdle) → jlex MIdle s = Some ts →
  jlex MIdle (String c s) = Some (t :: ts).
Proof. intros Hc Hs. by rewrite (jlex_idle c s [t] MIdle), Hs. Qed.

(** A number or a word ends at a boundary. *)
Lemma jlex_num_end neg ds rest t ts :
  boundary rest → number neg ds = Some t → jlex MIdle rest = Some ts →
  jlex (MNum neg ds) rest = Some (t :: ts).
Proof.
  intros Hb Hn. destruct rest as [|c rest]; simpl.
  - intros [= <-]. by rewrite Hn.
  - destruct Hb as [-> _]. rewrite Hn. simpl.
    destruct (idle_step c) as [[ts' m']|]; [|done]. simpl.
    destruct (jlex m' rest); [|done]. by intros [= <-].
Qed.

Lemma jlex_word_end w rest t ts :
  boundary rest → word w = Some t → jlex MIdle rest = Some ts →
  jlex (MWord w) rest = Some (t :: ts).
Proof.
  intros Hb Hw. destruct rest as [|c rest]; simpl.
  - intros [= <-]. by rewrite Hw.
  - destruct Hb as [_ ->]. rewrite Hw. simpl.
    destruct (idle_step c) as [[ts' m']|]; [|done]. simpl.
    destruct (jlex m' rest); [|done]. by intros [= <-].
Qed.

Lemma jlex_word_step w c s :
  is_lower c = true → jlex (MWord w) (String c s) = jlex (MWord (snoc w c)) s.
Proof. intros Hc. simpl. by rewrite Hc. Qed.

(** The three words. *)
Lemma jlex_literal v rest ts :
  boundary rest → jlex MIdle rest = Some ts →
  match v with JNull | JBool _ => True | _ => False end →
  ∀ gap level, jlex MIdle (print gap level v +:+ rest) = Some (KLit v :: ts).
Proof.
  intros Hb Hr Hv gap level.
  destruct v as [|[]| | | |]; try done; cbn [print];
    rewrite !string_app_cons, string_app_nil_l;
    (erewrite jlex_idle by reflexivity);
    rewrite !jlex_word_step by reflexivity;
    by erewrite jlex_word_end.
Qed.

(** *** Numbers *)

Lemma jlex_num_step neg ds c s :
  is_digit c = true → jlex (MNum neg ds) (String c s) = jlex (MNum neg (snoc ds c)) s.
Proof. intros Hc. simpl. by rewrite Hc. Qed.

(** A run of decimal digits is read into the number being lexed. *)
Lemma jlex_uint neg ds d rest :
  jlex (MNum neg ds) (NilEmpty.string_of_uint d +:+ rest) =
    jlex (MNum neg (ds +:+ NilEmpty.string_of_uint d)) rest.
Proof.
  revert ds. induction d as [|d IH|d IH|d IH|d IH|d IH|d IH|d IH|d IH|d IH|d IH];
    intros ds; cbn [NilEmpty.string_of_uint];
    [by rewrite string_app_nil_r|..];
    rewrite string_app_cons, jlex_num_step, IH, snoc_app by reflexivity; done.
Qed.

(** The first digit opens the number. *)
Lemma jlex_uint_idle d rest :
  d ≠ Decimal.Nil →
  jlex MIdle (NilEmpty.string_of_uint d +:+ rest) =
    jlex (MNum false (NilEmpty.string_of_uint d)) rest.
Proof.
  intros Hd. destruct d; [done|..]; cbn [NilEmpty.string_of_uint];
    rewrite string_app_cons; (erewrite jlex_idle by reflexivity);
    rewrite jlex_uint; by destruct (jlex _ _).
Qed.

(** The digits of a number have no leading zero. *)
Definition nz_head (d : Decimal.uint) : Prop :=
  match d with Decimal.Nil | Decimal.D0 _ => False | _ => True end.

Lemma nzhead_nz d : Decimal.nzhead d = Decimal.Nil ∨ nz_head (Decimal.nzhead d).
Proof. induction d; simpl; auto. Qed.

Lemma to_uint_shape n : N.to_uint n = Decimal.zero ∨ nz_head (N.to_uint n).
Proof.
  assert (N.to_uint n = Decimal.unorm (N.to_uint n)) as ->
    by (by rewrite <- Unsigned.to_of, Unsigned.of_to).
  unfold Decimal.unorm.
  destruct (nzhead_nz (N.to_uint n)) as [->|Hnz]; [by left|right].
  by destruct (Decimal.nzhead _).
Qed.

Lemma to_uint_ne_nil n : N.to_uint n ≠ Decimal.Nil.
Proof. by destruct (to_uint_shape n) as [->|?]; [|destruct (N.to_uint n)]. Qed.

Lemma number_print_N neg n :
  number neg (print_N n) =
    Some (KNum (if neg then - Z.of_N n else Z.of_N n)%Z).
Proof.
  unfold print_N. pose proof (Unsigned.of_to n) as Hn.
  pose proof (NilEmpty.usu (N.to_uint n)) as Hu.
  destruct (to_uint_shape n) as [Hz|Hnz].
  - rewrite Hz in *. simpl in Hn. by subst.
  - unfold number. destruct (N.to_uint n); try done;
      cbn [NilEmpty.string_of_uint] in *; rewrite Hu; cbn -[N.of_uint];
      by rewrite Hn.
Qed.

Lemma jlex_number z rest ts :
  boundary rest → jlex MIdle rest = Some ts →
  jlex MIdle (print_Z z +:+ rest) = Some (KNum z :: ts).
Proof.
  intros Hb Hr. unfold print_Z. case_bool_decide as Hz.
  - rewrite !string_app_cons, string_app_nil_l.
    erewrite jlex_idle by reflexivity. unfold print_N. rewrite jlex_uint.
    rewrite string_app_nil_l.
    erewrite jlex_num_end; [|done|apply number_print_N|done].
    simpl. do 3 f_equal. lia.
  - unfold print_N. rewrite jlex_uint_idle by apply to_uint_ne_nil.
    erewrite jlex_num_end; [|done|apply number_print_N|done].
    do 3 f_equal. lia.
Qed.

(** *** Strings *)

(** An escaped character is read back as the character. *)
Lemma jlex_escape c acc r :
  jlex (MStr acc) (escape c +:+ r) = jlex (MStr (snoc acc c)) r.
Proof.
  destruct c as [[] [] [] [] [] [] [] []]; reflexivity.
Qed.

Lemma jlex_escape_all s acc r :
  jlex (MStr acc) (escape_all s +:+ r) = jlex (MStr (acc +:+ s)) r.
Proof.
  revert acc. induction s as [|c s IH]; intros acc; cbn [escape_all].
  - by rewrite string_app_nil_l, string_app_nil_r.
  - by rewrite string_app_assoc, jlex_escape, IH, snoc_app.
Qed.

Lemma jlex_quote s rest ts :
  jlex MIdle rest = Some ts →
  jlex MIdle (quote s +:+ rest) = Some (KStr s :: ts).
Proof.
  intros Hr. unfold quote. rewrite string_app_assoc, string_app_cons.
  erewrite jlex_idle by reflexivity. rewrite jlex_escape_all.
  rewrite string_app_cons, !string_app_nil_l. simpl. by rewrite Hr.
Qed.

(** *** Arrays and objects *)

(** A printed item lexes to a group of tokens, whatever follows. *)
Definition lexes_to (item : string) (g : list jtoken) : Prop :=
  ∀ rest ts, boundary rest → jlex MIdle rest = Some ts →
             jlex MIdle (item +:+ rest) = Some (g ++ ts).

Lemma boundary_punct c s t :
  idle_step c = Some ([t], MIdle) → boundary (String c s).
Proof.
  unfold idle_step. simpl. destruct (is_ws c) eqn:Hw.
  { destruct c as [[] [] [] [] [] [] [] []]; done. }
  repeat (case_decide; [subst; done|]). by repeat case_match.
Qed.

Lemma jlex_join gap level items groups :
  Forall2 lexes_to items groups → lexes_to (join gap level items) (commas groups).
Proof.
  induction 1 as [|item g items groups Hitem Hrest IH]; intros rest ts Hb Hr.
  { by rewrite string_app_nil_l. }
  destruct Hrest as [|item' g' items groups Hitem' Hrest].
  { by apply Hitem. }
  cbn [join commas] in *. rewrite !string_app_assoc, <- app_assoc.
  apply Hitem; [done|]. rewrite string_app_cons, string_app_nil_l.
  apply (jlex_punct ","%char KComma); [done|].
  rewrite jlex_newline. by apply IH.
Qed.

(** A bracketed, comma-separated block. *)
Lemma jlex_block co cc topen tclose gap level items groups :
  idle_step co = Some ([topen], MIdle) → idle_step cc = Some ([tclose], MIdle) →
  Forall2 lexes_to items groups →
  lexes_to (block (String co "") (String cc "") gap level items)
           (topen :: commas groups ++ [tclose]).
Proof.
  intros Ho Hc Hitems rest ts Hb Hr.
  assert (jlex MIdle (String cc rest) = Some (tclose :: ts)) as Hclose
    by by apply jlex_punct.
  destruct Hitems as [|item g items groups Hitem Hrest]; cbn [block].
  { rewrite !string_app_cons, !string_app_nil_l. by apply jlex_punct. }
  rewrite !string_app_assoc, string_app_cons, string_app_nil_l.
  rewrite <- app_comm_cons, <- app_assoc.
  apply (jlex_punct co topen); [done|]. rewrite jlex_newline.
  apply (jlex_join gap (S level) (item :: items) (g :: groups)); [by constructor|..].
  - apply boundary_newline. rewrite string_app_cons. by eapply boundary_punct.
  - by rewrite jlex_newline, string_app_cons, string_app_nil_l.
Qed.

(** The text of a value lexes to its tokens. *)
Lemma jlex_print gap level v : lexes_to (print gap level v) (tokens v).
Proof.
  revert level. induction v as [|b|z|s|xs IH|fs IH] using json_ind'; intros level.
  - intros rest ts ??. by apply jlex_literal.
  - intros rest ts ??. by apply jlex_literal.
  - intros rest ts ??. by apply jlex_number.
  - intros rest ts ??. by apply jlex_quote.
  - cbn [print tokens]. apply (jlex_block "["%char "]"%char); [done..|].
    apply Forall2_fmap, Forall_Forall2_diag. eapply list.Forall_impl; [exact IH|].
    intros x Hx. apply Hx.
  - cbn [print tokens]. apply (jlex_block "{"%char "}"%char); [done..|].
    apply Forall2_fmap, Forall_Forall2_diag. eapply list.Forall_impl; [exact IH|].
    intros [k x] Hx rest ts Hb Hr. cbn [fst snd] in *.
    rewrite !string_app_assoc. apply (jlex_quote k).
    rewrite string_app_cons, string_app_nil_l.
    apply (jlex_punct ":"%char KColon); [done|].
    destruct gap; [rewrite string_app_nil_l|rewrite string_app_cons, string_app_nil_l, jlex_ws by done];
      by apply Hx.
Qed.

End lexer.

(** ** The parser on the tokens of a value *)

Section parser.
Implicit Types (v : json) (stk : list jframe) (ts : list jtoken).
Implicit Types (fs fields : list (string * json)).

Lemma json_wf_arr xs :
  json_wf (JArr xs) = true ↔ Forall (λ v, json_wf v = true) xs.
Proof.
  simpl. induction xs as [|x xs IH]; simpl; [by split|].
  rewrite andb_true_iff, list.Forall_cons. naive_solver.
Qed.

Lemma json_wf_obj fs :
  json_wf (JObj fs) = true ↔
  NoDup fs.*1 ∧ Forall (λ kv, json_wf kv.2 = true) fs.
Proof.
  cbn [json_wf]. rewrite andb_true_iff, bool_decide_eq_true.
  apply and_iff_compat_l.
  induction fs as [|kv fs IH]; [by split|].
  rewrite andb_true_iff, list.Forall_cons. naive_solver.
Qed.

Lemma commas_cons (g : list jtoken) gs :
  commas (g :: gs) = g ++ mjoin ((KComma ::.) <$> gs).
Proof.
  revert g. induction gs as [|g' gs IH]; intros g; [by rewrite app_nil_r|].
  cbn [commas] in *. by rewrite IH.
Qed.

(** A key that is not there yet goes to the end. *)
Lemma set_field_fresh k v fs : k ∉ fs.*1 → set_field k v fs = fs ++ [(k, v)].
Proof.
  induction fs as [|[k' v'] fs IH]; [done|]. simpl.
  intros [??]%not_elem_of_cons. rewrite decide_False by done. by rewrite IH.
Qed.

(** Without duplicate keys the object read is the list of its fields. *)
Lemma object_of_rev fs : NoDup fs.*1 → object_of (rev fs) = JObj fs.
Proof.
  unfold object_of. intros Hnd. f_equal.
  induction fs as [|[k v] fs IH] using rev_ind; [done|].
  rewrite fmap_app in Hnd. apply list.NoDup_app in Hnd as (Hnd & Hk & _).
  rewrite rev_app_distr. simpl. rewrite IH by done.
  apply set_field_fresh. intros Hin. apply (Hk k Hin). simpl. by left.
Qed.

(** The parser reads a value from its tokens. *)
Definition parses (v : json) : Prop :=
  ∀ stk ts, jparse (SValue stk) (tokens v ++ ts) = jparse (deliver v stk) ts.

(** The first element of an array starts like any value. *)
Lemma jparse_first v stk ts :
  jparse (SArrFirst stk) (tokens v ++ ts) =
    jparse (SValue (FArr [] :: stk)) (tokens v ++ ts).
Proof. by destruct v. Qed.

(** The elements after the first, up to the closing bracket. *)
Lemma jparse_elements xs items stk ts :
  Forall parses xs →
  jparse (SAfterArr items stk)
         (mjoin ((KComma ::.) <$> (tokens <$> xs)) ++ KRBrack :: ts) =
    jparse (deliver (JArr (rev items ++ xs)) stk) ts.
Proof.
  intros Hxs. revert items.
  induction Hxs as [|x xs Hx _ IH]; intros items; simpl.
  { by rewrite app_nil_r. }
  rewrite <- app_assoc, Hx. simpl. rewrite IH. simpl.
  by rewrite <- app_assoc.
Qed.

(** The fields after the first, up to the closing brace. *)
Lemma jparse_fields fs fields stk ts :
  Forall (λ kv, parses kv.2) fs →
  jparse (SAfterObj fields stk)
         (mjoin ((KComma ::.) <$>
                   ((λ kv, KStr kv.1 :: KColon :: tokens kv.2) <$> fs))
            ++ KRBrace :: ts) =
    jparse (deliver (object_of (rev fs ++ fields)) stk) ts.
Proof.
  intros Hfs. revert fields.
  induction Hfs as [|[k x] fs Hx _ IH]; intros fields; simpl; [done|].
  rewrite <- app_assoc, Hx. simpl. rewrite IH. by rewrite <- app_assoc.
Qed.

Lemma jparse_tokens v : json_wf v = true → parses v.
Proof.
  induction v as [|b|z|s|xs IH|fs IH] using json_ind'; intros Hwf stk ts;
    [done..| |].
  - apply json_wf_arr in Hwf.
    assert (Forall parses xs) as Hxs
      by exact (Forall_mp _ _ _ IH Hwf).
    cbn [tokens]. destruct Hxs as [|x xs Hx Hxs]; [done|].
    rewrite fmap_cons, commas_cons. simpl.
    rewrite <- !app_assoc, jparse_first, Hx. simpl.
    by rewrite (jparse_elements xs [x]).
  - apply json_wf_obj in Hwf as [Hnd Hwf].
    assert (Forall (λ kv, parses kv.2) fs) as Hfs
      by exact (Forall_mp _ _ _ IH Hwf).
    cbn [tokens]. destruct Hfs as [|[k x] fs Hx Hfs]; [done|].
    rewrite fmap_cons, commas_cons. simpl.
    rewrite <- !app_assoc, Hx. simpl.
    rewrite (jparse_fields fs [(k, x)]) by done.
    by rewrite <- (object_of_rev ((k, x) :: fs)) by done.
Qed.

End parser.

(** ** What the parser returns is well formed *)

Definition token_ok (t : jtoken) : Prop :=
  match t with KLit v => json_wf v = true | _ => True end.

Definition fields_ok (fields : list (string * json)) : Prop :=
  Forall (λ kv, json_wf kv.2 = true) fields.

Definition frame_ok (f : jframe) : Prop :=
  match f with
  | FArr items => Forall (λ v, json_wf v = true) items
  | FObj fields _ => fields_ok fields
  end.

Definition pstate_ok (st : pstate) : Prop :=
  match st with
  | SValue stk | SArrFirst stk | SObjFirst stk => Forall frame_ok stk
  | SAfterArr items stk =>
      Forall (λ v, json_wf v = true) items ∧ Forall frame_ok stk
  | SKey fields stk | SColon fields _ stk | SAfterObj fields stk =>
      fields_ok fields ∧ Forall frame_ok stk
  | SDone v => json_wf v = true
  end.

Section well_formed.
Implicit Types (v : json) (stk : list jframe) (ts : list jtoken) (t : jtoken).
Implicit Types (fs fields : list (string * json)) (st : pstate).

Lemma idle_step_ok c ts m : idle_step c = Some (ts, m) → Forall token_ok ts.
Proof.
  unfold idle_step. intros; repeat case_match; simplify_eq; by repeat constructor.
Qed.

Lemma number_ok neg ds t : number neg ds = Some t → token_ok t.
Proof.
  unfold number. intros; repeat case_match; simplify_option_eq; done.
Qed.

Lemma word_ok w t : word w = Some t → token_ok t.
Proof. unfold word. intros; repeat case_match; by simplify_eq. Qed.

Lemma jlex_ok m s ts : jlex m s = Some ts → Forall token_ok ts.
Proof.
  revert m ts. induction s as [|c s IH]; intros m ts.
  { destruct m; simpl; intros; simplify_option_eq;
      eauto using number_ok, word_ok. }
  pose proof (idle_step_ok c) as Hidle.
  destruct m; simpl; destruct (idle_step c) as [[ts0 m0]|];
    intros; repeat case_match; simplify_option_eq;
    repeat match goal with
    | |- Forall _ (_ :: _) => constructor
    | |- Forall _ (_ ++ _) => apply Forall_app; split
    end;
    try done; eauto using number_ok, word_ok.
Qed.

Lemma set_field_keys k v fs x :
  x ∈ (set_field k v fs).*1 → x = k ∨ x ∈ fs.*1.
Proof.
  induction fs as [|[k' v'] fs IH]; simpl.
  { intros ?%list_elem_of_singleton. by left. }
  case_decide; simpl; rewrite !elem_of_cons; naive_solver.
Qed.

Lemma set_field_NoDup k v fs : NoDup fs.*1 → NoDup (set_field k v fs).*1.
Proof.
  induction fs as [|[k' v'] fs IH]; simpl; [intros _; apply list.NoDup_singleton|].
  intros [Hk' Hnd]%list.NoDup_cons. case_decide; simpl; subst.
  - by apply list.NoDup_cons.
  - apply list.NoDup_cons. split; [|by apply IH].
    intros [?|?]%set_field_keys; by simplify_eq.
Qed.

Lemma set_field_ok k v fs :
  json_wf v = true → fields_ok fs → fields_ok (set_field k v fs).
Proof.
  intros Hv. unfold fields_ok. induction 1 as [|[k' v'] fs Hx Hfs IH]; simpl.
  { by repeat constructor. }
  case_decide; constructor; done.
Qed.

(** The object read has no duplicate key, whatever keys the text had. *)
Lemma object_of_wf fields : fields_ok fields → json_wf (object_of fields) = true.
Proof.
  intros Hok. unfold object_of. apply json_wf_obj.
  induction Hok as [|[k v] fields Hv _ [IH1 IH2]]; simpl.
  { split; [constructor|done]. }
  split; [by apply set_field_NoDup|by apply set_field_ok].
Qed.

Lemma deliver_ok v stk :
  json_wf v = true → Forall frame_ok stk → pstate_ok (deliver v stk).
Proof.
  intros Hv Hstk. destruct Hstk as [|[items|fields key] stk Hf Hstk]; simpl;
    [done|split; [by constructor|done]..].
Qed.

Lemma start_value_ok t stk st :
  token_ok t → Forall frame_ok stk → start_value t stk = Some st → pstate_ok st.
Proof.
  intros Ht Hstk. destruct t; simpl; intros; simplify_eq;
    by (try apply deliver_ok).
Qed.

Lemma pstep_ok st t st' :
  pstate_ok st → token_ok t → pstep st t = Some st' → pstate_ok st'.
Proof.
  intros Hst Ht Hstep.
  destruct st; simpl in *; destruct_and?; destruct t; simplify_eq/=;
    repeat first
      [ done
      | apply deliver_ok
      | apply json_wf_arr, Forall_rev
      | apply object_of_wf
      | split
      | constructor ].
Qed.

Lemma jparse_ok st ts v :
  pstate_ok st → Forall token_ok ts → jparse st ts = Some v → json_wf v = true.
Proof.
  intros Hst Hts. revert st Hst.
  induction Hts as [|t ts Ht _ IH]; intros st Hst; simpl.
  { by destruct st; intros; simplify_eq. }
  destruct (pstep st t) as [st'|] eqn:Hstep; [|done]. simpl.
  by eapply IH, pstep_ok.
Qed.

End well_formed.

(** ** The laws *)

Theorem json_round_trip n v :
  json_wf v = true → json_parse (json_stringify n v) = Some v.
Proof.
  intros Hwf. unfold json_parse, json_stringify.
  rewrite <- (string_app_nil_r (print _ _ _)).
  rewrite (jlex_print _ _ v "" [] I eq_refl). simpl.
  by rewrite (jparse_tokens v Hwf [] []).
Qed.

Theorem json_parse_wf s v : json_parse s = Some v → json_wf v = true.
Proof.
  unfold json_parse. intros Hp.
  destruct (jlex MIdle s) as [ts|] eqn:Hlex; [|done]. simpl in Hp.
  eapply jparse_ok; [|by eapply jlex_ok|done]. constructor.
Qed.

Lemma json_stringify_atom n (v : json) :
  typeof v = TNumber ∨ typeof v = TBoolean → stringify n v = js_to_string v.
Proof. by destruct v as [|[]| | | |]; intros [|]. Qed.

#[export] Instance json_text_laws : JsonCodecLaws.
Proof.
  split; [apply json_round_trip|apply json_parse_wf|done|apply json_stringify_atom].
Qed.
