(* ===== verification/Debounce.v ===== *)
(** * Debounce: the debounce scheduler over a virtual clock

    The program uses two debouncers it does not implement: the
    [useDebounce] hook in [Preview] (delay only) and [debounce] from lodash
    around the storage writer (delay and [maxWait]).  This file models the
    contract of section 4.1 of the specification: a call replaces the
    pending arguments and restarts the delay window; the [maxWait] ceiling
    counts from the first call of the burst and is never reset; when the
    deadline passes, the function runs once with the arguments of the last
    call.  Time is a natural number of milliseconds.

    [sched] is the scheduler with its own clock and the list of executions,
    the virtual-clock scheduler against which the contract is proved.  [App]
    runs three debouncers against one clock with [schedule], [deadline] and
    [fire].

    Idealisations: a timer runs exactly at its deadline, so the branch of
    the library in which a late call finds the ceiling already passed and
    runs the function at once never arises; the ceiling is counted from the
    first call of a burst as the specification words it (the library
    counts from its last execution when a burst starts within [delay] of
    the previous one, which can only make it run earlier); [cancel] and
    [flush], which the program never calls, are left out. *)

From S2P Require Import Prelude.

#[local] Open Scope N_scope.

(** ** Policies and debouncers *)

(** [delay] of quiescence, and the optional ceiling [maxWait]. *)
Record policy := Policy {
  delay : N;
  maxWait : option N
}.

(** A pending call: the arguments of the last call, its time, and the time
    of the first call of the burst. *)
Record pending (A : Type) := Pending {
  args : A;
  lastCall : N;
  firstCall : N
}.
Arguments Pending {A} _ _ _.
Arguments args {A} _.
Arguments lastCall {A} _.
Arguments firstCall {A} _.

(** A debouncer is idle ([None]) or holds one pending call. *)
Definition debouncer (A : Type) : Type := option (pending A).

Section debounce.
Context {A : Type}.
Implicit Types (pol : policy) (p : pending A) (d : debouncer A) (a : A).

(** When the pending call runs: [delay] after the last call, but no later
    than [maxWait] after the first. *)
Definition deadline pol p : N :=
  match maxWait pol with
  | None => lastCall p + delay pol
  | Some mw => N.min (lastCall p + delay pol) (firstCall p + mw)
  end.

(** A call at time [now]: the arguments are replaced and the delay window
    restarts; the first call of the burst is remembered. *)
Definition schedule (now : N) a d : debouncer A :=
  match d with
  | None => Some (Pending a now now)
  | Some p => Some (Pending a now (firstCall p))
  end.

(** Is the pending call due at [now]? *)
Definition due pol (now : N) d : bool :=
  match d with
  | Some p => bool_decide (deadline pol p ≤ now)
  | None => false
  end.

(** The timer's callback at [now]: the arguments to run with, if the call
    is due, and the debouncer afterwards. *)
Definition fire pol (now : N) d : option A * debouncer A :=
  match d with
  | Some p => if due pol now d then (Some (args p), None) else (None, d)
  | None => (None, None)
  end.

(** ** The scheduler on its own clock *)

(** The clock, the debouncer, and the executions so far: when and with
    which arguments, oldest first. *)
Record sched := Sched {
  clock : N;
  slot : debouncer A;
  fired : list (N * A)
}.

(** What a client does: call the debounced function, or let time pass. *)
Inductive action :=
  | Call (a : A)
  | Wait (dt : N).

Definition call a (s : sched) : sched :=
  Sched (clock s) (schedule (clock s) a (slot s)) (fired s).

(** Time passes; a pending call whose deadline is reached runs at its
    deadline. *)
Definition advance pol (dt : N) (s : sched) : sched :=
  let now := clock s + dt in
  match slot s with
  | Some p =>
      if due pol now (slot s)
      then Sched now None (fired s ++ [(deadline pol p, args p)])
      else Sched now (slot s) (fired s)
  | None => Sched now None (fired s)
  end.

Definition act pol (s : sched) (x : action) : sched :=
  match x with
  | Call a => call a s
  | Wait dt => advance pol dt s
  end.

(** A burst: calls separated by the given gaps. *)
Definition burst (rest : list (N * A)) : list action :=
  flat_map (λ ga, [Wait ga.1; Call ga.2]) rest.

(** Total time a list of actions takes. *)
Definition duration (xs : list action) : N :=
  foldr (λ x t, match x with Wait dt => dt + t | Call _ => t end) 0 xs.

End debounce.

Arguments sched : clear implicits.
Arguments action : clear implicits.

(** ** Well-formed policies and schedulers *)

(** Delays are positive. *)
Definition policy_wf (pol : policy) : Prop :=
  0 < delay pol ∧ ∀ mw, maxWait pol = Some mw → 0 < mw.

(** A pending call is never overdue, and its times are ordered. *)
Definition pending_wf {A} (pol : policy) (now : N) (p : pending A) : Prop :=
  firstCall p ≤ lastCall p ∧ lastCall p ≤ now ∧ now < deadline pol p.

Definition debouncer_wf {A} (pol : policy) (now : N) (d : debouncer A) : Prop :=
  ∀ p, d = Some p → pending_wf pol now p.

(** The times of a pending call are ordered and in the past. *)
Definition debouncer_ordered {A} (now : N) (d : debouncer A) : Prop :=
  ∀ p, d = Some p → firstCall p ≤ lastCall p ∧ lastCall p ≤ now.

(** ** Lemmas on [deadline], [schedule] and [fire] *)

Section debounce_lemmas.
Context {A : Type}.
Implicit Types (pol : policy) (p : pending A) (d : debouncer A) (a : A).
Implicit Types (s : sched A) (xs : list (action A)).

Lemma deadline_le_delay pol p : deadline pol p ≤ lastCall p + delay pol.
Proof. unfold deadline. destruct (maxWait pol); lia. Qed.

Lemma deadline_le_maxWait pol p mw :
  maxWait pol = Some mw → deadline pol p ≤ firstCall p + mw.
Proof. unfold deadline. intros ->. lia. Qed.

Lemma deadline_no_maxWait pol p :
  maxWait pol = None → deadline pol p = lastCall p + delay pol.
Proof. unfold deadline. by intros ->. Qed.

(** The deadline is one of its two bounds. *)
Lemma deadline_gt pol p now :
  now < lastCall p + delay pol →
  (∀ mw, maxWait pol = Some mw → now < firstCall p + mw) →
  now < deadline pol p.
Proof.
  unfold deadline. intros Hd Hm. destruct (maxWait pol) as [mw|]; [|done].
  specialize (Hm mw eq_refl). lia.
Qed.

Lemma deadline_gt_inv pol p now mw :
  now < deadline pol p → maxWait pol = Some mw → now < firstCall p + mw.
Proof. intros Hlt Hmw. pose proof (deadline_le_maxWait _ p _ Hmw). lia. Qed.

Lemma schedule_idle now a : schedule now a None = Some (Pending a now now).
Proof. done. Qed.

Lemma schedule_pending now a p :
  schedule now a (Some p) = Some (Pending a now (firstCall p)).
Proof. done. Qed.

(** After a call, the pending arguments are those of the call. *)
Lemma schedule_args now a d : args <$> schedule now a d = Some a.
Proof. by destruct d. Qed.

Lemma schedule_Some_args now a d p : schedule now a d = Some p → args p = a.
Proof. destruct d; by intros [= <-]. Qed.

Lemma schedule_not_None now a d : schedule now a d = None → False.
Proof. by destruct d. Qed.

Lemma schedule_is_Some now a d : is_Some (schedule now a d).
Proof. destruct d; by eexists. Qed.

Lemma due_true pol now p : due pol now (Some p) = true ↔ deadline pol p ≤ now.
Proof. simpl. by rewrite bool_decide_eq_true. Qed.

Lemma due_false pol now p : due pol now (Some p) = false ↔ now < deadline pol p.
Proof. simpl. rewrite bool_decide_eq_false. lia. Qed.

Lemma due_wf pol now d : debouncer_wf pol now d → due pol now d = false.
Proof.
  destruct d as [p|]; [|done]. intros Hwf. apply due_false.
  by destruct (Hwf p eq_refl) as (_ & _ & ?).
Qed.

Lemma fire_due pol now p :
  deadline pol p ≤ now → fire pol now (Some p) = (Some (args p), None).
Proof. intros Hd%due_true. unfold fire. by rewrite Hd. Qed.

Lemma fire_not_due pol now p :
  now < deadline pol p → fire pol now (Some p) = (None, Some p).
Proof. intros Hd%due_false. unfold fire. by rewrite Hd. Qed.

Lemma fire_idle pol now : fire pol now (None : debouncer A) = (None, None).
Proof. done. Qed.

(** Firing never leaves a due call behind. *)
Lemma fire_settles pol now d : due pol now (fire pol now d).2 = false.
Proof.
  destruct d as [p|]; [|done]. unfold fire.
  destruct (due pol now (Some p)) eqn:E; [done|]. exact E.
Qed.

(** A call on a well-formed debouncer leaves it well-formed. *)
Lemma schedule_wf pol now a d :
  policy_wf pol → debouncer_wf pol now d →
  debouncer_wf pol now (schedule now a d).
Proof.
  intros [Hd Hm] Hwf q Hq. destruct d as [p|]; simplify_eq/=.
  - destruct (Hwf p eq_refl) as (? & ? & Hlt).
    repeat split; simpl; [lia..|].
    apply deadline_gt; simpl; [lia|]. intros mw Hmw.
    by eapply deadline_gt_inv.
  - repeat split; simpl; [lia..|].
    apply deadline_gt; simpl; [lia|]. intros mw ?%Hm. lia.
Qed.

Lemma fire_wf pol now d :
  debouncer_wf pol now d → fire pol now d = (None, d).
Proof.
  intros Hwf. destruct d as [p|]; [|done].
  apply fire_not_due. by destruct (Hwf p eq_refl) as (_ & _ & ?).
Qed.

Lemma debouncer_wf_ordered pol now d :
  debouncer_wf pol now d → debouncer_ordered now d.
Proof. intros Hwf p Hp. destruct (Hwf p Hp) as (? & ? & ?). done. Qed.

Lemma debouncer_wf_intro pol now d :
  debouncer_ordered now d → due pol now d = false → debouncer_wf pol now d.
Proof.
  intros Hord Hdue p ->. apply due_false in Hdue.
  destruct (Hord p eq_refl). by repeat split.
Qed.

Lemma debouncer_ordered_mono now now' d :
  now ≤ now' → debouncer_ordered now d → debouncer_ordered now' d.
Proof. intros Hle Hord p Hp. destruct (Hord p Hp). split; [done|lia]. Qed.

Lemma debouncer_ordered_None now : debouncer_ordered now (None : debouncer A).
Proof. by intros p. Qed.

(** Firing clears the debouncer or leaves it as it is. *)
Lemma fire_snd pol now d : (fire pol now d).2 = None ∨ (fire pol now d).2 = d.
Proof. destruct d as [p|]; [|by left]. unfold fire. destruct (due _ _ _); auto. Qed.

Lemma fire_ordered pol at_ now d :
  debouncer_ordered now d → debouncer_ordered now (fire pol at_ d).2.
Proof. intros Hord. by destruct (fire_snd pol at_ d) as [-> | ->]. Qed.

(** What a firing delivers is what was pending. *)
Lemma fire_fst_Some pol now d a :
  (fire pol now d).1 = Some a → ∃ p, d = Some p ∧ args p = a ∧ (fire pol now d).2 = None.
Proof.
  destruct d as [p|]; [|done]. unfold fire. destruct (due _ _ _); [|done].
  intros [= <-]. by exists p.
Qed.

Lemma fire_fst_None pol now d : (fire pol now d).1 = None → (fire pol now d).2 = d.
Proof. destruct d as [p|]; [|done]. unfold fire. by destruct (due _ _ _). Qed.

End debounce_lemmas.

(** ** The same debouncer over other arguments *)

(** [debouncer_map f d]: the debouncer [d] with [f] applied to the pending
    arguments; its times, and so its deadline, are those of [d]. *)
Definition debouncer_map {A B} (f : A → B) (d : debouncer A) : debouncer B :=
  (λ p, Pending (f (args p)) (lastCall p) (firstCall p)) <$> d.

Section debouncer_map.
Context {A B : Type} (f : A → B).
Implicit Types (pol : policy) (d : debouncer A) (a : A).

Lemma debouncer_map_deadline pol d :
  deadline pol <$> debouncer_map f d = deadline pol <$> d.
Proof. by destruct d. Qed.

Lemma debouncer_map_schedule now a d :
  debouncer_map f (schedule now a d) = schedule now (f a) (debouncer_map f d).
Proof. by destruct d. Qed.

Lemma debouncer_map_fire pol now d :
  fire pol now (debouncer_map f d) =
    (f <$> (fire pol now d).1, debouncer_map f (fire pol now d).2).
Proof.
  destruct d as [p|]; [|done]. unfold fire, due, debouncer_map. cbn.
  change (deadline pol (Pending (f (args p)) (lastCall p) (firstCall p)))
    with (deadline pol p).
  by case_bool_decide.
Qed.

End debouncer_map.

#[export] Hint Resolve schedule_wf deadline_le_delay schedule_is_Some
  debouncer_wf_ordered debouncer_ordered_None fire_ordered : editor.
#[export] Hint Rewrite @schedule_idle @schedule_pending @fire_idle : editor.

(** ** The contract, on the scheduler's own clock *)

Definition sched_wf {A} (pol : policy) (s : sched A) : Prop :=
  debouncer_wf pol (clock s) (slot s).

Section sched_lemmas.
Context {A : Type} (pol : policy).
Implicit Types (s : sched A) (xs : list (action A)) (p : pending A).
Implicit Types (rest : list (N * A)).

Lemma advance_not_due s p dt :
  slot s = Some p → clock s + dt < deadline pol p →
  advance pol dt s = Sched (clock s + dt) (Some p) (fired s).
Proof.
  intros Hp Hlt. unfold advance. rewrite Hp.
  by rewrite (proj2 (due_false _ _ _) Hlt).
Qed.

Lemma advance_due s p dt :
  slot s = Some p → deadline pol p ≤ clock s + dt →
  advance pol dt s =
    Sched (clock s + dt) None (fired s ++ [(deadline pol p, args p)]).
Proof.
  intros Hp Hle. unfold advance. rewrite Hp.
  by rewrite (proj2 (due_true _ _ _) Hle).
Qed.

Lemma advance_due_Sched c p f dt :
  deadline pol p ≤ c + dt →
  advance pol dt (Sched c (Some p) f) =
    Sched (c + dt) None (f ++ [(deadline pol p, args p)]).
Proof. intros. by apply advance_due. Qed.

Lemma advance_idle s dt :
  slot s = None → advance pol dt s = Sched (clock s + dt) None (fired s).
Proof. intros Hs. unfold advance. by rewrite Hs. Qed.

Lemma act_clock s x :
  clock (act pol s x) = clock s + duration [x].
Proof.
  destruct x as [a|dt]; simpl; [lia|]. unfold advance.
  rewrite N.add_0_r. repeat case_match; done.
Qed.

(** The clock after a run is the start plus the waits. *)
Lemma run_clock s xs : clock (run (act pol) s xs) = clock s + duration xs.
Proof.
  revert s. induction xs as [|x xs IH]; intros s; simpl; [lia|].
  rewrite IH, act_clock. destruct x; simpl; lia.
Qed.

(** Executions are only ever appended. *)
Lemma act_fired_app s x : ∃ more, fired (act pol s x) = fired s ++ more.
Proof.
  destruct x as [a|dt]; simpl; [by exists []; rewrite app_nil_r|].
  unfold advance. repeat case_match; simpl; try by eexists.
  all: by exists []; rewrite app_nil_r.
Qed.

Lemma run_fired_app s xs :
  ∃ more, fired (run (act pol) s xs) = fired s ++ more.
Proof.
  revert s. induction xs as [|x xs IH]; intros s; simpl.
  - by exists []; rewrite app_nil_r.
  - destruct (IH (act pol s x)) as [m2 ->].
    destruct (act_fired_app s x) as [m1 ->].
    exists (m1 ++ m2). by rewrite app_assoc.
Qed.

(** Well-formedness is an invariant of the scheduler. *)
Lemma act_wf s x : policy_wf pol → sched_wf pol s → sched_wf pol (act pol s x).
Proof.
  intros Hpol Hwf. destruct x as [a|dt]; simpl.
  - by apply schedule_wf.
  - unfold advance, sched_wf. destruct (slot s) as [p|] eqn:Hp; [|done].
    destruct (due pol _ _) eqn:Hdue; simpl; [done|].
    intros q [= <-]. apply due_false in Hdue.
    destruct (Hwf p Hp) as (? & ? & ?). repeat split; [done|lia|done].
Qed.

Lemma run_wf s xs :
  policy_wf pol → sched_wf pol s → sched_wf pol (run (act pol) s xs).
Proof. intros Hpol Hs. apply run_invariant; [done|]. intros. by apply act_wf. Qed.

Lemma burst_cons g (a : A) rest :
  burst ((g, a) :: rest) = Wait g :: Call a :: burst rest.
Proof. done. Qed.

Lemma duration_burst_cons g (a : A) rest :
  duration (burst ((g, a) :: rest)) = g + duration (burst rest).
Proof. done. Qed.

(** During a burst whose gaps are shorter than the delay and which stays
    under the ceiling, nothing runs and the last call's arguments are
    pending. *)
Lemma burst_pending s p rest :
  slot s = Some p → lastCall p = clock s →
  Forall (λ ga, ga.1 < delay pol) rest →
  (∀ mw, maxWait pol = Some mw →
         clock s + duration (burst rest) < firstCall p + mw) →
  run (act pol) s (burst rest) =
    Sched (clock s + duration (burst rest))
          (Some (Pending (List.last rest.*2 (args p))
                         (clock s + duration (burst rest)) (firstCall p)))
          (fired s).
Proof.
  intros Hp Hlast Hgaps. revert s p Hp Hlast.
  induction Hgaps as [|[g a] rest Hg _ IH]; intros s p Hp Hlast Hmw.
  { destruct s, p; simplify_eq/=. by rewrite N.add_0_r. }
  rewrite duration_burst_cons in *. rewrite burst_cons, !run_cons.
  cbn [act]. simpl in Hg. rewrite (advance_not_due s p g Hp); cycle 1.
  { apply deadline_gt; [lia|]. intros mw ?%Hmw. lia. }
  erewrite IH; [|done..|simpl; intros mw ?%Hmw; lia].
  cbn [clock slot fired call schedule args firstCall].
  by rewrite fmap_cons, last_cons_default, N.add_assoc.
Qed.

(** Trailing edge: a burst of calls from idle, each gap shorter than the
    delay and the whole burst under the ceiling, followed by a quiet period
    of at least the delay, runs the function exactly once, with the
    arguments of the last call. *)
Lemma burst_fires_once s a0 rest w :
  slot s = None →
  Forall (λ ga, ga.1 < delay pol) rest →
  (∀ mw, maxWait pol = Some mw → duration (burst rest) < mw) →
  delay pol ≤ w →
  ∃ t, fired (run (act pol) s (Call a0 :: burst rest ++ [Wait w])) =
         fired s ++ [(t, List.last rest.*2 a0)] ∧
       t ≤ clock s + duration (burst rest) + delay pol.
Proof.
  intros Hidle Hgaps Hmw Hw. rewrite run_cons, run_app. cbn [act].
  set (s1 := call a0 s).
  assert (slot s1 = Some (Pending a0 (clock s) (clock s))) as Hp
    by (unfold s1, call; by rewrite Hidle).
  rewrite (burst_pending s1 _ rest Hp); [|done..|].
  2: { intros mw ?%Hmw. simpl. lia. }
  set (p := Pending _ _ _). rewrite run_cons, run_nil. cbn [act].
  pose proof (deadline_le_delay pol p) as Hdl. simpl in Hdl.
  exists (deadline pol p). split; [|simpl; lia].
  rewrite advance_due_Sched; [done|]. simpl. lia.
Qed.

(** The ceiling: once a call is pending, the function runs no later than
    [maxWait] after the first call of the burst, whatever the client does
    in between. *)
Lemma maxWait_bound s p mw xs :
  policy_wf pol → maxWait pol = Some mw →
  sched_wf pol s → slot s = Some p →
  firstCall p + mw ≤ clock s + duration xs →
  ∃ t a more,
    fired (run (act pol) s xs) = fired s ++ (t, a) :: more ∧
    t ≤ firstCall p + mw.
Proof.
  intros Hpol Hmw. revert s p.
  induction xs as [|[a|dt] xs IH]; intros s p Hwf Hp Hlate.
  - destruct (Hwf p Hp) as (_ & _ & Hlt).
    pose proof (deadline_le_maxWait pol p mw Hmw). simpl in Hlate. lia.
  - rewrite run_cons.
    destruct (IH (act pol s (Call a)) (Pending a (clock s) (firstCall p)))
      as (t & b & more & -> & ?); [by apply act_wf|simpl; by rewrite Hp|done|].
    by exists t, b, more.
  - rewrite run_cons. cbn [act].
    destruct (decide (deadline pol p ≤ clock s + dt)) as [Hdue|Hnot].
    + rewrite (advance_due s p dt Hp Hdue).
      destruct (run_fired_app
        (Sched (clock s + dt) None (fired s ++ [(deadline pol p, args p)])) xs)
        as [more ->]. simpl. rewrite <-app_assoc.
      exists (deadline pol p), (args p), more.
      split; [done|]. by apply deadline_le_maxWait.
    + pose proof (act_wf s (Wait dt) Hpol Hwf) as Hwf'. cbn [act] in Hwf'.
      rewrite (advance_not_due s p dt Hp) in * by lia.
      destruct (IH _ p Hwf' eq_refl) as (t & b & more & -> & ?);
        [simpl in *; lia|].
      by exists t, b, more.
Qed.

End sched_lemmas.

(** ** The executions are spaced

    Debouncing bounds the rate of executions: between two executions at
    least [delay] passes (or [maxWait], should it be the shorter one),
    however fast the calls arrive. *)

(** The least time between two executions. *)
Definition spacing (pol : policy) : N :=
  match maxWait pol with
  | Some mw => N.min (delay pol) mw
  | None => delay pol
  end.

(** Times that are at least [g] apart, in increasing order. *)
Fixpoint spaced (g : N) (ts : list N) : Prop :=
  match ts with
  | t1 :: (t2 :: _) as rest => t1 + g ≤ t2 ∧ spaced g rest
  | _ => True
  end.

(** The executions so far are spaced, and the last one was before the
    burst that is pending began. *)
Definition sched_spaced {A} (pol : policy) (s : sched A) : Prop :=
  spaced (spacing pol) (fired s).*1 ∧
  ∀ t, list.last (fired s).*1 = Some t →
       t ≤ clock s ∧ ∀ p, slot s = Some p → t ≤ firstCall p.

Section spaced.
Context {A : Type} (pol : policy).
Implicit Types (s : sched A) (xs : list (action A)) (p : pending A) (ts : list N).

Lemma spaced_snoc g ts t :
  spaced g ts → (∀ t', list.last ts = Some t' → t' + g ≤ t) → spaced g (ts ++ [t]).
Proof.
  induction ts as [|t1 [|t2 ts] IH]; intros Hs Hl; [done|..].
  - split; [|done]. by apply Hl.
  - destruct Hs as [? Hs]. split; [done|]. apply IH; [done|]. intros t' Ht'.
    apply Hl. by rewrite list.last_cons, Ht'.
Qed.

(** A pending call runs no earlier than [spacing] after the burst began. *)
Lemma deadline_ge_spacing p :
  firstCall p ≤ lastCall p → firstCall p + spacing pol ≤ deadline pol p.
Proof. unfold deadline, spacing. destruct (maxWait pol); lia. Qed.

Lemma act_spaced s x :
  sched_wf pol s → sched_spaced pol s → sched_spaced pol (act pol s x).
Proof.
  intros Hwf [Hsp Hlast]. destruct x as [a|dt]; cbn [act].
  - split; [done|]. intros t Ht. destruct (Hlast t Ht) as [Hc Hp].
    split; [done|]. unfold call. cbn [slot]. intros p.
    destruct (slot s) as [q|]; intros [= <-]; cbn; [by apply Hp|done].
  - unfold advance. destruct (slot s) as [p|] eqn:Hp.
    2: { split; [done|]. intros t [? _]%Hlast. cbn. split; [lia|done]. }
    destruct (due pol _ _) eqn:Hdue; cbn [fired clock slot].
    + apply due_true in Hdue. destruct (Hwf p Hp) as (Hfl & _ & _).
      pose proof (deadline_ge_spacing p Hfl). unfold sched_spaced. cbn [fired clock slot].
      rewrite fmap_app. cbn [fmap list_fmap fst].
      split; [|rewrite list.last_snoc; by intros ? [= <-]].
      apply spaced_snoc; [done|]. intros t' [_ Ht']%Hlast. specialize (Ht' p eq_refl). lia.
    + split; [done|]. intros t [? Ht]%Hlast. cbn. split; [lia|done].
Qed.

(** Spacing is an invariant of the scheduler. *)
Lemma run_spaced s xs :
  policy_wf pol → sched_wf pol s → sched_spaced pol s →
  sched_spaced pol (run (act pol) s xs).
Proof.
  intros Hpol. revert s. induction xs as [|x xs IH]; intros s Hwf Hs; [done|].
  rewrite run_cons. apply IH; [by apply act_wf|by apply act_spaced].
Qed.

(** No execution is in the future. *)
Lemma act_fired_past s x :
  Forall (λ y, y.1 ≤ clock s) (fired s) →
  Forall (λ y, y.1 ≤ clock (act pol s x)) (fired (act pol s x)).
Proof.
  intros Hf. destruct x as [a|dt]; cbn [act]; [done|].
  assert (Forall (λ y : N * A, y.1 ≤ clock s + dt) (fired s)) as Hf'
    by (eapply list.Forall_impl; [done|]; cbn; intros; lia).
  unfold advance. destruct (slot s) as [p|]; [|done].
  destruct (due pol _ _) eqn:Hdue; cbn [fired clock]; [|done].
  apply Forall_app. split; [done|]. apply Forall_singleton. by apply due_true.
Qed.

Lemma fired_past t0 xs :
  let s := run (act pol) (Sched t0 None []) xs in
  Forall (λ y, y.1 ≤ clock s) (fired s).
Proof.
  apply (run_invariant (act pol) (λ s, Forall (λ y, y.1 ≤ clock s) (fired s)));
    [by constructor|]. intros. by apply act_fired_past.
Qed.

(** From an idle scheduler that has run nothing, whatever the calls and
    waits, the executions are at least [spacing] apart. *)
Lemma fresh_spaced t0 xs :
  policy_wf pol →
  spaced (spacing pol) (fired (run (act pol) (Sched t0 None []) xs)).*1.
Proof. intros Hpol. by apply run_spaced. Qed.

End spaced.
