(* ===== verification/Template.v ===== *)
(** * Template: the template engine

    [Preview] calls [handlebars.compile(template)(data)] inside
    [try]/[catch].  The interface [TemplateEngine] is that call on two
    JavaScript values ([compile_value]): a rendered string or a thrown
    error.  The template is whatever the state holds, which after a
    reload need not be a string; [compile] is the call on a text.
    [TemplateEngineLaws] states the guarantee of the specification
    (section 4.2), that a template without substitution markers renders
    to itself, and the library's refusal of an input that is neither a
    string nor a syntax tree ([not_a_template]).

    [handlebars] is an executable engine for the surface the specification
    names, on texts ([handlebars_text]): [{{a.b.c}}] substitution with nested field access, its
    unescaped forms [{{{a.b.c}}}] and [{{&a.b.c}}], and
    [{{#if p}} ... {{else}} ... {{/if}}].  Everything else between braces
    is a parse error.  Values print as JavaScript prints them; [null] and
    missing fields print as the empty string; a value substituted by
    [{{p}}] is HTML-escaped ([escapeExpression]), one substituted by the
    unescaped forms is not.

    The lemmas show that the engine satisfies the laws of the interface
    ([handlebars_laws]) and what it renders for a template with one
    variable ([compile_var]) and with one conditional block
    ([compile_if]).  The general results on the engine (printing and
    parsing syntax trees, what escaping guarantees) are in
    [TemplateLaws]. *)

From S2P Require Import Prelude Json.

(** ** The interface *)

#[local] Set Warnings "-register-all".

(** What [handlebars.compile(t)(d)] does: return the output or throw. *)
Inductive outcome :=
  | Rendered (out : string)
  | Threw (e : string).

#[export] Instance outcome_eq_dec : EqDecision outcome.
Proof. solve_decision. Defined.

(** [handlebars.compile(input)(data)].  The input is whatever the
    component holds as its template: a text, or any other value the store
    gave back. *)
Class TemplateEngine := compile_value : json → json → outcome.

(** The call on a template text. *)
Definition compile `{TemplateEngine} (t : string) (d : json) : outcome :=
  compile_value (JStr t) d.

(** The message of the exception [handlebars.compile] throws for an input
    that is neither a string nor a syntax tree. *)
Definition not_a_template (input : json) : string :=
  "You must pass a string or Handlebars AST to Handlebars.compile. You passed "
    +:+ js_to_string input.

(** Does the template contain the opening marker? *)
Fixpoint has_marker (t : string) : bool :=
  match t with
  | String c (String c' _ as rest) =>
      bool_decide (c = "{"%char) && bool_decide (c' = "{"%char) || has_marker rest
  | _ => false
  end.

(** What the program relies on: a text without a marker renders to
    itself, and an input that is neither a text nor an object that says it
    is a syntax tree ([type: "Program"]) is refused. *)
Class TemplateEngineLaws `{TemplateEngine} : Prop := {
  compile_plain : ∀ t d, has_marker t = false → compile t d = Rendered t;
  compile_refused : ∀ v d,
    typeof v ≠ TString → get_field "type" v ≠ Some (JStr "Program") →
    compile_value v d = Threw (not_a_template v)
}.

(** ** An executable engine *)

(** *** Lexing: text and the content of [{{ ... }}] *)

Inductive token :=
  | TText (s : string)
  | TMustache (s : string)
  | TRaw (s : string).

(** Where the lexer is: in text, after [{{], after [{{&] or after [{{{]. *)
Inductive lex_mode := InText | InTag | InAmp | InRaw.

Definition is_open (c c' : ascii) : bool :=
  bool_decide (c = "{"%char) && bool_decide (c' = "{"%char).

Definition is_close (c c' : ascii) : bool :=
  bool_decide (c = "}"%char) && bool_decide (c' = "}"%char).

(** Pending text as a token, unless it is empty. *)
Definition text (acc : string) : list token :=
  if decide (acc = "") then [] else [TText acc].

(** [lex m acc t]: the tokens of [t], where [acc] is the text (or the
    content between braces) read so far.  [{{&] and [{{{] start an
    unescaped substitution; only three closing braces end the second.  An
    unclosed [{{] has no tokens. *)
Fixpoint lex (m : lex_mode) (acc : string) (t : string) : option (list token) :=
  match t with
  | "" => match m with InText => Some (text acc) | _ => None end
  | String c rest =>
      match rest with
      | "" => lex m (snoc acc c) rest
      | String c' rest' =>
          match m with
          | InText =>
              if is_open c c' then
                match rest' with
                | String c'' rest'' =>
                    if bool_decide (c'' = "{"%char)
                    then (text acc ++.) <$> lex InRaw "" rest''
                    else if bool_decide (c'' = "&"%char)
                    then (text acc ++.) <$> lex InAmp "" rest''
                    else (text acc ++.) <$> lex InTag "" rest'
                | "" => (text acc ++.) <$> lex InTag "" rest'
                end
              else lex InText (snoc acc c) rest
          | InTag =>
              if is_close c c' then (TMustache acc ::.) <$> lex InText "" rest'
              else lex InTag (snoc acc c) rest
          | InAmp =>
              if is_close c c' then (TRaw acc ::.) <$> lex InText "" rest'
              else lex InAmp (snoc acc c) rest
          | InRaw =>
              if is_close c c' then
                match rest' with
                | String c'' rest'' =>
                    if bool_decide (c'' = "}"%char)
                    then (TRaw acc ::.) <$> lex InText "" rest''
                    else None
                | "" => None
                end
              else lex InRaw (snoc acc c) rest
          end
      end
  end.

(** *** Parsing *)

(** [s] split at every [sep]. *)
Fixpoint split_on (sep : ascii) (acc : string) (s : string) : list string :=
  match s with
  | "" => [acc]
  | String c s =>
      if decide (c = sep) then acc :: split_on sep "" s
      else split_on sep (snoc acc c) s
  end.

(** Characters of a path segment: letters, digits, [_], [$] and [-]. *)
Definition is_ident_char (c : ascii) : bool :=
  let n := Ascii.N_of_ascii c in
  ((65 <=? n) && (n <=? 90) || (97 <=? n) && (n <=? 122) ||
   (48 <=? n) && (n <=? 57) || (n =? 95) || (n =? 36) || (n =? 45))%N.

Fixpoint is_ident (s : string) : bool :=
  match s with
  | "" => true
  | String c s => is_ident_char c && is_ident s
  end.

(** A dotted path [a.b.c]: every segment a non-empty identifier. *)
Definition parse_path (s : string) : option (list string) :=
  let segs := split_on "."%char "" s in
  if forallb (λ seg, is_ident seg && negb (bool_decide (seg = ""))) segs
  then Some segs else None.

(** The statements between braces. *)
Inductive item :=
  | IText (s : string)
  | IVar (p : list string)
  | IRaw (p : list string)
  | IOpen (p : list string)
  | IElse
  | IClose.

Definition parse_mustache (s : string) : option item :=
  match String.words s with
  | [w] =>
      if decide (w = "else") then Some IElse
      else if decide (w = "/if") then Some IClose
      else IVar <$> parse_path w
  | [w; p] => if decide (w = "#if") then IOpen <$> parse_path p else None
  | _ => None
  end.

(** The content of an unescaped substitution: one path. *)
Definition parse_raw (s : string) : option item :=
  match String.words s with
  | [w] => IRaw <$> parse_path w
  | _ => None
  end.

Definition parse_token (t : token) : option item :=
  match t with
  | TText s => Some (IText s)
  | TMustache s => parse_mustache s
  | TRaw s => parse_raw s
  end.

(** The syntax tree. *)
Inductive node :=
  | NText (s : string)
  | NVar (p : list string)
  | NRaw (p : list string)
  | NIf (p : list string) (yes no : list node).

(** An open block: its condition, the nodes before it (latest first), and
    the finished first branch once [{{else}}] was seen. *)
Definition frame : Type := list string * list node * option (list node).

(** [build its cur stk]: the tree of [its], where [cur] holds the nodes of
    the current branch, latest first, and [stk] the open blocks. *)
Fixpoint build (its : list item) (cur : list node) (stk : list frame)
    : option (list node) :=
  match its with
  | [] => match stk with [] => Some (rev cur) | _ => None end
  | IText s :: its => build its (NText s :: cur) stk
  | IVar p :: its => build its (NVar p :: cur) stk
  | IRaw p :: its => build its (NRaw p :: cur) stk
  | IOpen p :: its => build its [] ((p, cur, None) :: stk)
  | IElse :: its =>
      match stk with
      | (p, outer, None) :: stk => build its [] ((p, outer, Some (rev cur)) :: stk)
      | _ => None
      end
  | IClose :: its =>
      match stk with
      | (p, outer, None) :: stk => build its (NIf p (rev cur) [] :: outer) stk
      | (p, outer, Some yes) :: stk => build its (NIf p yes (rev cur) :: outer) stk
      | [] => None
      end
  end.

Definition parse_template (t : string) : option (list node) :=
  toks ← lex InText "" t;
  its ← mapM parse_token toks;
  build its [] [].

(** *** Evaluation *)

(** How a substituted value prints: [null] and [undefined] as nothing. *)
Definition show (x : option json) : string :=
  match x with
  | None | Some JNull => ""
  | Some v => js_to_string v
  end.

(** The characters that could start markup or end an attribute, as
    entities. *)
Definition escape_char (c : ascii) : string :=
  if decide (c = "&"%char) then "&amp;"
  else if decide (c = "<"%char) then "&lt;"
  else if decide (c = ">"%char) then "&gt;"
  else if decide (c = "034"%char) then "&quot;"
  else if decide (c = "'"%char) then "&#x27;"
  else if decide (c = "`"%char) then "&#x60;"
  else if decide (c = "="%char) then "&#x3D;"
  else String c "".

(** [Handlebars.Utils.escapeExpression] on a string. *)
Fixpoint escapeExpression (s : string) : string :=
  match s with
  | "" => ""
  | String c s => escape_char c +:+ escapeExpression s
  end.

(** The condition of [#if]: falsy values and the empty array fail it. *)
Definition if_holds (x : option json) : bool :=
  match x with
  | None => false
  | Some (JArr []) => false
  | Some v => truthy v
  end.

Fixpoint render_node (d : json) (n : node) : string :=
  let render_all := fix go (ns : list node) : string :=
    match ns with
    | [] => ""
    | n :: ns => render_node d n +:+ go ns
    end in
  match n with
  | NText s => s
  | NVar p => escapeExpression (show (get_path p d))
  | NRaw p => show (get_path p d)
  | NIf p yes no =>
      if if_holds (get_path p d) then render_all yes else render_all no
  end.

Definition render (d : json) (ns : list node) : string :=
  foldr (λ n out, render_node d n +:+ out) "" ns.

(** The engine on a text: parse, then evaluate; a template that does not
    parse throws. *)
Definition handlebars_text (t : string) (d : json) : outcome :=
  match parse_template t with
  | Some ns => Rendered (render d ns)
  | None => Threw "Parse error"
  end.

(** The engine: a text is compiled, any other input is refused (syntax
    trees as input are not modelled). *)
#[export] Instance handlebars : TemplateEngine := λ input d,
  match input with
  | JStr t => handlebars_text t d
  | _ => Threw (not_a_template input)
  end.

Lemma compile_handlebars t d : compile t d = handlebars_text t d.
Proof. done. Qed.

(** ** The engine satisfies the interface's law *)

Lemma text_nil : text "" = [].
Proof. done. Qed.

Lemma text_ne s : s ≠ "" → text s = [TText s].
Proof. intros. unfold text. by rewrite decide_False. Qed.

(** One step of the lexer on two characters, mode by mode. *)
Lemma lex_text_cons2 acc c c' t :
  lex InText acc (String c (String c' t)) =
    if is_open c c' then
      match t with
      | String c'' t' =>
          if bool_decide (c'' = "{"%char)
          then (text acc ++.) <$> lex InRaw "" t'
          else if bool_decide (c'' = "&"%char)
          then (text acc ++.) <$> lex InAmp "" t'
          else (text acc ++.) <$> lex InTag "" t
      | "" => (text acc ++.) <$> lex InTag "" t
      end
    else lex InText (snoc acc c) (String c' t).
Proof. done. Qed.

Lemma lex_amp_cons2 acc c c' t :
  lex InAmp acc (String c (String c' t)) =
    if is_close c c' then (TRaw acc ::.) <$> lex InText "" t
    else lex InAmp (snoc acc c) (String c' t).
Proof. done. Qed.

Lemma lex_tag_cons2 acc c c' t :
  lex InTag acc (String c (String c' t)) =
    if is_close c c' then (TMustache acc ::.) <$> lex InText "" t
    else lex InTag (snoc acc c) (String c' t).
Proof. done. Qed.

Lemma lex_raw_cons2 acc c c' t :
  lex InRaw acc (String c (String c' t)) =
    if is_close c c' then
      match t with
      | String c'' t' =>
          if bool_decide (c'' = "}"%char)
          then (TRaw acc ::.) <$> lex InText "" t'
          else None
      | "" => None
      end
    else lex InRaw (snoc acc c) (String c' t).
Proof. done. Qed.

Lemma is_open_l c c' : c ≠ "{"%char → is_open c c' = false.
Proof. intros. unfold is_open. by rewrite bool_decide_eq_false_2. Qed.

Lemma is_close_l c c' : c ≠ "}"%char → is_close c c' = false.
Proof. intros. unfold is_close. by rewrite bool_decide_eq_false_2. Qed.

(** Without a marker, the whole template is one piece of text. *)
Lemma lex_plain acc t :
  has_marker t = false → lex InText acc t = Some (text (acc +:+ t)).
Proof.
  revert acc. induction t as [|c t IH]; intros acc Hm.
  { by rewrite string_app_nil_r. }
  destruct t as [|c' t'].
  { reflexivity. }
  cbn [has_marker] in Hm. apply orb_false_iff in Hm as [Hcc Ht].
  rewrite lex_text_cons2. unfold is_open. rewrite Hcc. by rewrite IH, snoc_app.
Qed.

Lemma parse_template_plain t :
  has_marker t = false →
  parse_template t = Some (if decide (t = "") then [] else [NText t]).
Proof.
  intros Hm. unfold parse_template. rewrite lex_plain by done.
  rewrite string_app_nil_l. unfold text. by case_decide.
Qed.

#[export] Instance handlebars_laws : TemplateEngineLaws.
Proof.
  split.
  - intros t d Hm. rewrite compile_handlebars. unfold handlebars_text.
    rewrite parse_template_plain by done.
    case_decide; subst; simpl; by rewrite ?string_app_nil_r.
  - by intros [] d.
Qed.

(** ** Substitution

    The tokens, the tree and the output of a template with one variable
    between two pieces of text. *)

(** No character of [s] is [c]. *)
Fixpoint lacks (c : ascii) (s : string) : bool :=
  match s with
  | "" => true
  | String c' s => negb (bool_decide (c' = c)) && lacks c s
  end.

(** No character of [s] is a space. *)
Fixpoint is_word (s : string) : bool :=
  match s with
  | "" => true
  | String c s => negb (Ascii.is_space c) && is_word s
  end.

Section substitution.
Implicit Types (s t acc pre post k : string) (c : ascii) (d : json).

(** [t] does not start with [{] or [&]. *)
Definition no_brace (t : string) : bool :=
  match t with
  | String c _ => negb (bool_decide (c = "{"%char)) && negb (bool_decide (c = "&"%char))
  | "" => true
  end.

(** The lexer reads on while the character in front is not [c0]. *)
Lemma lex_skip m c0 pre acc t :
  (∀ acc c c' t', c ≠ c0 →
     lex m acc (String c (String c' t')) = lex m (snoc acc c) (String c' t')) →
  lacks c0 pre = true → t ≠ "" →
  lex m acc (pre +:+ t) = lex m (acc +:+ pre) t.
Proof.
  intros Hstep Hp Ht. revert acc. induction pre as [|c pre IH]; intros acc.
  { by rewrite string_app_nil_l, string_app_nil_r. }
  cbn [lacks] in Hp. apply andb_true_iff in Hp as [Hc Hp].
  apply negb_true_iff, bool_decide_eq_false in Hc.
  rewrite string_app_cons. specialize (IH Hp (snoc acc c)). rewrite snoc_app in IH.
  destruct (pre +:+ t) as [|c' t'] eqn:E.
  { apply string_app_eq_nil in E as [_ ?]. done. }
  by rewrite Hstep.
Qed.

Lemma lex_text_skip pre acc t :
  lacks "{" pre = true → t ≠ "" → lex InText acc (pre +:+ t) = lex InText (acc +:+ pre) t.
Proof.
  apply lex_skip. intros acc' c c' t' Hc. by rewrite lex_text_cons2, is_open_l.
Qed.

Lemma lex_tag_skip k acc t :
  lacks "}" k = true → t ≠ "" → lex InTag acc (k +:+ t) = lex InTag (acc +:+ k) t.
Proof.
  apply lex_skip. intros acc' c c' t' Hc. by rewrite lex_tag_cons2, is_close_l.
Qed.

Lemma lex_amp_skip k acc t :
  lacks "}" k = true → t ≠ "" → lex InAmp acc (k +:+ t) = lex InAmp (acc +:+ k) t.
Proof.
  apply lex_skip. intros acc' c c' t' Hc. by rewrite lex_amp_cons2, is_close_l.
Qed.

Lemma lex_raw_skip k acc t :
  lacks "}" k = true → t ≠ "" → lex InRaw acc (k +:+ t) = lex InRaw (acc +:+ k) t.
Proof.
  apply lex_skip. intros acc' c c' t' Hc. by rewrite lex_raw_cons2, is_close_l.
Qed.

(** Text up to the opening marker. *)
Lemma lex_open pre acc t :
  lacks "{" pre = true → no_brace t = true →
  lex InText acc (pre +:+ String "{" (String "{" t)) =
    (text (acc +:+ pre) ++.) <$> lex InTag "" t.
Proof.
  intros Hp Ht. rewrite lex_text_skip, lex_text_cons2 by done.
  destruct t as [|c t]; [done|]. cbn in Ht.
  apply andb_true_iff in Ht as [H1%negb_true_iff H2%negb_true_iff].
  by rewrite H1, H2.
Qed.

(** Text up to the marker [{{&]. *)
Lemma lex_open_amp pre acc t :
  lacks "{" pre = true →
  lex InText acc (pre +:+ String "{" (String "{" (String "&" t))) =
    (text (acc +:+ pre) ++.) <$> lex InAmp "" t.
Proof. intros Hp. by rewrite lex_text_skip, lex_text_cons2 by done. Qed.

(** Text up to the marker of an unescaped substitution. *)
Lemma lex_open_raw pre acc t :
  lacks "{" pre = true →
  lex InText acc (pre +:+ String "{" (String "{" (String "{" t))) =
    (text (acc +:+ pre) ++.) <$> lex InRaw "" t.
Proof. intros Hp. by rewrite lex_text_skip, lex_text_cons2 by done. Qed.

(** The content of a mustache up to the closing marker. *)
Lemma lex_close k acc t :
  lacks "}" k = true →
  lex InTag acc (k +:+ String "}" (String "}" t)) =
    (TMustache (acc +:+ k) ::.) <$> lex InText "" t.
Proof. intros Hk. by rewrite lex_tag_skip, lex_tag_cons2 by done. Qed.

Lemma lex_close_amp k acc t :
  lacks "}" k = true →
  lex InAmp acc (k +:+ String "}" (String "}" t)) =
    (TRaw (acc +:+ k) ::.) <$> lex InText "" t.
Proof. intros Hk. by rewrite lex_amp_skip, lex_amp_cons2 by done. Qed.

Lemma lex_close_raw k acc t :
  lacks "}" k = true →
  lex InRaw acc (k +:+ String "}" (String "}" (String "}" t))) =
    (TRaw (acc +:+ k) ::.) <$> lex InText "" t.
Proof. intros Hk. by rewrite lex_raw_skip, lex_raw_cons2 by done. Qed.

Lemma is_ident_char_spec c :
  is_ident_char c = true →
  Ascii.is_space c = false ∧ c ≠ "."%char ∧ c ≠ "}"%char ∧ c ≠ "{"%char ∧
  c ≠ "&"%char.
Proof. destruct c as [[] [] [] [] [] [] [] []]; by intros. Qed.

Lemma is_ident_lacks k c :
  is_ident k = true → is_ident_char c = false → lacks c k = true.
Proof.
  intros Hk Hc. induction k as [|c' k IH]; [done|].
  cbn in *. apply andb_true_iff in Hk as [Hc' Hk]. rewrite IH by done.
  rewrite bool_decide_eq_false_2; [done|]. congruence.
Qed.

Lemma rev_app_rev_app s acc acc' :
  String.rev_app (String.rev_app s acc) acc' = String.rev_app acc (s +:+ acc').
Proof.
  revert acc. induction s as [|c s IH]; intros acc; [done|].
  cbn [String.rev_app]. by rewrite IH.
Qed.

(** A string without spaces is one word. *)
Lemma words_go_word k cur :
  is_word k = true →
  String.words_go (Some cur) k = [String.rev (String.rev_app k cur)].
Proof.
  revert cur. induction k as [|c k IH]; intros cur Hk; [done|].
  cbn in Hk. apply andb_true_iff in Hk as [Hc%negb_true_iff Hk].
  cbn [String.words_go]. rewrite Hc. cbn. by rewrite IH.
Qed.

Lemma words_word k : is_word k = true → k ≠ "" → String.words k = [k].
Proof.
  intros Hk Hne. destruct k as [|c k]; [done|].
  cbn in Hk. apply andb_true_iff in Hk as [Hc%negb_true_iff Hk].
  unfold String.words. cbn [String.words_go]. rewrite Hc. cbn.
  rewrite words_go_word by done. unfold String.rev.
  by rewrite rev_app_rev_app, string_app_nil_r.
Qed.

Lemma is_ident_word k : is_ident k = true → is_word k = true.
Proof.
  induction k as [|c k IH]; [done|]. cbn. intros [Hc Hk]%andb_true_iff.
  apply is_ident_char_spec in Hc as (-> & _). by rewrite IH.
Qed.

Lemma words_ident k : is_ident k = true → k ≠ "" → String.words k = [k].
Proof. intros Hk. by apply words_word, is_ident_word. Qed.

Lemma split_on_lacks sep acc s :
  lacks sep s = true → split_on sep acc s = [acc +:+ s].
Proof.
  revert acc. induction s as [|c s IH]; intros acc Hs; cbn.
  { by rewrite string_app_nil_r. }
  cbn in Hs. apply andb_true_iff in Hs as [Hc Hs].
  apply negb_true_iff, bool_decide_eq_false in Hc.
  rewrite decide_False by done. by rewrite IH, snoc_app.
Qed.

Lemma parse_path_ident k :
  is_ident k = true → k ≠ "" → parse_path k = Some [k].
Proof.
  intros Hk Hne. unfold parse_path.
  rewrite split_on_lacks, string_app_nil_l by by apply is_ident_lacks.
  cbn. rewrite Hk. by rewrite bool_decide_eq_false_2.
Qed.

Lemma no_brace_app k t : k ≠ "" → no_brace k = true → no_brace (k +:+ t) = true.
Proof. by destruct k. Qed.

Lemma is_ident_no_brace k : is_ident k = true → no_brace k = true.
Proof.
  destruct k as [|c k]; [done|]. cbn. intros [Hc _]%andb_true_iff.
  apply is_ident_char_spec in Hc as (_ & _ & _ & H1 & H2).
  by rewrite !bool_decide_eq_false_2.
Qed.

(** A variable between braces. *)
Lemma parse_mustache_ident k :
  is_ident k = true → k ≠ "" → k ≠ "else" →
  parse_mustache k = Some (IVar [k]).
Proof.
  intros Hk Hne Helse. unfold parse_mustache. rewrite words_ident by done.
  rewrite decide_False by done.
  rewrite decide_False by (intros ->; done).
  by rewrite parse_path_ident.
Qed.

(** The nodes of a piece of text. *)
Definition text_nodes (s : string) : list node :=
  if decide (s = "") then [] else [NText s].

Lemma render_text_nodes d s out :
  foldr (λ n out, render_node d n +:+ out) out (text_nodes s) = s +:+ out.
Proof. unfold text_nodes. case_decide; by subst. Qed.

(** The tree of a template with one variable. *)
Lemma parse_template_var pre k post :
  lacks "{" pre = true → is_ident k = true → k ≠ "" → k ≠ "else" →
  has_marker post = false →
  parse_template (pre +:+ "{{" +:+ k +:+ "}}" +:+ post) =
    Some (text_nodes pre ++ NVar [k] :: text_nodes post).
Proof.
  intros Hpre Hk Hne Helse Hpost. unfold parse_template.
  rewrite !string_app_cons, !string_app_nil_l.
  rewrite lex_open, lex_close, lex_plain, !string_app_nil_l
    by (done || (by apply is_ident_lacks) || by apply no_brace_app, is_ident_no_brace).
  unfold text, text_nodes. cbn.
  repeat case_decide; cbn; rewrite parse_mustache_ident by done; by cbn.
Qed.

Lemma get_path_singleton k d : get_path [k] d = get_field k d.
Proof. cbn. by destruct (get_field k d). Qed.

(** The engine on a template with one variable: the text around it and the
    field of the data as JavaScript prints it, escaped. *)
Lemma compile_var pre k post d :
  lacks "{" pre = true → is_ident k = true → k ≠ "" → k ≠ "else" →
  has_marker post = false →
  compile (pre +:+ "{{" +:+ k +:+ "}}" +:+ post) d =
    Rendered (pre +:+ escapeExpression (show (get_field k d)) +:+ post).
Proof.
  intros. rewrite compile_handlebars. unfold handlebars_text. rewrite parse_template_var by done.
  f_equal. unfold render. rewrite foldr_app. cbn [foldr].
  rewrite !render_text_nodes, string_app_nil_r.
  cbn [render_node]. by rewrite get_path_singleton.
Qed.

(** *** A conditional block *)

Lemma words_if k :
  is_word k = true → k ≠ "" → String.words ("#if " +:+ k) = ["#if"; k].
Proof.
  intros Hk Hne. pose proof (words_word k Hk Hne) as Hw.
  unfold String.words in *. rewrite !string_app_cons, string_app_nil_l.
  cbn. by rewrite Hw.
Qed.

Lemma parse_mustache_if k :
  is_ident k = true → k ≠ "" → parse_mustache ("#if " +:+ k) = Some (IOpen [k]).
Proof.
  intros Hk Hne. unfold parse_mustache.
  rewrite words_if by (done || by apply is_ident_word).
  rewrite decide_True by done. by rewrite parse_path_ident.
Qed.

Lemma lacks_app c s1 s2 :
  lacks c (s1 +:+ s2) = lacks c s1 && lacks c s2.
Proof.
  induction s1 as [|c' s1 IH]; [done|]. rewrite string_app_cons. cbn.
  by rewrite IH, andb_assoc.
Qed.

(** The tree of a template with one block without [{{else}}]. *)
Lemma parse_template_if pre k body post :
  lacks "{" pre = true → is_ident k = true → k ≠ "" →
  lacks "{" body = true → has_marker post = false →
  parse_template (pre +:+ "{{#if " +:+ k +:+ "}}" +:+ body +:+ "{{/if}}" +:+ post) =
    Some (text_nodes pre ++ NIf [k] (text_nodes body) [] :: text_nodes post).
Proof.
  intros Hpre Hk Hne Hbody Hpost. unfold parse_template.
  replace (pre +:+ "{{#if " +:+ k +:+ "}}" +:+ body +:+ "{{/if}}" +:+ post)
    with (pre +:+ String "{" (String "{" (("#if " +:+ k) +:+
            String "}" (String "}" (body +:+ String "{" (String "{"
              ("/if" +:+ String "}" (String "}" post))))))))
    by (by rewrite !string_app_assoc, ?string_app_cons, ?string_app_nil_l).
  rewrite lex_open by done.
  rewrite lex_close by (rewrite lacks_app; by rewrite (is_ident_lacks k)).
  rewrite lex_open, lex_close, lex_plain, !string_app_nil_l by done.
  unfold text, text_nodes. cbn.
  repeat case_decide; cbn; rewrite parse_mustache_if by done; by cbn.
Qed.

Lemma render_all_text_nodes d s :
  (fix go (ns : list node) : string :=
     match ns with
     | [] => ""
     | n :: ns => render_node d n +:+ go ns
     end) (text_nodes s) = s.
Proof. unfold text_nodes. case_decide; subst; [done|]. cbn. apply string_app_nil_r. Qed.

(** The engine on a conditional block: the body when the field holds,
    nothing otherwise. *)
Lemma compile_if pre k body post d :
  lacks "{" pre = true → is_ident k = true → k ≠ "" →
  lacks "{" body = true → has_marker post = false →
  compile (pre +:+ "{{#if " +:+ k +:+ "}}" +:+ body +:+ "{{/if}}" +:+ post) d =
    Rendered (pre +:+ (if if_holds (get_field k d) then body else "") +:+ post).
Proof.
  intros. rewrite compile_handlebars. unfold handlebars_text. rewrite parse_template_if by done.
  f_equal. unfold render. rewrite foldr_app. cbn [foldr].
  rewrite !render_text_nodes, string_app_nil_r.
  cbn [render_node]. rewrite get_path_singleton.
  destruct (if_holds _); [by rewrite render_all_text_nodes|done].
Qed.

End substitution.
