(* ===== verification/TemplateLaws.v ===== *)
(** * TemplateLaws: what the engine of [Template] guarantees

    Two results on [handlebars], for every template and every data.

    - Escaping ([compile_adds_no_markup]): in a template without the
      unescaped forms [{{{ }}}] and [{{& }}], the characters that delimit
      markup and attribute values ([escaped]) occur in the output at most
      as often as in the template.  Whatever the data holds, it cannot put
      an element or an attribute into the page.  The proof follows a
      character through the engine: the lexer keeps every character that
      is not a brace ([lex_count]), the parser moves the texts into the
      tree ([build_count]), and evaluation emits texts of the tree and
      escaped values ([render_count]).

    - Printing and parsing ([parse_print]): a syntax tree in normal form
      ([nodes_ok]) is the parse of its printed form, so the engine run on
      a printed tree evaluates the tree ([compile_print]). *)

From S2P Require Import Prelude Json Template.

(** ** Definitions *)

(** Occurrences of [c] in [s]. *)
Fixpoint occurs (c : ascii) (s : string) : nat :=
  match s with
  | "" => 0
  | String c' s => (if decide (c' = c) then 1 else 0) + occurs c s
  end.

(** The characters [escapeExpression] replaces, [&] apart (the entities
    themselves start with it). *)
Definition escaped (c : ascii) : bool :=
  bool_decide (c ∈ ["<"; ">"; "034"; "'"; "`"; "="]%char).

(** Does the template contain [{{{] or [{{&]? *)
Fixpoint has_raw_marker (t : string) : bool :=
  match t with
  | String c (String c' (String c'' _) as rest) =>
      is_open c c' && (bool_decide (c'' = "{"%char) || bool_decide (c'' = "&"%char))
      || has_raw_marker rest
  | _ => false
  end.

(** The lexer as a relation: [lexes m acc t toks] when [toks] can be read
    off [t] in mode [m] with [acc] pending.  It has one rule for each thing
    the lexer does, without the lexer's priorities. *)
Inductive lexes : lex_mode → string → string → list token → Prop :=
  | lexes_end acc : lexes InText acc "" (text acc)
  | lexes_char m acc c t toks :
      lexes m (snoc acc c) t toks → lexes m acc (String c t) toks
  | lexes_open acc t toks :
      lexes InTag "" t toks →
      lexes InText acc (String "{" (String "{" t)) (text acc ++ toks)
  | lexes_open_amp acc t toks :
      lexes InAmp "" t toks →
      lexes InText acc (String "{" (String "{" (String "&" t))) (text acc ++ toks)
  | lexes_open_raw acc t toks :
      lexes InRaw "" t toks →
      lexes InText acc (String "{" (String "{" (String "{" t))) (text acc ++ toks)
  | lexes_close acc t toks :
      lexes InText "" t toks →
      lexes InTag acc (String "}" (String "}" t)) (TMustache acc :: toks)
  | lexes_close_amp acc t toks :
      lexes InText "" t toks →
      lexes InAmp acc (String "}" (String "}" t)) (TRaw acc :: toks)
  | lexes_close_raw acc t toks :
      lexes InText "" t toks →
      lexes InRaw acc (String "}" (String "}" (String "}" t))) (TRaw acc :: toks).

Definition token_text (t : token) : string :=
  match t with TText s | TMustache s | TRaw s => s end.

Definition is_raw_token (t : token) : bool :=
  match t with TRaw _ => true | _ => false end.

Definition item_count (c : ascii) (it : item) : nat :=
  match it with IText s => occurs c s | _ => 0 end.

Definition is_raw_item (it : item) : bool :=
  match it with IRaw _ => true | _ => false end.

(** Occurrences of [c] in the texts of a tree. *)
Fixpoint node_count (c : ascii) (n : node) : nat :=
  match n with
  | NText s => occurs c s
  | NVar _ | NRaw _ => 0
  | NIf _ yes no => sum_list_with (node_count c) yes + sum_list_with (node_count c) no
  end.

(** No unescaped substitution in the tree. *)
Fixpoint raw_free (n : node) : bool :=
  match n with
  | NText _ | NVar _ => true
  | NRaw _ => false
  | NIf _ yes no => forallb raw_free yes && forallb raw_free no
  end.

Definition frame_count (c : ascii) (f : frame) : nat :=
  sum_list_with (node_count c) f.1.2 +
  from_option (sum_list_with (node_count c)) 0 f.2.

Definition frame_raw_free (f : frame) : bool :=
  forallb raw_free f.1.2 && from_option (forallb raw_free) true f.2.

(** *** Printing *)

(** A path with its dots. *)
Fixpoint print_path (p : list string) : string :=
  match p with
  | [] => ""
  | [k] => k
  | k :: p => k +:+ "." +:+ print_path p
  end.

Definition print_item (it : item) : string :=
  match it with
  | IText s => s
  | IVar p => "{{" +:+ print_path p +:+ "}}"
  | IRaw p => "{{{" +:+ print_path p +:+ "}}}"
  | IOpen p => "{{#if " +:+ print_path p +:+ "}}"
  | IElse => "{{else}}"
  | IClose => "{{/if}}"
  end.

Definition print_items (its : list item) : string :=
  foldr (λ it s, print_item it +:+ s) "" its.

(** The statements of a tree, in order; an empty second branch is printed
    without [{{else}}]. *)
Fixpoint items_of (n : node) : list item :=
  match n with
  | NText s => [IText s]
  | NVar p => [IVar p]
  | NRaw p => [IRaw p]
  | NIf p yes no =>
      IOpen p :: flat_map items_of yes ++
      match no with
      | [] => []
      | _ => IElse :: flat_map items_of no
      end ++ [IClose]
  end.

Definition print_template (ns : list node) : string := print_items (flat_map items_of ns).

(** The token the lexer makes of a printed statement. *)
Definition token_of (it : item) : token :=
  match it with
  | IText s => TText s
  | IVar p => TMustache (print_path p)
  | IRaw p => TRaw (print_path p)
  | IOpen p => TMustache ("#if " +:+ print_path p)
  | IElse => TMustache "else"
  | IClose => TMustache "/if"
  end.

(** *** Normal forms *)

(** A path has a segment, and every segment is a non-empty identifier. *)
Definition path_ok (p : list string) : bool :=
  negb (bool_decide (p = [])) &&
  forallb (λ k, is_ident k && negb (bool_decide (k = ""))) p.

(** A statement that prints as itself: a text is not empty and has no
    brace; a variable is not the keyword [else]. *)
Definition item_ok (it : item) : bool :=
  match it with
  | IText s => negb (bool_decide (s = "")) && lacks "{" s
  | IVar p => path_ok p && negb (bool_decide (p = ["else"]))
  | IRaw p | IOpen p => path_ok p
  | IElse | IClose => true
  end.

Definition is_text (it : item) : bool :=
  match it with IText _ => true | _ => false end.

(** No two texts in a row: the lexer would read them as one. *)
Fixpoint separated (its : list item) : bool :=
  match its with
  | it :: (it' :: _) as rest => negb (is_text it && is_text it') && separated rest
  | _ => true
  end.

(** Trees in normal form. *)
Definition nodes_ok (ns : list node) : bool :=
  forallb item_ok (flat_map items_of ns) && separated (flat_map items_of ns).

(** ** Induction principles *)

(** Induction on trees with hypotheses for the branches of a block. *)
Section node_ind.
Context (P : node → Prop).
Context (Htext : ∀ s, P (NText s)) (Hvar : ∀ p, P (NVar p)) (Hraw : ∀ p, P (NRaw p)).
Context (Hif : ∀ p yes no, Forall P yes → Forall P no → P (NIf p yes no)).

Definition node_ind' : ∀ n, P n :=
  fix go n :=
    let gos := fix gos ns : Forall P ns :=
      match ns with
      | [] => Forall_nil_2 P
      | n :: ns => Forall_cons_2 P n ns (go n) (gos ns)
      end in
    match n with
    | NText s => Htext s
    | NVar p => Hvar p
    | NRaw p => Hraw p
    | NIf p yes no => Hif p yes no (gos yes) (gos no)
    end.
End node_ind.

(** Induction on the length of a string: the lexer consumes up to three
    characters in a step. *)
Lemma string_length_ind (P : string → Prop) :
  (∀ t, (∀ t', String.length t' < String.length t → P t') → P t) → ∀ t, P t.
Proof.
  intros Hstep t. remember (String.length t) as n eqn:Hn.
  revert t Hn. induction (lt_wf n) as [n _ IH]. intros t ->.
  apply Hstep. intros t' Hlt. by apply (IH _ Hlt).
Qed.

(** ** Counting *)

Section counting.
Implicit Types (c : ascii) (s t acc : string) (d : json) (m : lex_mode).
Implicit Types (toks : list token) (its : list item) (ns cur : list node).

Lemma occurs_app c s1 s2 : occurs c (s1 +:+ s2) = occurs c s1 + occurs c s2.
Proof.
  induction s1 as [|c' s1 IH]; [done|]. rewrite string_app_cons. cbn. rewrite IH. lia.
Qed.

Lemma occurs_snoc c acc c' :
  occurs c (snoc acc c') = occurs c acc + (if decide (c' = c) then 1 else 0).
Proof. unfold snoc. rewrite occurs_app. cbn. lia. Qed.

Lemma occurs_text c acc : sum_list_with (occurs c ∘ token_text) (text acc) = occurs c acc.
Proof. unfold text. case_decide; subst; cbn; lia. Qed.

Lemma sum_list_with_rev {A} (f : A → nat) (l : list A) :
  sum_list_with f (rev l) = sum_list_with f l.
Proof.
  induction l as [|x l IH]; [done|]. cbn. rewrite sum_list_with_app, IH. cbn. lia.
Qed.

(** An escaped character does not occur in the entity of any character. *)
Lemma occurs_escape_char c c' : escaped c = true → occurs c (escape_char c') = 0.
Proof.
  unfold escaped. intros Hc%bool_decide_eq_true. unfold escape_char.
  repeat case_decide; subst; set_unfold;
    destruct Hc as [->|[->|[->|[->|[->|[->|[]]]]]]]; try done;
    cbn; by rewrite decide_False.
Qed.

Lemma occurs_escapeExpression c s : escaped c = true → occurs c (escapeExpression s) = 0.
Proof.
  intros Hc. induction s as [|c' s IH]; [done|].
  cbn. by rewrite occurs_app, occurs_escape_char, IH.
Qed.

(** *** The lexer *)

Lemma lex_lexes m acc t toks : lex m acc t = Some toks → lexes m acc t toks.
Proof.
  revert m acc toks. induction t as [t IH] using string_length_ind.
  intros m acc toks. destruct t as [|c1 [|c2 t]].
  - destruct m; intros [= <-]. constructor.
  - intros Hl. apply lexes_char, IH; [cbn; lia|done].
  - assert (∀ m' f t', String.length t' ≤ String.length t →
      f <$> lex m' "" t' = Some toks → ∃ toks', toks = f toks' ∧ lexes m' "" t' toks')
      as Hnext.
    { intros m' f t' Hlen (toks' & Hl & ->)%fmap_Some.
      exists toks'. split; [done|]. apply IH; [cbn; lia|done]. }
    assert (lex m (snoc acc c1) (String c2 t) = Some toks →
            lexes m acc (String c1 (String c2 t)) toks) as Hskip.
    { intros Hl. apply lexes_char, IH; [cbn; lia|done]. }
    destruct m.
    + rewrite lex_text_cons2. destruct (is_open c1 c2) eqn:Hop; [|done].
      apply andb_true_iff in Hop as [->%bool_decide_eq_true ->%bool_decide_eq_true].
      destruct t as [|c3 t'].
      { intros (? & -> & ?)%Hnext; [by constructor|done]. }
      repeat case_bool_decide; subst;
        (intros (? & -> & ?)%Hnext; [by constructor|cbn; lia]).
    + rewrite lex_tag_cons2. destruct (is_close c1 c2) eqn:Hcl; [|done].
      apply andb_true_iff in Hcl as [->%bool_decide_eq_true ->%bool_decide_eq_true].
      intros (? & -> & ?)%Hnext; [by constructor|done].
    + rewrite lex_amp_cons2. destruct (is_close c1 c2) eqn:Hcl; [|done].
      apply andb_true_iff in Hcl as [->%bool_decide_eq_true ->%bool_decide_eq_true].
      intros (? & -> & ?)%Hnext; [by constructor|done].
    + rewrite lex_raw_cons2. destruct (is_close c1 c2) eqn:Hcl; [|done].
      apply andb_true_iff in Hcl as [->%bool_decide_eq_true ->%bool_decide_eq_true].
      destruct t as [|c3 t']; [done|]. case_bool_decide; [subst|done].
      intros (? & -> & ?)%Hnext; [by constructor|cbn; lia].
Qed.

(** The lexer keeps every character that is not a brace or [&]. *)
Lemma lexes_count c m acc t toks :
  c ≠ "{"%char → c ≠ "}"%char → c ≠ "&"%char →
  lexes m acc t toks →
  sum_list_with (occurs c ∘ token_text) toks = occurs c acc + occurs c t.
Proof.
  intros Ho Hc Ha.
  induction 1 as [acc|m acc c' t toks _ IH|acc t toks _ IH|acc t toks _ IH|
                  acc t toks _ IH|acc t toks _ IH|acc t toks _ IH|acc t toks _ IH];
    rewrite ?sum_list_with_app, ?occurs_text; cbn;
    rewrite ?decide_False by done; rewrite ?IH, ?occurs_snoc; cbn; lia.
Qed.

Lemma text_not_raw acc : Forall (λ tok, is_raw_token tok = false) (text acc).
Proof. unfold text. case_decide; by repeat constructor. Qed.

Lemma has_raw_marker_tail c t : has_raw_marker (String c t) = false → has_raw_marker t = false.
Proof. destruct t as [|c' [|c'' t]]; [done..|]. by intros [_ ?]%orb_false_iff. Qed.

(** Without [{{{] and [{{&] in the template no token is an unescaped
    substitution. *)
Lemma lexes_raw_free m acc t toks :
  lexes m acc t toks → m = InText ∨ m = InTag → has_raw_marker t = false →
  Forall (λ tok, is_raw_token tok = false) toks.
Proof.
  induction 1 as [acc|m acc c' t toks _ IH|acc t toks _ IH| | |acc t toks _ IH| |];
    intros Hm Ht; try (by destruct Hm); try done.
  - apply text_not_raw.
  - by eapply IH, has_raw_marker_tail.
  - apply Forall_app. split; [apply text_not_raw|].
    apply IH; [by right|]. by do 2 apply has_raw_marker_tail in Ht.
  - constructor; [done|]. apply IH; [by left|]. by do 2 apply has_raw_marker_tail in Ht.
Qed.

(** *** The parser *)

(** What stands between braces never becomes text, and only the tokens of
    the unescaped forms become unescaped substitutions. *)
Lemma parse_mustache_item s it :
  parse_mustache s = Some it → (∀ c, item_count c it = 0) ∧ is_raw_item it = false.
Proof.
  unfold parse_mustache. intros Hp.
  repeat (case_match || case_decide); simplify_option_eq; done.
Qed.

Lemma parse_token_item c tok it :
  parse_token tok = Some it →
  item_count c it ≤ occurs c (token_text tok) ∧
  (is_raw_token tok = false → is_raw_item it = false).
Proof.
  destruct tok as [s|s|s]; cbn.
  - by intros [= <-].
  - intros [Hc Hr]%parse_mustache_item. rewrite Hc. split; [lia|done].
  - unfold parse_raw. intros Hp. repeat case_match; simplify_option_eq; try done.
    split; [cbn; lia|done].
Qed.

Lemma parse_tokens_count c toks its :
  mapM parse_token toks = Some its →
  sum_list_with (item_count c) its ≤ sum_list_with (occurs c ∘ token_text) toks.
Proof.
  intros Hm%mapM_Some_1. induction Hm as [|tok it toks its Hp _ IH]; [done|].
  apply (parse_token_item c) in Hp as [Hp _]. cbn in *. lia.
Qed.

Lemma parse_tokens_raw_free toks its :
  mapM parse_token toks = Some its →
  Forall (λ tok, is_raw_token tok = false) toks →
  Forall (λ it, is_raw_item it = false) its.
Proof.
  intros Hm%mapM_Some_1. induction Hm as [|tok it toks its Hp _ IH]; [done|].
  intros [Ht Hts]%Forall_cons_1. constructor; [|by apply IH].
  by apply (parse_token_item "<") in Hp as [_ Hp]; apply Hp.
Qed.

(** Building the tree moves every text of the items into the tree. *)
Lemma build_count c its cur stk ns :
  build its cur stk = Some ns →
  sum_list_with (node_count c) ns =
    sum_list_with (item_count c) its + sum_list_with (node_count c) cur +
    sum_list_with (frame_count c) stk.
Proof.
  revert cur stk. induction its as [|it its IH]; intros cur stk.
  { destruct stk; [|done]. intros [= <-]. rewrite sum_list_with_rev. cbn. lia. }
  destruct it; cbn [build];
    try (intros ->%IH; cbn; unfold frame_count; cbn; lia);
    destruct stk as [|[[q outer] [yes|]] stk]; try done;
    intros ->%IH; cbn; unfold frame_count; cbn; rewrite ?sum_list_with_rev; lia.
Qed.

Lemma forallb_rev {A} (f : A → bool) (l : list A) : forallb f (rev l) = forallb f l.
Proof.
  induction l as [|x l IH]; [done|]. cbn. rewrite forallb_app, IH. cbn.
  by rewrite andb_true_r, andb_comm.
Qed.

(** And it makes an unescaped substitution only from an item that is
    one. *)
Lemma build_raw_free its cur stk ns :
  Forall (λ it, is_raw_item it = false) its →
  forallb raw_free cur = true → forallb frame_raw_free stk = true →
  build its cur stk = Some ns → forallb raw_free ns = true.
Proof.
  intros Hits. revert cur stk.
  induction Hits as [|it its Hit _ IH]; intros cur stk Hcur Hstk.
  { destruct stk; [|done]. intros [= <-]. by rewrite forallb_rev. }
  destruct it; try done; cbn [build];
    try (apply IH; cbn; by rewrite ?Hcur, ?Hstk);
    destruct stk as [|[[q outer] [yes|]] stk]; try done;
    cbn in Hstk; unfold frame_raw_free in Hstk; cbn in Hstk;
    repeat (apply andb_true_iff in Hstk as [Hstk ?]); try done;
    apply IH; cbn; unfold frame_raw_free; cbn;
    rewrite ?forallb_rev; repeat (apply andb_true_iff; split); done.
Qed.

(** *** Evaluation *)

Lemma render_cons d n ns : render d (n :: ns) = render_node d n +:+ render d ns.
Proof. done. Qed.

(** The branches of a block are evaluated as templates are. *)
Lemma render_node_if d p yes no :
  render_node d (NIf p yes no) =
    if if_holds (get_path p d) then render d yes else render d no.
Proof.
  cbn [render_node]. destruct (if_holds _).
  - induction yes as [|n yes IH]; [done|]. by rewrite render_cons, <-IH.
  - induction no as [|n no IH]; [done|]. by rewrite render_cons, <-IH.
Qed.

(** Evaluation emits texts of the tree and escaped values. *)
Lemma render_count_all c d ns :
  Forall (λ n, raw_free n = true → occurs c (render_node d n) ≤ node_count c n) ns →
  forallb raw_free ns = true →
  occurs c (render d ns) ≤ sum_list_with (node_count c) ns.
Proof.
  induction 1 as [|n ns Hn _ IH]; [done|]. cbn [forallb].
  intros [? ?]%andb_true_iff. rewrite render_cons, occurs_app. cbn.
  specialize (Hn ltac:(done)). specialize (IH ltac:(done)). lia.
Qed.

Lemma render_node_count c d n :
  escaped c = true → raw_free n = true → occurs c (render_node d n) ≤ node_count c n.
Proof.
  intros Hc. induction n as [s|p|p|p yes no IHy IHn] using node_ind'; intros Hn.
  - done.
  - cbn. by rewrite occurs_escapeExpression.
  - done.
  - cbn [raw_free] in Hn. apply andb_true_iff in Hn as [Hy Hn].
    rewrite render_node_if. cbn [node_count].
    apply render_count_all in IHy, IHn; [|done..].
    destruct (if_holds _); lia.
Qed.

Lemma render_count c d ns :
  escaped c = true → forallb raw_free ns = true →
  occurs c (render d ns) ≤ sum_list_with (node_count c) ns.
Proof.
  intros Hc. apply render_count_all, Forall_forall. intros n _.
  by apply render_node_count.
Qed.

Lemma escaped_not_brace c :
  escaped c = true → c ≠ "{"%char ∧ c ≠ "}"%char ∧ c ≠ "&"%char.
Proof.
  unfold escaped. intros Hc%bool_decide_eq_true. set_unfold.
  destruct Hc as [->|[->|[->|[->|[->|[->|[]]]]]]]; done.
Qed.

(** The stages of [parse_template]. *)
Lemma parse_template_Some t ns :
  parse_template t = Some ns →
  ∃ toks its, lex InText "" t = Some toks ∧ mapM parse_token toks = Some its ∧
              build its [] [] = Some ns.
Proof.
  unfold parse_template. intros Hp.
  destruct (lex InText "" t) as [toks|]; [|done]. cbn in Hp.
  destruct (mapM parse_token toks) as [its|] eqn:Hm; [|done]. by exists toks, its.
Qed.

(** The texts of the tree are texts of the template. *)
Lemma parse_template_count c t ns :
  escaped c = true → parse_template t = Some ns →
  sum_list_with (node_count c) ns ≤ occurs c t.
Proof.
  intros (Ho & Hc & Ha)%escaped_not_brace (toks & its & Hl & Hm & Hb)%parse_template_Some.
  apply lex_lexes, (lexes_count c) in Hl; [|done..].
  apply (parse_tokens_count c) in Hm. apply (build_count c) in Hb.
  cbn in *. lia.
Qed.

Lemma parse_template_raw_free t ns :
  has_raw_marker t = false → parse_template t = Some ns → forallb raw_free ns = true.
Proof.
  intros Ht (toks & its & Hl & Hm & Hb)%parse_template_Some.
  apply lex_lexes in Hl.
  pose proof (lexes_raw_free _ _ _ _ Hl (or_introl eq_refl) Ht) as Hr.
  apply (build_raw_free its [] [] ns); [by eapply parse_tokens_raw_free|done..].
Qed.

End counting.

(** ** Escaping *)

(** Data adds no markup.  In a template without [{{{] and [{{&], a
    character that delimits markup or an attribute value occurs in the
    output at most as often as in the template, whatever the data. *)
Theorem compile_adds_no_markup c t d out :
  escaped c = true → has_raw_marker t = false →
  compile t d = Rendered out → occurs c out ≤ occurs c t.
Proof.
  intros Hc Ht. rewrite compile_handlebars. unfold handlebars_text.
  destruct (parse_template t) as [ns|] eqn:Hp; [|done]. intros [= <-].
  pose proof (parse_template_count c t ns Hc Hp).
  pose proof (render_count c d ns Hc (parse_template_raw_free t ns Ht Hp)). lia.
Qed.

(** ** Printing and parsing *)

Section printing.
Implicit Types (c : ascii) (s t k acc : string) (p : list string) (d : json).
Implicit Types (it : item) (its : list item) (ns cur : list node).

(** *** Paths *)

Lemma print_path_cons k p :
  p ≠ [] → print_path (k :: p) = k +:+ String "." (print_path p).
Proof. by destruct p. Qed.

Lemma path_ok_cons k p :
  path_ok (k :: p) = true →
  is_ident k = true ∧ k ≠ "" ∧ (p = [] ∨ path_ok p = true).
Proof.
  unfold path_ok. cbn. intros [[Hk Hne%negb_true_iff]%andb_true_iff Hp]%andb_true_iff.
  apply bool_decide_eq_false in Hne. split_and!; [done..|].
  destruct p; [by left|right]. by rewrite Hp.
Qed.

(** Induction on the segments of a path. *)
Lemma path_ok_ind (P : list string → Prop) :
  (∀ k, is_ident k = true → k ≠ "" → P [k]) →
  (∀ k p, is_ident k = true → k ≠ "" → path_ok p = true → P p → P (k :: p)) →
  ∀ p, path_ok p = true → P p.
Proof.
  intros H1 Hcons p. induction p as [|k p IH]; [done|].
  intros (Hk & Hne & [->|Hp])%path_ok_cons; [by apply H1|].
  apply Hcons; auto.
Qed.

Lemma path_ok_ne p : path_ok p = true → p ≠ [].
Proof. by destruct p. Qed.

(** A printed path starts with a character of an identifier. *)
Lemma print_path_head p :
  path_ok p = true → ∃ c s, print_path p = String c s ∧ is_ident_char c = true.
Proof.
  destruct p as [|k p]; [done|]. intros (Hk & Hne & _)%path_ok_cons.
  destruct k as [|c k]; [done|]. cbn in Hk. apply andb_true_iff in Hk as [Hc _].
  destruct p; [by exists c, k|]. rewrite print_path_cons by done.
  rewrite string_app_cons. by eexists _, _.
Qed.

Lemma print_path_ne p : path_ok p = true → print_path p ≠ "".
Proof. by intros (c & s & -> & _)%print_path_head. Qed.

Lemma print_path_no_brace p : path_ok p = true → no_brace (print_path p) = true.
Proof.
  intros (c & s & -> & Hc)%print_path_head. cbn.
  apply is_ident_char_spec in Hc as (_ & _ & _ & H1 & H2).
  by rewrite !bool_decide_eq_false_2.
Qed.

Lemma print_path_lacks c p :
  is_ident_char c = false → c ≠ "."%char → path_ok p = true →
  lacks c (print_path p) = true.
Proof.
  intros Hc Hdot. revert p. apply path_ok_ind; [intros k Hk _|intros k p Hk _ Hp IH].
  - by apply is_ident_lacks.
  - rewrite print_path_cons by by apply path_ok_ne.
    rewrite lacks_app, is_ident_lacks by done. cbn.
    by rewrite bool_decide_eq_false_2, IH by done.
Qed.

Lemma print_path_word p : path_ok p = true → is_word (print_path p) = true.
Proof.
  revert p. apply path_ok_ind; [intros k Hk _|intros k p Hk _ Hp IH].
  - by apply is_ident_word.
  - rewrite print_path_cons by by apply path_ok_ne.
    clear Hp. induction k as [|c k IHk]; [done|].
    cbn in Hk. apply andb_true_iff in Hk as [Hc Hk].
    apply is_ident_char_spec in Hc as (Hc & _).
    rewrite string_app_cons. cbn. by rewrite Hc, IHk.
Qed.

(** Splitting at the separator. *)
Lemma split_on_sep sep acc k t :
  lacks sep k = true →
  split_on sep acc (k +:+ String sep t) = (acc +:+ k) :: split_on sep "" t.
Proof.
  revert acc. induction k as [|c k IH]; intros acc Hk.
  { rewrite string_app_nil_l, string_app_nil_r. cbn. by rewrite decide_True. }
  cbn in Hk. apply andb_true_iff in Hk as [Hc%negb_true_iff%bool_decide_eq_false Hk].
  rewrite string_app_cons. cbn. rewrite decide_False by done.
  by rewrite IH, snoc_app.
Qed.

Lemma split_on_print_path p : path_ok p = true → split_on "." "" (print_path p) = p.
Proof.
  revert p. apply path_ok_ind; [intros k Hk _|intros k p Hk _ Hp IH].
  - rewrite split_on_lacks by by apply is_ident_lacks. by rewrite string_app_nil_l.
  - rewrite print_path_cons by by apply path_ok_ne.
    rewrite split_on_sep by by apply is_ident_lacks. by rewrite string_app_nil_l, IH.
Qed.

(** A printed path parses to the path. *)
Lemma parse_path_print p : path_ok p = true → parse_path (print_path p) = Some p.
Proof.
  intros Hp. unfold parse_path. rewrite split_on_print_path by done.
  unfold path_ok in Hp. apply andb_true_iff in Hp as [_ ->]. done.
Qed.

(** The only path that prints as [else] is the keyword. *)
Lemma print_path_else p : path_ok p = true → print_path p = "else" → p = ["else"].
Proof.
  destruct p as [|k [|k' p]]; [done|by cbn; intros _ ->|].
  intros (Hk & _ & _)%path_ok_cons. rewrite print_path_cons by done. intros He.
  assert (lacks "." (k +:+ String "." (print_path (k' :: p))) = true) as Hl
    by by rewrite He.
  rewrite lacks_app in Hl. cbn in Hl. by rewrite andb_false_r in Hl.
Qed.

(** *** Statements *)

Lemma print_path_not_close p : path_ok p = true → print_path p ≠ "/if".
Proof. intros (c & s & -> & Hc)%print_path_head [= -> _]. done. Qed.

(** What the lexer makes of a printed statement parses to the statement. *)
Lemma parse_token_of it : item_ok it = true → parse_token (token_of it) = Some it.
Proof.
  destruct it as [s|p|p|p| |]; cbn; try done.
  - intros [Hp Helse%negb_true_iff%bool_decide_eq_false]%andb_true_iff.
    unfold parse_mustache.
    rewrite words_word by (by apply print_path_word || by apply print_path_ne).
    rewrite decide_False by (by intros ?%print_path_else).
    rewrite decide_False by by apply print_path_not_close.
    by rewrite parse_path_print.
  - intros Hp. unfold parse_raw.
    rewrite words_word by (by apply print_path_word || by apply print_path_ne).
    by rewrite parse_path_print.
  - intros Hp. unfold parse_mustache.
    rewrite words_if by (by apply print_path_word || by apply print_path_ne).
    rewrite decide_True by done. by rewrite parse_path_print.
Qed.

Lemma parse_tokens_of its :
  forallb item_ok its = true → mapM parse_token (token_of <$> its) = Some its.
Proof.
  induction its as [|it its IH]; [done|]. cbn [forallb fmap list_fmap].
  intros [Hit Hits]%andb_true_iff. cbn. by rewrite parse_token_of, IH.
Qed.

(** *** Lexing a printed template *)

Lemma fmap_app_nil {A} (x : option (list A)) : ([] ++.) <$> x = x.
Proof. by destruct x. Qed.

(** The marker ends the pending text whatever it is. *)
Lemma lex_text_marker acc t :
  lex InText acc (String "{" (String "{" t)) =
    (text acc ++.) <$> lex InText "" (String "{" (String "{" t)).
Proof.
  rewrite !lex_text_cons2. change (is_open "{" "{") with true. cbn iota.
  destruct t as [|c t]; [by rewrite fmap_app_nil|].
  repeat case_bool_decide; by rewrite fmap_app_nil.
Qed.

Lemma lex_mustache k r :
  lacks "}" k = true → no_brace k = true →
  lex InText "" (("{{" +:+ k +:+ "}}") +:+ r) = (TMustache k ::.) <$> lex InText "" r.
Proof.
  intros Hk Hb. rewrite !string_app_cons, string_app_nil_l, string_app_assoc.
  rewrite !string_app_cons, string_app_nil_l.
  pose proof (lex_open "" "" (k +:+ String "}" (String "}" r)) eq_refl) as Ho.
  rewrite string_app_nil_l in Ho. rewrite Ho, lex_close by by destruct k.
  rewrite string_app_nil_l. by destruct (lex InText "" r).
Qed.

Lemma lex_triple k r :
  lacks "}" k = true →
  lex InText "" (("{{{" +:+ k +:+ "}}}") +:+ r) = (TRaw k ::.) <$> lex InText "" r.
Proof.
  intros Hk. rewrite !string_app_cons, string_app_nil_l, string_app_assoc.
  rewrite !string_app_cons, string_app_nil_l.
  pose proof (lex_open_raw "" "" (k +:+ String "}" (String "}" (String "}" r))) eq_refl)
    as Ho.
  rewrite string_app_nil_l in Ho. rewrite Ho, lex_close_raw by done.
  rewrite string_app_nil_l. by destruct (lex InText "" r).
Qed.

Lemma is_ident_char_close : is_ident_char "}" = false.
Proof. done. Qed.

(** A statement between braces is read as one token. *)
Lemma lex_item it r :
  item_ok it = true → is_text it = false →
  lex InText "" (print_item it +:+ r) = (token_of it ::.) <$> lex InText "" r.
Proof.
  destruct it as [s|p|p|p| |]; cbn [item_ok is_text]; intros Hok Ht; try done.
  - apply andb_true_iff in Hok as [Hp _].
    apply lex_mustache; [by apply print_path_lacks|by apply print_path_no_brace].
  - apply lex_triple. by apply print_path_lacks.
  - apply (lex_mustache ("#if " +:+ print_path p)); [|done].
    rewrite lacks_app. by rewrite print_path_lacks.
  - by apply (lex_mustache "else").
  - by apply (lex_mustache "/if").
Qed.

Lemma print_item_marker it :
  is_text it = false → ∃ t, print_item it = String "{" (String "{" t).
Proof. destruct it; try done; intros _; by eexists. Qed.

Lemma lacks_has_marker s : lacks "{" s = true → has_marker s = false.
Proof.
  induction s as [|c s IH]; [done|]. destruct s as [|c' s]; [done|]. intros Hs.
  change (negb (bool_decide (c = "{"%char)) && lacks "{" (String c' s) = true) in Hs.
  apply andb_true_iff in Hs as [Hc%negb_true_iff Hs].
  change (has_marker (String c (String c' s))) with
    (bool_decide (c = "{"%char) && bool_decide (c' = "{"%char) ||
     has_marker (String c' s)).
  by rewrite Hc, IH.
Qed.

Lemma print_items_cons it its :
  print_items (it :: its) = print_item it +:+ print_items its.
Proof. done. Qed.

(** A text in front of a statement, or at the end. *)
Lemma lex_text_item s its :
  s ≠ "" → lacks "{" s = true → separated (IText s :: its) = true →
  lex InText "" (s +:+ print_items its) =
    (TText s ::.) <$> lex InText "" (print_items its).
Proof.
  intros Hne Hs Hsep. destruct its as [|it its].
  { cbn. rewrite lex_plain by (rewrite string_app_nil_r; by apply lacks_has_marker).
    by rewrite string_app_nil_l, string_app_nil_r, text_ne. }
  cbn in Hsep. apply andb_true_iff in Hsep as [Hit%negb_true_iff _].
  destruct (print_item_marker it Hit) as [t Ht].
  rewrite print_items_cons, Ht, !string_app_cons. rewrite lex_text_skip by done.
  rewrite lex_text_marker, string_app_nil_l, text_ne by done.
  by destruct (lex InText "" _).
Qed.

(** The tokens of a printed template are those of its statements. *)
Lemma lex_print_items its :
  forallb item_ok its = true → separated its = true →
  lex InText "" (print_items its) = Some (token_of <$> its).
Proof.
  induction its as [|it its IH]; [done|]. cbn [forallb].
  intros [Hit Hits]%andb_true_iff Hsep.
  assert (separated its = true) as Hsep'.
  { destruct its; [done|]. cbn in Hsep. by apply andb_true_iff in Hsep as [_ ?]. }
  rewrite print_items_cons. destruct (is_text it) eqn:Ht.
  - destruct it as [s| | | | |]; try done. cbn in Hit. cbn [print_item].
    apply andb_true_iff in Hit as [Hne%negb_true_iff%bool_decide_eq_false Hs].
    rewrite lex_text_item by done. by rewrite IH.
  - rewrite lex_item by done. by rewrite IH.
Qed.

(** *** Building the tree of printed statements *)

Lemma build_items_all ns :
  Forall (λ n, ∀ its cur stk,
            build (items_of n ++ its) cur stk = build its (n :: cur) stk) ns →
  ∀ its cur stk,
    build (flat_map items_of ns ++ its) cur stk = build its (rev ns ++ cur) stk.
Proof.
  induction 1 as [|n ns Hn _ IH]; intros its cur stk; [done|].
  cbn [flat_map rev]. by rewrite <-!app_assoc, Hn, IH.
Qed.

(** The statements of a node build the node. *)
Lemma build_items_of n its cur stk :
  build (items_of n ++ its) cur stk = build its (n :: cur) stk.
Proof.
  revert its cur stk.
  induction n as [s|p|p|p yes no IHy IHn] using node_ind'; intros its cur stk;
    [done..|].
  cbn [items_of app build]. rewrite <-!app_assoc.
  rewrite (build_items_all yes IHy), app_nil_r.
  destruct no as [|n no]; cbn [app build]; [by rewrite rev_involutive|].
  rewrite (build_items_all (n :: no) IHn), app_nil_r.
  cbn [app build]. by rewrite !rev_involutive.
Qed.

Lemma build_print ns : build (flat_map items_of ns) [] [] = Some ns.
Proof.
  pose proof (build_items_all ns) as Hb.
  specialize (Hb ltac:(apply Forall_forall; intros; apply build_items_of) [] [] []).
  rewrite !app_nil_r in Hb. rewrite Hb. cbn. by rewrite rev_involutive.
Qed.

End printing.

(** Parsing a printed tree gives the tree: the printer and the parser of
    the engine agree on every tree in normal form. *)
Theorem parse_print ns : nodes_ok ns = true → parse_template (print_template ns) = Some ns.
Proof.
  unfold nodes_ok, print_template, parse_template. intros [Hok Hsep]%andb_true_iff.
  rewrite lex_print_items by done. cbn.
  rewrite parse_tokens_of by done. cbn. apply build_print.
Qed.

(** The engine on a printed tree evaluates the tree. *)
Theorem compile_print ns d :
  nodes_ok ns = true → compile (print_template ns) d = Rendered (render d ns).
Proof. intros Hns. rewrite compile_handlebars. unfold handlebars_text. by rewrite parse_print. Qed.
