(* ===== verification/Storage.v ===== *)
(** * Storage: the key-value store and the storage writer

    The browser's [localStorage] holds strings under string keys and may
    refuse a write (quota).  [store] is that: a finite map and an optional
    quota on the total size.  [writeStorage] and [useLocalStorage] are the
    two calls the program makes on it; [debouncedWriteStorage_fn] is the
    function the program debounces (App.js lines 126-130) and
    [debouncedWriteStorage_policy] its timing (lines 131-132).

    A write that throws stops the function: the writes before it stay, the
    writes after it do not happen, and nothing else is affected.

    The two library calls are modelled from their documented behaviour.
    [writeStorage] stores a value whose [typeof] is ["object"] as its JSON
    text and any other value by string coercion ([stored_text]): a string
    is stored as it is, without quotes.  The library's read,
    [useLocalStorage], is untyped: it parses every text and falls back to
    the text.  [storedHtml], [storedCss] and [storedParams] are that read
    (lines 136-138), so each of them is a JavaScript value, not
    necessarily a string: a template whose text is [123] is read back as
    the number.  A value [reads_back] when the library returns it from the
    text it stored for it: every value but a string whose text is JSON. *)

From S2P Require Import Prelude Json JsonText Debounce.

(** ** The store *)

Record store := Store {
  items : gmap string string;
  quota : option nat
}.

(** Bytes used: the lengths of all keys and values. *)
Definition used (m : gmap string string) : nat :=
  map_fold (λ k v n, String.length k + String.length v + n) 0 m.

(** [localStorage.getItem(k)]. *)
Definition getItem (k : string) (st : store) : option string :=
  items st !! k.

(** [localStorage.setItem(k, v)]: [None] when it throws because the quota
    would be exceeded. *)
Definition setItem (k v : string) (st : store) : option store :=
  let m := <[k := v]> (items st) in
  match quota st with
  | Some q => if decide (used m ≤ q) then Some (Store m (quota st)) else None
  | None => Some (Store m (quota st))
  end.

(** ** What the program calls *)

(** The text the library's writer stores for a value: the JSON text of a
    value whose [typeof] is ["object"] (objects, arrays, [null]), and the
    string coercion of any other. *)
Definition stored_text `{JsonCodec} (v : json) : string :=
  if decide (typeof v = TObject) then stringify 0 v else js_to_string v.

(** [writeStorage(key, value)]: the store afterwards, and whether the write
    went through ([false]: it threw, the store is unchanged). *)
Definition writeStorage `{JsonCodec} (key : string) (value : json) (st : store)
    : store * bool :=
  match setItem key (stored_text value) st with
  | Some st' => (st', true)
  | None => (st, false)
  end.

(** Sequencing in a function that stops at the first exception. *)
Definition and_then (r : store * bool) (f : store → store * bool) : store * bool :=
  if r.2 then f r.1 else r.

Section storage.
Context `{JsonCodec}.

(** The debounced function: three writes, in this order. *)
Definition debouncedWriteStorage_fn (html css params : json)
    (st : store) : store * bool :=
  and_then (and_then (writeStorage "html" html st)
                     (writeStorage "css" css))
           (writeStorage "params" params).

(** *** The library's view of a stored text

    The store holds texts and keeps no record of the type a key was
    written with.  The library's reader parses every text it finds as JSON
    and returns the text itself when that fails ([tryParse]). *)
Definition tryParse (s : string) : json := default (JStr s) (parse s).

Definition useLocalStorage (key : string) (st : store) : option json :=
  tryParse <$> getItem key st.

(** A value the library reads back from the text it stored for it: any
    value but a string whose text is JSON. *)
Definition reads_back (v : json) : Prop := ∀ s, v = JStr s → parse s = None.

(** A value that survives a save and a load: well formed, and read back. *)
Definition storable (v : json) : Prop := json_wf v = true ∧ reads_back v.

(** [useLocalStorage('html')], [('css')], [('params')] (lines 136-138); an
    absent key is [None].  Each is what the library returns: the parsed
    value, or the text as a string when it does not parse. *)
Definition storedHtml (st : store) : option json := useLocalStorage "html" st.
Definition storedCss (st : store) : option json := useLocalStorage "css" st.
Definition storedParams (st : store) : option json := useLocalStorage "params" st.

End storage.

(** [debounce(fn, 1000, { maxWait: 5000 })]. *)
Definition debouncedWriteStorage_policy : policy := Policy 1000%N (Some 5000%N).

(** ** Lemmas *)

Section storage_lemmas.
Context `{JsonCodec}.
Implicit Types (st : store) (k v : string).

Lemma setItem_items k v st st' :
  setItem k v st = Some st' → items st' = <[k := v]> (items st).
Proof. unfold setItem. intros; split_cases. Qed.

Lemma setItem_quota k v st st' : setItem k v st = Some st' → quota st' = quota st.
Proof. unfold setItem. intros; split_cases. Qed.

(** Without a quota every write goes through. *)
Lemma setItem_unbounded k v st :
  quota st = None → setItem k v st = Some (Store (<[k := v]> (items st)) None).
Proof. unfold setItem. by intros ->. Qed.

Lemma getItem_setItem k v st st' :
  setItem k v st = Some st' → getItem k st' = Some v.
Proof.
  intros Hs%setItem_items. unfold getItem. by rewrite Hs, lookup_insert_eq.
Qed.

Lemma getItem_setItem_ne k k' v st st' :
  k ≠ k' → setItem k v st = Some st' → getItem k' st' = getItem k' st.
Proof.
  intros ? Hs%setItem_items. unfold getItem. by rewrite Hs, lookup_insert_ne.
Qed.

Section writeStorage.
Implicit Types (x : json).

Lemma writeStorage_ok k x st st' :
  writeStorage k x st = (st', true) → setItem k (stored_text x) st = Some st'.
Proof. unfold writeStorage. intros; split_cases. Qed.

Lemma writeStorage_failed k x st st' :
  writeStorage k x st = (st', false) → st' = st.
Proof. unfold writeStorage. intros; split_cases. Qed.

Lemma writeStorage_quota k x st : quota (writeStorage k x st).1 = quota st.
Proof.
  unfold writeStorage. destruct (setItem _ _ _) eqn:E; [|done].
  by apply setItem_quota in E.
Qed.

Lemma writeStorage_unbounded k x st :
  quota st = None →
  writeStorage k x st = (Store (<[k := stored_text x]> (items st)) None, true).
Proof. intros Hq. unfold writeStorage. by rewrite setItem_unbounded. Qed.

(** A write touches no other key, whether it goes through or not. *)
Lemma writeStorage_other k k' x st :
  k ≠ k' → getItem k' (writeStorage k x st).1 = getItem k' st.
Proof.
  intros Hne. unfold writeStorage. destruct (setItem _ _ _) eqn:E; [|done].
  by eapply getItem_setItem_ne.
Qed.
End writeStorage.

Lemma and_then_ok r f st' :
  and_then r f = (st', true) → r.2 = true ∧ f r.1 = (st', true).
Proof. unfold and_then. destruct r as [st []]; naive_solver. Qed.

Lemma and_then_quota r f :
  (∀ st, quota (f st).1 = quota st) → quota (and_then r f).1 = quota r.1.
Proof. intros Hf. unfold and_then. destruct r as [st []]; simpl; [apply Hf|done]. Qed.

(** The three writes, unfolded by outcome. *)
Lemma debouncedWriteStorage_fn_cases html css params st :
  let r := debouncedWriteStorage_fn html css params st in
  (∃ s1 s2, setItem "html" (stored_text html) st = Some s1 ∧
            setItem "css" (stored_text css) s1 = Some s2 ∧
            setItem "params" (stored_text params) s2 = Some r.1 ∧ r.2 = true) ∨
  (setItem "html" (stored_text html) st = None ∧ r = (st, false)) ∨
  (∃ s1, setItem "html" (stored_text html) st = Some s1 ∧
         setItem "css" (stored_text css) s1 = None ∧ r = (s1, false)) ∨
  (∃ s1 s2, setItem "html" (stored_text html) st = Some s1 ∧
            setItem "css" (stored_text css) s1 = Some s2 ∧
            setItem "params" (stored_text params) s2 = None ∧ r = (s2, false)).
Proof.
  unfold debouncedWriteStorage_fn, and_then, writeStorage.
  destruct (setItem "html" _ _) as [s1|] eqn:E1; simpl; [|by right; left].
  destruct (setItem "css" _ s1) as [s2|] eqn:E2; simpl;
    [|by right; right; left; exists s1].
  destruct (setItem "params" _ s2) as [s3|] eqn:E3; simpl;
    [left|right; right; right]; by exists s1, s2.
Qed.

(** A successful save stores the three documents under their keys. *)
Lemma save_stores html css params st st' :
  debouncedWriteStorage_fn html css params st = (st', true) →
  getItem "html" st' = Some (stored_text html) ∧
  getItem "css" st' = Some (stored_text css) ∧
  getItem "params" st' = Some (stored_text params).
Proof.
  intros Hr. pose proof (debouncedWriteStorage_fn_cases html css params st) as Hc.
  rewrite Hr in Hc. simpl in Hc.
  destruct Hc as [(s1 & s2 & H1 & H2 & H3 & _)|[[_ [=]]|[(?&_&_&[=])|(?&?&_&_&_&[=])]]].
  repeat split.
  - rewrite (getItem_setItem_ne "params" "html" _ _ _ ltac:(done) H3),
      (getItem_setItem_ne "css" "html" _ _ _ ltac:(done) H2).
    by eapply getItem_setItem.
  - rewrite (getItem_setItem_ne "params" "css" _ _ _ ltac:(done) H3).
    by eapply getItem_setItem.
  - by eapply getItem_setItem.
Qed.

(** Whatever happens to the three writes, whether they go through or
    one of them throws, only the keys [html], [css] and [params] of the
    store are touched. *)
Lemma save_other_keys html css params st k :
  k ≠ "html" → k ≠ "css" → k ≠ "params" →
  getItem k (debouncedWriteStorage_fn html css params st).1 = getItem k st.
Proof.
  intros Hk1 Hk2 Hk3.
  destruct (debouncedWriteStorage_fn_cases html css params st)
    as [(s1&s2&H1&H2&H3&_)|[[_ ->]|[(s1&H1&_&->)|(s1&s2&H1&H2&_&->)]]]; simpl.
  - by rewrite (getItem_setItem_ne "params" k _ _ _ ltac:(congruence) H3),
      (getItem_setItem_ne "css" k _ _ _ ltac:(congruence) H2),
      (getItem_setItem_ne "html" k _ _ _ ltac:(congruence) H1).
  - done.
  - by rewrite (getItem_setItem_ne "html" k _ _ _ ltac:(congruence) H1).
  - by rewrite (getItem_setItem_ne "css" k _ _ _ ltac:(congruence) H2),
      (getItem_setItem_ne "html" k _ _ _ ltac:(congruence) H1).
Qed.

(** Without a quota a save always goes through. *)
Lemma save_unbounded html css params st :
  quota st = None →
  debouncedWriteStorage_fn html css params st =
    (Store (<["params" := stored_text params]>
              (<["css" := stored_text css]>
                 (<["html" := stored_text html]> (items st)))) None, true).
Proof.
  intros Hq. unfold debouncedWriteStorage_fn, and_then.
  rewrite (writeStorage_unbounded "html") by done. cbn [fst snd].
  rewrite (writeStorage_unbounded "css") by done. cbn [fst snd].
  by rewrite (writeStorage_unbounded "params").
Qed.

Lemma save_quota html css params st :
  quota (debouncedWriteStorage_fn html css params st).1 = quota st.
Proof.
  unfold debouncedWriteStorage_fn.
  rewrite !and_then_quota by (intros; apply writeStorage_quota).
  apply writeStorage_quota.
Qed.

(** *** The typed reads against the library's *)

(** A text that is not JSON is read as the string it is. *)
Lemma tryParse_text s : parse s = None → tryParse s = JStr s.
Proof. unfold tryParse. by intros ->. Qed.

(** A text that is JSON is read as the value it denotes, whatever was
    written. *)
Lemma tryParse_json s (j : json) : parse s = Some j → tryParse s = j.
Proof. unfold tryParse. by intros ->. Qed.

(** The writer's text for the data is the JSON text when the data is an
    object, an array or [null]. *)
Lemma stored_text_object (j : json) :
  typeof j = TObject → stored_text j = stringify 0 j.
Proof. intros Hv. unfold stored_text. by rewrite decide_True. Qed.

Lemma stored_text_string s : stored_text (JStr s) = s.
Proof. done. Qed.

Lemma useLocalStorage_absent k st : getItem k st = None → useLocalStorage k st = None.
Proof. unfold useLocalStorage. by intros ->. Qed.

(** A stored text that is not JSON is read as the string it is. *)
Lemma useLocalStorage_text k st s :
  getItem k st = Some s → parse s = None → useLocalStorage k st = Some (JStr s).
Proof. unfold useLocalStorage. intros -> Hp. simpl. by rewrite tryParse_text. Qed.

Lemma reads_back_object (j : json) : typeof j ≠ TString → reads_back j.
Proof. by intros Hv s ->. Qed.

(** With a lawful codec the writer's text for a number or a boolean is its
    JSON text too: only strings are stored differently. *)
Lemma stored_text_stringify `{!JsonCodecLaws} (j : json) :
  typeof j ≠ TString → stored_text j = stringify 0 j.
Proof.
  intros Hv. unfold stored_text. case_decide; [done|].
  symmetry. apply stringify_atom. destruct j; naive_solver.
Qed.

(** Reading back what the writer stored for a value gives the value,
    unless the value is a string that is itself a JSON text. *)
Lemma tryParse_stored_text `{!JsonCodecLaws} (j : json) :
  json_wf j = true → reads_back j → tryParse (stored_text j) = j.
Proof.
  intros Hwf Hv. destruct (decide (typeof j = TString)) as [Hs|Hs].
  - destruct j; try done. by apply tryParse_text, Hv.
  - rewrite stored_text_stringify by done. by apply tryParse_json, parse_stringify.
Qed.

Lemma useLocalStorage_stored `{!JsonCodecLaws} k st (j : json) :
  getItem k st = Some (stored_text j) → json_wf j = true → reads_back j →
  useLocalStorage k st = Some j.
Proof. unfold useLocalStorage. intros -> ??. simpl. by rewrite tryParse_stored_text. Qed.

(** The empty string reads back: its text is not JSON. *)
Lemma reads_back_empty `{!JsonCodecLaws} : reads_back (JStr "").
Proof. intros s [= <-]. apply parse_empty. Qed.

(** The writer stops at the first write that fails: here the second. *)
Lemma save_stops_at_css html css params st s1 :
  setItem "html" (stored_text html) st = Some s1 →
  setItem "css" (stored_text css) s1 = None →
  debouncedWriteStorage_fn html css params st = (s1, false).
Proof.
  intros H1 H2. unfold debouncedWriteStorage_fn, and_then, writeStorage.
  rewrite H1. cbn [fst snd]. by rewrite H2.
Qed.

(** Round trip, given the codec's laws: what was saved is what is loaded,
    for values that read back. *)
Lemma save_load `{!JsonCodecLaws} html css params st st' :
  storable html → storable css → storable params →
  debouncedWriteStorage_fn html css params st = (st', true) →
  storedHtml st' = Some html ∧ storedCss st' = Some css ∧
  storedParams st' = Some params.
Proof.
  intros [??] [??] [??] (Hh & Hc & Hp)%save_stores.
  unfold storedHtml, storedCss, storedParams, useLocalStorage.
  rewrite Hh, Hc, Hp. simpl. by rewrite !tryParse_stored_text.
Qed.

End storage_lemmas.

#[export] Hint Rewrite @save_quota @writeStorage_quota : editor.

(** ** Properties of the storage writer *)

Section storage_properties.
Context `{JsonCodec}.
Implicit Types (st : store) (html css params : json).

(** C35. The three writes are not atomic: when the stylesheet does not fit
    in the store, the template has been written and the stylesheet and the
    data have not, and the function stops with an error. *)
Theorem save_partial_write html css params st s1 :
  setItem "html" (stored_text html) st = Some s1 →
  setItem "css" (stored_text css) s1 = None →
  let r := debouncedWriteStorage_fn html css params st in
  r.2 = false ∧ getItem "html" r.1 = Some (stored_text html) ∧
  getItem "css" r.1 = getItem "css" st ∧
  getItem "params" r.1 = getItem "params" st.
Proof.
  intros H1 H2. cbn zeta. rewrite (save_stops_at_css _ _ _ _ s1) by done.
  split_and!; [done|by eapply getItem_setItem|..].
  - by apply (getItem_setItem_ne "html" "css" (stored_text html) st s1).
  - by apply (getItem_setItem_ne "html" "params" (stored_text html) st s1).
Qed.

(** Durable writes are debounced on the trailing edge: a burst of
    saves from idle, each less than a second after the one before and all
    within the five-second ceiling, followed by a second of quiet, writes
    once, with the documents of the last call. *)
Theorem save_trailing_edge {A} (s : sched A) a0 rest w :
  slot s = None →
  Forall (λ ga, ga.1 < 1000)%N rest →
  (duration (burst rest) < 5000)%N → (1000 ≤ w)%N →
  ∃ t, fired (run (act debouncedWriteStorage_policy) s
                  (Call a0 :: burst rest ++ [Wait w])) =
         fired s ++ [(t, List.last rest.*2 a0)] ∧
       (t ≤ clock s + duration (burst rest) + 1000)%N.
Proof.
  intros Hidle Hgaps Hdur Hw.
  apply (burst_fires_once debouncedWriteStorage_policy); [done..| |done].
  by intros mw [= <-].
Qed.

(** The ceiling on staleness: once a save is pending it runs no later
    than five seconds after the first call of its burst, however the calls
    keep coming. *)
Theorem save_ceiling {A} (s : sched A) p xs :
  sched_wf debouncedWriteStorage_policy s → slot s = Some p →
  (firstCall p + 5000 ≤ clock s + duration xs)%N →
  ∃ t a more,
    fired (run (act debouncedWriteStorage_policy) s xs) =
      fired s ++ (t, a) :: more ∧
    (t ≤ firstCall p + 5000)%N.
Proof.
  intros Hwf Hp Hlate.
  apply (maxWait_bound debouncedWriteStorage_policy s p 5000%N xs); try done.
  split; [done|]. by intros mw [= <-].
Qed.

End storage_properties.

(** The store of the witnesses: one stylesheet in it, room for 20 bytes. *)
Definition small_store : store := Store {["css" := "a"]} (Some 20).

Lemma save_partial_write_witness :
  let r := debouncedWriteStorage_fn (JStr "<p>") (JStr "p { color: red; }") JNull
             small_store in
  r.2 = false ∧ getItem "html" r.1 = Some (stored_text (JStr "<p>")) ∧
  getItem "css" r.1 = getItem "css" small_store ∧
  getItem "params" r.1 = getItem "params" small_store.
Proof.
  apply (save_partial_write (JStr "<p>") (JStr "p { color: red; }") JNull small_store
           (Store {["html" := "<p>"; "css" := "a"]} (Some 20)));
    vm_compute; reflexivity.
Defined.

Lemma save_trailing_edge_witness :
  ∃ t, fired (run (act debouncedWriteStorage_policy) (Sched 0%N None [])
                  (Call "a" :: burst [(300%N, "b"); (900%N, "c")] ++ [Wait 1000%N])) =
         [] ++ [(t, List.last [(300%N, "b"); (900%N, "c")].*2 "a")] ∧
       (t ≤ 0 + duration (burst [(300%N, "b"); (900%N, "c")]) + 1000)%N.
Proof.
  apply (save_trailing_edge (Sched 0%N None []) "a" [(300%N, "b"); (900%N, "c")] 1000%N);
    [done|repeat constructor|vm_compute; reflexivity|lia].
Defined.

Lemma save_ceiling_witness :
  let s := Sched 0%N (Some (Pending "a" 0%N 0%N)) [] in
  let xs := concat (replicate 6 [Wait 900%N; Call "b"]) in
  ∃ t a more,
    fired (run (act debouncedWriteStorage_policy) s xs) = [] ++ (t, a) :: more ∧
    (t ≤ 0 + 5000)%N.
Proof.
  intros s xs. apply (save_ceiling s (Pending "a" 0%N 0%N) xs); [|done|].
  - intros p [= <-]. repeat split; vm_compute; congruence.
  - vm_compute. congruence.
Defined.
