(* ===== verification/Preview.v ===== *)
(** * Preview: the preview component (App.js lines 69-93)

    [Preview] receives [html], [css] and [params], each whatever value
    [App] holds (a document is a text once it was edited, and what the
    store gave back before that).  It keeps debounced
    copies of [html] and [params] (two [useDebounce] hooks, 500 ms) and the
    compiled template [compiledHtml].  The template is compiled when the
    component mounts and again whenever a debounced copy changes; both
    places wrap the call in [try]/[catch], warn twice on the console and
    fall back to the raw template.

    The record [preview] is the component's state including the two hooks'
    timers.  [App] calls [html_changed] / [params_changed] when it
    re-renders with a new prop, and [fire_html] / [fire_params] when a
    timer is due.  The theorems up to [useDebounce_trailing_edge] hold for
    every engine; those after it are about the engine of [Template]. *)

From S2P Require Import Prelude Json Effects Debounce Template TemplateLaws.

#[local] Open Scope eff_scope.

(** ** State *)

Record preview := MkPreview {
  debouncedHtml : json;
  debouncedParams : json;
  compiledHtml : json;
  htmlTimer : debouncer json;
  paramsTimer : debouncer json
}.

(** [useDebounce(value, 500)]: no ceiling. *)
Definition useDebounce_policy : policy := Policy 500%N None.

Definition compile_warning : string :=
  "Error when compiling handlebars, using raw HTML".

(** Field updates. *)
Definition setDebouncedHtml (v : json) (pv : preview) : preview :=
  MkPreview v (debouncedParams pv) (compiledHtml pv) (htmlTimer pv) (paramsTimer pv).
Definition setDebouncedParams (v : json) (pv : preview) : preview :=
  MkPreview (debouncedHtml pv) v (compiledHtml pv) (htmlTimer pv) (paramsTimer pv).
Definition setCompiledHtml (c : json) (pv : preview) : preview :=
  MkPreview (debouncedHtml pv) (debouncedParams pv) c (htmlTimer pv) (paramsTimer pv).
Definition setHtmlTimer (d : debouncer json) (pv : preview) : preview :=
  MkPreview (debouncedHtml pv) (debouncedParams pv) (compiledHtml pv) d (paramsTimer pv).
Definition setParamsTimer (d : debouncer json) (pv : preview) : preview :=
  MkPreview (debouncedHtml pv) (debouncedParams pv) (compiledHtml pv) (htmlTimer pv) d.

Section preview.
Context `{TemplateEngine}.

(** ** Operations *)

(** The initialiser of [compiledHtml] (lines 72-81): compile, or warn and
    use the raw template. *)
Definition compiledHtml_init (html params : json) : Eff json :=
  match compile_value html params with
  | Rendered out => eff_ret (JStr out)
  | Threw e =>
      emit (ConsoleWarn compile_warning);;
      emit (ConsoleWarn e);;
      eff_ret html
  end.

(** The effect on [debouncedHtml, debouncedParams] (lines 83-93). *)
Definition recompile (pv : preview) : Eff preview :=
  match compile_value (debouncedHtml pv) (debouncedParams pv) with
  | Rendered compiled => eff_ret (setCompiledHtml (JStr compiled) pv)
  | Threw e =>
      emit (ConsoleWarn compile_warning);;
      emit (ConsoleWarn e);;
      eff_ret (setCompiledHtml (debouncedHtml pv) pv)
  end.

(** Mounting: the debounced copies start as the props, [compiledHtml] is
    initialised, and the effect runs once after the first render. *)
Definition Preview_mount (html params : json) : Eff preview :=
  let* c := compiledHtml_init html params in
  recompile (MkPreview html params c None None).

(** [App] re-rendered with a new [html] ([params]): the hook restarts its
    timer with the new value. *)
Definition html_changed (now : N) (v : json) (pv : preview) : preview :=
  setHtmlTimer (schedule now v (htmlTimer pv)) pv.
Definition params_changed (now : N) (v : json) (pv : preview) : preview :=
  setParamsTimer (schedule now v (paramsTimer pv)) pv.

(** The hook's timer ran with [v].  A value that [Object.is] the current
    debounced copy changes nothing; otherwise the copy is replaced and the
    effect runs.  This is the case of an equal primitive: a pending
    template is a text, and a pending data object is a newer reference
    than the debounced one ([Hooks.timer_newer]). *)
Definition html_settled (v : json) (pv : preview) : Eff preview :=
  if same_primitive v (debouncedHtml pv) then eff_ret pv
  else recompile (setDebouncedHtml v pv).
Definition params_settled (v : json) (pv : preview) : Eff preview :=
  if same_primitive v (debouncedParams pv) then eff_ret pv
  else recompile (setDebouncedParams v pv).

(** The timers' callbacks at time [now]. *)
Definition fire_html (now : N) (pv : preview) : Eff preview :=
  match fire useDebounce_policy now (htmlTimer pv) with
  | (Some v, d) => html_settled v (setHtmlTimer d pv)
  | (None, _) => eff_ret pv
  end.
Definition fire_params (now : N) (pv : preview) : Eff preview :=
  match fire useDebounce_policy now (paramsTimer pv) with
  | (Some v, d) => params_settled v (setParamsTimer d pv)
  | (None, _) => eff_ret pv
  end.

(** ** The invariant *)

(** What is shown is the compilation of the debounced documents, or the raw
    debounced template when that fails. *)
Definition preview_ok (pv : preview) : Prop :=
  compiledHtml pv = (compiledHtml_init (debouncedHtml pv) (debouncedParams pv)).1.

End preview.

(** ** Lemmas *)

Section preview_lemmas.
Context `{TemplateEngine}.
Implicit Types (pv : preview) (html params : json).

Lemma compiledHtml_init_rendered html params out :
  compile_value html params = Rendered out →
  compiledHtml_init html params = (JStr out, []).
Proof. unfold compiledHtml_init. by intros ->. Qed.

Lemma compiledHtml_init_threw html params e :
  compile_value html params = Threw e →
  compiledHtml_init html params =
    (html, [ConsoleWarn compile_warning; ConsoleWarn e]).
Proof. unfold compiledHtml_init. by intros ->. Qed.

(** The initialiser and the effect are the same computation. *)
Lemma recompile_init pv :
  recompile pv =
    let* c := compiledHtml_init (debouncedHtml pv) (debouncedParams pv) in
    eff_ret (setCompiledHtml c pv).
Proof.
  unfold recompile, compiledHtml_init. by destruct (compile_value _ _).
Qed.

Lemma recompile_fst pv :
  (recompile pv).1 =
    setCompiledHtml
      (compiledHtml_init (debouncedHtml pv) (debouncedParams pv)).1 pv.
Proof. rewrite recompile_init. by autorewrite with editor. Qed.

Lemma recompile_snd pv :
  (recompile pv).2 =
    (compiledHtml_init (debouncedHtml pv) (debouncedParams pv)).2.
Proof. rewrite recompile_init. autorewrite with editor. by rewrite app_nil_r. Qed.

(** The effect only writes [compiledHtml]. *)
Lemma recompile_debouncedHtml pv : debouncedHtml (recompile pv).1 = debouncedHtml pv.
Proof. by rewrite recompile_fst. Qed.
Lemma recompile_debouncedParams pv :
  debouncedParams (recompile pv).1 = debouncedParams pv.
Proof. by rewrite recompile_fst. Qed.
Lemma recompile_htmlTimer pv : htmlTimer (recompile pv).1 = htmlTimer pv.
Proof. by rewrite recompile_fst. Qed.
Lemma recompile_paramsTimer pv : paramsTimer (recompile pv).1 = paramsTimer pv.
Proof. by rewrite recompile_fst. Qed.

Lemma recompile_ok pv : preview_ok (recompile pv).1.
Proof. unfold preview_ok. by rewrite recompile_fst. Qed.

(** The effect emits nothing or the two warnings. *)
Lemma recompile_effects pv :
  (recompile pv).2 = [] ∨
  ∃ e, compile_value (debouncedHtml pv) (debouncedParams pv) = Threw e ∧
       (recompile pv).2 = [ConsoleWarn compile_warning; ConsoleWarn e].
Proof.
  unfold recompile. destruct (compile_value _ _) eqn:E; [by left|right; eauto].
Qed.

(** The effect sends no request and shows no alert. *)
Lemma recompile_quiet pv :
  count is_post (recompile pv).2 = 0 ∧ count is_alert (recompile pv).2 = 0.
Proof. by destruct (recompile_effects pv) as [->|(?&_&->)]. Qed.

(** Delivering the template: bailing out on an equal primitive leaves
    the state that delivering it would have produced. *)
Lemma html_settled_fst v pv :
  preview_ok pv →
  (html_settled v pv).1 =
    setCompiledHtml (compiledHtml_init v (debouncedParams pv)).1
                    (setDebouncedHtml v pv).
Proof.
  intros Hok. unfold html_settled.
  destruct (same_primitive _ _) eqn:E; [|by rewrite recompile_fst].
  apply same_primitive_eq in E as ->. destruct pv; simplify_eq/=. by rewrite Hok.
Qed.

Lemma html_settled_ok v pv : preview_ok pv → preview_ok (html_settled v pv).1.
Proof. intros Hok. by rewrite html_settled_fst. Qed.

(** Delivering the data: bailing out on an equal primitive leaves the
    state that delivering it would have produced. *)
Lemma params_settled_fst v pv :
  preview_ok pv →
  (params_settled v pv).1 =
    setCompiledHtml (compiledHtml_init (debouncedHtml pv) v).1
                    (setDebouncedParams v pv).
Proof.
  intros Hok. unfold params_settled.
  destruct (same_primitive _ _) eqn:E; [|by rewrite recompile_fst].
  apply same_primitive_eq in E as ->. destruct pv; simplify_eq/=. by rewrite Hok.
Qed.

Lemma params_settled_ok v pv : preview_ok pv → preview_ok (params_settled v pv).1.
Proof. intros Hok. by rewrite params_settled_fst. Qed.

(** It emits what the effect emits, or nothing. *)
Lemma params_settled_snd v pv :
  (params_settled v pv).2 = [] ∨
  (params_settled v pv).2 = (recompile (setDebouncedParams v pv)).2.
Proof. unfold params_settled. destruct (same_primitive _ _); [by left|by right]. Qed.

Lemma fire_html_ok now pv : preview_ok pv → preview_ok (fire_html now pv).1.
Proof.
  unfold fire_html. destruct (fire _ _ _) as [[v|] d]; [|done].
  intros. by apply html_settled_ok.
Qed.

Lemma fire_params_ok now pv : preview_ok pv → preview_ok (fire_params now pv).1.
Proof.
  unfold fire_params. destruct (fire _ _ _) as [[v|] d]; [|done].
  intros. by apply params_settled_ok.
Qed.

(** A timer that is not due does nothing. *)
Lemma fire_html_wait now pv :
  due useDebounce_policy now (htmlTimer pv) = false → fire_html now pv = (pv, []).
Proof.
  unfold fire_html, fire. destruct (htmlTimer pv) as [p|]; [|done].
  by intros ->.
Qed.

Lemma fire_params_wait now pv :
  due useDebounce_policy now (paramsTimer pv) = false →
  fire_params now pv = (pv, []).
Proof.
  unfold fire_params, fire. destruct (paramsTimer pv) as [p|]; [|done].
  by intros ->.
Qed.

(** A due timer delivers the pending value: the debounced copy becomes the
    value, the timer is cleared, and the preview shows its compilation. *)
Lemma fire_html_due now pv p :
  preview_ok pv → htmlTimer pv = Some p →
  due useDebounce_policy now (htmlTimer pv) = true →
  (fire_html now pv).1 =
    MkPreview (args p) (debouncedParams pv)
              (compiledHtml_init (args p) (debouncedParams pv)).1
              None (paramsTimer pv).
Proof.
  intros Hok Hp Hdue. unfold fire_html, fire. rewrite Hp in *. rewrite Hdue.
  by rewrite html_settled_fst.
Qed.

Lemma fire_params_due now pv p :
  preview_ok pv → paramsTimer pv = Some p →
  due useDebounce_policy now (paramsTimer pv) = true →
  (fire_params now pv).1 =
    MkPreview (debouncedHtml pv) (args p)
              (compiledHtml_init (debouncedHtml pv) (args p)).1
              (htmlTimer pv) None.
Proof.
  intros Hok Hp Hdue. unfold fire_params, fire. rewrite Hp in *. rewrite Hdue.
  by rewrite params_settled_fst.
Qed.

(** The callbacks never set a timer. *)
Lemma fire_html_timers now pv :
  htmlTimer (fire_html now pv).1 = (fire useDebounce_policy now (htmlTimer pv)).2 ∧
  paramsTimer (fire_html now pv).1 = paramsTimer pv.
Proof.
  unfold fire_html. destruct (fire _ _ _) as [[v|] d] eqn:E; simpl.
  - unfold html_settled. case_match; [done|]. by rewrite !recompile_fst.
  - unfold fire in E. destruct (htmlTimer pv); split_cases.
Qed.

Lemma fire_params_timers now pv :
  paramsTimer (fire_params now pv).1 =
    (fire useDebounce_policy now (paramsTimer pv)).2 ∧
  htmlTimer (fire_params now pv).1 = htmlTimer pv.
Proof.
  unfold fire_params. destruct (fire _ _ _) as [[v|] d] eqn:E; simpl.
  - unfold params_settled. case_match; [done|]. by rewrite !recompile_fst.
  - unfold fire in E. destruct (paramsTimer pv); split_cases.
Qed.

(** The data timer's callback leaves the debounced template alone. *)
Lemma fire_params_debouncedHtml now pv :
  debouncedHtml (fire_params now pv).1 = debouncedHtml pv.
Proof.
  unfold fire_params. destruct (fire _ _ _) as [[v|] d]; [|done].
  unfold params_settled. case_match; [done|]. by rewrite recompile_debouncedHtml.
Qed.

Lemma fire_html_debouncedParams now pv :
  debouncedParams (fire_html now pv).1 = debouncedParams pv.
Proof.
  unfold fire_html. destruct (fire _ _ _) as [[v|] d]; [|done].
  unfold html_settled. case_match; [done|]. by rewrite recompile_debouncedParams.
Qed.

(** A callback that runs at its deadline makes the pending value the
    debounced copy, whatever the preview shows. *)
Lemma fire_html_delivers pv p :
  htmlTimer pv = Some p →
  debouncedHtml (fire_html (deadline useDebounce_policy p) pv).1 = args p.
Proof.
  intros Hp. unfold fire_html. rewrite Hp, fire_due by done.
  unfold html_settled. destruct (same_primitive _ _) eqn:E.
  - by apply same_primitive_eq in E.
  - by rewrite recompile_debouncedHtml.
Qed.

Lemma fire_params_delivers pv p :
  paramsTimer pv = Some p →
  debouncedParams (fire_params (deadline useDebounce_policy p) pv).1 = args p.
Proof.
  intros Hp. unfold fire_params. rewrite Hp, fire_due by done.
  unfold params_settled. destruct (same_primitive _ _) eqn:E.
  - by apply same_primitive_eq in E.
  - by rewrite recompile_debouncedParams.
Qed.

(** What a callback does at its deadline, in full: when the pending value
    is the primitive the preview was compiled from, the timer is cleared
    and nothing else happens; otherwise the value is delivered and
    compiled, and what the compiler said is logged. *)
Lemma fire_html_at pv p :
  htmlTimer pv = Some p →
  fire_html (deadline useDebounce_policy p) pv =
    if same_primitive (args p) (debouncedHtml pv) then (setHtmlTimer None pv, [])
    else
      let r := compiledHtml_init (args p) (debouncedParams pv) in
      (MkPreview (args p) (debouncedParams pv) r.1 None (paramsTimer pv), r.2).
Proof.
  intros Hp. unfold fire_html. rewrite Hp, fire_due by done.
  unfold html_settled. cbn [debouncedHtml setHtmlTimer]. case_match; [done|].
  rewrite recompile_init. cbn. by rewrite app_nil_r.
Qed.

Lemma fire_params_at pv p :
  paramsTimer pv = Some p →
  fire_params (deadline useDebounce_policy p) pv =
    if same_primitive (args p) (debouncedParams pv) then (setParamsTimer None pv, [])
    else
      let r := compiledHtml_init (debouncedHtml pv) (args p) in
      (MkPreview (debouncedHtml pv) (args p) r.1 (htmlTimer pv) None, r.2).
Proof.
  intros Hp. unfold fire_params. rewrite Hp, fire_due by done.
  unfold params_settled. cbn [debouncedParams setParamsTimer]. case_match; [done|].
  rewrite recompile_init. cbn. by rewrite app_nil_r.
Qed.

(** The two callbacks commute: whichever runs first, the preview ends
    with both values delivered and their compilation shown. *)
Lemma fire_html_params pv ph pp t1 t2 :
  preview_ok pv → htmlTimer pv = Some ph → paramsTimer pv = Some pp →
  (deadline useDebounce_policy ph ≤ t1)%N →
  (deadline useDebounce_policy pp ≤ t2)%N →
  (fire_params t2 (fire_html t1 pv).1).1 =
    MkPreview (args ph) (args pp) (compiledHtml_init (args ph) (args pp)).1
              None None ∧
  (fire_html t1 (fire_params t2 pv).1).1 =
    MkPreview (args ph) (args pp) (compiledHtml_init (args ph) (args pp)).1
              None None.
Proof.
  intros Hok Hh Hp Hd1 Hd2.
  assert (due useDebounce_policy t1 (htmlTimer pv) = true) as Hdue1
    by (rewrite Hh; by apply due_true).
  assert (due useDebounce_policy t2 (paramsTimer pv) = true) as Hdue2
    by (rewrite Hp; by apply due_true).
  pose proof (fire_html_due t1 pv ph Hok Hh Hdue1) as E1.
  pose proof (fire_params_due t2 pv pp Hok Hp Hdue2) as E2.
  split.
  - rewrite (fire_params_due t2 _ pp); rewrite ?E1; simpl; rewrite ?Hp;
      by try apply due_true.
  - rewrite (fire_html_due t1 _ ph); rewrite ?E2; simpl; rewrite ?Hh;
      by try apply due_true.
Qed.

Lemma Preview_mount_ok html params : preview_ok (Preview_mount html params).1.
Proof. unfold Preview_mount. rewrite eff_bind_fst. apply recompile_ok. Qed.

Lemma Preview_mount_fst html params :
  (Preview_mount html params).1 =
    MkPreview html params (compiledHtml_init html params).1 None None.
Proof. unfold Preview_mount. by rewrite eff_bind_fst, recompile_fst. Qed.

Lemma compiledHtml_init_quiet html params :
  count is_post (compiledHtml_init html params).2 = 0 ∧
  count is_alert (compiledHtml_init html params).2 = 0.
Proof. unfold compiledHtml_init. by destruct (compile_value _ _). Qed.

(** Mounting sends no request and shows no alert. *)
Lemma Preview_mount_quiet html params :
  count is_post (Preview_mount html params).2 = 0 ∧
  count is_alert (Preview_mount html params).2 = 0.
Proof.
  unfold Preview_mount. rewrite eff_bind_snd, !count_app.
  destruct (compiledHtml_init_quiet html params) as [-> ->].
  split; apply recompile_quiet.
Qed.

End preview_lemmas.

#[export] Hint Resolve @recompile_ok @html_settled_ok @params_settled_ok
  @fire_html_ok @fire_params_ok @Preview_mount_ok : editor.
#[export] Hint Rewrite @recompile_fst : editor.
#[export] Hint Rewrite @recompile_debouncedHtml @recompile_debouncedParams
  @recompile_htmlTimer @recompile_paramsTimer @Preview_mount_fst : editor.

(** ** Properties *)

Section preview_properties.
Context `{TemplateEngine}.
Implicit Types (pv : preview) (html params : json).

(** C17. Fail-soft compilation: when the template of the debounced documents
    does not compile, the effect of lines 83-93 shows the raw debounced
    template, whatever was shown before, and logs the two warnings; no
    error escapes. *)
Theorem recompile_failure_shows_raw pv e :
  compile_value (debouncedHtml pv) (debouncedParams pv) = Threw e →
  recompile pv =
    (setCompiledHtml (debouncedHtml pv) pv,
     [ConsoleWarn compile_warning; ConsoleWarn e]).
Proof. intros Hc. unfold recompile. by rewrite Hc. Qed.

(** When the template compiles, the effect shows the compiled output
    and logs nothing. *)
Theorem recompile_success_shows_output pv out :
  compile_value (debouncedHtml pv) (debouncedParams pv) = Rendered out →
  recompile pv = (setCompiledHtml (JStr out) pv, []).
Proof. intros Hc. unfold recompile. by rewrite Hc. Qed.

(** Mounting compiles the template twice, once in the initialiser of
    [compiledHtml] and once in the effect after the first render: the state
    is that of a single compilation, the diagnostics are logged twice. *)
Theorem Preview_mount_compiles_twice html params :
  Preview_mount html params =
    (MkPreview html params (compiledHtml_init html params).1 None None,
     (compiledHtml_init html params).2 ++ (compiledHtml_init html params).2).
Proof.
  apply injective_projections; [apply Preview_mount_fst|].
  unfold Preview_mount. by rewrite eff_bind_snd, recompile_snd.
Qed.

(** A template without substitution markers is shown unchanged and
    nothing is logged, for every engine that satisfies the interface. *)
Theorem plain_template_unchanged `{!TemplateEngineLaws} (t : string) params :
  has_marker t = false → compiledHtml_init (JStr t) params = (JStr t, []).
Proof. intros Hm. apply compiledHtml_init_rendered. by apply compile_plain. Qed.

(** A template that is not a text (a number or an object the store gave
    back) is refused by the engine: the preview shows the value itself and
    the refusal is logged. *)
Theorem value_template_refused `{!TemplateEngineLaws} html params :
  typeof html ≠ TString → get_field "type" html ≠ Some (JStr "Program") →
  compiledHtml_init html params =
    (html, [ConsoleWarn compile_warning; ConsoleWarn (not_a_template html)]).
Proof. intros. apply compiledHtml_init_threw. by apply compile_refused. Qed.

(** A value delivered by the [html] timer that equals the debounced
    copy re-renders nothing: no compilation, no diagnostics. *)
Theorem html_settled_same_value pv :
  is_object (debouncedHtml pv) = false →
  html_settled (debouncedHtml pv) pv = (pv, []).
Proof. intros Hp. unfold html_settled. by rewrite same_primitive_refl, Hp. Qed.

(** The preview is debounced on the trailing edge: a burst of values
    from idle, each less than half a second after the one before, followed
    by half a second of quiet, delivers one value, the last; there is no
    ceiling, so a burst however long delivers nothing before it ends. *)
Theorem useDebounce_trailing_edge {A} (s : sched A) a0 rest w :
  slot s = None →
  Forall (λ ga, ga.1 < 500)%N rest → (500 ≤ w)%N →
  ∃ t, fired (run (act useDebounce_policy) s
                  (Call a0 :: burst rest ++ [Wait w])) =
         fired s ++ [(t, List.last rest.*2 a0)] ∧
       (t ≤ clock s + duration (burst rest) + 500)%N.
Proof.
  intros Hidle Hgaps Hw.
  by apply (burst_fires_once useDebounce_policy).
Qed.

End preview_properties.

(** ** With the engine of [Template] *)

(** A printed syntax tree is shown as its evaluation against the data, and
    nothing is logged. *)
Lemma compiledHtml_init_print ns d :
  nodes_ok ns = true →
  compiledHtml_init (JStr (print_template ns)) d = (JStr (render d ns), []).
Proof. intros. apply compiledHtml_init_rendered. by apply compile_print. Qed.

(** Whether the template compiles or not, what is shown has no more
    markup delimiters than the template, unless the template asks for an
    unescaped substitution. *)
Lemma compiledHtml_init_no_markup c (t : string) d :
  escaped c = true → has_raw_marker t = false →
  ∃ out, (compiledHtml_init (JStr t) d).1 = JStr out ∧ occurs c out ≤ occurs c t.
Proof.
  intros Hc Hraw. unfold compiledHtml_init.
  destruct (compile_value (JStr t) d) as [out|e] eqn:Hout; [|by exists t].
  exists out. split; [done|]. by apply (compile_adds_no_markup c t d).
Qed.

(** Substitution: with the engine of [Template], a template with one
    variable between two pieces of text is shown as the text with the
    field of the data in place of the variable, printed as JavaScript
    prints it and HTML-escaped (nothing for a missing field), and nothing
    is logged. *)
Theorem substitution_renders pre k post d :
  lacks "{" pre = true → is_ident k = true → k ≠ "" → k ≠ "else" →
  has_marker post = false →
  compiledHtml_init (JStr (pre +:+ "{{" +:+ k +:+ "}}" +:+ post)) d =
    (JStr (pre +:+ escapeExpression (show (get_field k d)) +:+ post), []).
Proof. intros. apply compiledHtml_init_rendered. by apply compile_var. Qed.

(** The malformed template of the specification's scenario, with "OK" on
    screen: the preview shows the raw template, not "OK". *)
Lemma recompile_failure_shows_raw_witness :
  recompile (MkPreview (JStr "{{#if") (JObj []) (JStr "OK") None None) =
    (MkPreview (JStr "{{#if") (JObj []) (JStr "{{#if") None None,
     [ConsoleWarn compile_warning; ConsoleWarn "Parse error"]).
Proof.
  apply (recompile_failure_shows_raw
           (MkPreview (JStr "{{#if") (JObj []) (JStr "OK") None None) "Parse error").
  vm_compute. reflexivity.
Defined.

Lemma recompile_success_shows_output_witness :
  recompile (MkPreview (JStr "Hello, {{title}}!") (JObj [("title", JStr "World")])
                       (JStr "") None None) =
    (MkPreview (JStr "Hello, {{title}}!") (JObj [("title", JStr "World")])
               (JStr "Hello, World!") None None, []).
Proof.
  apply (recompile_success_shows_output
           (MkPreview (JStr "Hello, {{title}}!") (JObj [("title", JStr "World")])
                      (JStr "") None None) "Hello, World!").
  vm_compute. reflexivity.
Defined.

Lemma plain_template_unchanged_witness :
  compiledHtml_init (JStr "<h1>Title</h1>") (JObj []) = (JStr "<h1>Title</h1>", []).
Proof.
  apply (plain_template_unchanged "<h1>Title</h1>" (JObj [])).
  vm_compute. reflexivity.
Defined.

(** The scenarios of the specification, evaluated. *)
Example scenario_hello :
  compiledHtml_init (JStr "Hello, {{title}}!") (JObj [("title", JStr "World")]) =
    (JStr "Hello, World!", []).
Proof. vm_compute. reflexivity. Qed.

Example scenario_if_missing :
  compiledHtml_init (JStr "{{#if x}}Y{{/if}}") (JObj []) = (JStr "", []).
Proof. vm_compute. reflexivity. Qed.

Lemma useDebounce_trailing_edge_witness :
  ∃ t, fired (run (act useDebounce_policy) (Sched 0%N None [])
                  (Call "a" :: burst [(100%N, "ab"); (499%N, "abc")] ++ [Wait 500%N])) =
         [] ++ [(t, List.last [(100%N, "ab"); (499%N, "abc")].*2 "a")] ∧
       (t ≤ 0 + duration (burst [(100%N, "ab"); (499%N, "abc")]) + 500)%N.
Proof.
  apply (useDebounce_trailing_edge (Sched 0%N None []) "a"
           [(100%N, "ab"); (499%N, "abc")] 500%N);
    [done|repeat constructor|lia].
Defined.

(** A conditional block: with the engine of [Template], a template
    with one [#if] block around plain text is shown with the block's text
    when the field of the data holds (is truthy and not an empty array),
    and without it otherwise; a missing field is not an error. *)
Theorem conditional_renders pre k body post d :
  lacks "{" pre = true → is_ident k = true → k ≠ "" →
  lacks "{" body = true → has_marker post = false →
  compiledHtml_init
    (JStr (pre +:+ "{{#if " +:+ k +:+ "}}" +:+ body +:+ "{{/if}}" +:+ post)) d =
    (JStr (pre +:+ (if if_holds (get_field k d) then body else "") +:+ post), []).
Proof. intros. apply compiledHtml_init_rendered. by apply compile_if. Qed.

(** The second scenario of the specification. *)
Lemma conditional_renders_witness :
  compiledHtml_init
    (JStr ("" +:+ "{{#if " +:+ "x" +:+ "}}" +:+ "Y" +:+ "{{/if}}" +:+ ""))
    (JObj []) =
    (JStr ("" +:+ (if if_holds (get_field "x" (JObj [])) then "Y" else "") +:+ ""),
     []).
Proof. by apply (conditional_renders "" "x" "Y" "" (JObj [])). Defined.

(** The first scenario of the specification. *)
Lemma substitution_renders_witness :
  compiledHtml_init (JStr ("Hello, " +:+ "{{" +:+ "title" +:+ "}}" +:+ "!"))
                    (JObj [("title", JStr "World")]) =
    (JStr ("Hello, " +:+
           escapeExpression (show (get_field "title" (JObj [("title", JStr "World")]))) +:+
           "!"), []).
Proof.
  by apply (substitution_renders "Hello, " "title" "!" (JObj [("title", JStr "World")])).
Defined.
