(* ===== verification/Publish.v ===== *)
(** * Publish: the publish client and the button (App.js lines 25, 47-59, 148-174)

    [publish] is an [async] function with one [await]: [publish_start] is
    what runs until the request is sent (or the function returns because
    the key is missing), [publish_finish] what runs when the promise of
    [axios.post] settles.  [response] is how it settles: resolved with the
    response body, or rejected (transport error or a status outside 2xx).

    [Button] sets its loading flag before it calls its handler and clears
    it when the handler has settled, and is disabled while the flag is
    set.  [Button_onClick] is the turn of a click: a handler that
    returned without awaiting has settled within it.  [Button_frames]
    lists the states the button is rendered in during that turn.
    [publisher] puts the button and the number of requests in flight
    together; [click] and [respond] are its two transitions. *)

From S2P Require Import Prelude Json Effects.

#[local] Open Scope eff_scope.

(** ** The request *)

Definition host : string := "https://ssfy.sh/chrisvxd/og-impact".

(** [axios.post(`${host}/publish`, { body: html, styles: css }, { headers })]. *)
Definition publish_request (html css : json) (apiKey : string) : request :=
  Request (host +:+ "/publish") html css
          [("Content-Type", "application/json"); ("Authorization", apiKey)].

(** How the promise settles. *)
Inductive response :=
  | Resolved (data : json)
  | Rejected (e : error).

(** ** The messages *)

Definition missing_key_message : string :=
  "Please provide your API key before publishing a template.".
Definition failure_message : string :=
  "Publish was unsuccessful. Please ensure you are providing a valid API key.".
Definition success_message (template : string) : string :=
  "Save successful. Use template ID " +:+ template +:+ ".".

(** ** [publish] *)

(** Lines 149-165: refuse an empty key, otherwise send the request.  The
    result says whether a request is now in flight. *)
Definition publish_start (html css : json) (apiKey : string) : Eff bool :=
  if negb (truthy apiKey)
  then emit (Alert missing_key_message);; eff_ret false
  else emit (HttpPost (publish_request html css apiKey));; eff_ret true.

(** The exception of reading the property [k] of [null]: a [TypeError]
    that belongs to no request.  The wording of its message is the
    JavaScript engine's. *)
Definition null_property_error (k : string) : error :=
  Error ("TypeError: Cannot read property '" +:+ k +:+ "' of null") None.

(** Lines 167-173: the rest of the [try] and the [catch].  Reading
    [response.data.template] throws when the body is [null]; a body
    without the field gives [undefined]. *)
Definition publish_finish (r : response) : Eff unit :=
  match r with
  | Resolved JNull =>
      emit (Alert failure_message);;
      emit (ConsoleLog (null_property_error "template"))
  | Resolved data =>
      emit (Alert (success_message (js_string_of (get_field "template" data))))
  | Rejected e =>
      emit (Alert failure_message);; emit (ConsoleLog e)
  end.

(** ** [Button] *)

Record button := MkButton { loading : bool }.

Definition setLoading (v : bool) (b : button) : button := MkButton v.

(** Line 58: after the [await]. *)
Definition Button_resume (b : button) : button := setLoading false b.

(** The click handler (lines 55-59) in the turn of the click.  A disabled
    button has no click.  Otherwise [setLoading(true)] (line 56), and the
    handler runs until it awaits or returns (line 57).  When it returned
    without awaiting, its promise is already settled: the function goes on
    in the same turn, before any other event, and [setLoading(false)] runs
    (line 58).  The result says whether the handler is still pending. *)
Definition Button_onClick (handler : Eff bool) (b : button) : Eff (button * bool) :=
  if loading b then eff_ret (b, false)
  else
    let b := setLoading true b in
    let* pending := handler in
    if pending then eff_ret (b, true) else eff_ret (Button_resume b, false).

(** The states the button is rendered in during that turn: with [loading]
    set after line 56, and without it again when line 58 ran in the same
    turn.  A click without a key makes the button flash. *)
Definition Button_frames (handler : Eff bool) (b : button) : list button :=
  if loading b then []
  else if handler.1 then [setLoading true b]
       else [setLoading true b; Button_resume (setLoading true b)].

(** ** The publisher: button and requests in flight *)

Record publisher := MkPublisher {
  publish_button : button;
  inflight : nat
}.

Definition publisher_init : publisher := MkPublisher (MkButton false) 0.

(** A click on the button, with the documents and key of that moment. *)
Definition click (html css : json) (apiKey : string) (p : publisher) : Eff publisher :=
  let* r := Button_onClick (publish_start html css apiKey) (publish_button p) in
  eff_ret (MkPublisher r.1 (inflight p + (if r.2 then 1 else 0))).

(** The request settles.  Without a request in flight there is nothing to
    settle. *)
Definition respond (r : response) (p : publisher) : Eff publisher :=
  match inflight p with
  | 0 => eff_ret p
  | S n =>
      publish_finish r;;
      eff_ret (MkPublisher (Button_resume (publish_button p)) n)
  end.

(** The button spins exactly while one request is in flight. *)
Definition publisher_ok (p : publisher) : Prop :=
  inflight p = if loading (publish_button p) then 1 else 0.

(** ** Lemmas *)

Section publish_lemmas.
Implicit Types (html css : json) (apiKey : string) (p : publisher) (r : response).

Lemma publish_start_no_key html css :
  publish_start html css "" = (false, [Alert missing_key_message]).
Proof. done. Qed.

Lemma publish_start_key html css apiKey :
  apiKey ≠ "" →
  publish_start html css apiKey =
    (true, [HttpPost (publish_request html css apiKey)]).
Proof.
  intros Hk%string_truthy_iff. unfold publish_start. by rewrite Hk.
Qed.

(** [publish_start] sends a request exactly when it reports one in flight. *)
Lemma publish_start_posts html css apiKey :
  count is_post (publish_start html css apiKey).2 =
    if (publish_start html css apiKey).1 then 1 else 0.
Proof. unfold publish_start. by destruct (truthy apiKey). Qed.

Lemma publish_finish_rejected e :
  publish_finish (Rejected e) = (tt, [Alert failure_message; ConsoleLog e]).
Proof. done. Qed.

Lemma publish_finish_template fs id :
  assoc "template" fs = Some (JStr id) →
  publish_finish (Resolved (JObj fs)) = (tt, [Alert (success_message id)]).
Proof. intros Hid. unfold publish_finish. simpl. by rewrite Hid. Qed.

(** Every outcome shows exactly one alert and sends nothing. *)
Lemma publish_finish_effects r :
  count is_alert (publish_finish r).2 = 1 ∧ count is_post (publish_finish r).2 = 0.
Proof. by destruct r as [[]|]. Qed.

Lemma click_disabled html css apiKey p :
  loading (publish_button p) = true → click html css apiKey p = (p, []).
Proof.
  intros Hl. unfold click, Button_onClick. rewrite Hl, eff_bind_ret_l.
  destruct p as [b n]. cbn [fst snd eff_ret inflight]. by rewrite Nat.add_0_r.
Qed.

Lemma click_ok html css apiKey p :
  publisher_ok p → publisher_ok (click html css apiKey p).1.
Proof.
  unfold publisher_ok, click, Button_onClick, publish_start.
  destruct (loading _) eqn:Hl; simpl; [by rewrite Hl; lia|].
  intros ->. by destruct (truthy apiKey).
Qed.

Lemma respond_ok r p : publisher_ok p → publisher_ok (respond r p).1.
Proof.
  intros Hok. unfold respond. destruct (inflight p) as [|n] eqn:Hn; [done|].
  rewrite eff_bind_fst. unfold publisher_ok in *. simpl.
  rewrite Hn in Hok. destruct (loading _); lia.
Qed.

(** The last state the button is rendered in during the turn of a click
    is the state the click leaves it in. *)
Lemma Button_frames_last (handler : Eff bool) (b : button) :
  List.last (Button_frames handler b) b = (Button_onClick handler b).1.1.
Proof.
  unfold Button_frames, Button_onClick. destruct (loading b); [done|].
  destruct handler as [[] es]; by rewrite eff_bind_fst.
Qed.

(** A click sends at most one request, and none while one is in flight. *)
Lemma click_posts html css apiKey p :
  publisher_ok p →
  inflight (click html css apiKey p).1 =
    inflight p + count is_post (click html css apiKey p).2 ∧
  inflight (click html css apiKey p).1 ≤ 1.
Proof.
  intros Hok. pose proof (click_ok html css apiKey p Hok) as Hok'.
  split; [|unfold publisher_ok in Hok'; by destruct (loading _); lia].
  unfold click, Button_onClick, publish_start.
  destruct (loading _); simpl; [done|]. by destruct (truthy apiKey).
Qed.

End publish_lemmas.

#[export] Hint Resolve click_ok respond_ok : editor.

(** ** Properties of the publish client *)

Section publish_properties.
Implicit Types (p : publisher) (r : response).

(** A rejected request (transport error or a status outside 2xx) shows
    the generic failure alert, logs the error, and re-enables the
    button. *)
Theorem respond_rejected e p :
  inflight p = 1 →
  respond (Rejected e) p =
    (MkPublisher (MkButton false) 0, [Alert failure_message; ConsoleLog e]).
Proof. intros Hn. unfold respond. by rewrite Hn. Qed.

(** A successful response reports the template id the service
    returned. *)
Theorem respond_success fs id p :
  inflight p = 1 → assoc "template" fs = Some (JStr id) →
  respond (Resolved (JObj fs)) p =
    (MkPublisher (MkButton false) 0,
     [Alert ("Save successful. Use template ID " +:+ id +:+ ".")]).
Proof.
  intros Hn Hid. unfold respond. rewrite Hn.
  by rewrite (publish_finish_template fs id Hid).
Qed.

(** A successful response without a [template] field still reports
    success, with the id shown as "undefined". *)
Theorem respond_missing_template fs p :
  inflight p = 1 → assoc "template" fs = None →
  respond (Resolved (JObj fs)) p =
    (MkPublisher (MkButton false) 0,
     [Alert "Save successful. Use template ID undefined."]).
Proof.
  intros Hn Hid. unfold respond, publish_finish. rewrite Hn. simpl.
  by rewrite Hid.
Qed.

(** A successful response whose body is [null] is reported as a
    failure: reading the id throws inside the [try]. *)
Theorem respond_null_body p :
  inflight p = 1 →
  respond (Resolved JNull) p =
    (MkPublisher (MkButton false) 0,
     [Alert failure_message; ConsoleLog (null_property_error "template")]).
Proof. intros Hn. unfold respond. by rewrite Hn. Qed.

(** C34. What the user is told when the service answers with success but
    not with an id.  A body that is not [null] and has no [template] field
    (an object without it, or no object at all) is reported as a success
    with the id shown as "undefined"; a [null] body is reported as a
    failure of the key, because reading the id throws inside the [try]. *)
Theorem respond_malformed_success p :
  inflight p = 1 →
  (∀ data, data ≠ JNull → get_field "template" data = None →
     respond (Resolved data) p =
       (MkPublisher (MkButton false) 0,
        [Alert "Save successful. Use template ID undefined."])) ∧
  respond (Resolved JNull) p =
    (MkPublisher (MkButton false) 0,
     [Alert failure_message; ConsoleLog (null_property_error "template")]).
Proof.
  intros Hn. split; [|by apply respond_null_body].
  intros data Hd Ht. unfold respond, publish_finish. rewrite Hn.
  destruct data; try done; cbn in *; by rewrite ?Ht.
Qed.

(** Every outcome of a request shows exactly one alert, sends nothing,
    and re-enables the button. *)
Theorem respond_one_alert r p :
  inflight p ≠ 0 →
  count is_alert (respond r p).2 = 1 ∧ count is_post (respond r p).2 = 0 ∧
  loading (publish_button (respond r p).1) = false.
Proof.
  intros Hn. unfold respond. destruct (inflight p) as [|n]; [done|].
  rewrite eff_bind_fst, eff_bind_snd, app_nil_r. simpl.
  by destruct (publish_finish_effects r).
Qed.

End publish_properties.

(** A publisher with one request in flight. *)
Definition busy : publisher := MkPublisher (MkButton true) 1.

Lemma respond_rejected_witness :
  let e := Error "Network Error"
             (Some (publish_request (JStr "<p></p>") (JStr "p {}") "key")) in
  respond (Rejected e) busy =
    (MkPublisher (MkButton false) 0, [Alert failure_message; ConsoleLog e]).
Proof. intros e. by apply (respond_rejected e busy). Defined.

Lemma respond_success_witness :
  respond (Resolved (JObj [("template", JStr "abc123")])) busy =
    (MkPublisher (MkButton false) 0,
     [Alert ("Save successful. Use template ID " +:+ "abc123" +:+ ".")]).
Proof. by apply (respond_success [("template", JStr "abc123")] "abc123" busy). Defined.

Lemma respond_missing_template_witness :
  respond (Resolved (JObj [("ok", JBool true)])) busy =
    (MkPublisher (MkButton false) 0,
     [Alert "Save successful. Use template ID undefined."]).
Proof. by apply (respond_missing_template [("ok", JBool true)] busy). Defined.

Lemma respond_null_body_witness :
  respond (Resolved JNull) busy =
    (MkPublisher (MkButton false) 0,
     [Alert failure_message; ConsoleLog (null_property_error "template")]).
Proof. by apply (respond_null_body busy). Defined.

Lemma respond_malformed_success_witness :
  (∀ data, data ≠ JNull → get_field "template" data = None →
     respond (Resolved data) busy =
       (MkPublisher (MkButton false) 0,
        [Alert "Save successful. Use template ID undefined."])) ∧
  respond (Resolved JNull) busy =
    (MkPublisher (MkButton false) 0,
     [Alert failure_message; ConsoleLog (null_property_error "template")]).
Proof. by apply (respond_malformed_success busy). Defined.

(** A click without a key: the button is rendered spinning and disabled,
    then idle again, and is left idle. *)
Example click_without_key_flashes :
  Button_frames (publish_start (JStr "<p></p>") (JStr "p {}") "") (MkButton false) =
    [MkButton true; MkButton false] ∧
  (Button_onClick (publish_start (JStr "<p></p>") (JStr "p {}") "") (MkButton false)).1 =
    (MkButton false, false).
Proof. done. Qed.

(** A body that is a string is such a success. *)
Example respond_text_body :
  (respond (Resolved (JStr "created")) busy).2 =
    [Alert "Save successful. Use template ID undefined."].
Proof. done. Qed.

Lemma respond_one_alert_witness :
  count is_alert (respond (Resolved (JObj [])) busy).2 = 1 ∧
  count is_post (respond (Resolved (JObj [])) busy).2 = 0 ∧
  loading (publish_button (respond (Resolved (JObj [])) busy).1) = false.
Proof. by apply (respond_one_alert (Resolved (JObj [])) busy). Defined.
