(* ===== verification/Spec.v ===== *)
(** * Spec: what a session promises to its user

    The abstract machine of the specification (sections 4.5 and 5): what
    can be observed of a session, and the moves it may make.  There are no
    timers and no clock here.  A move is either the session's answer to
    something the user or the service did ([input]: a key stroke in one of
    the editors or in the key field, a click, the request settling), or a
    move of the session's own: the preview or the store catching up.

    An input has one answer, and the answer says what the documents are
    afterwards and what the user is told.  The moves of the session's own
    happen at moments of their choosing, and when they happen they act on
    the documents of that moment ("only the value present at the moment
    the timer fires is acted upon; intermediate values are discarded"): the
    preview moves to the compilation of the current template, or of the
    current data; the store is written with the three current documents.

    Where the program departs from the wording of the specification the
    machine states what the program does, and the departure is recorded
    with the development's findings: a data text that does not parse
    changes nothing but the console, a data text that parses replaces the
    data at once, and a click without a key is answered with an alert.

    [Refine] proves that the program's event loop makes only such moves:
    each event other than the passing of time is the one answer to its
    input, and the passing of time is a sequence of moves of the session's
    own. *)

From stdpp Require Import relations.
From S2P Require Import Prelude Json Effects Template Storage Preview Publish.

#[local] Open Scope eff_scope.

(** What is observable: the three documents (template, stylesheet, data),
    the text in the data editor, the key, the template and data the
    preview was compiled from, what the preview shows, the store, whether
    a publish request is in flight, and what the session has said so far
    (console, alerts, requests). *)
Record view := View {
  docs : json * json * json;
  text : string;
  key : string;
  shown : json * json;
  output : json;
  stored : store;
  waiting : bool;
  said : list effect
}.

(** What the user and the service do. *)
Inductive input :=
  | TypeHtml (s : string)
  | TypeCss (s : string)
  | TypeData (s : string)
  | TypeKey (s : string)
  | Click
  | Answer (r : response).

(** Field updates. *)
Definition with_docs (d : json * json * json) (v : view) : view :=
  View d (text v) (key v) (shown v) (output v) (stored v) (waiting v) (said v).
Definition with_text (s : string) (v : view) : view :=
  View (docs v) s (key v) (shown v) (output v) (stored v) (waiting v) (said v).
Definition with_key (s : string) (v : view) : view :=
  View (docs v) (text v) s (shown v) (output v) (stored v) (waiting v) (said v).
Definition with_stored (st : store) (v : view) : view :=
  View (docs v) (text v) (key v) (shown v) (output v) st (waiting v) (said v).
Definition with_waiting (b : bool) (v : view) : view :=
  View (docs v) (text v) (key v) (shown v) (output v) (stored v) b (said v).
Definition say (es : list effect) (v : view) : view :=
  View (docs v) (text v) (key v) (shown v) (output v) (stored v) (waiting v)
       (said v ++ es).

Section spec.
Context `{JsonCodec, TemplateEngine}.

(** The preview of a template and data: the compilation, or the raw
    template when it fails. *)
Definition compiled (s : json * json) : json :=
  (compiledHtml_init s.1 s.2).1.

(** The preview moves to [s]: it shows the compilation and says what the
    compiler said. *)
Definition display (s : json * json) (v : view) : view :=
  say (compiledHtml_init s.1 s.2).2
      (View (docs v) (text v) (key v) s (compiled s) (stored v) (waiting v) (said v)).

(** The moves of a session: the answer to an input, or ([None]) a move of
    its own. *)
Inductive spec_step : option input → view → view → Prop :=
  | spec_html v s :
      spec_step (Some (TypeHtml s)) v
                (with_docs (JStr s, (docs v).1.2, (docs v).2) v)
  | spec_css v s :
      spec_step (Some (TypeCss s)) v
                (with_docs ((docs v).1.1, JStr s, (docs v).2) v)
  | spec_data v s d :
      parse s = Some d →
      spec_step (Some (TypeData s)) v
                (with_text s (with_docs ((docs v).1.1, (docs v).1.2, d) v))
  | spec_data_invalid v s :
      parse s = None →
      spec_step (Some (TypeData s)) v (say [ConsoleWarn "Error parsing JSON"] v)
  | spec_key v s :
      spec_step (Some (TypeKey s)) v (with_key s v)
  | spec_click_busy v :
      waiting v = true → spec_step (Some Click) v v
  | spec_click_no_key v :
      waiting v = false → key v = "" →
      spec_step (Some Click) v (say [Alert missing_key_message] v)
  | spec_send v :
      waiting v = false → key v ≠ "" →
      spec_step (Some Click) v
        (say [HttpPost (publish_request (docs v).1.1 (docs v).1.2 (key v))]
             (with_waiting true v))
  | spec_settle v r :
      waiting v = true →
      spec_step (Some (Answer r)) v (say (publish_finish r).2 (with_waiting false v))
  | spec_settle_idle v r :
      waiting v = false → spec_step (Some (Answer r)) v v
  | spec_show_html v :
      same_primitive (docs v).1.1 (shown v).1 = false →
      spec_step None v (display ((docs v).1.1, (shown v).2) v)
  | spec_show_params v :
      same_primitive (docs v).2 (shown v).2 = false →
      spec_step None v (display ((shown v).1, (docs v).2) v)
  | spec_save v :
      spec_step None v
        (with_stored (debouncedWriteStorage_fn (docs v).1.1 (docs v).1.2 (docs v).2
                        (stored v)).1 v).

(** Moves of the session's own, one after the other. *)
Definition spec_internal : view → view → Prop := rtc (spec_step None).

(** What the session may do on [i]: its one answer to an input, or, while
    nothing is put in, moves of its own. *)
Definition spec_move (i : option input) (v v' : view) : Prop :=
  match i with
  | Some _ => spec_step i v v'
  | None => spec_internal v v'
  end.

(** A session: one move for each entry of the list, in order. *)
Inductive spec_run : view → list (option input) → view → Prop :=
  | spec_run_nil v : spec_run v [] v
  | spec_run_cons v1 i v2 ins v3 :
      spec_move i v1 v2 → spec_run v2 ins v3 → spec_run v1 (i :: ins) v3.

(** The preview shows the compilation of what it was compiled from. *)
Definition view_ok (v : view) : Prop := output v = compiled (shown v).

(** ** Properties of the abstract machine *)

Lemma spec_run_snoc v1 ins v2 i v3 :
  spec_run v1 ins v2 → spec_move i v2 v3 → spec_run v1 (ins ++ [i]) v3.
Proof.
  induction 1 as [v|v1 j v2 ins v2' Hm _ IH]; intros Hi.
  - apply (spec_run_cons v i v3); [done|constructor].
  - apply (spec_run_cons v1 j v2); [done|by apply IH].
Qed.

(** What every move preserves, every session preserves. *)
Lemma spec_run_invariant (P : view → Prop) v ins v' :
  (∀ i v v', spec_step i v v' → P v → P v') →
  spec_run v ins v' → P v → P v'.
Proof.
  intros Hstep. induction 1 as [|v1 i v2 ins v3 Hm _ IH]; [done|].
  intros H1. apply IH. destruct i as [i|]; [by eapply Hstep|].
  induction Hm; eauto.
Qed.

Lemma spec_step_ok i v v' : spec_step i v v' → view_ok v → view_ok v'.
Proof. by destruct 1. Qed.

(** The store is written by saves only, and a save touches three keys. *)
Lemma spec_step_other_keys i v v' k :
  k ≠ "html" → k ≠ "css" → k ≠ "params" →
  spec_step i v v' → getItem k (stored v') = getItem k (stored v).
Proof. intros ??? []; simpl; try done. by apply save_other_keys. Qed.

Lemma spec_step_quota i v v' : spec_step i v v' → quota (stored v') = quota (stored v).
Proof. intros []; simpl; try done. apply save_quota. Qed.

(** A request is sent only when none is in flight, and it carries the
    template, the stylesheet and the key of that moment. *)
Lemma spec_step_posts i v v' r :
  spec_step i v v' → HttpPost r ∈ drop (length (said v)) (said v') →
  waiting v = false ∧ waiting v' = true ∧
  r = publish_request (docs v).1.1 (docs v).1.2 (key v).
Proof.
  intros [] Hin; cbn [said say with_docs with_text with_key with_stored with_waiting
                       display] in Hin;
    rewrite ?drop_app_length, ?drop_all in Hin;
    try (by apply elem_of_nil in Hin);
    try (apply list_elem_of_singleton in Hin; by simplify_eq).
  - destruct r0 as [[]|]; cbn in Hin; set_solver.
  - unfold compiledHtml_init in Hin. destruct (compile_value _ _); cbn in Hin; set_solver.
  - unfold compiledHtml_init in Hin. destruct (compile_value _ _); cbn in Hin; set_solver.
Qed.

End spec.
