(* ===== verification/App.v ===== *)
(** * App: the editor session and its event loop (App.js lines 135-178, 208, 230-247)

    [app] is the state of the [App] component: the three documents, the
    text of the data and the key.  A document is a JavaScript value: the
    text the user typed, or, until then, whatever the store gave back
    (lines 136-142), which need not be a text.  [world] puts it together with the state of
    its children ([Preview], the publish [Button]), the pending call of
    [debouncedWriteStorage], the store, the clock and the trace of effects.

    [step] is one turn of the browser's event loop: an edit in one of the
    editors, a key stroke in the key field, a click on the button, the
    settling of the request, or time passing ([Elapse]), during which the
    due timers run in the order of their deadlines.  [mount] is the first
    render.  The lemmas here are about the timer loop and the invariant
    [world_ok] of every state [reachable] from [mount]; the theorems on
    sessions are in [Session]. *)

From S2P Require Import Prelude Json Effects Debounce Template Storage Preview Publish.

#[local] Open Scope N_scope.

(** ** State *)

Record app := MkApp {
  html : json;
  css : json;
  params : json;
  paramsJson : string;
  apiKey : string
}.

(** The arguments of a call of [debouncedWriteStorage]. *)
Definition snapshot : Type := json * json * json.

Record world := MkWorld {
  app_state : app;
  preview_state : preview;
  publisher_state : publisher;
  saveTimer : debouncer snapshot;
  storage : store;
  now : N;
  trace : list effect
}.

(** The built-in example documents ([./html-example], [./css-example]). *)
Class Examples := {
  htmlExample : string;
  cssExample : string
}.

(** [{ title: 'Hello, World!' }] (line 143). *)
Definition defaultParams : json := JObj [("title", JStr "Hello, World!")].

(** Field updates. *)
Definition setHtml (v : json) (a : app) : app :=
  MkApp v (css a) (params a) (paramsJson a) (apiKey a).
Definition setCss (v : json) (a : app) : app :=
  MkApp (html a) v (params a) (paramsJson a) (apiKey a).
Definition setParams (v : json) (a : app) : app :=
  MkApp (html a) (css a) v (paramsJson a) (apiKey a).
Definition setParamsJson (v : string) (a : app) : app :=
  MkApp (html a) (css a) (params a) v (apiKey a).
Definition setApiKey (v : string) (a : app) : app :=
  MkApp (html a) (css a) (params a) (paramsJson a) v.

Definition with_app (a : app) (w : world) : world :=
  MkWorld a (preview_state w) (publisher_state w) (saveTimer w) (storage w)
          (now w) (trace w).
Definition with_preview (r : Eff preview) (w : world) : world :=
  MkWorld (app_state w) r.1 (publisher_state w) (saveTimer w) (storage w)
          (now w) (trace w ++ r.2).
Definition with_publisher (r : Eff publisher) (w : world) : world :=
  MkWorld (app_state w) (preview_state w) r.1 (saveTimer w) (storage w)
          (now w) (trace w ++ r.2).
Definition with_saveTimer (d : debouncer snapshot) (w : world) : world :=
  MkWorld (app_state w) (preview_state w) (publisher_state w) d (storage w)
          (now w) (trace w).
Definition with_storage (st : store) (w : world) : world :=
  MkWorld (app_state w) (preview_state w) (publisher_state w) (saveTimer w) st
          (now w) (trace w).
Definition with_now (t : N) (w : world) : world :=
  MkWorld (app_state w) (preview_state w) (publisher_state w) (saveTimer w)
          (storage w) t (trace w).
Definition log (e : effect) (w : world) : world :=
  MkWorld (app_state w) (preview_state w) (publisher_state w) (saveTimer w)
          (storage w) (now w) (trace w ++ [e]).

(** The documents as [debouncedWriteStorage] receives them. *)
Definition documents (a : app) : snapshot := (html a, css a, params a).

Section app.
Context `{JsonCodec, TemplateEngine, Examples}.

(** ** The first render *)

(** The initial state (lines 136-146): each document from the store, or
    its built-in default when the stored value is falsy. *)
Definition App_init (st : store) : app :=
  let params := (storedParams st ||| defaultParams)%js in
  MkApp (storedHtml st ||| JStr htmlExample)%js
        (storedCss st ||| JStr cssExample)%js
        params
        (stringify 2 params)
        "".

(** The effect of lines 176-178: call the debounced writer with the
    current documents. *)
Definition save_effect (w : world) : world :=
  with_saveTimer (schedule (now w) (documents (app_state w)) (saveTimer w)) w.

(** Mounting at time [t0] on the store [st]: the state is initialised, the
    preview mounts, and the effects of the first render run. *)
Definition mount (st : store) (t0 : N) : world :=
  let a := App_init st in
  let pv := Preview_mount (html a) (params a) in
  save_effect (MkWorld a pv.1 publisher_init None st t0 pv.2).

(** ** Handlers *)

(** [onChange={setHtml}] (line 230): the editor hands over its text.
    React ignores a value equal to the current one; otherwise the
    component re-renders, the preview's hook sees the new [html], and the
    save effect runs. *)
Definition on_html (v : string) (w : world) : world :=
  if decide (JStr v = html (app_state w)) then w
  else
    let w := with_app (setHtml (JStr v) (app_state w)) w in
    let w := with_preview
               (eff_ret (html_changed (now w) (JStr v) (preview_state w))) w in
    save_effect w.

(** [onChange={setCss}] (line 234): the preview takes [css] undebounced. *)
Definition on_css (v : string) (w : world) : world :=
  if decide (JStr v = css (app_state w)) then w
  else save_effect (with_app (setCss (JStr v) (app_state w)) w).

(** The data editor's [onChange] (lines 240-247): when the text parses,
    both [params] and [paramsJson] are set; when it does not, a warning is
    logged and nothing changes.  The parsed value is a new object, so the
    preview's hook and the save effect see a change, unless it is a
    primitive equal to the current one: then only the text changes. *)
Definition on_data (val : string) (w : world) : world :=
  match parse val with
  | Some obj =>
      let changed := negb (same_primitive obj (params (app_state w))) in
      let w := with_app (setParamsJson val (setParams obj (app_state w))) w in
      if changed then
        let w := with_preview (eff_ret (params_changed (now w) obj (preview_state w))) w in
        save_effect w
      else w
  | None => log (ConsoleWarn "Error parsing JSON") w
  end.

(** The key field's [onChange] (line 208). *)
Definition on_apiKey (v : string) (w : world) : world :=
  with_app (setApiKey v (app_state w)) w.

(** A click on the publish button (line 218), with the documents and the
    key of the current render. *)
Definition on_click (w : world) : world :=
  let a := app_state w in
  with_publisher (click (html a) (css a) (apiKey a) (publisher_state w)) w.

(** The request settles. *)
Definition on_settled (r : response) (w : world) : world :=
  with_publisher (respond r (publisher_state w)) w.

End app.

(** ** Timers *)

(** The three timers of the program. *)
Inductive timer := THtml | TParams | TSave.

#[export] Instance timer_eq_dec : EqDecision timer.
Proof. solve_decision. Defined.

Definition all_timers : list timer := [THtml; TParams; TSave].

(** When a timer is set to run, if it is set. *)
Definition timer_deadline (t : timer) (w : world) : option N :=
  match t with
  | THtml => deadline useDebounce_policy <$> htmlTimer (preview_state w)
  | TParams => deadline useDebounce_policy <$> paramsTimer (preview_state w)
  | TSave => deadline debouncedWriteStorage_policy <$> saveTimer w
  end.

(** The timers due by [limit], with their deadlines. *)
Definition due_timers (limit : N) (w : world) : list (timer * N) :=
  omap (λ t, d ← timer_deadline t w;
             if bool_decide (d ≤ limit) then Some (t, d) else None)
       all_timers.

(** The first of the earliest entries. *)
Definition earliest (l : list (timer * N)) : option (timer * N) :=
  foldr (λ x best,
           match best with
           | Some b => if x.2 <=? b.2 then Some x else Some b
           | None => Some x
           end) None l.

Section loop.
Context `{JsonCodec, TemplateEngine, Examples}.

(** The storage timer's callback: the debounced function runs with the
    arguments of the last call; whether the writes went through is not
    observed. *)
Definition fire_save (at_ : N) (w : world) : world :=
  match fire debouncedWriteStorage_policy at_ (saveTimer w) with
  | (Some (h, c, p), d) =>
      with_storage (debouncedWriteStorage_fn h c p (storage w)).1
                   (with_saveTimer d w)
  | (None, _) => w
  end.

(** Run the callback of timer [t] at time [at_]. *)
Definition fire_timer (t : timer) (at_ : N) (w : world) : world :=
  match t with
  | THtml => with_preview (fire_html at_ (preview_state w)) w
  | TParams => with_preview (fire_params at_ (preview_state w)) w
  | TSave => fire_save at_ w
  end.

(** Run the timers due by [limit], earliest first.  There are three timers
    and a callback sets none, so three rounds are enough. *)
Fixpoint run_timers (fuel : nat) (limit : N) (w : world) : world :=
  match fuel with
  | 0%nat => w
  | S fuel =>
      match earliest (due_timers limit w) with
      | Some (t, at_) => run_timers fuel limit (fire_timer t at_ w)
      | None => w
      end
  end.

(** [dt] milliseconds pass. *)
Definition elapse (dt : N) (w : world) : world :=
  with_now (now w + dt) (run_timers 3 (now w + dt) w).

(** ** The event loop *)

Inductive event :=
  | EditHtml (v : string)
  | EditCss (v : string)
  | EditData (val : string)
  | EditApiKey (v : string)
  | ClickPublish
  | Settled (r : response)
  | Elapse (dt : N).

Definition step (w : world) (e : event) : world :=
  match e with
  | EditHtml v => on_html v w
  | EditCss v => on_css v w
  | EditData val => on_data val w
  | EditApiKey v => on_apiKey v w
  | ClickPublish => on_click w
  | Settled r => on_settled r w
  | Elapse dt => elapse dt w
  end.

(** ** Invariants *)

(** The data object is the parse of the data text. *)
Definition data_ok (a : app) : Prop := parse (paramsJson a) = Some (params a).

(** No timer is overdue. *)
Definition timers_ok (w : world) : Prop :=
  debouncer_wf useDebounce_policy (now w) (htmlTimer (preview_state w)) ∧
  debouncer_wf useDebounce_policy (now w) (paramsTimer (preview_state w)) ∧
  debouncer_wf debouncedWriteStorage_policy (now w) (saveTimer w).

(** Each debouncer either holds the current value of what it debounces, or
    is idle and its output is current. *)
Definition html_synced (w : world) : Prop :=
  match htmlTimer (preview_state w) with
  | Some p => args p = html (app_state w)
  | None => debouncedHtml (preview_state w) = html (app_state w)
  end.
Definition params_synced (w : world) : Prop :=
  match paramsTimer (preview_state w) with
  | Some p => args p = params (app_state w)
  | None => debouncedParams (preview_state w) = params (app_state w)
  end.
Definition save_synced (w : world) : Prop :=
  ∀ p, saveTimer w = Some p → args p = documents (app_state w).

(** The store holds the documents of [a]. *)
Definition saved (a : app) (st : store) : Prop :=
  getItem "html" st = Some (stored_text (html a)) ∧
  getItem "css" st = Some (stored_text (css a)) ∧
  getItem "params" st = Some (stored_text (params a)).

(** With no call pending, the store holds the current documents (when the
    store has no quota, so that writes go through). *)
Definition stored_current (w : world) : Prop :=
  quota (storage w) = None → saveTimer w = None →
  saved (app_state w) (storage w).

(** All of them. *)
Record world_ok (w : world) : Prop := {
  ok_preview : preview_ok (preview_state w);
  ok_publisher : publisher_ok (publisher_state w);
  ok_timers : timers_ok w;
  ok_html : html_synced w;
  ok_params : params_synced w;
  ok_save : save_synced w;
  ok_stored : stored_current w
}.

End loop.

(** ** Lemmas on timers *)

Section timer_lemmas.
Context `{JsonCodec, TemplateEngine, Examples}.
Implicit Types (w : world) (t : timer) (limit d : N) (l : list (timer * N)).

Lemma earliest_None l : earliest l = None ↔ l = [].
Proof.
  destruct l as [|x l]; [done|]. simpl. destruct (earliest l); [case_match|]; done.
Qed.

Lemma earliest_elem l x : earliest l = Some x → x ∈ l.
Proof.
  revert x. induction l as [|y l IH]; intros x; [done|]. simpl.
  destruct (earliest l) as [b|]; [case_match|]; intros [= <-];
    [left|right; by apply IH|left].
Qed.

(** Nothing in the list is earlier. *)
Lemma earliest_least l x y : earliest l = Some x → y ∈ l → x.2 ≤ y.2.
Proof.
  revert x. induction l as [|z l IH]; intros x; [by intros _ ?%elem_of_nil|].
  simpl. destruct (earliest l) as [b|] eqn:Hb.
  - destruct (N.leb_spec z.2 b.2); intros [= <-] [->|Hy]%elem_of_cons; try lia.
    + specialize (IH b eq_refl Hy). lia.
    + by apply IH.
  - apply earliest_None in Hb as ->.
    intros [= <-] [->|?%elem_of_nil]%elem_of_cons; [lia|done].
Qed.

Lemma due_timers_elem limit w t d :
  (t, d) ∈ due_timers limit w ↔ timer_deadline t w = Some d ∧ d ≤ limit.
Proof.
  unfold due_timers. rewrite list_elem_of_omap. split.
  - intros (t' & _ & Ht).
    destruct (timer_deadline t' w) as [d'|] eqn:E; [|done].
    simpl in Ht. case_bool_decide; by simplify_eq.
  - intros [Ht Hd]. exists t. split; [destruct t; set_solver|].
    rewrite Ht. simpl. by rewrite bool_decide_true.
Qed.

Lemma due_timers_length limit w : (length (due_timers limit w) ≤ 3)%nat.
Proof.
  unfold due_timers, all_timers. cbn [omap list_omap].
  destruct (timer_deadline THtml w), (timer_deadline TParams w),
    (timer_deadline TSave w); simpl; repeat case_bool_decide; simpl; lia.
Qed.

(** A timer that has a deadline holds a pending call. *)
Lemma timer_deadline_html w d :
  timer_deadline THtml w = Some d →
  ∃ p, htmlTimer (preview_state w) = Some p ∧ deadline useDebounce_policy p = d.
Proof. simpl. destruct (htmlTimer _) as [p|]; naive_solver. Qed.

Lemma timer_deadline_params w d :
  timer_deadline TParams w = Some d →
  ∃ p, paramsTimer (preview_state w) = Some p ∧ deadline useDebounce_policy p = d.
Proof. simpl. destruct (paramsTimer _) as [p|]; naive_solver. Qed.

Lemma timer_deadline_save w d :
  timer_deadline TSave w = Some d →
  ∃ p, saveTimer w = Some p ∧ deadline debouncedWriteStorage_policy p = d.
Proof. simpl. destruct (saveTimer _) as [p|]; naive_solver. Qed.

(** Running a timer's callback at its deadline clears that timer and no
    other. *)
Lemma fire_timer_deadline t d w t' :
  timer_deadline t w = Some d →
  timer_deadline t' (fire_timer t d w) =
    if decide (t' = t) then None else timer_deadline t' w.
Proof.
  intros Ht. destruct t.
  - apply timer_deadline_html in Ht as (p & Hp & <-).
    destruct (fire_html_timers (deadline useDebounce_policy p) (preview_state w))
      as [Hh Hq].
    rewrite Hp, fire_due in Hh by done.
    destruct t'; simpl; by rewrite ?Hh, ?Hq.
  - apply timer_deadline_params in Ht as (p & Hp & <-).
    destruct (fire_params_timers (deadline useDebounce_policy p) (preview_state w))
      as [Hq Hh].
    rewrite Hp, fire_due in Hq by done.
    destruct t'; simpl; by rewrite ?Hh, ?Hq.
  - apply timer_deadline_save in Ht as (p & Hp & <-).
    unfold fire_timer, fire_save. rewrite Hp, fire_due by done.
    destruct (args p) as [[h c] q]. by destruct t'.
Qed.

(** The due timers after a callback: the same, without the one that ran. *)
Lemma due_timers_fire limit w t d :
  timer_deadline t w = Some d →
  due_timers limit (fire_timer t d w) =
    filter (λ x, x.1 ≠ t) (due_timers limit w).
Proof.
  intros Ht. unfold due_timers, all_timers. cbn [omap list_omap].
  rewrite !(fire_timer_deadline t d w) by done.
  destruct (timer_deadline THtml w), (timer_deadline TParams w),
    (timer_deadline TSave w), t; simplify_eq/=;
    repeat case_bool_decide; simpl;
    by rewrite ?filter_cons, ?filter_nil; repeat case_decide.
Qed.

(** Each round of the timer loop leaves one timer less due. *)
Lemma due_timers_fire_length limit w t d :
  earliest (due_timers limit w) = Some (t, d) →
  (length (due_timers limit (fire_timer t d w)) < length (due_timers limit w))%nat.
Proof.
  intros He%earliest_elem. apply due_timers_elem in He as Hin. destruct Hin as [Ht _].
  rewrite (due_timers_fire _ _ _ _ Ht).
  by apply (length_filter_lt (λ x : timer * N, x.1 ≠ t) _ (t, d) He); intros ?.
Qed.

End timer_lemmas.

(** ** The timers settle *)

Section settle.
Context `{JsonCodec, TemplateEngine, Examples}.
Implicit Types (w : world) (t : timer) (limit d : N).

Lemma run_timers_due n limit w :
  (length (due_timers limit w) ≤ n)%nat →
  due_timers limit (run_timers n limit w) = [].
Proof.
  revert w. induction n as [|n IH]; intros w Hlen; simpl.
  { by destruct (due_timers limit w); [|simpl in Hlen; lia]. }
  destruct (earliest _) as [[t d]|] eqn:He; [|by apply earliest_None].
  apply IH. apply due_timers_fire_length in He. lia.
Qed.

(** Three rounds are enough: after [run_timers 3] no timer is due. *)
Lemma run_timers_settles limit w :
  due_timers limit (run_timers 3 limit w) = [].
Proof. apply run_timers_due, due_timers_length. Qed.

(** Nothing is due exactly when no debouncer is due. *)
Lemma due_timers_nil limit w :
  due_timers limit w = [] ↔
  due useDebounce_policy limit (htmlTimer (preview_state w)) = false ∧
  due useDebounce_policy limit (paramsTimer (preview_state w)) = false ∧
  due debouncedWriteStorage_policy limit (saveTimer w) = false.
Proof.
  unfold due_timers, all_timers. cbn [omap list_omap]. simpl.
  destruct (htmlTimer _), (paramsTimer _), (saveTimer _); simpl;
    repeat case_bool_decide; naive_solver.
Qed.

(** The callbacks leave the documents, the publisher and the clock alone. *)
Lemma fire_timer_frame t d w :
  app_state (fire_timer t d w) = app_state w ∧
  publisher_state (fire_timer t d w) = publisher_state w ∧
  now (fire_timer t d w) = now w.
Proof.
  destruct t; simpl; [done..|]. unfold fire_save.
  by destruct (fire _ _ _) as [[[[??]?]|] ?].
Qed.

Lemma run_timers_frame n limit w :
  app_state (run_timers n limit w) = app_state w ∧
  publisher_state (run_timers n limit w) = publisher_state w ∧
  now (run_timers n limit w) = now w.
Proof.
  revert w. induction n as [|n IH]; intros w; simpl; [done|].
  destruct (earliest _) as [[t d]|]; [|done].
  destruct (IH (fire_timer t d w)) as (-> & -> & ->). apply fire_timer_frame.
Qed.

End settle.

(** ** Preservation of the invariants *)

(** The timers' times are ordered and in the past. *)
Definition timers_ordered (w : world) : Prop :=
  debouncer_ordered (now w) (htmlTimer (preview_state w)) ∧
  debouncer_ordered (now w) (paramsTimer (preview_state w)) ∧
  debouncer_ordered (now w) (saveTimer w).

Section invariants.
Context `{JsonCodec, TemplateEngine, Examples}.
Implicit Types (w : world) (t : timer) (limit d : N).

(** What holds also while the due timers are being run: everything but
    "no timer is overdue". *)
Record calm (w : world) : Prop := {
  calm_preview : preview_ok (preview_state w);
  calm_publisher : publisher_ok (publisher_state w);
  calm_ordered : timers_ordered w;
  calm_html : html_synced w;
  calm_params : params_synced w;
  calm_save : save_synced w;
  calm_stored : stored_current w
}.

Lemma timers_ok_ordered w : timers_ok w → timers_ordered w.
Proof. intros (? & ? & ?). split_and!; by eapply debouncer_wf_ordered. Qed.

Lemma timers_ok_intro w :
  timers_ordered w → due_timers (now w) w = [] → timers_ok w.
Proof.
  intros (? & ? & ?) (? & ? & ?)%due_timers_nil.
  split_and!; by apply debouncer_wf_intro.
Qed.

Lemma world_ok_calm w : world_ok w → calm w.
Proof. intros []. split; auto using timers_ok_ordered. Qed.

Lemma calm_world_ok w : calm w → due_timers (now w) w = [] → world_ok w.
Proof. intros [] ?. split; auto using timers_ok_intro. Qed.

Lemma policies_wf :
  policy_wf useDebounce_policy ∧ policy_wf debouncedWriteStorage_policy.
Proof. split; split; simpl; [lia|done|lia|]. intros mw [= <-]. lia. Qed.

(** Running a due timer's callback keeps the state calm. *)
Lemma fire_timer_calm t d w :
  timer_deadline t w = Some d → calm w → calm (fire_timer t d w).
Proof.
  intros Ht [Hpv Hpub (Hoh & Hop & Hos) Hh Hp Hs Hst]. destruct t.
  - apply timer_deadline_html in Ht as (p & Hp' & <-).
    unfold html_synced in Hh. rewrite Hp' in Hh.
    assert (due useDebounce_policy (deadline useDebounce_policy p)
              (htmlTimer (preview_state w)) = true) as Hdue
      by (rewrite Hp'; by apply due_true).
    split; unfold timers_ordered, html_synced, params_synced, save_synced;
      cbn [fire_timer with_preview preview_state publisher_state app_state
           saveTimer now];
      rewrite ?(fire_html_due _ _ p Hpv Hp' Hdue); simpl;
      auto with editor.
    by rewrite Hh.
  - apply timer_deadline_params in Ht as (p & Hp' & <-).
    unfold params_synced in Hp. rewrite Hp' in Hp.
    assert (due useDebounce_policy (deadline useDebounce_policy p)
              (paramsTimer (preview_state w)) = true) as Hdue
      by (rewrite Hp'; by apply due_true).
    split; unfold timers_ordered, html_synced, params_synced, save_synced;
      cbn [fire_timer with_preview preview_state publisher_state app_state
           saveTimer now];
      rewrite ?(fire_params_due _ _ p Hpv Hp' Hdue); simpl;
      auto with editor.
    by rewrite Hp.
  - apply timer_deadline_save in Ht as (p & Hp' & <-).
    unfold fire_timer, fire_save. rewrite Hp', fire_due by done.
    destruct (args p) as [[h c] q] eqn:Hargs.
    specialize (Hs p Hp'). rewrite Hs in *. simplify_eq/=.
    split; unfold timers_ordered, save_synced, stored_current, saved; simpl;
      auto with editor; [by intros ?|].
    intros Hq _. rewrite save_quota in Hq. rewrite save_unbounded by done.
    unfold getItem, documents in *. simplify_eq/=. split_and!; by simplify_map_eq.
Qed.

Lemma run_timers_calm n limit w : calm w → calm (run_timers n limit w).
Proof.
  revert w. induction n as [|n IH]; intros w Hw; simpl; [done|].
  destruct (earliest _) as [[t d]|] eqn:He; [|done].
  apply earliest_elem, due_timers_elem in He as [Ht _].
  by apply IH, fire_timer_calm.
Qed.

End invariants.

(** ** Every step preserves the invariants *)

Section steps.
Context `{JsonCodec, TemplateEngine, Examples}.
Implicit Types (w : world) (e : event) (st : store).

(** Unfold the invariants of a state built by a handler. *)
Ltac unfold_ok :=
  unfold timers_ok, html_synced, params_synced, save_synced, stored_current,
    saved, save_effect, html_changed, params_changed, documents in *;
  cbn [with_app with_preview with_publisher with_saveTimer with_storage
       with_now log app_state preview_state publisher_state saveTimer storage
       now trace fst snd eff_ret
       setHtml setCss setParams setParamsJson setApiKey
       html css params paramsJson apiKey
       setHtmlTimer setParamsTimer htmlTimer paramsTimer
       debouncedHtml debouncedParams compiledHtml] in *.

Lemma schedule_synced {A} (t : N) (a : A) d (P : Prop) :
  match schedule t a d with Some p => args p = a | None => P end.
Proof. by destruct d. Qed.

(** Close the goals a handler leaves: scheduled timers are well formed and
    hold the value they were scheduled with. *)
Ltac solve_ok :=
  split; unfold_ok; auto with editor;
  try apply schedule_synced;
  try (intros ? ?%schedule_Some_args; done);
  try (by intros _ ?%schedule_not_None);
  try (split_and!; by auto with editor).

Lemma mount_ok st t0 : world_ok (mount st t0).
Proof.
  pose proof policies_wf as [Hp Hs]. unfold mount.
  split; unfold_ok; rewrite ?Preview_mount_fst; simpl; auto with editor;
    try done; [|by intros p [= <-]].
  split_and!; try done. by apply (schedule_wf _ _ _ None).
Qed.

Lemma on_html_ok v w : world_ok w → world_ok (on_html v w).
Proof.
  pose proof policies_wf as [Hp Hs]. unfold on_html. case_decide; [done|].
  intros [Hpv Hpub (? & ? & ?) Hh Hq Hsv Hst]. solve_ok.
Qed.

Lemma on_css_ok v w : world_ok w → world_ok (on_css v w).
Proof.
  pose proof policies_wf as [Hp Hs]. unfold on_css. case_decide; [done|].
  intros [Hpv Hpub (? & ? & ?) Hh Hq Hsv Hst]. solve_ok.
Qed.

Lemma on_data_ok val w : world_ok w → world_ok (on_data val w).
Proof.
  pose proof policies_wf as [Hp Hs]. unfold on_data.
  destruct (parse val) as [obj|]; intros [Hpv Hpub (? & ? & ?) Hh Hq Hsv Hst];
    [|by split].
  destruct (same_primitive _ _) eqn:E; cbn [negb]; [|solve_ok].
  apply same_primitive_eq in E as ->. by split.
Qed.

(** A text that parses sets the data and the text, whether or not the
    timers restart. *)
Lemma on_data_app val obj w :
  parse val = Some obj →
  app_state (on_data val w) = setParamsJson val (setParams obj (app_state w)).
Proof. intros Hp. unfold on_data. rewrite Hp. by case_match. Qed.

Lemma on_apiKey_ok v w : world_ok w → world_ok (on_apiKey v w).
Proof. by intros []. Qed.

Lemma on_click_ok w : world_ok w → world_ok (on_click w).
Proof. intros []. split; try done. by apply click_ok. Qed.

Lemma on_settled_ok r w : world_ok w → world_ok (on_settled r w).
Proof. intros []. split; try done. by apply respond_ok. Qed.

Lemma elapse_ok dt w : world_ok w → world_ok (elapse dt w).
Proof.
  intros Hw%world_ok_calm. unfold elapse.
  pose proof (run_timers_calm 3 (now w + dt) w Hw) as [? ? (? & ? & ?) ? ? ? ?].
  pose proof (run_timers_settles (now w + dt) w) as Hdue.
  destruct (run_timers_frame 3 (now w + dt) w) as (_ & _ & Hnow).
  apply calm_world_ok; [|done].
  split; try done. rewrite Hnow in *.
  split_and!; (eapply debouncer_ordered_mono; [|done]); simpl; lia.
Qed.

(** Every step preserves the invariants. *)
Lemma step_ok w e : world_ok w → world_ok (step w e).
Proof.
  destruct e; simpl;
    auto using on_html_ok, on_css_ok, on_data_ok, on_apiKey_ok, on_click_ok,
      on_settled_ok, elapse_ok.
Qed.

(** The invariants hold in every state the session can reach. *)
Lemma reachable_ok st t0 w : reachable step (mount st t0) w → world_ok w.
Proof. apply reachable_invariant; [apply mount_ok|intros; by apply step_ok]. Qed.

End steps.

(** ** What the steps do to the store, the clock and the trace *)

Section facts.
Context `{JsonCodec, TemplateEngine, Examples}.
Implicit Types (w : world) (e : event) (t : timer) (limit d : N).

Lemma fire_timer_quota t d w :
  quota (storage (fire_timer t d w)) = quota (storage w).
Proof.
  destruct t; simpl; [done..|]. unfold fire_save.
  destruct (fire _ _ _) as [[[[??]?]|] ?]; simpl; [apply save_quota|done].
Qed.

Lemma run_timers_quota n limit w :
  quota (storage (run_timers n limit w)) = quota (storage w).
Proof.
  revert w. induction n as [|n IH]; intros w; simpl; [done|].
  destruct (earliest _) as [[t d]|]; [|done]. by rewrite IH, fire_timer_quota.
Qed.

(** The quota of the store never changes. *)
Lemma step_quota w e : quota (storage (step w e)) = quota (storage w).
Proof.
  destruct e; cbn [step]; [..|apply run_timers_quota];
    unfold on_html, on_css, on_data, on_apiKey, on_click, on_settled;
    by repeat case_match.
Qed.

Lemma run_quota w evs : quota (storage (run step w evs)) = quota (storage w).
Proof.
  revert w. induction evs as [|e evs IH]; intros w; [done|].
  by rewrite run_cons, IH, step_quota.
Qed.

(** The timers' callbacks send no request and show no alert. *)
Lemma fire_timer_trace t d w :
  ∃ es, trace (fire_timer t d w) = trace w ++ es ∧
        count is_post es = 0%nat ∧ count is_alert es = 0%nat.
Proof.
  destruct t; simpl.
  - unfold fire_html. destruct (fire _ _ _) as [[v|] ?]; simpl.
    + unfold html_settled. case_match; simpl; [by exists []|].
      eexists; split; [done|]. apply recompile_quiet.
    + by exists [].
  - unfold fire_params. destruct (fire _ _ _) as [[v|] ?]; simpl.
    + unfold params_settled. case_match; simpl; [by exists []|].
      eexists; split; [done|]. apply recompile_quiet.
    + by exists [].
  - unfold fire_save. exists []. rewrite app_nil_r.
    by destruct (fire _ _ _) as [[[[??]?]|] ?].
Qed.

Lemma run_timers_trace n limit w :
  ∃ es, trace (run_timers n limit w) = trace w ++ es ∧
        count is_post es = 0%nat ∧ count is_alert es = 0%nat.
Proof.
  revert w. induction n as [|n IH]; intros w; simpl.
  { exists []. by rewrite app_nil_r. }
  destruct (earliest _) as [[t d]|]; [|exists []; by rewrite app_nil_r].
  destruct (IH (fire_timer t d w)) as (es2 & -> & ? & ?).
  destruct (fire_timer_trace t d w) as (es1 & -> & ? & ?).
  exists (es1 ++ es2). rewrite app_assoc, !count_app. split_and!; [done|lia..].
Qed.

(** Once nothing is due, running the timers does nothing. *)
Lemma run_timers_idle n limit w :
  due_timers limit w = [] → run_timers n limit w = w.
Proof. intros Hd. destruct n; simpl; [done|]. by rewrite Hd. Qed.

Lemma run_timers_add n k limit w :
  run_timers (n + k) limit w = run_timers k limit (run_timers n limit w).
Proof.
  revert w. induction n as [|n IH]; intros w; simpl; [done|].
  destruct (earliest _) as [[t d]|] eqn:He; [apply IH|].
  apply earliest_None in He. by rewrite run_timers_idle.
Qed.

(** *** How time is sliced does not matter *)

(** With a lower limit fewer timers are due; the earliest of them is the
    earliest of all. *)
Lemma earliest_filter_le (L : N) (l : list (timer * N)) x :
  earliest (filter (λ y, y.2 ≤ L) l) = Some x → earliest l = Some x.
Proof.
  revert x. induction l as [|z l IH]; intros x; [done|].
  rewrite filter_cons. case_decide as Hz; simpl.
  - destruct (earliest (filter _ l)) as [b|] eqn:Hb; [by rewrite (IH b)|].
    intros [= <-]. destruct (earliest l) as [b|] eqn:Hl; [|done].
    apply earliest_None in Hb. apply earliest_elem in Hl.
    assert (¬ b.2 ≤ L) by (intros ?; by eapply (filter_nil_not_elem_of _ l b)).
    by rewrite (proj2 (N.leb_le _ _)) by lia.
  - intros Hx. rewrite (IH x Hx).
    apply earliest_elem, list_elem_of_filter in Hx as [? _].
    by rewrite (proj2 (N.leb_gt _ _)) by lia.
Qed.

Lemma due_timers_filter L1 L2 w :
  L1 ≤ L2 → due_timers L1 w = filter (λ y, y.2 ≤ L1) (due_timers L2 w).
Proof.
  intros HL. unfold due_timers, all_timers. cbn [omap list_omap].
  destruct (timer_deadline THtml w), (timer_deadline TParams w),
    (timer_deadline TSave w); simpl; repeat case_bool_decide; simpl;
    rewrite ?filter_cons, ?filter_nil; repeat case_decide; simpl in *;
    done || lia.
Qed.

(** Running the timers up to [L1] and then up to [L2] is running them up
    to [L2]: the callbacks run in the same order at the same times. *)
Lemma run_timers_limit n L1 L2 w :
  L1 ≤ L2 → (length (due_timers L2 w) ≤ n)%nat →
  run_timers n L2 (run_timers n L1 w) = run_timers n L2 w.
Proof.
  intros HL. revert w. induction n as [|n IH]; intros w Hlen.
  { simpl. by destruct (due_timers L2 w); [|simpl in Hlen; lia]. }
  simpl (run_timers (S n) L1 w).
  destruct (earliest (due_timers L1 w)) as [[t d]|] eqn:He; [|done].
  rewrite (due_timers_filter L1 L2) in He by done.
  apply earliest_filter_le in He. simpl (run_timers (S n) L2 w). rewrite He.
  assert (length (due_timers L2 (fire_timer t d w)) ≤ n)%nat as Hn
    by (apply due_timers_fire_length in He; lia).
  replace (S n) with (n + 1)%nat by lia.
  rewrite run_timers_add, IH by done.
  by apply run_timers_idle, run_timers_due.
Qed.

(** The timers do not read the clock: they run at their deadlines. *)
Lemma run_timers_with_now n limit (c : N) w :
  run_timers n limit (with_now c w) = with_now c (run_timers n limit w).
Proof.
  revert w. induction n as [|n IH]; intros w; [done|]. simpl.
  change (due_timers limit (with_now c w)) with (due_timers limit w).
  destruct (earliest _) as [[tm d]|]; [|done]. rewrite <-IH. f_equal.
  destruct tm; [done..|]. unfold fire_timer, fire_save. cbn [with_now saveTimer].
  by destruct (fire _ _ _) as [[[[??]?]|] ?].
Qed.

(** Waiting [a] and then [b] milliseconds is waiting [a + b]. *)
Lemma elapse_elapse a b w : elapse b (elapse a w) = elapse (a + b) w.
Proof.
  unfold elapse. cbn [with_now now]. rewrite run_timers_with_now.
  rewrite run_timers_limit by (lia || apply due_timers_length).
  by rewrite N.add_assoc.
Qed.

(** No time passing is no event, in a state with no timer overdue. *)
Lemma elapse_zero w : timers_ok w → elapse 0 w = w.
Proof.
  intros (Hh & Hp & Hs). unfold elapse. rewrite N.add_0_r, run_timers_idle.
  - by destruct w.
  - apply due_timers_nil. split_and!; by apply due_wf.
Qed.

(** After quiescence of [delay] a debouncer that was not overdue before
    has run. *)
Lemma quiet_timer_gone {A} pol (t dt : N) (d : debouncer A) :
  debouncer_ordered t d → due pol (t + dt) d = false → delay pol ≤ dt →
  d = None.
Proof.
  intros Hord Hdue Hdt. destruct d as [p|]; [|done].
  apply due_false in Hdue. destruct (Hord p eq_refl).
  pose proof (deadline_le_delay pol p). lia.
Qed.

(** What every callback that runs preserves, the timer loop preserves. *)
Lemma run_timers_invariant (P : world → Prop) n limit w :
  (∀ t d w', (t, d) ∈ due_timers limit w' → P w' → P (fire_timer t d w')) →
  P w → P (run_timers n limit w).
Proof.
  intros Hstep. revert w. induction n as [|n IH]; intros w Hw; [done|]. simpl.
  destruct (earliest _) as [[t d]|] eqn:He; [|done].
  apply IH, Hstep; [by apply earliest_elem|done].
Qed.

(** *** The pending save and the store *)

(** What running the save does to the store. *)
Definition written (x : snapshot) (st : store) : store :=
  (debouncedWriteStorage_fn x.1.1 x.1.2 x.2 st).1.

(** The timer loop leaves the pending save and the store alone, or runs
    the save, once, with the pending documents. *)
Lemma run_timers_save n limit w :
  (saveTimer (run_timers n limit w) = saveTimer w ∧
   storage (run_timers n limit w) = storage w) ∨
  (∃ p, saveTimer w = Some p ∧ deadline debouncedWriteStorage_policy p ≤ limit ∧
        saveTimer (run_timers n limit w) = None ∧
        storage (run_timers n limit w) = written (args p) (storage w)).
Proof.
  apply (run_timers_invariant
           (λ w', (saveTimer w' = saveTimer w ∧ storage w' = storage w) ∨
                  (∃ p, saveTimer w = Some p ∧
                        deadline debouncedWriteStorage_policy p ≤ limit ∧
                        saveTimer w' = None ∧
                        storage w' = written (args p) (storage w))));
    [|by left].
  intros t d w' [Ht Hd]%due_timers_elem HP. destruct t; [done..|]. right.
  apply timer_deadline_save in Ht as (p & Hp & <-).
  destruct HP as [[Hs Hst]|(? & _ & _ & ? & _)]; [|congruence].
  exists p. rewrite <-Hs, <-Hst. split_and!; [done..| |];
    unfold fire_timer, fire_save; rewrite Hp, fire_due by done;
    by destruct (args p) as [[??]?].
Qed.

(** What a step does to them: nothing; or it calls the debounced writer,
    which writes nothing yet; or the save has run. *)
Lemma step_save w e :
  (saveTimer (step w e) = saveTimer w ∧ storage (step w e) = storage w) ∨
  (saveTimer (step w e) =
     schedule (now w) (documents (app_state (step w e))) (saveTimer w) ∧
   storage (step w e) = storage w) ∨
  saveTimer (step w e) = None.
Proof.
  destruct e; cbn [step];
    [unfold on_html|unfold on_css|unfold on_data|by left..|];
    [by case_decide; [left|right; left]..| |].
  - by repeat case_match; [right; left|left..].
  - destruct (run_timers_save 3 (now w + dt) w) as [?|(? & _ & _ & ? & _)];
      [by left|by do 2 right].
Qed.

(** A pending save is less than five seconds into its burst. *)
Lemma pending_save_young w p :
  world_ok w → saveTimer w = Some p → now w < firstCall p + 5000.
Proof.
  intros [_ _ (_ & _ & Hsave) _ _ _ _] Hp. destruct (Hsave p Hp) as (_ & _ & Hlt).
  pose proof (deadline_le_maxWait debouncedWriteStorage_policy p 5000 eq_refl).
  lia.
Qed.

(** While the template's timer is not due, time passing leaves it and the
    debounced template alone, whatever the other timers do. *)
Lemma elapse_html_pending w dt p :
  htmlTimer (preview_state w) = Some p →
  now w + dt < deadline useDebounce_policy p →
  htmlTimer (preview_state (elapse dt w)) = Some p ∧
  debouncedHtml (preview_state (elapse dt w)) = debouncedHtml (preview_state w).
Proof.
  intros Hp Hlt. unfold elapse. cbn [with_now preview_state].
  apply (run_timers_invariant
           (λ w', htmlTimer (preview_state w') = Some p ∧
                  debouncedHtml (preview_state w') = debouncedHtml (preview_state w)));
    [|done].
  intros t d w' [Ht Hd]%due_timers_elem [Hp' Hd']. destruct t.
  - apply timer_deadline_html in Ht as (p' & Hq & <-). simplify_eq. lia.
  - cbn [fire_timer with_preview preview_state].
    destruct (fire_params_timers d (preview_state w')) as [_ ->].
    by rewrite fire_params_debouncedHtml.
  - unfold fire_timer, fire_save. by destruct (fire _ _ _) as [[[[??]?]|] ?].
Qed.

(** After half a second of quiet the preview has caught up with the
    documents. *)
Lemma elapse_preview w dt :
  world_ok w → 500 ≤ dt →
  preview_state (elapse dt w) =
    MkPreview (html (app_state w)) (params (app_state w))
              (compiledHtml_init (html (app_state w)) (params (app_state w))).1
              None None.
Proof.
  intros Hw%world_ok_calm Hdt. unfold elapse. cbn [with_now preview_state].
  pose proof (run_timers_calm 3 (now w + dt) w Hw) as [Hpv _ (Hoh & Hop & _) Hh Hp _ _].
  pose proof (run_timers_settles (now w + dt) w) as (Hdh & Hdp & _)%due_timers_nil.
  destruct (run_timers_frame 3 (now w + dt) w) as (Ha & _ & Hnow).
  set (w' := run_timers 3 (now w + dt) w) in *. clearbody w'.
  rewrite Hnow in *. unfold html_synced, params_synced, preview_ok in *.
  apply (quiet_timer_gone _ _ _ _ Hoh) in Hdh; [|done].
  apply (quiet_timer_gone _ _ _ _ Hop) in Hdp; [|done].
  rewrite Hdh in Hh. rewrite Hdp in Hp. rewrite Ha in *.
  destruct (preview_state w'); by simplify_eq/=.
Qed.

(** After a second of quiet on a store without quota the store holds the
    documents. *)
Lemma elapse_stored w dt :
  world_ok w → quota (storage w) = None → 1000 ≤ dt →
  saved (app_state w) (storage (elapse dt w)).
Proof.
  intros Hw Hq Hdt.
  pose proof (elapse_ok dt w Hw) as [_ _ _ _ _ _ Hst].
  apply world_ok_calm in Hw. unfold elapse, stored_current in *.
  cbn [with_now storage saveTimer app_state] in *.
  pose proof (run_timers_calm 3 (now w + dt) w Hw) as [_ _ (_ & _ & Hos) _ _ _ _].
  pose proof (run_timers_settles (now w + dt) w) as (_ & _ & Hds)%due_timers_nil.
  destruct (run_timers_frame 3 (now w + dt) w) as (Ha & _ & Hnow).
  rewrite Hnow, ?Ha in *. apply Hst; [by rewrite run_timers_quota|].
  by apply (quiet_timer_gone _ _ _ _ Hos Hds).
Qed.

End facts.
