(* ===== verification/Tracks.v ===== *)
(** * Tracks: a debounced part of the session beside its scheduler

    The session holds three debounced things: the storage writer and the
    two [useDebounce] hooks of the preview.  Each is a pending call among
    the timers of [App] and a value that the call, when it runs, changes:
    the store, the debounced template, the debounced data.  [Debounce]
    states the contract of a debouncer on a scheduler of its own, which
    also records every execution.

    [debounced] is what the three have in common, and [DebouncedLaws] what
    [App] must do for the scheduler to apply: only the part's own timer
    touches it, the timer delivers the pending arguments, and an event
    other than the passing of time at most calls the debounced function.
    From the laws alone: time passing runs the part's timer exactly when
    it is due ([elapse_debounced]), and the scheduler of [Debounce], run on
    the calls and waits of a session, has the part's pending call in its
    slot and a log whose replay is the part's value ([run_tracks]).

    [storage_writer], [html_hook] and [params_hook] are the three instances. *)

From S2P Require Import Prelude Json Effects Debounce Template Storage Preview Publish App.

#[local] Open Scope N_scope.

(** ** The interface *)

(** A debounced part of the session: its policy and timer, where its
    pending call and its value are in a [world], what an execution does to
    the value, and the call an event makes, if any. *)
Record debounced `{JsonCodec, TemplateEngine, Examples} (A B : Type) := Debounced {
  d_policy : policy;
  d_timer : timer;
  d_pending : world → debouncer A;
  d_value : world → B;
  d_deliver : A → B → B;
  d_call : world → event → option A
}.
Arguments Debounced {_ _ _ A B} _ _ _ _ _ _.
Arguments d_policy {_ _ _ A B} _.
Arguments d_timer {_ _ _ A B} _.
Arguments d_pending {_ _ _ A B} _ _.
Arguments d_value {_ _ _ A B} _ _.
Arguments d_deliver {_ _ _ A B} _ _ _.
Arguments d_call {_ _ _ A B} _ _ _.

Class DebouncedLaws `{JsonCodec, TemplateEngine, Examples} {A B}
    (c : debounced A B) : Prop := {
  d_deadline w :
    timer_deadline (d_timer c) w = deadline (d_policy c) <$> d_pending c w;
  d_fire_other t d w :
    t ≠ d_timer c →
    d_pending c (fire_timer t d w) = d_pending c w ∧
    d_value c (fire_timer t d w) = d_value c w;
  d_fire p w :
    d_pending c w = Some p →
    let w' := fire_timer (d_timer c) (deadline (d_policy c) p) w in
    d_pending c w' = None ∧ d_value c w' = d_deliver c (args p) (d_value c w);
  d_clock t w :
    d_pending c (with_now t w) = d_pending c w ∧
    d_value c (with_now t w) = d_value c w;
  d_event w e :
    (∀ dt, e ≠ Elapse dt) →
    d_pending c (step w e) =
      from_option (λ a, schedule (now w) a (d_pending c w)) (d_pending c w)
                  (d_call c w e) ∧
    d_value c (step w e) = d_value c w
}.

(** ** Events other than the passing of time *)

Section events.
Context `{JsonCodec, TemplateEngine, Examples}.

Lemma event_waits (e : event) : (∃ dt, e = Elapse dt) ∨ ∀ dt, e ≠ Elapse dt.
Proof. destruct e; naive_solver. Qed.

(** Only the passing of time moves the clock. *)
Lemma step_now (w : world) (e : event) :
  (∀ dt, e ≠ Elapse dt) → now (step w e) = now w.
Proof.
  destruct e; cbn [step]; intros Hne; [..|naive_solver];
    unfold on_html, on_css, on_data, on_apiKey, on_click, on_settled;
    by repeat case_match.
Qed.

End events.

(** ** What the laws give *)

Section debounced.
Context `{JsonCodec, TemplateEngine, Examples} {A B : Type}.
Context (c : debounced A B) `{!DebouncedLaws c}.
Implicit Types (w : world) (e : event) (evs : list event) (s : sched A).
Implicit Types (log : list (N * A)) (b : B).

(** The timer loop leaves the part alone, or runs its pending call once. *)
Lemma run_timers_debounced n limit w :
  (d_pending c (run_timers n limit w) = d_pending c w ∧
   d_value c (run_timers n limit w) = d_value c w) ∨
  (∃ p, d_pending c w = Some p ∧ deadline (d_policy c) p ≤ limit ∧
        d_pending c (run_timers n limit w) = None ∧
        d_value c (run_timers n limit w) = d_deliver c (args p) (d_value c w)).
Proof.
  apply (run_timers_invariant
           (λ w', (d_pending c w' = d_pending c w ∧ d_value c w' = d_value c w) ∨
                  (∃ p, d_pending c w = Some p ∧ deadline (d_policy c) p ≤ limit ∧
                        d_pending c w' = None ∧
                        d_value c w' = d_deliver c (args p) (d_value c w))));
    [|by left].
  intros t d w' [Ht Hd]%due_timers_elem HP.
  destruct (decide (t = d_timer c)) as [->|Hne].
  - rewrite d_deadline in Ht. apply fmap_Some in Ht as (p & Hp & ->).
    destruct HP as [[Hs Hv]|(? & _ & _ & ? & _)]; [|congruence].
    destruct (d_fire p w' Hp) as [? ?]. right. exists p.
    by rewrite <-Hs, <-Hv.
  - by destruct (d_fire_other t d w' Hne) as [-> ->].
Qed.

(** Time passing runs the part's pending call exactly when it is due by
    then. *)
Lemma elapse_debounced dt w :
  let r := fire (d_policy c) (now w + dt) (d_pending c w) in
  d_pending c (elapse dt w) = r.2 ∧
  d_value c (elapse dt w) =
    from_option (λ a, d_deliver c a (d_value c w)) (d_value c w) r.1.
Proof.
  unfold elapse. destruct (d_clock (now w + dt) (run_timers 3 (now w + dt) w))
    as [-> ->].
  pose proof (run_timers_settles (now w + dt) w) as Hnil.
  assert (∀ p, d_pending c (run_timers 3 (now w + dt) w) = Some p →
               now w + dt < deadline (d_policy c) p) as Hdue.
  { intros p Hp. apply N.lt_nge. intros Hle.
    assert ((d_timer c, deadline (d_policy c) p) ∈
              due_timers (now w + dt) (run_timers 3 (now w + dt) w)) as Hin
      by (apply due_timers_elem; by rewrite d_deadline, Hp).
    rewrite Hnil in Hin. by apply elem_of_nil in Hin. }
  destruct (run_timers_debounced 3 (now w + dt) w)
    as [[Hs Hv]|(p & Hp & Hd & Hs & Hv)]; rewrite Hs, Hv in *.
  - destruct (d_pending c w) as [p|]; [|done].
    by rewrite (fire_not_due _ _ _ (Hdue p eq_refl)).
  - rewrite Hp. by rewrite fire_due.
Qed.

(** *** The projection onto the scheduler *)

(** What an event means to the debounced function: a wait when time
    passes, the call it makes, or nothing. *)
Definition actions (w : world) (e : event) : list (action A) :=
  match e with
  | Elapse dt => [Wait dt]
  | _ => from_option (λ a, [Call a]) [] (d_call c w e)
  end.

(** The calls and waits of a session. *)
Fixpoint session_actions (w : world) (evs : list event) : list (action A) :=
  match evs with
  | [] => []
  | e :: evs => actions w e ++ session_actions (step w e) evs
  end.

(** The value after the executions of a log, oldest first. *)
Definition replay (b : B) (log : list (N * A)) : B :=
  foldl (λ b x, d_deliver c x.2 b) b log.

(** The scheduler [s] is the part's debouncer in the state [w] of a
    session in which the part's value started as [b]. *)
Definition tracks (b : B) (w : world) (s : sched A) : Prop :=
  d_pending c w = slot s ∧ now w = clock s ∧ d_value c w = replay b (fired s).

Lemma actions_call w e :
  (∀ dt, e ≠ Elapse dt) → actions w e = from_option (λ a, [Call a]) [] (d_call c w e).
Proof. destruct e; naive_solver. Qed.

Lemma replay_snoc b log x : replay b (log ++ [x]) = d_deliver c x.2 (replay b log).
Proof. unfold replay. by rewrite foldl_snoc. Qed.

Lemma elapse_tracks b w s dt :
  tracks b w s → tracks b (elapse dt w) (advance (d_policy c) dt s).
Proof.
  intros (Hs & Hc & Hv). destruct (elapse_debounced dt w) as [Hs' Hv'].
  rewrite Hs, Hc in Hs', Hv'. unfold tracks. rewrite Hs', Hv'.
  change (now (elapse dt w)) with (now w + dt). rewrite Hc.
  unfold advance, fire. destruct (slot s) as [p|]; [|done].
  destruct (due _ _ _); cbn; [|done]. by rewrite replay_snoc, Hv.
Qed.

Lemma step_tracks b w s e :
  tracks b w s → tracks b (step w e) (run (act (d_policy c)) s (actions w e)).
Proof.
  intros Ht. destruct (event_waits e) as [[dt ->]|Hne].
  { by apply elapse_tracks. }
  destruct Ht as (Hs & Hc & Hv). destruct (d_event w e Hne) as [Hp' Hv'].
  rewrite (actions_call w e Hne). unfold tracks.
  rewrite Hp', Hv', (step_now w e Hne).
  destruct (d_call c w e) as [a|]; cbn; [|done]. by rewrite Hs, Hc.
Qed.

(** The scheduler follows the session through every run. *)
Lemma run_tracks b evs w s :
  tracks b w s →
  tracks b (run step w evs) (run (act (d_policy c)) s (session_actions w evs)).
Proof.
  revert w s. induction evs as [|e evs IH]; intros w s Ht; [done|].
  cbn [session_actions]. rewrite run_cons, run_app. by apply IH, step_tracks.
Qed.

End debounced.

(** ** The three debounced parts of the session *)

Section instances.
Context `{JsonCodec, TemplateEngine, Examples}.

(** The effect of lines 176-178 as a function of the event: it runs when
    the event changes [html], [css] or [params], with the three documents
    of the new render. *)
Definition save_calls (w : world) (e : event) : option snapshot :=
  let a := app_state w in
  match e with
  | EditHtml v =>
      if decide (JStr v = html a) then None else Some (JStr v, css a, params a)
  | EditCss v =>
      if decide (JStr v = css a) then None else Some (html a, JStr v, params a)
  | EditData val =>
      obj ← parse val;
      if same_primitive obj (params a) then None else Some (html a, css a, obj)
  | _ => None
  end.

(** The storage writer (lines 125-133), called by that effect. *)
Definition storage_writer : debounced snapshot store :=
  Debounced debouncedWriteStorage_policy TSave saveTimer storage written save_calls.

(** [useDebounce(html, 500)] (line 70), called when [Preview] renders with
    another [html]. *)
Definition html_hook : debounced json json :=
  Debounced useDebounce_policy THtml
    (λ w, htmlTimer (preview_state w)) (λ w, debouncedHtml (preview_state w))
    (λ v _, v)
    (λ w e,
       match e with
       | EditHtml v =>
           if decide (JStr v = html (app_state w)) then None else Some (JStr v)
       | _ => None
       end).

(** [useDebounce(params, 500)] (line 71), called when [Preview] renders
    with other [params]. *)
Definition params_hook : debounced json json :=
  Debounced useDebounce_policy TParams
    (λ w, paramsTimer (preview_state w)) (λ w, debouncedParams (preview_state w))
    (λ v _, v)
    (λ w e,
       match e with
       | EditData val =>
           obj ← parse val;
           if same_primitive obj (params (app_state w)) then None else Some obj
       | _ => None
       end).

(** The storage timer leaves the preview alone. *)
Lemma fire_save_preview at_ w : preview_state (fire_save at_ w) = preview_state w.
Proof. unfold fire_save. by destruct (fire _ _ _) as [[[[??]?]|] ?]. Qed.

(** The timers leave the preview alone. *)
Lemma run_timers_app n limit w : app_state (run_timers n limit w) = app_state w.
Proof. by destruct (run_timers_frame n limit w) as (-> & _). Qed.

#[export] Instance storage_writer_laws : DebouncedLaws storage_writer.
Proof.
  split; cbn.
  - by intros w.
  - by intros [] d w.
  - intros p w Hp. unfold fire_save. rewrite Hp, fire_due by done.
    by destruct (args p) as [[??]?].
  - done.
  - intros w [] Hne; unfold save_calls; cbn [step]; try done; [| | |naive_solver].
    + unfold on_html. by case_decide.
    + unfold on_css. by case_decide.
    + unfold on_data. destruct (parse val); [|done]. cbn.
      by destruct (same_primitive _ _).
Qed.

#[export] Instance html_hook_laws : DebouncedLaws html_hook.
Proof.
  split; cbn.
  - by intros w.
  - intros [] d w ?; cbn [fire_timer]; [done| |by rewrite fire_save_preview].
    cbn. by rewrite fire_params_debouncedHtml, (proj2 (fire_params_timers _ _)).
  - intros p w Hp. rewrite (fire_html_delivers _ p), (proj1 (fire_html_timers _ _)), Hp by done.
    by rewrite fire_due.
  - done.
  - intros w [] Hne; cbn [step]; try done; [| | |naive_solver].
    + unfold on_html. by case_decide.
    + unfold on_css. by case_decide.
    + unfold on_data. destruct (parse val); [|done]. by destruct (same_primitive _ _).
Qed.

#[export] Instance params_hook_laws : DebouncedLaws params_hook.
Proof.
  split; cbn.
  - by intros w.
  - intros [] d w ?; cbn [fire_timer]; [|done|by rewrite fire_save_preview].
    cbn. by rewrite fire_html_debouncedParams, (proj2 (fire_html_timers _ _)).
  - intros p w Hp.
    rewrite (fire_params_delivers _ p), (proj1 (fire_params_timers _ _)), Hp by done.
    by rewrite fire_due.
  - done.
  - intros w [] Hne; cbn [step]; try done; [| | |naive_solver].
    + unfold on_html. by case_decide.
    + unfold on_css. by case_decide.
    + unfold on_data. destruct (parse val); [|done]. cbn.
      by destruct (same_primitive _ _).
Qed.

End instances.
