(* ===== verification/Saves.v ===== *)
(** * Saves: the session's debounced work is a run of the debounce scheduler

    [Tracks] shows that a debounced part of the session stays in step with
    the scheduler of [Debounce] run on the calls and waits the session
    means to it.  This file starts the three schedulers where the session
    starts: the storage writer is called by the first render
    ([writer_sched]), the two hooks of the preview are idle
    ([hook_sched]).

    So the store is written by the executions of the debounced function
    and by nothing else, each with the documents of the last call before
    it ([saves_are_scheduled]), and what [Debounce] proves of every client
    holds of the session: the writes are at least one second apart,
    however fast the user types ([saves_spaced]).  The preview shows the
    compilation of the last template and the last data its two hooks
    delivered, and each hook delivers at most every half second
    ([preview_is_scheduled]). *)

From S2P Require Import Prelude Json Effects Debounce Template Storage Preview Publish App Tracks.

#[local] Open Scope N_scope.

Section saves.
Context `{JsonCodec, TemplateEngine, Examples}.
Implicit Types (w : world) (e : event) (evs : list event) (st : store).

(** ** The schedulers beside a session *)

(** The scheduler of the writer beside a session from mounting: the first
    render calls the writer, then the events follow. *)
Definition writer_sched (st : store) (t0 : N) (evs : list event) : sched snapshot :=
  run (act debouncedWriteStorage_policy) (Sched t0 None [])
      (Call (documents (App_init st))
         :: session_actions storage_writer (mount st t0) evs).

(** The scheduler of a hook of the preview: idle at mounting, then the
    events follow. *)
Definition hook_sched {A B} (c : debounced A B) (st : store) (t0 : N)
    (evs : list event) : sched A :=
  run (act (d_policy c)) (Sched t0 None []) (session_actions c (mount st t0) evs).

(** The value a hook holds after the deliveries of a log: the last one
    delivered, or the value it was mounted with. *)
Definition last_delivered {A} (a : A) (log : list (N * A)) : A :=
  from_option snd a (list.last log).

Lemma replay_last_delivered {A} (c : debounced A A) (a : A) log :
  (∀ x y, d_deliver c x y = x) → replay c a log = last_delivered a log.
Proof.
  intros Hd. induction log as [|x log _] using rev_ind; [done|].
  unfold last_delivered. by rewrite replay_snoc, Hd, list.last_snoc.
Qed.

Lemma writer_tracks st t0 evs :
  tracks storage_writer st (run step (mount st t0) evs) (writer_sched st t0 evs).
Proof. unfold writer_sched. rewrite run_cons. by apply (run_tracks storage_writer). Qed.

Lemma html_hook_tracks st t0 evs :
  tracks html_hook (html (App_init st)) (run step (mount st t0) evs)
         (hook_sched html_hook st t0 evs).
Proof.
  apply (run_tracks html_hook). unfold tracks, mount. cbn.
  by rewrite Preview_mount_fst.
Qed.

Lemma params_hook_tracks st t0 evs :
  tracks params_hook (params (App_init st)) (run step (mount st t0) evs)
         (hook_sched params_hook st t0 evs).
Proof.
  apply (run_tracks params_hook). unfold tracks, mount. cbn.
  by rewrite Preview_mount_fst.
Qed.

(** ** What follows for sessions *)

(** C4. The session's saves are a run of the debounce scheduler.  Beside
    any session from mounting, the scheduler of the specification, given a
    call for every run of the save effect and a wait for every passing of
    time, has the session's pending save in its slot and the session's
    time on its clock, and replaying the executions it recorded on the
    store the session started with gives the session's store: the store is
    written by the debounced function and by nothing else. *)
Theorem saves_are_scheduled st t0 evs :
  let w := run step (mount st t0) evs in
  let s := writer_sched st t0 evs in
  saveTimer w = slot s ∧ now w = clock s ∧
  storage w = foldl (λ st x, written x.2 st) st (fired s).
Proof. apply writer_tracks. Qed.

(** C10. Debouncing bounds the rate of writes: in any session the store is
    the result of writes that are at least 1000 ms apart, none of them in
    the future, however fast the documents change. *)
Theorem saves_spaced st t0 evs :
  let w := run step (mount st t0) evs in
  let log := fired (writer_sched st t0 evs) in
  storage w = foldl (λ st x, written x.2 st) st log ∧ spaced 1000 log.*1 ∧
  Forall (λ x, x.1 ≤ now w) log.
Proof.
  destruct (writer_tracks st t0 evs) as (_ & Hc & Hst). cbn zeta.
  split; [done|]. rewrite Hc. unfold writer_sched.
  split; [by apply (fresh_spaced debouncedWriteStorage_policy), policies_wf|].
  apply fired_past.
Qed.

(** C5. The preview is the two hooks' schedulers and the compiler.
    Beside any session from mounting, the scheduler of the specification
    run for [useDebounce(html, 500)] on a call for every new template, and
    the one run for [useDebounce(params, 500)] on a call for every new
    data, hold the preview's two pending values; the debounced template
    and data are the last ones they delivered, or the documents the page
    was mounted with; what is shown is the compilation of these two; and
    each hook's deliveries are at least 500 ms apart. *)
Theorem preview_is_scheduled st t0 evs :
  let w := run step (mount st t0) evs in
  let sh := hook_sched html_hook st t0 evs in
  let sp := hook_sched params_hook st t0 evs in
  let h := last_delivered (html (App_init st)) (fired sh) in
  let p := last_delivered (params (App_init st)) (fired sp) in
  htmlTimer (preview_state w) = slot sh ∧
  paramsTimer (preview_state w) = slot sp ∧
  preview_state w =
    MkPreview h p (compiledHtml_init h p).1 (slot sh) (slot sp) ∧
  spaced 500 (fired sh).*1 ∧ spaced 500 (fired sp).*1.
Proof.
  destruct (html_hook_tracks st t0 evs) as (Hsh & _ & Hh).
  destruct (params_hook_tracks st t0 evs) as (Hsp & _ & Hp).
  rewrite (replay_last_delivered html_hook) in Hh by done.
  rewrite (replay_last_delivered params_hook) in Hp by done.
  cbn zeta. cbn [d_pending d_value html_hook params_hook] in Hsh, Hsp, Hh, Hp.
  assert (preview_ok (preview_state (run step (mount st t0) evs))) as Hok.
  { eapply ok_preview, reachable_ok. by eexists. }
  split_and!; [done|done|
    |by apply (fresh_spaced useDebounce_policy), policies_wf
    |by apply (fresh_spaced useDebounce_policy), policies_wf].
  rewrite <-Hsh, <-Hsp, <-Hh, <-Hp, <-Hok. by destruct (preview_state _).
Qed.

End saves.
