(* ===== verification/Hooks.v ===== *)
(** * Hooks: the components as React runs them (App.js lines 69-93, 135-178)

    [App] describes a session by its handlers: what an edit, a click or a
    timer does to the state.  The source does not say that directly.  It
    is written with hooks: every render of a component runs its body
    again, [useState] keeps a cell between renders, [useEffect] runs its
    function after a render in which one of its dependencies changed,
    [useCallback] keeps a function until one of its dependencies changes,
    and "changed" is [Object.is]: equality for strings and other
    primitives, identity of the reference for objects.  Whether [publish]
    sees the current stylesheet, or whether typing in the key field
    restarts the save timer, is decided by the dependency arrays of lines
    93, 174 and 178.

    This file models that level.  A [jsval] is a value with the identity
    of its reference; [JSON.parse] allocates a new one, and so does the
    store's library for each of the three documents at start.  The
    template and the stylesheet are such values too: a text from an
    editor ([text_value]) or what the library returned.  [Preview_hooks]
    and [App_hooks] are the cells of the two components, the dependency
    arrays of their last render included; [Preview_render] and
    [App_render] run a render and the effects after it; [hstep] is the
    event loop on these cells: a setter that [Object.is] the current value
    does nothing, any other one renders again.

    [erase] forgets identities, dependency arrays and the memoised
    callback.  The theorems show that what is left is the session of
    [App]: [hmount] erases to [mount] and every event commutes with
    [erase] ([hooks_refine]); so every theorem of [Session] holds of the
    program as it is written.  On the way: rendering again without a
    change of state does nothing ([rerender_changes_nothing]), the
    callback that the button calls has the documents and the key of the
    current render ([publish_closure_current]), a pending data object
    is never the reference that the preview already shows
    ([timer_newer]), and the two setters of the data editor give the same
    state whether React batches them or renders after each
    ([batching_irrelevant]). *)

From S2P Require Import Prelude Json Effects JsonText Debounce Template Storage Preview Publish App.

#[local] Open Scope N_scope.
#[local] Open Scope eff_scope.

(** ** Values and their identity *)

(** A JavaScript value: what it holds and, for an object or an array, which
    reference it is. *)
Record jsval := JsVal {
  ident : N;
  content : json
}.

(** What [Object.is] compares: the value of a primitive, the reference of
    an object. *)
Inductive dep :=
  | DPrim (v : json)
  | DRef (id : N).

#[export] Instance dep_eq_dec : EqDecision dep.
Proof. solve_decision. Defined.

Definition identity (v : jsval) : dep :=
  if is_object (content v) then DRef (ident v) else DPrim (content v).

Definition Object_is (a b : jsval) : bool :=
  bool_decide (identity a = identity b).

(** A text, as an editor hands it over: a primitive, so that which
    reference it is does not matter. *)
Definition text_value (s : string) : jsval := JsVal 0 (JStr s).

(** ** The hooks of React *)

(** [useEffect(f, deps)]: [f] runs after the first render and after every
    render in which [deps] differ from those of the render before. *)
Definition deps_changed {D} `{EqDecision D} (last : option D) (deps : D) : bool :=
  bool_decide (last ≠ Some deps).

(** [useCallback(fn, deps)]: the function of an earlier render, with what
    it captured then, as long as [deps] are the same. *)
Record memo (C D : Type) := Memo {
  memo_fn : C;
  memo_deps : D
}.
Arguments Memo {C D} _ _.
Arguments memo_fn {C D} _.
Arguments memo_deps {C D} _.

Definition useCallback {C D} `{EqDecision D} (fn : C) (deps : D) (m : memo C D)
    : memo C D :=
  if decide (memo_deps m = deps) then m else Memo fn deps.

(** ** [useDebounce] *)

(** The hook's cells: the debounced value it returns, the value of the
    render before, and its timer. *)
Record useDebounce_hook (A : Type) := UseDebounce {
  ud_state : A;
  ud_previous : A;
  ud_timer : debouncer A
}.
Arguments UseDebounce {A} _ _ _.
Arguments ud_state {A} _.
Arguments ud_previous {A} _.
Arguments ud_timer {A} _.

Section useDebounce.
Context {A : Type} (same : A → A → bool).

(** A render with [value]: when it is not the value of the render before,
    the hook calls its debounced setter with it. *)
Definition useDebounce_render (now : N) (value : A) (u : useDebounce_hook A)
    : useDebounce_hook A :=
  if same (ud_previous u) value then u
  else UseDebounce (ud_state u) value (schedule now value (ud_timer u)).

(** The timer's callback: the setter runs with the pending value.  The
    result says whether the state changed, that is, whether the component
    renders again. *)
Definition useDebounce_fire (now : N) (u : useDebounce_hook A)
    : useDebounce_hook A * bool :=
  match fire useDebounce_policy now (ud_timer u) with
  | (Some v, d) =>
      if same v (ud_state u) then (UseDebounce (ud_state u) (ud_previous u) d, false)
      else (UseDebounce v (ud_previous u) d, true)
  | (None, _) => (u, false)
  end.

End useDebounce.

(** ** [Preview] (lines 69-93) *)

Record Preview_hooks := MkPreview_hooks {
  hk_debouncedHtml : useDebounce_hook jsval;
  hk_debouncedParams : useDebounce_hook jsval;
  hk_compiledHtml : json;
  hk_compile_deps : option (dep * dep)
}.

Section Preview.
Context `{TemplateEngine}.

(** The first render (lines 70-81): the debounced copies start as the
    props and [compiledHtml] is initialised; no effect has run yet. *)
Definition Preview_first (html params : jsval) : Eff Preview_hooks :=
  let* c := compiledHtml_init (content html) (content params) in
  eff_ret (MkPreview_hooks (UseDebounce html html None)
                           (UseDebounce params params None) c None).

(** A render with the props [html] and [params] at time [now], and the
    effects after it in the order of the hooks: the two [useDebounce], then
    the effect of lines 83-93 on [[debouncedHtml, debouncedParams]], whose
    body is the initialiser's ([Preview.recompile_init]). *)
Definition Preview_render (now : N) (html params : jsval)
    (p : Preview_hooks) : Eff Preview_hooks :=
  let dh := useDebounce_render Object_is now html (hk_debouncedHtml p) in
  let dp := useDebounce_render Object_is now params (hk_debouncedParams p) in
  let deps := (identity (ud_state dh), identity (ud_state dp)) in
  if deps_changed (hk_compile_deps p) deps then
    let* c := compiledHtml_init (content (ud_state dh)) (content (ud_state dp)) in
    eff_ret (MkPreview_hooks dh dp c (Some deps))
  else eff_ret (MkPreview_hooks dh dp (hk_compiledHtml p) (hk_compile_deps p)).

End Preview.

(** ** [App] (lines 135-178) *)

(** What [publish] reads from the render that created it: [html], [css]
    and [apiKey]. *)
Definition closure : Type := jsval * jsval * string.

Record App_hooks := MkApp_hooks {
  hk_html : jsval;
  hk_css : jsval;
  hk_params : jsval;
  hk_paramsJson : string;
  hk_apiKey : string;
  hk_publish : memo closure (dep * dep * string);
  hk_save_deps : option (dep * dep * dep)
}.

(** The free variables of [publish] (lines 149-173). *)
Definition publish_captures (a : App_hooks) : closure :=
  (hk_html a, hk_css a, hk_apiKey a).

(** [[html, css, apiKey]] (line 174). *)
Definition publish_deps (a : App_hooks) : dep * dep * string :=
  (identity (hk_html a), identity (hk_css a), hk_apiKey a).

(** [[html, css, params]] (line 178). *)
Definition save_deps (a : App_hooks) : dep * dep * dep :=
  (identity (hk_html a), identity (hk_css a), identity (hk_params a)).

(** Cell updates. *)
Definition set_hk_html (v : jsval) (a : App_hooks) : App_hooks :=
  MkApp_hooks v (hk_css a) (hk_params a) (hk_paramsJson a) (hk_apiKey a)
              (hk_publish a) (hk_save_deps a).
Definition set_hk_css (v : jsval) (a : App_hooks) : App_hooks :=
  MkApp_hooks (hk_html a) v (hk_params a) (hk_paramsJson a) (hk_apiKey a)
              (hk_publish a) (hk_save_deps a).
Definition set_hk_data (v : jsval) (text : string) (a : App_hooks) : App_hooks :=
  MkApp_hooks (hk_html a) (hk_css a) v text (hk_apiKey a)
              (hk_publish a) (hk_save_deps a).
Definition set_hk_apiKey (v : string) (a : App_hooks) : App_hooks :=
  MkApp_hooks (hk_html a) (hk_css a) (hk_params a) (hk_paramsJson a) v
              (hk_publish a) (hk_save_deps a).
Definition set_hk_params (v : jsval) (a : App_hooks) : App_hooks :=
  set_hk_data v (hk_paramsJson a) a.
Definition set_hk_paramsJson (text : string) (a : App_hooks) : App_hooks :=
  set_hk_data (hk_params a) text a.

(** ** The page *)

(** The cells of the three components, the debounced writer of the module
    (lines 125-133), the browser's store, clock and trace, and the next
    reference to allocate. *)
Record hworld := MkHooks {
  App_cells : App_hooks;
  Preview_cells : Preview_hooks;
  Button_cells : publisher;
  writer : debouncer (jsval * jsval * jsval);
  h_storage : store;
  h_now : N;
  h_trace : list effect;
  next_ident : N
}.

Definition with_App (a : App_hooks) (h : hworld) : hworld :=
  MkHooks a (Preview_cells h) (Button_cells h) (writer h) (h_storage h)
          (h_now h) (h_trace h) (next_ident h).
Definition with_Preview (r : Eff Preview_hooks) (h : hworld) : hworld :=
  MkHooks (App_cells h) r.1 (Button_cells h) (writer h) (h_storage h)
          (h_now h) (h_trace h ++ r.2) (next_ident h).
Definition with_Button (r : Eff publisher) (h : hworld) : hworld :=
  MkHooks (App_cells h) (Preview_cells h) r.1 (writer h) (h_storage h)
          (h_now h) (h_trace h ++ r.2) (next_ident h).
Definition with_h_now (t : N) (h : hworld) : hworld :=
  MkHooks (App_cells h) (Preview_cells h) (Button_cells h) (writer h)
          (h_storage h) t (h_trace h) (next_ident h).

Section App.
Context `{JsonCodec, TemplateEngine, Examples}.

(** A render of [App] at time [t] and the effects after it: [publish] is
    memoised (lines 148-174), [Preview] renders with the current props and
    runs its effects, then the effect of lines 176-178 calls the debounced
    writer when one of [html], [css], [params] changed. *)
Definition App_render (t : N) (h : hworld) : hworld :=
  let a := App_cells h in
  let publish := useCallback (publish_captures a) (publish_deps a) (hk_publish a) in
  let pv := Preview_render t (hk_html a) (hk_params a) (Preview_cells h) in
  let d := if deps_changed (hk_save_deps a) (save_deps a)
           then schedule t (hk_html a, hk_css a, hk_params a) (writer h)
           else writer h in
  MkHooks (MkApp_hooks (hk_html a) (hk_css a) (hk_params a) (hk_paramsJson a)
                       (hk_apiKey a) publish (Some (save_deps a)))
          pv.1 (Button_cells h) d (h_storage h) (h_now h) (h_trace h ++ pv.2)
          (next_ident h).

(** Mounting: the cells are initialised as in [App_init], the three
    documents as the first three references; then the effects of the first
    render run. *)
Definition hmount (st : store) (t0 : N) : hworld :=
  let a0 := App_init st in
  let html := JsVal 0 (html a0) in
  let css := JsVal 1 (css a0) in
  let params := JsVal 2 (params a0) in
  let a := MkApp_hooks html css params (paramsJson a0) (apiKey a0)
             (Memo (html, css, apiKey a0)
                   (identity html, identity css, apiKey a0)) None in
  let pv := Preview_first html params in
  App_render t0 (MkHooks a pv.1 publisher_init None st t0 pv.2 3).

(** ** Handlers *)

(** [setHtml] (line 230) and [setCss] (line 234) with the editor's text: a
    value that [Object.is] the current one changes nothing; any other one
    renders again. *)
Definition hon_html (v : string) (h : hworld) : hworld :=
  if Object_is (text_value v) (hk_html (App_cells h)) then h
  else App_render (h_now h) (with_App (set_hk_html (text_value v) (App_cells h)) h).

Definition hon_css (v : string) (h : hworld) : hworld :=
  if Object_is (text_value v) (hk_css (App_cells h)) then h
  else App_render (h_now h) (with_App (set_hk_css (text_value v) (App_cells h)) h).

(** The data editor's [onChange] (lines 240-247): [JSON.parse] returns a
    new reference; [setParams] keeps the current value when the new one
    [Object.is] it; the component renders again when [params] or
    [paramsJson] changed. *)
Definition hon_data (val : string) (h : hworld) : hworld :=
  match parse val with
  | Some obj =>
      let a := App_cells h in
      let v := JsVal (next_ident h) obj in
      let same := Object_is v (hk_params a) in
      let a' := set_hk_data (if same then hk_params a else v) val a in
      let h' := MkHooks a' (Preview_cells h) (Button_cells h) (writer h)
                  (h_storage h) (h_now h) (h_trace h) (next_ident h + 1) in
      if same && String.eqb val (hk_paramsJson a) then h'
      else App_render (h_now h) h'
  | None =>
      MkHooks (App_cells h) (Preview_cells h) (Button_cells h) (writer h)
              (h_storage h) (h_now h)
              (h_trace h ++ [ConsoleWarn "Error parsing JSON"]) (next_ident h)
  end.

(** The same handler when React does not batch the two setters.  Before
    version 18 React batches only inside its own event handlers, and the
    editor's change event is not one: [setParams] renders, effects
    included, before [setParamsJson] runs and renders again. *)
Definition hon_data_unbatched (val : string) (h : hworld) : hworld :=
  match parse val with
  | Some obj =>
      let v := JsVal (next_ident h) obj in
      let h0 := MkHooks (App_cells h) (Preview_cells h) (Button_cells h) (writer h)
                  (h_storage h) (h_now h) (h_trace h) (next_ident h + 1) in
      let h1 := if Object_is v (hk_params (App_cells h0)) then h0
                else App_render (h_now h)
                       (with_App (set_hk_params v (App_cells h0)) h0) in
      if String.eqb val (hk_paramsJson (App_cells h1)) then h1
      else App_render (h_now h)
             (with_App (set_hk_paramsJson val (App_cells h1)) h1)
  | None =>
      MkHooks (App_cells h) (Preview_cells h) (Button_cells h) (writer h)
              (h_storage h) (h_now h)
              (h_trace h ++ [ConsoleWarn "Error parsing JSON"]) (next_ident h)
  end.

(** [setApiKey] (line 208). *)
Definition hon_apiKey (v : string) (h : hworld) : hworld :=
  if decide (v = hk_apiKey (App_cells h)) then h
  else App_render (h_now h) (with_App (set_hk_apiKey v (App_cells h)) h).

(** A click (line 218): the button calls the memoised [publish], which
    reads what it captured. *)
Definition hon_click (h : hworld) : hworld :=
  let c := memo_fn (hk_publish (App_cells h)) in
  with_Button (click (content c.1.1) (content c.1.2) c.2 (Button_cells h)) h.

Definition hon_settled (r : response) (h : hworld) : hworld :=
  with_Button (respond r (Button_cells h)) h.

(** ** Timers *)

Definition htimer_deadline (t : timer) (h : hworld) : option N :=
  match t with
  | THtml =>
      deadline useDebounce_policy <$> ud_timer (hk_debouncedHtml (Preview_cells h))
  | TParams =>
      deadline useDebounce_policy <$> ud_timer (hk_debouncedParams (Preview_cells h))
  | TSave => deadline debouncedWriteStorage_policy <$> writer h
  end.

Definition hdue_timers (limit : N) (h : hworld) : list (timer * N) :=
  omap (λ t, d ← htimer_deadline t h;
             if bool_decide (d ≤ limit) then Some (t, d) else None)
       all_timers.

(** [Preview] with the cells of one of its hooks replaced, rendered again
    when the hook's state changed. *)
Definition Preview_update (at_ : N) (p : Preview_hooks) (changed : bool)
    (h : hworld) : hworld :=
  if changed then
    with_Preview (Preview_render at_ (hk_html (App_cells h))
                    (hk_params (App_cells h)) p) h
  else with_Preview (eff_ret p) h.

(** The callback of timer [t] at time [at_].  The writer's three writes
    make the three store hooks of [App] (lines 136-138) render it again. *)
Definition hfire_timer (t : timer) (at_ : N) (h : hworld) : hworld :=
  let p := Preview_cells h in
  match t with
  | THtml =>
      let r := useDebounce_fire Object_is at_ (hk_debouncedHtml p) in
      Preview_update at_
        (MkPreview_hooks r.1 (hk_debouncedParams p) (hk_compiledHtml p)
                         (hk_compile_deps p)) r.2 h
  | TParams =>
      let r := useDebounce_fire Object_is at_ (hk_debouncedParams p) in
      Preview_update at_
        (MkPreview_hooks (hk_debouncedHtml p) r.1 (hk_compiledHtml p)
                         (hk_compile_deps p)) r.2 h
  | TSave =>
      match fire debouncedWriteStorage_policy at_ (writer h) with
      | (Some (html, css, params), d) =>
          App_render at_
            (MkHooks (App_cells h) p (Button_cells h) d
               (debouncedWriteStorage_fn (content html) (content css)
                  (content params) (h_storage h)).1
               (h_now h) (h_trace h) (next_ident h))
      | (None, _) => h
      end
  end.

Fixpoint hrun_timers (fuel : nat) (limit : N) (h : hworld) : hworld :=
  match fuel with
  | 0%nat => h
  | S fuel =>
      match earliest (hdue_timers limit h) with
      | Some (t, at_) => hrun_timers fuel limit (hfire_timer t at_ h)
      | None => h
      end
  end.

Definition helapse (dt : N) (h : hworld) : hworld :=
  with_h_now (h_now h + dt) (hrun_timers 3 (h_now h + dt) h).

(** ** The event loop *)

Definition hstep (h : hworld) (e : event) : hworld :=
  match e with
  | EditHtml v => hon_html v h
  | EditCss v => hon_css v h
  | EditData val => hon_data val h
  | EditApiKey v => hon_apiKey v h
  | ClickPublish => hon_click h
  | Settled r => hon_settled r h
  | Elapse dt => helapse dt h
  end.

End App.

(** ** Forgetting the hooks *)

Definition erase_snapshot (x : jsval * jsval * jsval) : snapshot :=
  (content x.1.1, content x.1.2, content x.2).

Definition erase_Preview (p : Preview_hooks) : preview :=
  MkPreview (content (ud_state (hk_debouncedHtml p)))
            (content (ud_state (hk_debouncedParams p)))
            (hk_compiledHtml p)
            (debouncer_map content (ud_timer (hk_debouncedHtml p)))
            (debouncer_map content (ud_timer (hk_debouncedParams p))).

Definition erase_App (a : App_hooks) : app :=
  MkApp (content (hk_html a)) (content (hk_css a)) (content (hk_params a))
        (hk_paramsJson a) (hk_apiKey a).

Definition erase (h : hworld) : world :=
  MkWorld (erase_App (App_cells h)) (erase_Preview (Preview_cells h))
          (Button_cells h) (debouncer_map erase_snapshot (writer h))
          (h_storage h) (h_now h) (h_trace h).

(** ** What holds between renders *)

(** [rendered a0 h]: the last render of [h] was with the cells [a0] of
    [App].  The recorded dependencies and the memoised callback are those
    of [a0], and what the callback captured is current as long as its
    dependencies are; the hooks of [Preview] have seen the props of [a0];
    every reference in use is allocated; a pending template is a text, as
    is the template of [App] where it is not that of [a0]; and a pending
    data object is newer than the one that is shown, as is the data of
    [App] where it is not that of [a0]. *)
Record rendered (a0 : App_hooks) (h : hworld) : Prop := {
  ok_publish :
    hk_publish (App_cells h) = Memo (publish_captures a0) (publish_deps a0);
  ok_captures :
    publish_deps a0 = publish_deps (App_cells h) →
    publish_captures a0 = publish_captures (App_cells h);
  ok_save_deps : hk_save_deps (App_cells h) = Some (save_deps a0);
  ok_compile_deps :
    hk_compile_deps (Preview_cells h) =
      Some (identity (ud_state (hk_debouncedHtml (Preview_cells h))),
            identity (ud_state (hk_debouncedParams (Preview_cells h))));
  ok_previous_html :
    identity (ud_previous (hk_debouncedHtml (Preview_cells h))) =
      identity (hk_html a0);
  ok_pending_html : ∀ p,
    ud_timer (hk_debouncedHtml (Preview_cells h)) = Some p →
    is_object (content (args p)) = false;
  ok_fresh_html :
    identity (hk_html (App_cells h)) ≠ identity (hk_html a0) →
    is_object (content (hk_html (App_cells h))) = false;
  ok_previous_params :
    identity (ud_previous (hk_debouncedParams (Preview_cells h))) =
      identity (hk_params a0);
  ok_allocated :
    ident (hk_params (App_cells h)) < next_ident h ∧
    ident (ud_state (hk_debouncedParams (Preview_cells h))) < next_ident h;
  ok_pending : ∀ p,
    ud_timer (hk_debouncedParams (Preview_cells h)) = Some p →
    ident (args p) < next_ident h ∧
    (is_object (content (args p)) = true →
     ident (ud_state (hk_debouncedParams (Preview_cells h))) < ident (args p));
  ok_fresh :
    identity (hk_params (App_cells h)) ≠ identity (hk_params a0) →
    is_object (content (hk_params (App_cells h))) = true →
    ident (ud_state (hk_debouncedParams (Preview_cells h))) <
      ident (hk_params (App_cells h))
}.

(** Between two events the last render was with the current cells. *)
Definition hooks_ok (h : hworld) : Prop := rendered (App_cells h) h.

(** ** Lemmas on the hooks *)

Section hook_lemmas.
Context {D : Type} `{EqDecision D}.
Implicit Types (d : D) (a b : jsval).

Lemma deps_changed_same d : deps_changed (Some d) d = false.
Proof. unfold deps_changed. by rewrite bool_decide_eq_false_2 by naive_solver. Qed.

Lemma deps_changed_first d : deps_changed None d = true.
Proof. done. Qed.

Lemma deps_changed_other d d' : d ≠ d' → deps_changed (Some d) d' = true.
Proof. intros. unfold deps_changed. rewrite bool_decide_eq_true_2; naive_solver. Qed.

Lemma useCallback_same {C} (fn fn' : C) d : useCallback fn d (Memo fn' d) = Memo fn' d.
Proof. unfold useCallback. by rewrite decide_True. Qed.

Lemma useCallback_other {C} (fn fn' : C) d d' :
  d' ≠ d → useCallback fn d (Memo fn' d') = Memo fn d.
Proof. intros. unfold useCallback. by rewrite decide_False. Qed.

Lemma Object_is_refl a : Object_is a a = true.
Proof. unfold Object_is. by rewrite bool_decide_eq_true_2. Qed.

Lemma Object_is_sym a b : Object_is a b = Object_is b a.
Proof. unfold Object_is. apply bool_decide_ext. naive_solver. Qed.

Lemma Object_is_identity a b : Object_is a b = true ↔ identity a = identity b.
Proof. apply bool_decide_eq_true. Qed.

(** [Object.is] of a value and an older one: a new object is no older
    reference, and primitives are compared by what they hold. *)
Lemma Object_is_newer a b :
  (is_object (content a) = true → ident b < ident a) →
  Object_is a b = same_primitive (content a) (content b).
Proof.
  intros Hnew. unfold Object_is, identity, same_primitive. rewrite json_eqb_decide.
  destruct (is_object (content a)) eqn:Ea, (is_object (content b)) eqn:Eb; simpl;
    repeat case_bool_decide; simplify_eq; try done; try (specialize (Hnew eq_refl); lia);
    congruence.
Qed.

(** [Object.is] of a text and a value: the value is that text. *)
Lemma Object_is_text s b :
  Object_is (text_value s) b = bool_decide (JStr s = content b).
Proof.
  unfold Object_is, identity, text_value. cbn.
  destruct (is_object (content b)) eqn:Eb; repeat case_bool_decide;
    simplify_eq; try done; try congruence.
  by destruct (content b).
Qed.

Lemma Object_is_fresh n obj b :
  ident b < n → Object_is (JsVal n obj) b = same_primitive obj (content b).
Proof. intros. by apply Object_is_newer. Qed.

End hook_lemmas.

Section useDebounce_lemmas.
Context {A : Type} (same : A → A → bool).
Implicit Types (u : useDebounce_hook A) (v : A).

(** A render never changes the debounced value. *)
Lemma useDebounce_render_state t v u :
  ud_state (useDebounce_render same t v u) = ud_state u.
Proof. unfold useDebounce_render. by case_match. Qed.

Lemma useDebounce_render_timer t v u :
  ud_timer (useDebounce_render same t v u) =
    if same (ud_previous u) v then ud_timer u else schedule t v (ud_timer u).
Proof. unfold useDebounce_render. by case_match. Qed.

(** After a render the hook has seen the value, as far as [same] can tell. *)
Lemma useDebounce_render_previous t v u :
  ud_previous (useDebounce_render same t v u) = v ∨
  ud_previous (useDebounce_render same t v u) = ud_previous u ∧
    same (ud_previous u) v = true.
Proof. unfold useDebounce_render. case_match; [by right|by left]. Qed.

End useDebounce_lemmas.

(** ** Rendering *)

(** What a render after a change does to a session of [App]: the hooks of
    [Preview] restart their timers for a new [html] and for new [params],
    and the save effect runs when one of its dependencies is new. *)
Definition rerendered (t : N) (new_html new_params new_docs : bool) (w : world)
    : world :=
  let pv := preview_state w in
  let pv := if new_html then html_changed t (html (app_state w)) pv else pv in
  let pv := if new_params then params_changed t (params (app_state w)) pv else pv in
  MkWorld (app_state w) pv (publisher_state w)
          (if new_docs then schedule t (documents (app_state w)) (saveTimer w)
           else saveTimer w)
          (storage w) (now w) (trace w).

Section render_lemmas.
Context `{JsonCodec, TemplateEngine, Examples}.
Implicit Types (h : hworld) (p : Preview_hooks) (a : App_hooks) (t : N).

(** A render of [Preview] whose effect last ran with the current debounced
    values runs the two hooks and nothing else. *)
Lemma Preview_render_settled t html params p :
  hk_compile_deps p =
    Some (identity (ud_state (hk_debouncedHtml p)),
          identity (ud_state (hk_debouncedParams p))) →
  Preview_render t html params p =
    (MkPreview_hooks (useDebounce_render Object_is t html (hk_debouncedHtml p))
                     (useDebounce_render Object_is t params (hk_debouncedParams p))
                     (hk_compiledHtml p) (hk_compile_deps p), []).
Proof.
  intros Hd. unfold Preview_render.
  by rewrite !useDebounce_render_state, Hd, deps_changed_same.
Qed.

(** A render of [Preview] with the props it has seen: only the effect may
    run. *)
Lemma Preview_render_seen t html params p :
  identity (ud_previous (hk_debouncedHtml p)) = identity html →
  identity (ud_previous (hk_debouncedParams p)) = identity params →
  Preview_render t html params p =
    let dh := ud_state (hk_debouncedHtml p) in
    let dp := ud_state (hk_debouncedParams p) in
    if deps_changed (hk_compile_deps p) (identity dh, identity dp) then
      (MkPreview_hooks (hk_debouncedHtml p) (hk_debouncedParams p)
                       (compiledHtml_init (content dh) (content dp)).1
                       (Some (identity dh, identity dp)),
       (compiledHtml_init (content dh) (content dp)).2)
    else (p, []).
Proof.
  intros Hh Hp. unfold Preview_render, useDebounce_render.
  rewrite (proj2 (Object_is_identity _ _) Hh), (proj2 (Object_is_identity _ _) Hp).
  cbn zeta.
  destruct (deps_changed _ _); [|by destruct p].
  destruct (compiledHtml_init _ _). cbn. by rewrite app_nil_r.
Qed.

(** A render of [App] between two events does nothing. *)
Lemma App_render_idle t h : hooks_ok h → App_render t h = h.
Proof.
  intros [Hpub _ Hsd Hcd Hph _ _ Hpp _ _ _]. unfold App_render.
  rewrite Hpub, useCallback_same, Preview_render_settled by done.
  unfold useDebounce_render.
  rewrite (proj2 (Object_is_identity _ _) Hph), (proj2 (Object_is_identity _ _) Hpp).
  rewrite Hsd, deps_changed_same. cbn [fst snd]. rewrite app_nil_r, <-Hpub, <-Hsd.
  by destruct h as [[] [] ? ? ? ? ? ?].
Qed.

(** A render of [App] after its cells changed from [a0], seen from [App]. *)
Lemma erase_App_render t a0 h :
  rendered a0 h →
  erase (App_render t h) =
    rerendered t (negb (Object_is (hk_html a0) (hk_html (App_cells h))))
                 (negb (Object_is (hk_params a0) (hk_params (App_cells h))))
                 (deps_changed (Some (save_deps a0)) (save_deps (App_cells h)))
                 (erase h).
Proof.
  intros [Hpub _ Hsd Hcd Hph _ _ Hpp _ _ _]. unfold App_render.
  rewrite Preview_render_settled by done.
  unfold erase, rerendered, erase_Preview, html_changed, params_changed.
  cbn -[debouncer_map].
  rewrite !useDebounce_render_state, !useDebounce_render_timer, app_nil_r, Hsd.
  unfold Object_is at 1 2. rewrite Hph, Hpp.
  fold (Object_is (hk_html a0) (hk_html (App_cells h))).
  fold (Object_is (hk_params a0) (hk_params (App_cells h))).
  f_equal.
  - by destruct (Object_is (hk_html a0) _), (Object_is (hk_params a0) _); cbn;
      rewrite ?debouncer_map_schedule.
  - by destruct (deps_changed _ _); rewrite ?debouncer_map_schedule.
Qed.

(** After a render the invariant holds for the current cells. *)
Lemma App_render_ok t a0 h : rendered a0 h → hooks_ok (App_render t h).
Proof.
  intros [Hpub Hcap Hsd Hcd Hph Hpendh Hfreshh Hpp [Ha1 Ha2] Hpend Hfresh].
  unfold hooks_ok, App_render.
  rewrite Preview_render_settled by done.
  split; cbn; rewrite ?useDebounce_render_state; try done.
  - rewrite Hpub. unfold useCallback. cbn. case_decide as E; [|done].
    by rewrite E, (Hcap E).
  - destruct (useDebounce_render_previous Object_is t (hk_html (App_cells h))
                (hk_debouncedHtml (Preview_cells h))) as [->|[-> E]]; [done|].
    by apply Object_is_identity in E.
  - intros p. rewrite useDebounce_render_timer.
    destruct (Object_is _ _) eqn:E; [apply Hpendh|].
    intros ->%schedule_Some_args. apply Hfreshh.
    rewrite <-Hph. intros Heq. by rewrite (proj2 (Object_is_identity _ _)) in E.
  - destruct (useDebounce_render_previous Object_is t (hk_params (App_cells h))
                (hk_debouncedParams (Preview_cells h))) as [->|[-> E]]; [done|].
    by apply Object_is_identity in E.
  - intros p. rewrite useDebounce_render_timer.
    destruct (Object_is _ _) eqn:E; [apply Hpend|].
    intros ->%schedule_Some_args. split; [done|]. apply Hfresh.
    rewrite <-Hpp. intros Heq. by rewrite (proj2 (Object_is_identity _ _)) in E.
Qed.

End render_lemmas.

(** ** Every event commutes with [erase] *)

Section events.
Context `{JsonCodec, TemplateEngine, Examples}.
Implicit Types (h : hworld) (a : App_hooks) (t : N) (e : event).

(** Close a goal [erase (App_render ...) = handler (erase h)] once the
    three tests of the render are decided. *)
Ltac render_done :=
  unfold rerendered, save_effect, with_preview, with_saveTimer, with_app;
  cbn -[debouncer_map]; by rewrite ?app_nil_r.

Lemma hon_html_refines v h :
  hooks_ok h → hooks_ok (hon_html v h) ∧ erase (hon_html v h) = on_html v (erase h).
Proof.
  intros Hok. unfold hon_html, on_html. cbn [erase erase_App html app_state].
  rewrite Object_is_text. case_decide as Hv; [by rewrite bool_decide_eq_true_2|].
  rewrite bool_decide_eq_false_2 by done.
  assert (Object_is (hk_html (App_cells h)) (text_value v) = false) as Hne
    by (by rewrite Object_is_sym, Object_is_text, bool_decide_eq_false_2).
  assert (identity (hk_html (App_cells h)) ≠ identity (text_value v)) as Hid
    by (intros ?%Object_is_identity; congruence).
  assert (rendered (App_cells h)
            (with_App (set_hk_html (text_value v) (App_cells h)) h)) as Hr.
  { destruct Hok. split; try done; unfold publish_deps; cbn; naive_solver. }
  split; [by eapply App_render_ok|].
  rewrite (erase_App_render _ (App_cells h)) by done. cbn.
  rewrite Hne, Object_is_refl, deps_changed_other
    by (unfold save_deps; cbn; naive_solver).
  render_done.
Qed.

Lemma hon_css_refines v h :
  hooks_ok h → hooks_ok (hon_css v h) ∧ erase (hon_css v h) = on_css v (erase h).
Proof.
  intros Hok. unfold hon_css, on_css. cbn [erase erase_App css app_state].
  rewrite Object_is_text. case_decide as Hv; [by rewrite bool_decide_eq_true_2|].
  rewrite bool_decide_eq_false_2 by done.
  assert (identity (hk_css (App_cells h)) ≠ identity (text_value v)) as Hid.
  { intros ?%eq_sym%Object_is_identity.
    by rewrite Object_is_text, bool_decide_eq_false_2 in *. }
  assert (rendered (App_cells h)
            (with_App (set_hk_css (text_value v) (App_cells h)) h)) as Hr.
  { destruct Hok. split; try done; unfold publish_deps; cbn; naive_solver. }
  split; [by eapply App_render_ok|].
  rewrite (erase_App_render _ (App_cells h)) by done. cbn.
  rewrite !Object_is_refl, deps_changed_other
    by (unfold save_deps; cbn; naive_solver).
  render_done.
Qed.

Lemma hon_apiKey_refines v h :
  hooks_ok h →
  hooks_ok (hon_apiKey v h) ∧ erase (hon_apiKey v h) = on_apiKey v (erase h).
Proof.
  intros Hok. unfold hon_apiKey, on_apiKey. case_decide as Hv.
  { split; [done|]. by destruct h as [[] ? ? ? ? ? ? ?]; simplify_eq/=. }
  assert (rendered (App_cells h) (with_App (set_hk_apiKey v (App_cells h)) h)) as Hr.
  { destruct Hok. split; try done; unfold publish_deps; cbn; naive_solver. }
  split; [by eapply App_render_ok|].
  rewrite (erase_App_render _ (App_cells h)) by done. cbn.
  change (save_deps (set_hk_apiKey v (App_cells h))) with (save_deps (App_cells h)).
  rewrite !Object_is_refl, deps_changed_same.
  render_done.
Qed.

(** The invariant only looks at what the dependency arrays look at. *)
Lemma rendered_same a0 a1 h :
  hk_html a0 = hk_html a1 → hk_css a0 = hk_css a1 → hk_apiKey a0 = hk_apiKey a1 →
  identity (hk_params a0) = identity (hk_params a1) →
  rendered a0 h → rendered a1 h.
Proof.
  intros E1 E2 E3 E4 []. split; unfold publish_captures, publish_deps, save_deps in *;
    by rewrite <-?E1, <-?E2, <-?E3, <-?E4.
Qed.

(** The cells after the setters of the data editor, before the render. *)
Lemma hon_data_rendered obj val h :
  hooks_ok h →
  let a := App_cells h in
  let v := JsVal (next_ident h) obj in
  rendered a
    (MkHooks (set_hk_data (if Object_is v (hk_params a) then hk_params a else v) val a)
             (Preview_cells h) (Button_cells h) (writer h) (h_storage h) (h_now h)
             (h_trace h) (next_ident h + 1)).
Proof.
  intros [Hpub Hcap Hsd Hcd Hph Hpendh Hfreshh Hpp [Ha1 Ha2] Hpend Hfresh] a v.
  subst a v. split; cbn; try done.
  - split; [case_match; cbn; lia|lia].
  - intros p Hp. destruct (Hpend p Hp). split; [lia|done].
  - destruct (Object_is _ _); [done|]. cbn. intros _ _. lia.
Qed.

Lemma hon_data_refines val h :
  hooks_ok h → hooks_ok (hon_data val h) ∧ erase (hon_data val h) = on_data val (erase h).
Proof.
  intros Hok. unfold hon_data, on_data.
  destruct (parse val) as [obj|]; [|split; [by destruct Hok|done]].
  pose proof (hon_data_rendered obj val h Hok) as Hr. cbn zeta in Hr.
  cbn [erase erase_App params app_state].
  rewrite (Object_is_fresh _ _ (hk_params (App_cells h))) in * by apply Hok.
  destruct (same_primitive obj _) eqn:Es; cbn [negb andb].
  - apply (rendered_same _ (set_hk_data (hk_params (App_cells h)) val (App_cells h)))
      in Hr; [|done..].
    change (rendered ?a ?h') with (hooks_ok h') in Hr.
    rewrite (App_render_idle _ _ Hr), Tauto.if_same. split; [done|].
    apply same_primitive_eq in Es as ->. by destruct h as [[] ? ? ? ? ? ? ?].
  - split; [by eapply App_render_ok|].
    assert (Object_is (hk_params (App_cells h)) (JsVal (next_ident h) obj) = false) as En
      by (rewrite Object_is_sym, Object_is_fresh; [done|apply Hok]).
    rewrite (erase_App_render _ (App_cells h)) by done. cbn.
    rewrite Object_is_refl, En, deps_changed_other; [render_done|].
    unfold save_deps. cbn. intros [= Heq]. by rewrite (proj2 (Object_is_identity _ _)) in En.
Qed.

(** A render does not read the data text. *)
Lemma App_render_paramsJson t text h :
  App_render t (with_App (set_hk_paramsJson text (App_cells h)) h) =
  with_App (set_hk_paramsJson text (App_cells (App_render t h))) (App_render t h).
Proof. done. Qed.

(** One render or two: the setters of the data editor give the same cells
    whether React batches them or not. *)
Lemma hon_data_batching val h :
  hooks_ok h → hon_data_unbatched val h = hon_data val h.
Proof.
  intros Hok. unfold hon_data_unbatched, hon_data.
  destruct (parse val) as [obj|]; [|done]. cbn zeta.
  pose proof (hon_data_rendered obj (hk_paramsJson (App_cells h)) h Hok) as Hr.
  cbn zeta in Hr.
  cbn [App_cells]. destruct (Object_is _ _) eqn:Es; cbn [andb App_cells].
  - destruct (String.eqb_spec val (hk_paramsJson (App_cells h))) as [->|]; [|done].
    by destruct h as [[] ? ? ? ? ? ? ?].
  - set (h1 := App_render _ _).
    assert (hooks_ok h1) as Hok1 by (by eapply App_render_ok, Hr).
    destruct (String.eqb_spec val (hk_paramsJson (App_cells h1))) as [->|_].
    + subst h1. by destruct h as [[] ? ? ? ? ? ? ?].
    + rewrite App_render_paramsJson, (App_render_idle _ _ Hok1). by subst h1.
Qed.

Lemma hon_click_refines h :
  hooks_ok h → hooks_ok (hon_click h) ∧ erase (hon_click h) = on_click (erase h).
Proof.
  intros Hok. split; [by destruct Hok|].
  unfold hon_click, on_click. by rewrite (ok_publish _ _ Hok).
Qed.

Lemma hon_settled_refines r h :
  hooks_ok h → hooks_ok (hon_settled r h) ∧ erase (hon_settled r h) = on_settled r (erase h).
Proof. intros Hok. split; [by destruct Hok|done]. Qed.

(** *** Timers *)

Lemma htimer_deadline_erase (t : timer) h :
  htimer_deadline t h = timer_deadline t (erase h).
Proof. destruct t; cbn -[debouncer_map]; by rewrite ?debouncer_map_deadline. Qed.

Lemma hdue_timers_erase limit h : hdue_timers limit h = due_timers limit (erase h).
Proof.
  unfold hdue_timers, due_timers, all_timers. cbn [omap list_omap].
  by rewrite !htimer_deadline_erase.
Qed.

Lemma hfire_html_refines at_ h :
  hooks_ok h →
  hooks_ok (hfire_timer THtml at_ h) ∧
  erase (hfire_timer THtml at_ h) = fire_timer THtml at_ (erase h).
Proof.
  intros Hok.
  pose proof Hok as [Hpub Hcap Hsd Hcd Hph Hpendh Hfreshh Hpp [Ha1 Ha2] Hpend Hfresh].
  unfold hfire_timer, fire_timer, Preview_update, useDebounce_fire, fire_html,
    html_settled.
  cbn [erase preview_state erase_Preview htmlTimer debouncedHtml setHtmlTimer].
  rewrite debouncer_map_fire.
  destruct (fire _ _ _) as [[v|] d] eqn:Ef; cbn [fst snd fmap option_fmap option_map].
  2: { split; [by split|done]. }
  pose proof (f_equal fst Ef) as (p & Hp & <- & Hd)%fire_fst_Some.
  rewrite Ef in Hd. cbn in Hd. subst d. pose proof (Hpendh p Hp) as Hprim.
  rewrite (Object_is_newer (args p)) by (by rewrite Hprim).
  destruct (same_primitive _ _) eqn:Es; cbn [fst snd].
  { split; [|done]. by split. }
  assert (identity (ud_state (hk_debouncedHtml (Preview_cells h))) ≠
          identity (args p)) as Hne.
  { intros Heq. symmetry in Heq. apply Object_is_identity in Heq.
    rewrite Object_is_newer in Heq by (by rewrite Hprim). congruence. }
  rewrite Preview_render_seen by done. cbn. rewrite Hcd, deps_changed_other by congruence.
  split; [by split|].
  unfold with_preview, with_Preview. rewrite recompile_fst, recompile_snd. done.
Qed.

Lemma hfire_params_refines at_ h :
  hooks_ok h →
  hooks_ok (hfire_timer TParams at_ h) ∧
  erase (hfire_timer TParams at_ h) = fire_timer TParams at_ (erase h).
Proof.
  intros Hok.
  pose proof Hok as [Hpub Hcap Hsd Hcd Hph Hpendh Hfreshh Hpp [Ha1 Ha2] Hpend Hfresh].
  unfold hfire_timer, fire_timer, Preview_update, useDebounce_fire, fire_params,
    params_settled.
  cbn [erase preview_state erase_Preview paramsTimer debouncedParams setParamsTimer].
  rewrite debouncer_map_fire.
  destruct (fire _ _ _) as [[v|] d] eqn:Ef; cbn [fst snd fmap option_fmap option_map].
  2: { split; [by split|done]. }
  pose proof (f_equal fst Ef) as (p & Hp & <- & Hd)%fire_fst_Some.
  rewrite Ef in Hd. cbn in Hd. subst d. destruct (Hpend p Hp) as [Hal Hnew].
  rewrite (Object_is_newer (args p)) by done.
  destruct (same_primitive _ _) eqn:Es; cbn [fst snd].
  { split; [|done]. by split. }
  assert (identity (ud_state (hk_debouncedParams (Preview_cells h))) ≠
          identity (args p)) as Hne.
  { intros Heq. symmetry in Heq. apply Object_is_identity in Heq.
    rewrite Object_is_newer in Heq by done. congruence. }
  rewrite Preview_render_seen by done. cbn. rewrite Hcd, deps_changed_other by congruence.
  split; [by split|].
  unfold with_preview, with_Preview. rewrite recompile_fst, recompile_snd. done.
Qed.

Lemma hfire_save_refines at_ h :
  hooks_ok h →
  hooks_ok (hfire_timer TSave at_ h) ∧
  erase (hfire_timer TSave at_ h) = fire_timer TSave at_ (erase h).
Proof.
  intros Hok. unfold hfire_timer, fire_timer, fire_save.
  cbn [erase saveTimer storage]. rewrite debouncer_map_fire.
  destruct (fire _ _ _) as [[[[html css] params]|] d]; [|done]. cbn.
  set (h' := MkHooks _ _ _ _ _ _ _ _).
  assert (hooks_ok h') as Hok' by (destruct Hok; by split).
  by rewrite (App_render_idle _ _ Hok').
Qed.

Lemma hfire_timer_refines (tm : timer) at_ h :
  hooks_ok h →
  hooks_ok (hfire_timer tm at_ h) ∧
  erase (hfire_timer tm at_ h) = fire_timer tm at_ (erase h).
Proof.
  destruct tm; auto using hfire_html_refines, hfire_params_refines, hfire_save_refines.
Qed.

Lemma hrun_timers_refines n limit h :
  hooks_ok h →
  hooks_ok (hrun_timers n limit h) ∧
  erase (hrun_timers n limit h) = run_timers n limit (erase h).
Proof.
  revert h. induction n as [|n IH]; intros h Hok; cbn [hrun_timers run_timers]; [done|].
  rewrite hdue_timers_erase. destruct (earliest _) as [[tm at_]|]; [|done].
  destruct (hfire_timer_refines tm at_ h Hok) as [Hok' <-]. by apply IH.
Qed.

Lemma helapse_refines dt h :
  hooks_ok h → hooks_ok (helapse dt h) ∧ erase (helapse dt h) = elapse dt (erase h).
Proof.
  intros Hok. unfold helapse, elapse. change (now (erase h)) with (h_now h).
  destruct (hrun_timers_refines 3 (h_now h + dt) h Hok) as [Hok' <-].
  split; [by destruct Hok'|done].
Qed.

(** Every event keeps the invariant and commutes with [erase]. *)
Lemma hstep_refines h e :
  hooks_ok h → hooks_ok (hstep h e) ∧ erase (hstep h e) = step (erase h) e.
Proof.
  destruct e; cbn [hstep step];
    auto using hon_html_refines, hon_css_refines, hon_data_refines, hon_apiKey_refines,
      hon_click_refines, hon_settled_refines, helapse_refines.
Qed.

(** Mounting. *)
Lemma hmount_refines st t0 :
  hooks_ok (hmount st t0) ∧ erase (hmount st t0) = mount st t0.
Proof.
  unfold hmount, mount, App_render. generalize (App_init st). intros a0.
  cbn [App_cells Preview_cells hk_html hk_params].
  rewrite Preview_render_seen by done.
  unfold useCallback, publish_captures, publish_deps, save_deps.
  cbn -[compiledHtml_init]. rewrite !deps_changed_first, decide_True by done.
  cbn -[compiledHtml_init].
  split; [split; cbn -[compiledHtml_init]; try done; lia|].
  unfold save_effect, Preview_mount, erase. cbn -[compiledHtml_init].
  rewrite eff_bind_fst, eff_bind_snd, recompile_fst, recompile_snd, app_nil_r.
  by destruct a0.
Qed.

End events.

(** ** The program as written is the session of [App] *)

Section refinement.
Context `{JsonCodec, TemplateEngine, Examples}.
Implicit Types (h : hworld) (st : store) (evs : list event).

Lemma run_hooks_ok st t0 evs : hooks_ok (run hstep (hmount st t0) evs).
Proof.
  apply run_invariant; [apply hmount_refines|]. intros h e Hok.
  by apply hstep_refines.
Qed.

Lemma reachable_hooks_ok st t0 h : reachable hstep (hmount st t0) h → hooks_ok h.
Proof. intros [evs ->]. apply run_hooks_ok. Qed.

(** Forgetting the bookkeeping commutes with running. *)
Lemma erase_run st t0 evs :
  erase (run hstep (hmount st t0) evs) = run step (mount st t0) evs.
Proof.
  induction evs as [|e evs IH] using rev_ind; [apply hmount_refines|].
  rewrite !run_snoc, <-IH. apply hstep_refines, run_hooks_ok.
Qed.

Lemma erase_reachable st t0 h :
  reachable hstep (hmount st t0) h → reachable step (mount st t0) (erase h).
Proof. intros [evs ->]. exists evs. by rewrite erase_run. Qed.

(** A pending data value and the one the preview shows are compared as
    [Preview.params_settled] compares them: a pending object is a newer
    reference than the one shown. *)
Lemma timer_newer st t0 h p :
  reachable hstep (hmount st t0) h →
  ud_timer (hk_debouncedParams (Preview_cells h)) = Some p →
  Object_is (args p) (ud_state (hk_debouncedParams (Preview_cells h))) =
    same_primitive (content (args p))
                   (content (ud_state (hk_debouncedParams (Preview_cells h)))).
Proof.
  intros Hok%reachable_hooks_ok Hp. apply Object_is_newer.
  by destruct (ok_pending _ _ Hok p Hp).
Qed.

(** C3. The program as it is written, with hooks, dependency arrays and
    references compared by [Object.is], is the session of [App]: after any
    events from mounting, forgetting the hooks' bookkeeping leaves the
    state that the handlers of [App] compute. *)
Theorem hooks_refine st t0 evs :
  erase (run hstep (hmount st t0) evs) = run step (mount st t0) evs.
Proof. apply erase_run. Qed.

(** C14. The callback that the publish button calls is never stale: in
    every state the session reaches, the memoised [publish] holds the
    template, the stylesheet and the key of the current render, because
    its dependency array names all three. *)
Theorem publish_closure_current st t0 h :
  reachable hstep (hmount st t0) h →
  memo_fn (hk_publish (App_cells h)) =
    (hk_html (App_cells h), hk_css (App_cells h), hk_apiKey (App_cells h)).
Proof. intros Hok%reachable_hooks_ok. by rewrite (ok_publish _ _ Hok). Qed.

(** C30. Rendering again settles at once: in every state the session
    reaches, a further render of [App] and [Preview] (as the store hooks
    cause after every write) runs no effect, restarts no timer, logs
    nothing and leaves every cell as it is. *)
Theorem rerender_changes_nothing st t0 h t :
  reachable hstep (hmount st t0) h → App_render t h = h.
Proof. intros Hok%reachable_hooks_ok. by apply App_render_idle. Qed.

(** C31. Batching does not matter.  The data editor's handler calls two
    setters.  React 18 renders once after both; earlier versions render
    after each, because the editor's change event is not a React event.
    In every state the session reaches the two give the same cells, timers,
    store and trace: the render between the setters has done all the work
    and the second finds nothing changed. *)
Theorem batching_irrelevant st t0 h val :
  reachable hstep (hmount st t0) h →
  hon_data_unbatched val h = hstep h (EditData val).
Proof. intros Hok%reachable_hooks_ok. by apply hon_data_batching. Qed.

End refinement.

(** ** Concrete sessions *)

(** After an edit of the stylesheet and of the key, the callback holds
    both. *)
Lemma publish_closure_current_witness :
  let ex := {| htmlExample := "<h1>{{title}}</h1>"; cssExample := "h1 {}" |} in
  let h := run hstep (hmount (Store ∅ None) 0)
             [EditCss "h1 { color: red }"; EditApiKey "secret"] in
  memo_fn (hk_publish (App_cells h)) =
    (text_value "<h1>{{title}}</h1>", text_value "h1 { color: red }", "secret").
Proof.
  intros ex h. apply (publish_closure_current (Store ∅ None) 0 h). by eexists.
Defined.

Lemma batching_irrelevant_witness :
  let ex := {| htmlExample := "<h1>{{title}}</h1>"; cssExample := "h1 {}" |} in
  let h := run hstep (hmount (Store ∅ None) 0) [EditHtml "{{n}}"; Elapse 300] in
  hon_data_unbatched "[1, 2]" h = hstep h (EditData "[1, 2]").
Proof.
  intros ex h. apply (batching_irrelevant (Store ∅ None) 0 h "[1, 2]"). by eexists.
Defined.

Lemma rerender_changes_nothing_witness :
  let ex := {| htmlExample := "<h1>{{title}}</h1>"; cssExample := "h1 {}" |} in
  let h := run hstep (hmount (Store ∅ None) 0) [EditData "[1]"; Elapse 1000] in
  App_render 1000 h = h.
Proof.
  intros ex h. apply (rerender_changes_nothing (Store ∅ None) 0 h 1000). by eexists.
Defined.

(** Two edits of the data that parse to equal arrays are two references:
    the second one restarts the timers.  The number 7 typed twice is one
    value: the second edit restarts nothing. *)
Example equal_arrays_are_different :
  let ex := {| htmlExample := "<h1>{{title}}</h1>"; cssExample := "h1 {}" |} in
  let h := run hstep (hmount (Store ∅ None) 0) [EditData "[1]"; Elapse 2000] in
  let h1 := hstep h (EditData "[1] ") in
  let h2 := hstep (run hstep h [EditData "7"; Elapse 2000]) (EditData "7 ") in
  hk_params (App_cells h) = JsVal 3 (JArr [JNum 1]) ∧
  hk_params (App_cells h1) = JsVal 4 (JArr [JNum 1]) ∧
  args <$> writer h1 =
    Some (text_value "<h1>{{title}}</h1>", JsVal 1 (JStr "h1 {}"),
          JsVal 4 (JArr [JNum 1])) ∧
  hk_params (App_cells h2) = JsVal 4 (JNum 7) ∧ writer h2 = None.
Proof. vm_compute. done. Qed.
