(* ===== verification/Service.v ===== *)
(** * Service: publishing against the remote service

    The service is not part of the program: in [App.step] its answer is an
    event, [Settled r], and the theorems of [Session] hold for every
    answer.  This file closes the loop for one click.  [service] is the
    service by what a client can observe of it (specification, sections
    4.4 and 6): the endpoint [POST host/publish], the keys it accepts in
    the [Authorization] header, and the template id it assigns to a body
    and its styles; every other request is refused.  [serve] is its answer
    to one request, and [publish_via] a click on the publish button, the
    events that happen while the request is on its way, and the service's
    answer to the request that the click sent, if it sent one.

    The theorems show what the user sees for each of the three cases of
    section 4.4 (no key, a key the service accepts, a key it refuses),
    that edits and clicks made while the request is in flight change
    neither what was sent nor what is reported, and that a refused publish
    puts the request, and so the key, on the console. *)

From S2P Require Import Prelude Json Effects JsonText Debounce Template Storage Preview Publish App.

(** ** The service *)

Record service := MkService {
  accepts : string → bool;
  assign : json → json → string
}.

(** The first header with the name [k]. *)
Fixpoint header (k : string) (hs : list (string * string)) : option string :=
  match hs with
  | [] => None
  | (k', v) :: hs => if decide (k = k') then Some v else header k hs
  end.

(** How axios reports a status outside 2xx: an error with this message
    that carries the configuration of the request, headers included. *)
Definition status_error (code : string) : string :=
  "Request failed with status code " +:+ code.

Definition axios_error (code : string) (r : request) : error :=
  Error (status_error code) (Some r).

(** The answer to one request: 404 off the endpoint, 401 without an
    accepted key, otherwise a body with the template id. *)
Definition serve (s : service) (r : request) : response :=
  if decide (req_url r = host +:+ "/publish") then
    match header "Authorization" (req_headers r) with
    | Some key =>
        if accepts s key
        then Resolved (JObj [("template", JStr (assign s (req_body r) (req_styles r)))])
        else Rejected (axios_error "401" r)
    | None => Rejected (axios_error "401" r)
    end
  else Rejected (axios_error "404" r).

(** The requests in a trace, oldest first. *)
Definition posts (tr : list effect) : list request :=
  omap (λ e, match e with HttpPost r => Some r | _ => None end) tr.

(** Does the event leave a request in flight alone? *)
Definition no_settle (e : event) : bool :=
  match e with Settled _ => false | _ => true end.

Section closed_loop.
Context `{JsonCodec, TemplateEngine, Examples}.
Implicit Types (s : service) (w : world) (r : request) (e : event).
Implicit Types (evs : list event).

(** A click, what happens while the request is on its way ([evs]), and
    then the service's answer to the request the click sent, if it sent
    one. *)
Definition publish_via (s : service) (evs : list event) (w : world) : world :=
  let w1 := step w ClickPublish in
  let w2 := run step w1 evs in
  match drop (length (posts (trace w))) (posts (trace w1)) with
  | r :: _ => step w2 (Settled (serve s r))
  | [] => w2
  end.

(** ** Lemmas *)

Lemma posts_app tr1 tr2 : posts (tr1 ++ tr2) = posts tr1 ++ posts tr2.
Proof. apply omap_app. Qed.

Lemma posts_none tr : count is_post tr = 0%nat → posts tr = [].
Proof.
  rewrite count_zero_iff. induction tr as [|x tr IH]; intros Hp; [done|].
  pose proof (Hp x (list_elem_of_here _ _)) as Hx.
  assert (posts tr = []) as Ht by (apply IH; intros y Hy; apply Hp; by right).
  by destruct x.
Qed.

(** The answer to the one request in flight runs the rest of [publish] and
    enables the button. *)
Lemma respond_busy (x : response) :
  respond x busy = (publisher_init, (publish_finish x).2).
Proof.
  unfold respond. cbn. destruct (publish_finish x) as [[] es]. cbn.
  by rewrite app_nil_r.
Qed.

(** The service reads the program's request as the program wrote it. *)
Lemma serve_publish_request s html css key :
  serve s (publish_request html css key) =
    if accepts s key
    then Resolved (JObj [("template", JStr (assign s html css))])
    else Rejected (axios_error "401" (publish_request html css key)).
Proof. unfold serve, publish_request. cbn. by rewrite decide_True. Qed.

(** In a state of a session, an enabled button has nothing in flight. *)
Lemma idle_publisher w :
  world_ok w → loading (publish_button (publisher_state w)) = false →
  publisher_state w = publisher_init.
Proof.
  intros [_ Hp _ _ _ _ _] Hl. unfold publisher_ok in Hp. rewrite Hl in Hp.
  destruct (publisher_state w) as [[l] n]. by simplify_eq/=.
Qed.

(** While a request is in flight, nothing but its answer touches the
    button or sends a request: further clicks find the button disabled. *)
Lemma in_flight_step w e :
  publisher_state w = busy → no_settle e = true →
  publisher_state (step w e) = busy ∧ posts (trace (step w e)) = posts (trace w).
Proof.
  intros Hb He. destruct e; try done; cbn [step].
  - unfold on_html. case_decide; [done|]. cbn. by rewrite app_nil_r.
  - unfold on_css. by case_decide.
  - unfold on_data. repeat case_match; cbn; by rewrite ?posts_app, ?app_nil_r.
  - unfold on_click. rewrite Hb, click_disabled by done. cbn. by rewrite app_nil_r.
  - unfold elapse. cbn [with_now publisher_state trace].
    destruct (run_timers_frame 3 (now w + dt) w) as (_ & -> & _).
    destruct (run_timers_trace 3 (now w + dt) w) as (es & -> & Hp & _).
    by rewrite posts_app, (posts_none es), app_nil_r.
Qed.

Lemma in_flight_run w evs :
  publisher_state w = busy → forallb no_settle evs = true →
  publisher_state (run step w evs) = busy ∧
  posts (trace (run step w evs)) = posts (trace w).
Proof.
  revert w. induction evs as [|e evs IH]; intros w Hb He; [done|].
  cbn in He. apply andb_true_iff in He as [He Hevs]. rewrite run_cons.
  destruct (in_flight_step w e Hb He) as [Hb' <-]. by apply IH.
Qed.

(** A click on an enabled button with a key: the request leaves with the
    documents and the key of that moment; whatever happens until the
    service answers, the rest of [publish] runs on the answer to that
    request, and no other request is sent. *)
Lemma publish_via_key s evs w :
  world_ok w → loading (publish_button (publisher_state w)) = false →
  apiKey (app_state w) ≠ "" → forallb no_settle evs = true →
  let a := app_state w in
  let req := publish_request (html a) (css a) (apiKey a) in
  let w2 := run step (step w ClickPublish) evs in
  publish_via s evs w =
    with_publisher (publisher_init, (publish_finish (serve s req)).2) w2 ∧
  posts (trace w2) = posts (trace w) ++ [req].
Proof.
  intros Hw Hl Hk Hevs. pose proof (idle_publisher w Hw Hl) as Hp. cbn zeta.
  assert (step w ClickPublish =
          with_publisher (busy, [HttpPost (publish_request (html (app_state w))
            (css (app_state w)) (apiKey (app_state w)))]) w) as Hc.
  { cbn [step]. unfold on_click, click, Button_onClick.
    by rewrite Hp, publish_start_key. }
  unfold publish_via. rewrite Hc. set (w1 := with_publisher _ w).
  destruct (in_flight_run w1 evs eq_refl Hevs) as [Hb Hposts].
  cbn -[posts] in *. rewrite posts_app, drop_app_length in *.
  split; [|exact Hposts].
  cbn. unfold on_settled. by rewrite Hb, respond_busy.
Qed.

End closed_loop.

(** ** What the user sees *)

Section outcomes.
Context `{JsonCodec, TemplateEngine, Examples}.
Implicit Types (s : service) (w : world) (evs : list event).

(** C26. Publishing with a key the service accepts: one request with the
    template and stylesheet of the moment of the click, and, whatever is
    edited or clicked while it is on its way, one alert with the template
    id the service assigned to those documents; the button is enabled
    again. *)
Theorem publish_accepted s evs w :
  world_ok w → loading (publish_button (publisher_state w)) = false →
  apiKey (app_state w) ≠ "" → accepts s (apiKey (app_state w)) = true →
  forallb no_settle evs = true →
  let a := app_state w in
  let w2 := run step (step w ClickPublish) evs in
  publish_via s evs w =
    with_publisher
      (publisher_init, [Alert (success_message (assign s (html a) (css a)))]) w2 ∧
  posts (trace (publish_via s evs w)) =
    posts (trace w) ++ [publish_request (html a) (css a) (apiKey a)].
Proof.
  intros Hw Hl Hk Hs Hevs. cbn zeta.
  destruct (publish_via_key s evs w Hw Hl Hk Hevs) as [-> Hp].
  rewrite serve_publish_request, Hs. split; [done|].
  unfold with_publisher. cbn [trace snd]. rewrite posts_app, Hp. cbn.
  by rewrite app_nil_r.
Qed.

(** C27. Publishing with a key the service refuses (status 401): one request,
    then the fixed failure alert and no template id anywhere; the button
    is enabled again.  The error goes to the console as axios raised it,
    with the request and so with the key in its [Authorization] header. *)
Theorem publish_refused s evs w :
  world_ok w → loading (publish_button (publisher_state w)) = false →
  apiKey (app_state w) ≠ "" → accepts s (apiKey (app_state w)) = false →
  forallb no_settle evs = true →
  let a := app_state w in
  let req := publish_request (html a) (css a) (apiKey a) in
  publish_via s evs w =
    with_publisher
      (publisher_init, [Alert failure_message; ConsoleLog (axios_error "401" req)])
      (run step (step w ClickPublish) evs).
Proof.
  intros Hw Hl Hk Hs Hevs. cbn zeta.
  destruct (publish_via_key s evs w Hw Hl Hk Hevs) as [-> _].
  by rewrite serve_publish_request, Hs.
Qed.

(** Publishing without a key never reaches the service: the alert asks
    for the key and nothing is in flight afterwards. *)
Theorem publish_without_key s evs w :
  world_ok w → loading (publish_button (publisher_state w)) = false →
  apiKey (app_state w) = "" →
  publish_via s evs w =
    run step (with_publisher (publisher_init, [Alert missing_key_message]) w) evs.
Proof.
  intros Hw Hl Hk. pose proof (idle_publisher w Hw Hl) as Hp.
  unfold publish_via. cbn [step].
  unfold on_click, click, Button_onClick. rewrite Hp, Hk. cbn -[posts].
  by rewrite posts_app, drop_app_length.
Qed.

End outcomes.

(** ** A service with one key *)

(** It accepts the key [secret] and numbers templates by the length of
    their body. *)
Definition one_key_service : service :=
  MkService (String.eqb "secret")
            (λ body _, "t" +:+ print_N (N.of_nat (String.length (js_to_string body)))).

(** The template is edited while the request is on its way, and the button
    is clicked again: the alert names the id of the template that was
    sent, and one request was sent. *)
Lemma publish_accepted_witness :
  let ex := {| htmlExample := "<h1>{{title}}</h1>"; cssExample := "h1 {}" |} in
  let w := run step (mount (Store ∅ None) 0) [EditApiKey "secret"] in
  let evs := [EditHtml "<h2>{{title}}</h2> and more"; ClickPublish; Elapse 700] in
  let w2 := run step (step w ClickPublish) evs in
  publish_via one_key_service evs w =
    with_publisher (publisher_init, [Alert "Save successful. Use template ID t18."]) w2 ∧
  posts (trace (publish_via one_key_service evs w)) =
    [publish_request (JStr "<h1>{{title}}</h1>") (JStr "h1 {}") "secret"].
Proof.
  intros ex w evs w2.
  apply (publish_accepted one_key_service evs w);
    [apply reachable_ok with (Store ∅ None) 0%N; by eexists|done..].
Defined.

(** The last scenario of the specification: the endpoint answers 401. *)
Lemma publish_refused_witness :
  let ex := {| htmlExample := "<h1>{{title}}</h1>"; cssExample := "h1 {}" |} in
  let w := run step (mount (Store ∅ None) 0) [EditApiKey "guess"] in
  publish_via one_key_service [Elapse 300] w =
    with_publisher
      (publisher_init,
       [Alert failure_message;
        ConsoleLog (Error "Request failed with status code 401"
                      (Some (publish_request (JStr "<h1>{{title}}</h1>")
                                             (JStr "h1 {}") "guess")))])
      (run step (step w ClickPublish) [Elapse 300]).
Proof.
  intros ex w.
  apply (publish_refused one_key_service [Elapse 300] w);
    [apply reachable_ok with (Store ∅ None) 0%N; by eexists|done..].
Defined.
