(* ===== verification/Session.v ===== *)
(** * Session: the theorems on sessions

    What holds of every state a session reaches from [App.mount], of
    single events, and of loading and reloading, proved from the
    invariant [world_ok] and the lemmas of [App]; and the same theorems
    applied to concrete sessions with the codec of [JsonText], the engine
    of [Template], two small example documents and an empty store. *)

From S2P Require Import Prelude Json Effects JsonText JsonLaws Debounce Template Storage Preview Publish App Tracks Saves.

#[local] Open Scope N_scope.

(** ** Properties of reachable states *)

Section properties.
Context `{JsonCodec, TemplateEngine, Examples}.
Implicit Types (w : world) (e : event) (st : store) (evs : list event).

(** C1. In every state the session reaches, the preview shows the
    compilation of the debounced template against the debounced data, or
    the raw debounced template when that compilation fails: it never shows
    an error and is never out of step with the debounced documents. *)
Theorem preview_shows_compilation st t0 w :
  reachable step (mount st t0) w →
  compiledHtml (preview_state w) =
    match compile_value (debouncedHtml (preview_state w))
                        (debouncedParams (preview_state w)) with
    | Rendered out => JStr out
    | Threw _ => debouncedHtml (preview_state w)
    end.
Proof.
  intros [Hpv _ _ _ _ _ _]%reachable_ok. rewrite Hpv.
  unfold compiledHtml_init. by destruct (compile_value _ _).
Qed.

(** C11. At most one publish request is in flight in any reachable state,
    and the button is disabled exactly while it is. *)
Theorem one_request_in_flight st t0 w :
  reachable step (mount st t0) w →
  (inflight (publisher_state w) ≤ 1)%nat ∧
  (inflight (publisher_state w) = 1%nat ↔
   loading (publish_button (publisher_state w)) = true).
Proof.
  intros [_ Hpub _ _ _ _ _]%reachable_ok. unfold publisher_ok in Hpub.
  rewrite Hpub. destruct (loading _); split; try split; (done || lia).
Qed.

(** C6. In every reachable state a pending save holds the current
    documents, was requested less than 1000 ms ago and its burst started
    less than 5000 ms ago: unsaved changes are never older than the
    ceiling. *)
Theorem pending_save_is_fresh st t0 w p :
  reachable step (mount st t0) w → saveTimer w = Some p →
  args p = documents (app_state w) ∧
  now w < lastCall p + 1000 ∧ now w < firstCall p + 5000.
Proof.
  intros [_ _ (_ & _ & Hsave) _ _ Hsync _]%reachable_ok Hp.
  destruct (Hsave p Hp) as (_ & _ & Hlt). split; [by apply Hsync|].
  pose proof (deadline_le_delay debouncedWriteStorage_policy p).
  pose proof (deadline_le_maxWait debouncedWriteStorage_policy p 5000 eq_refl).
  simpl in *. lia.
Qed.

(** C15. On a store without quota, whenever no save is pending the store
    holds the current documents under the keys [html], [css] and
    [params]. *)
Theorem store_current_when_idle st t0 w :
  quota st = None → reachable step (mount st t0) w → saveTimer w = None →
  saved (app_state w) (storage w).
Proof.
  intros Hq Hr Hidle. pose proof (reachable_ok _ _ _ Hr) as [_ _ _ _ _ _ Hst].
  apply Hst; [|done]. destruct Hr as [evs ->]. by rewrite run_quota.
Qed.

(** C7. Quiescence updates the preview: after 500 ms without an event the
    debounced copies are the current documents, both timers are idle, and
    the preview shows the compilation of the current template. *)
Theorem quiescence_updates_preview w dt :
  world_ok w → 500 ≤ dt →
  let w' := elapse dt w in
  preview_state w' =
    MkPreview (html (app_state w)) (params (app_state w))
              (compiledHtml_init (html (app_state w)) (params (app_state w))).1
              None None.
Proof. intros Hw Hdt. by apply elapse_preview. Qed.

(** C8. Quiescence persists the documents: after 1000 ms without an event,
    on a store without quota, the store holds the current documents. *)
Theorem quiescence_saves w dt :
  world_ok w → quota (storage w) = None → 1000 ≤ dt →
  saved (app_state w) (storage (elapse dt w)).
Proof. intros Hw Hq Hdt. by apply elapse_stored. Qed.

(** C39. The timer loop terminates with nothing due: three rounds settle
    every timer that is due, and more fuel changes nothing. *)
Theorem run_timers_enough k limit w :
  due_timers limit (run_timers 3 limit w) = [] ∧
  run_timers (3 + k) limit w = run_timers 3 limit w.
Proof.
  split; [apply run_timers_settles|].
  rewrite run_timers_add. apply run_timers_idle, run_timers_settles.
Qed.

(** The order in which two due timers run does not matter for the state
    they leave (the trace may list the diagnostics in another order). *)
Lemma timers_commute_html_params dh dp w :
  calm w → timer_deadline THtml w = Some dh → timer_deadline TParams w = Some dp →
  preview_state (fire_timer TParams dp (fire_timer THtml dh w)) =
    preview_state (fire_timer THtml dh (fire_timer TParams dp w)).
Proof.
  intros [Hpv _ _ _ _ _ _] (ph & Hh & <-)%timer_deadline_html
    (pp & Hp & <-)%timer_deadline_params.
  cbn [fire_timer with_preview preview_state].
  by destruct (fire_html_params (preview_state w) ph pp
                 (deadline useDebounce_policy ph) (deadline useDebounce_policy pp))
    as [-> ->].
Qed.

(** C33. Timers that are due together may run in either order: the
    documents, the preview, the pending save and the store end up the
    same, so the order chosen on a tie does not show. *)
Theorem timers_commute t1 d1 t2 d2 w :
  calm w → t1 ≠ t2 →
  timer_deadline t1 w = Some d1 → timer_deadline t2 w = Some d2 →
  let w12 := fire_timer t2 d2 (fire_timer t1 d1 w) in
  let w21 := fire_timer t1 d1 (fire_timer t2 d2 w) in
  app_state w12 = app_state w21 ∧ preview_state w12 = preview_state w21 ∧
  saveTimer w12 = saveTimer w21 ∧ storage w12 = storage w21.
Proof.
  intros Hw Hne Ht1 Ht2. cbn zeta.
  destruct t1, t2; try done;
    try (pose proof (timers_commute_html_params _ _ w Hw Ht1 Ht2) as Hc);
    try (pose proof (timers_commute_html_params _ _ w Hw Ht2 Ht1) as Hc);
    cbn [fire_timer with_preview] in *; unfold fire_save;
    cbn [saveTimer storage app_state preview_state];
    repeat (destruct (fire debouncedWriteStorage_policy _ _) as [[[[??]?]|] ?]);
    by rewrite ?Hc.
Qed.

End properties.

(** ** Properties of single events *)

(** How many requests an event settles. *)
Definition settles (e : event) : nat :=
  match e with Settled _ => 1 | _ => 0 end.

Section events.
Context `{JsonCodec, TemplateEngine, Examples}.
Implicit Types (w : world) (e : event) (st : store) (evs : list event).

Lemma with_publisher_posts (r : Eff publisher) w :
  count is_post (trace (with_publisher r w)) =
    (count is_post (trace w) + count is_post r.2)%nat.
Proof. simpl. by rewrite count_app. Qed.

(** Requests are sent by clicks only, and each is accounted for by the
    counter of requests in flight. *)
Lemma step_posts w e :
  publisher_ok (publisher_state w) →
  (count is_post (trace (step w e)) + inflight (publisher_state w)
   ≤ count is_post (trace w) + inflight (publisher_state (step w e)) + settles e)%nat.
Proof.
  intros Hok. destruct e; cbn [step settles].
  - unfold on_html. case_decide; simpl; rewrite ?app_nil_r; lia.
  - unfold on_css. case_decide; simpl; lia.
  - unfold on_data. repeat case_match; simpl; rewrite ?app_nil_r, ?count_app;
      [lia..|].
    change (count is_post [_]) with 0%nat. lia.
  - simpl. lia.
  - unfold on_click. rewrite with_publisher_posts. cbn [publisher_state with_publisher].
    destruct (click_posts (html (app_state w)) (css (app_state w))
                (apiKey (app_state w)) _ Hok) as [-> _]. lia.
  - unfold on_settled. rewrite with_publisher_posts. cbn [publisher_state with_publisher].
    unfold respond. destruct (inflight (publisher_state w)) as [|n] eqn:Hn;
      simpl; rewrite ?app_nil_r, ?Hn, ?count_nil; [lia|].
    destruct (publish_finish_effects r) as [_ ->]. lia.
  - unfold elapse. cbn [with_now trace publisher_state].
    destruct (run_timers_trace 3 (now w + dt) w) as (es & -> & Hp & _).
    destruct (run_timers_frame 3 (now w + dt) w) as (_ & -> & _).
    rewrite count_app. lia.
Qed.

Lemma mount_posts st t0 :
  count is_post (trace (mount st t0)) = 0%nat ∧
  inflight (publisher_state (mount st t0)) = 0%nat.
Proof. split; [apply Preview_mount_quiet|done]. Qed.

(** C16. An edit of the data text that does not parse changes nothing but
    the console: the documents, the data text shown, the preview, the
    pending save and the store stay as they were, and one warning is
    logged. *)
Theorem invalid_data_changes_nothing val w :
  parse val = None →
  let w' := step w (EditData val) in
  app_state w' = app_state w ∧ preview_state w' = preview_state w ∧
  saveTimer w' = saveTimer w ∧ storage w' = storage w ∧
  trace w' = trace w ++ [ConsoleWarn "Error parsing JSON"].
Proof. intros Hp. cbn [step]. unfold on_data. by rewrite Hp. Qed.

(** C25. An edit of the data text that parses sets the data object and the
    data text together and neither recompiles nor logs.  It restarts the
    preview's data timer and the save timer with the new object, unless
    the text parses to the primitive that the data already is: then the
    text is all that changes. *)
Theorem valid_data_updates val obj w :
  parse val = Some obj →
  let w' := step w (EditData val) in
  params (app_state w') = obj ∧ paramsJson (app_state w') = val ∧
  compiledHtml (preview_state w') = compiledHtml (preview_state w) ∧
  trace w' = trace w ∧
  if same_primitive obj (params (app_state w))
  then preview_state w' = preview_state w ∧ saveTimer w' = saveTimer w
  else (∃ p, paramsTimer (preview_state w') = Some p ∧ args p = obj ∧
             lastCall p = now w) ∧
       (∃ p, saveTimer w' = Some p ∧
             args p = (html (app_state w), css (app_state w), obj) ∧
             lastCall p = now w).
Proof.
  intros Hp. cbn [step]. unfold on_data. rewrite Hp.
  destruct (same_primitive _ _); simpl; rewrite ?app_nil_r; split_and!; try done.
  - by destruct (paramsTimer _); eexists.
  - by destruct (saveTimer _); eexists.
Qed.

(** Every event keeps the data object the parse of the data text. *)
Lemma step_data_ok w e : data_ok (app_state w) → data_ok (app_state (step w e)).
Proof.
  intros Hd. destruct e; cbn [step]; try done.
  - unfold on_html. by case_decide.
  - unfold on_css. by case_decide.
  - destruct (parse val) eqn:Hp; [|unfold on_data; by rewrite Hp].
    by rewrite (on_data_app val j).
  - unfold elapse. cbn [with_now app_state].
    by destruct (run_timers_frame 3 (now w + dt) w) as (-> & _).
Qed.

(** C28. A click without a key shows the missing-key alert, sends nothing
    and leaves the button enabled. *)
Theorem click_without_key w :
  apiKey (app_state w) = "" →
  loading (publish_button (publisher_state w)) = false →
  let w' := step w ClickPublish in
  trace w' = trace w ++ [Alert missing_key_message] ∧
  loading (publish_button (publisher_state w')) = false ∧
  inflight (publisher_state w') = inflight (publisher_state w).
Proof.
  intros Hk Hl. cbn [step]. unfold on_click, click, Button_onClick.
  rewrite Hk, Hl. simpl. split_and!; [done..|lia].
Qed.

(** A click with a key on an enabled button sends exactly one request:
    a POST to the publish endpoint whose body is the current template and
    stylesheet and whose authorization header is the key; the button is
    disabled until the request settles. *)
Theorem click_with_key_posts w :
  apiKey (app_state w) ≠ "" →
  loading (publish_button (publisher_state w)) = false →
  let w' := step w ClickPublish in
  trace w' = trace w ++
    [HttpPost (Request "https://ssfy.sh/chrisvxd/og-impact/publish"
                 (html (app_state w)) (css (app_state w))
                 [("Content-Type", "application/json");
                  ("Authorization", apiKey (app_state w))])] ∧
  loading (publish_button (publisher_state w')) = true ∧
  inflight (publisher_state w') = S (inflight (publisher_state w)).
Proof.
  intros Hk Hl. cbn [step]. unfold on_click, click, Button_onClick.
  rewrite Hl, (publish_start_key _ _ _ Hk). simpl. split_and!; [done..|lia].
Qed.

(** A click while a request is in flight does nothing. *)
Theorem click_while_loading w :
  loading (publish_button (publisher_state w)) = true →
  step w ClickPublish = w.
Proof.
  intros Hl. cbn [step]. unfold on_click. rewrite click_disabled by done.
  destruct w. unfold with_publisher. simpl. by rewrite app_nil_r.
Qed.

(** C12. Along any run from mounting, the requests sent are at most one
    more than the requests settled: a second request waits for the first
    to settle. *)
Theorem posts_bounded st t0 evs :
  (count is_post (trace (run step (mount st t0) evs))
   ≤ sum_list_with settles evs + 1)%nat.
Proof.
  assert (∀ w, reachable step (mount st t0) w → publisher_ok (publisher_state w))
    as Hok by (intros w Hw; by destruct (reachable_ok st t0 w Hw)).
  cut (count is_post (trace (run step (mount st t0) evs))
       ≤ sum_list_with settles evs
         + inflight (publisher_state (run step (mount st t0) evs)))%nat.
  { specialize (Hok _ (ex_intro _ evs eq_refl)). unfold publisher_ok in Hok.
    destruct (loading _); lia. }
  induction evs as [|e evs IH] using rev_ind.
  { rewrite run_nil. destruct (mount_posts st t0) as [-> ->]. simpl. lia. }
  rewrite run_app, run_cons, run_nil, sum_list_with_app. simpl.
  pose proof (step_posts (run step (mount st t0) evs) e
                (Hok _ (ex_intro _ evs eq_refl))). lia.
Qed.

End events.

(** ** The store is never far behind

    The ceiling of the storage policy bounds how old the store can be:
    while a save is pending the store holds the documents of the moment
    the burst began, and a burst is less than five seconds old. *)

Section staleness.
Context `{JsonCodec, TemplateEngine, Examples}.
Implicit Types (w : world) (e : event) (st : store) (evs : list event).

(** While a save is pending, the store is as it was when the burst began:
    untouched since mounting, or holding the documents of the state in
    which the first edit of the burst arrived. *)
Definition burst_began (st : store) (t0 : N) (evs : list event) (t : N) : Prop :=
  let w := run step (mount st t0) evs in
  (t = t0 ∧ storage w = st) ∨
  ∃ evs1 evs2, evs = evs1 ++ evs2 ∧
    now (run step (mount st t0) evs1) = t ∧
    saved (app_state (run step (mount st t0) evs1)) (storage w).

Lemma burst_began_later st t0 evs e t :
  storage (step (run step (mount st t0) evs) e) = storage (run step (mount st t0) evs) →
  burst_began st t0 evs t → burst_began st t0 (evs ++ [e]) t.
Proof.
  unfold burst_began. rewrite run_snoc. intros ->.
  intros [?|(evs1 & evs2 & -> & ? & ?)]; [by left|right].
  exists evs1, (evs2 ++ [e]). by rewrite app_assoc.
Qed.

Lemma pending_save_began st t0 evs p :
  quota st = None →
  saveTimer (run step (mount st t0) evs) = Some p →
  burst_began st t0 evs (firstCall p).
Proof.
  intros Hq. revert p. induction evs as [|e evs IH] using rev_ind; intros p.
  { intros [= <-]. by left. }
  rewrite run_snoc.
  pose proof (reachable_ok st t0 _ (ex_intro _ evs eq_refl)) as Hok.
  destruct (step_save (run step (mount st t0) evs) e)
    as [[-> Hst]|[[-> Hst]| ->]]; [| |done].
  { intros Hp. by apply burst_began_later, IH. }
  destruct (saveTimer (run step (mount st t0) evs)) as [q|] eqn:Hq';
    intros [= <-]; [by apply burst_began_later, (IH q)|].
  right. exists evs, [e]. cbn [firstCall]. rewrite run_snoc, Hst. split_and!; [done..|].
  apply (ok_stored _ Hok); [by rewrite run_quota|done].
Qed.

(** C9. On a store without quota the store is never more than five
    seconds behind: in every state of a session the store is either still
    as it was found, less than 5000 ms after mounting, or it holds the
    documents of a state the session was in less than 5000 ms before.
    Continuous typing cannot keep the documents from the store for longer
    than the ceiling of the storage policy. *)
Theorem store_staleness_bounded st t0 evs :
  quota st = None →
  let w := run step (mount st t0) evs in
  (storage w = st ∧ now w < t0 + 5000) ∨
  ∃ evs1 evs2, evs = evs1 ++ evs2 ∧
    let w1 := run step (mount st t0) evs1 in
    now w < now w1 + 5000 ∧ saved (app_state w1) (storage w).
Proof.
  intros Hq w.
  pose proof (reachable_ok st t0 w (ex_intro _ evs eq_refl)) as Hok.
  destruct (saveTimer w) as [p|] eqn:Hp.
  - pose proof (pending_save_young w p Hok Hp).
    destruct (pending_save_began st t0 evs p Hq Hp)
      as [[Ht ?]|(evs1 & evs2 & ? & Ht & ?)]; [left|right].
    + split; [done|lia].
    + exists evs1, evs2. simpl. split_and!; [done|lia|done].
  - right. exists evs, []. rewrite app_nil_r. simpl. fold w. split_and!; [done|lia|].
    apply (ok_stored _ Hok); [unfold w; by rewrite run_quota|done].
Qed.

(** C32. Time may be sliced in any way: two waits in a row are one wait of
    their sum, wherever in a session they occur.  The timers run at their
    deadlines, earliest first, so the state and the trace do not depend on
    when the passing of time is observed. *)
Theorem elapse_additive w evs a b evs' :
  run step w (evs ++ Elapse a :: Elapse b :: evs') =
  run step w (evs ++ Elapse (a + b) :: evs').
Proof. rewrite !run_app, !run_cons. cbn [step]. by rewrite elapse_elapse. Qed.

End staleness.

(** ** Typing

    A burst of template edits, each after a pause shorter than the
    debounce delay.  The values of a burst differ from one to the next, as
    the values an editor reports do. *)

Definition typing (rest : list (N * string)) : list event :=
  flat_map (λ gv, [Elapse gv.1; EditHtml gv.2]) rest.

Fixpoint changing (cur : json) (vs : list string) : Prop :=
  match vs with
  | [] => True
  | v :: vs => JStr v ≠ cur ∧ changing (JStr v) vs
  end.

(** The last of the texts typed, as a value. *)
Lemma last_texts (vs : list string) (v0 : string) :
  List.last (JStr <$> vs) (JStr v0) = JStr (List.last vs v0).
Proof.
  revert v0. induction vs as [|v vs IH]; intros v0; [done|].
  rewrite fmap_cons, !last_cons_default. apply IH.
Qed.

Section typing.
Context `{JsonCodec, TemplateEngine, Examples}.
Implicit Types (w : world) (v : string) (rest : list (N * string)).

(** The state between the key strokes of a burst: the preview still has
    the template [d0] and the data [q0], and the template's timer was
    restarted at the last key stroke. *)
Definition typed (d0 q0 : json) (w : world) : Prop :=
  world_ok w ∧ debouncedHtml (preview_state w) = d0 ∧ params (app_state w) = q0 ∧
  ∃ p, htmlTimer (preview_state w) = Some p ∧ lastCall p = now w.

Lemma on_html_typed v w :
  world_ok w → JStr v ≠ html (app_state w) →
  typed (debouncedHtml (preview_state w)) (params (app_state w)) (on_html v w) ∧
  html (app_state (on_html v w)) = JStr v.
Proof.
  intros Hw Hv. split; [|unfold on_html; by rewrite decide_False].
  split; [by apply on_html_ok|]. unfold on_html. rewrite decide_False by done.
  cbn. split_and!; [done..|]. destruct (htmlTimer _); by eexists.
Qed.

Lemma typing_cons g v rest :
  typing ((g, v) :: rest) = Elapse g :: EditHtml v :: typing rest.
Proof. done. Qed.

(** A pause shorter than the delay delivers nothing to the preview. *)
Lemma elapse_typed d0 q0 w dt :
  typed d0 q0 w → dt < 500 →
  world_ok (elapse dt w) ∧ debouncedHtml (preview_state (elapse dt w)) = d0 ∧
  app_state (elapse dt w) = app_state w.
Proof.
  intros (Hw & Hd & _ & p & Hp & Hl) Hdt.
  destruct (elapse_html_pending w dt p Hp) as [_ Hd'].
  { rewrite deadline_no_maxWait by done. cbn. lia. }
  split_and!; [by apply elapse_ok|congruence|].
  unfold elapse. cbn [with_now app_state].
  by destruct (run_timers_frame 3 (now w + dt) w) as (-> & _).
Qed.

(** Along a burst the preview keeps the template it had, and the state
    after the burst holds the last value typed. *)
Lemma typing_typed d0 q0 rest w :
  typed d0 q0 w → changing (html (app_state w)) rest.*2 →
  Forall (λ gv, gv.1 < 500) rest →
  typed d0 q0 (run step w (typing rest)) ∧
  html (app_state (run step w (typing rest))) =
    List.last (JStr <$> rest.*2) (html (app_state w)) ∧
  ∀ k, debouncedHtml (preview_state (run step w (take k (typing rest)))) = d0.
Proof.
  revert w. induction rest as [|[g v] rest IH]; intros w Hw Hch Hg.
  { split_and!; [done..|]. intros k. cbn [typing flat_map]. rewrite take_nil.
    by destruct Hw as (_ & ? & _). }
  destruct Hch as [Hv Hch]. apply list.Forall_cons in Hg as [Hg Hgs].
  destruct (elapse_typed d0 q0 w g Hw Hg) as (Hw1 & Hd1 & Ha1).
  destruct (on_html_typed v (elapse g w) Hw1) as [Hw2 Hh2]; [by rewrite Ha1|].
  rewrite Hd1, Ha1 in Hw2. destruct Hw as (_ & Hd & Hq & _). rewrite Hq in Hw2.
  destruct (IH (on_html v (elapse g w)) Hw2) as (Ht & Hlast & Hk);
    [by rewrite Hh2|done|].
  rewrite typing_cons, fmap_cons, !run_cons. cbn [step snd].
  split_and!; [done|by rewrite Hlast, Hh2, fmap_cons, last_cons_default|].
  intros [|[|k]]; cbn [take run foldl step]; [done..|]. apply Hk.
Qed.

(** C22. Last writer wins.  While the user types, each key stroke less than
    500 ms after the one before, nothing typed reaches the preview: it
    keeps the template it had, whatever else happens to the data timer
    and to the store.  Half a second after the last key stroke the
    preview holds the last value typed and shows its compilation; the
    values in between were never compiled. *)
Theorem typing_previews_last w v0 rest q :
  world_ok w → changing (html (app_state w)) (v0 :: rest.*2) →
  Forall (λ gv, gv.1 < 500) rest → 500 ≤ q →
  let v := List.last rest.*2 v0 in
  (∀ k, debouncedHtml
          (preview_state (run step w (take k (EditHtml v0 :: typing rest)))) =
        debouncedHtml (preview_state w)) ∧
  preview_state (run step w (EditHtml v0 :: typing rest ++ [Elapse q])) =
    MkPreview (JStr v) (params (app_state w))
              (compiledHtml_init (JStr v) (params (app_state w))).1 None None.
Proof.
  intros Hw [Hv Hch] Hg Hq. cbn zeta.
  destruct (on_html_typed v0 w Hw Hv) as [Hw1 Hh1].
  destruct (typing_typed _ _ rest (on_html v0 w) Hw1) as (Ht & Hlast & Hk);
    [by rewrite Hh1|done|].
  split; [intros [|k]; [done|apply Hk]|].
  rewrite run_cons, run_snoc. cbn [step].
  destruct Ht as (Hok & _ & Hp & _).
  by rewrite elapse_preview, Hlast, Hh1, Hp, last_texts.
Qed.

End typing.

(** ** The key and the store *)

(** Two worlds that differ at most in the key, the data text, the publish
    button and the trace. *)
Definition same_documents (w1 w2 : world) : Prop :=
  documents (app_state w1) = documents (app_state w2) ∧
  preview_state w1 = preview_state w2 ∧ saveTimer w1 = saveTimer w2 ∧
  storage w1 = storage w2 ∧ now w1 = now w2.

Section key.
Context `{JsonCodec, TemplateEngine, Examples}.
Implicit Types (w : world) (e : event) (evs : list event).

Lemma same_documents_due limit w1 w2 :
  same_documents w1 w2 → due_timers limit w1 = due_timers limit w2.
Proof.
  intros (_ & Hpv & Hsv & _). unfold due_timers, all_timers, timer_deadline.
  by rewrite Hpv, Hsv.
Qed.

Lemma same_documents_fire t d w1 w2 :
  same_documents w1 w2 → same_documents (fire_timer t d w1) (fire_timer t d w2).
Proof.
  intros (Hd & Hpv & Hsv & Hst & Hn). unfold same_documents.
  destruct t; simpl; rewrite ?Hpv; [done..|].
  unfold fire_save. rewrite Hsv, Hst.
  by destruct (fire _ _ _) as [[[[??]?]|] ?].
Qed.

Lemma same_documents_timers n limit w1 w2 :
  same_documents w1 w2 →
  same_documents (run_timers n limit w1) (run_timers n limit w2).
Proof.
  revert w1 w2. induction n as [|n IH]; intros w1 w2 Hw; simpl; [done|].
  rewrite (same_documents_due limit w1 w2 Hw).
  destruct (earliest _) as [[t d]|]; [|done]. by apply IH, same_documents_fire.
Qed.

Lemma same_documents_step e w1 w2 :
  same_documents w1 w2 → same_documents (step w1 e) (step w2 e).
Proof.
  intros Hw. pose proof Hw as (Hd & Hpv & Hsv & Hst & Hn).
  unfold documents in Hd. injection Hd as Hh Hc Hp.
  destruct e; cbn [step]; [| | |done|done|done|].
  - unfold on_html. rewrite Hh. case_decide; [done|].
    unfold same_documents, save_effect, documents. simpl. by rewrite Hc, Hp, Hpv, Hsv, Hn.
  - unfold on_css. rewrite Hc. case_decide; [done|].
    unfold same_documents, save_effect, documents. simpl. by rewrite Hh, Hp, Hsv, Hn.
  - unfold on_data. destruct (parse val); [|done]. rewrite Hp.
    unfold same_documents, save_effect, documents.
    destruct (same_primitive _ _); simpl; by rewrite Hh, Hc, ?Hpv, ?Hsv, ?Hn.
  - unfold elapse. rewrite Hn.
    by apply (same_documents_timers 3 (now w2 + dt)) in Hw as (? & ? & ? & ? & ?).
Qed.

(** Having the same documents is an equivalence that events respect. *)
#[export] Instance same_documents_equiv : Equivalence same_documents.
Proof.
  split; [intros ?|intros ?? (? & ? & ? & ? & ?)
         |intros ??? (? & ? & ? & ? & ?) (? & ? & ? & ? & ?)];
    unfold same_documents; split_and!; congruence.
Qed.

#[export] Instance step_proper :
  Proper (same_documents ==> (=) ==> same_documents) step.
Proof. intros w1 w2 Hw e ? <-. by apply same_documents_step. Qed.

#[export] Instance run_proper :
  Proper (same_documents ==> (=) ==> same_documents) (run step).
Proof.
  intros w1 w2 Hw evs ? <-. apply run_related; [done|].
  intros ??? Hs. by rewrite Hs.
Qed.

Lemma on_apiKey_same v w : same_documents (step w (EditApiKey v)) w.
Proof. done. Qed.

(** C24. The key never reaches the store: taking a key stroke out of a
    session changes neither the store nor the preview at its end. *)
Theorem apiKey_never_stored w evs1 v evs2 :
  storage (run step w (evs1 ++ EditApiKey v :: evs2)) =
    storage (run step w (evs1 ++ evs2)) ∧
  preview_state (run step w (evs1 ++ EditApiKey v :: evs2)) =
    preview_state (run step w (evs1 ++ evs2)).
Proof.
  rewrite !run_app, run_cons.
  assert (same_documents (run step (step (run step w evs1) (EditApiKey v)) evs2)
                         (run step (run step w evs1) evs2))
    as (_ & ? & _ & ? & _) by by rewrite on_apiKey_same.
  done.
Qed.

End key.

(** ** Failed writes and the session *)

(** Two worlds that differ at most in their stores. *)
Definition same_session (w1 w2 : world) : Prop :=
  app_state w1 = app_state w2 ∧ preview_state w1 = preview_state w2 ∧
  publisher_state w1 = publisher_state w2 ∧ saveTimer w1 = saveTimer w2 ∧
  now w1 = now w2 ∧ trace w1 = trace w2.

Section quota.
Context `{JsonCodec, TemplateEngine, Examples}.
Implicit Types (w : world) (e : event) (evs : list event).

(** Related worlds are one world with two stores. *)
Lemma same_session_inv w1 w2 :
  same_session w1 w2 →
  ∃ a pv pub sv n tr st1 st2,
    w1 = MkWorld a pv pub sv st1 n tr ∧ w2 = MkWorld a pv pub sv st2 n tr.
Proof.
  destruct w1, w2. intros (? & ? & ? & ? & ? & ?). simplify_eq/=.
  by repeat eexists.
Qed.

Lemma same_session_fire t d w1 w2 :
  same_session w1 w2 → same_session (fire_timer t d w1) (fire_timer t d w2).
Proof.
  intros (a & pv & pub & sv & n & tr & st1 & st2 & -> & ->)%same_session_inv.
  destruct t; [done..|]. unfold fire_timer, fire_save. simpl.
  by destruct (fire _ _ _) as [[[[??]?]|] ?].
Qed.

Lemma same_session_timers n limit w1 w2 :
  same_session w1 w2 →
  same_session (run_timers n limit w1) (run_timers n limit w2).
Proof.
  revert w1 w2. induction n as [|n IH]; intros w1 w2 Hw; simpl; [done|].
  assert (due_timers limit w1 = due_timers limit w2) as ->.
  { destruct Hw as (_ & Hpv & _ & Hsv & _). unfold due_timers, timer_deadline.
    by rewrite Hpv, Hsv. }
  destruct (earliest _) as [[t d]|]; [|done]. by apply IH, same_session_fire.
Qed.

Lemma same_session_step e w1 w2 :
  same_session w1 w2 → same_session (step w1 e) (step w2 e).
Proof.
  intros Hw. destruct e; cbn [step];
    [| | | | | |unfold elapse;
                pose proof Hw as (_ & _ & _ & _ & -> & _);
                by apply (same_session_timers 3 (now w2 + dt)) in Hw
                  as (? & ? & ? & ? & ? & ?)];
    apply same_session_inv in Hw
      as (a & pv & pub & sv & n & tr & st1 & st2 & -> & ->);
    unfold on_html, on_css, on_data, on_apiKey, on_click, on_settled;
    simpl; by repeat case_match.
Qed.

(** C23. Failed writes are swallowed: two sessions on stores with the same
    content and different quotas, given the same events, have the same
    documents, preview, publish state, timers and trace.  Whether the
    store accepts the writes never shows. *)
Theorem persistence_failures_swallowed m q1 q2 t0 evs :
  same_session (run step (mount (Store m q1) t0) evs)
               (run step (mount (Store m q2) t0) evs).
Proof.
  apply run_related; [done|]. intros; by apply same_session_step.
Qed.

End quota.

(** ** Concrete sessions

    The theorems above applied to sessions of the program with the JSON
    codec of [JsonText], the template engine of [Template], two small
    example documents and an empty store without quota. *)

Definition demo_examples : Examples :=
  {| htmlExample := "<h1>{{title}}</h1>"; cssExample := "h1 { color: red }" |}.

#[local] Existing Instance demo_examples.

Definition demo_store : store := Store ∅ None.

(** An edit of the template followed by half a second of quiet. *)
Definition demo_edit : list event := [EditHtml "Hi {{title}}"; Elapse 500].

Lemma preview_shows_compilation_witness :
  let w := run step (mount demo_store 0) demo_edit in
  compiledHtml (preview_state w) =
    match compile_value (debouncedHtml (preview_state w))
                        (debouncedParams (preview_state w)) with
    | Rendered out => JStr out
    | Threw _ => debouncedHtml (preview_state w)
    end.
Proof.
  intros w. apply (preview_shows_compilation demo_store 0 w). by exists demo_edit.
Defined.

Lemma one_request_in_flight_witness :
  let w := run step (mount demo_store 0)
             [EditApiKey "k"; ClickPublish; ClickPublish] in
  (inflight (publisher_state w) ≤ 1)%nat ∧
  (inflight (publisher_state w) = 1%nat ↔
   loading (publish_button (publisher_state w)) = true).
Proof.
  intros w. apply (one_request_in_flight demo_store 0 w). by eexists.
Defined.

Lemma pending_save_is_fresh_witness :
  let w := run step (mount demo_store 0) [EditCss "p {}"; Elapse 300] in
  let p := Pending (JStr "<h1>{{title}}</h1>", JStr "p {}", defaultParams) 0 0 in
  args p = documents (app_state w) ∧
  now w < lastCall p + 1000 ∧ now w < firstCall p + 5000.
Proof.
  intros w p. apply (pending_save_is_fresh demo_store 0 w p); [by eexists|].
  vm_compute. reflexivity.
Defined.

(** Typing without a pause of a second, from two seconds after mounting:
    one character every 900 ms. *)
Definition demo_typing : list event :=
  Elapse 2000 ::
  typing [(0, "a"); (900, "ab"); (900, "abc"); (900, "abcd"); (900, "abcde");
          (900, "abcdef"); (900, "abcdefg")].

Lemma store_staleness_bounded_witness :
  let w := run step (mount demo_store 0) demo_typing in
  (storage w = demo_store ∧ now w < 0 + 5000) ∨
  ∃ evs1 evs2, demo_typing = evs1 ++ evs2 ∧
    let w1 := run step (mount demo_store 0) evs1 in
    now w < now w1 + 5000 ∧ saved (app_state w1) (storage w).
Proof. apply (store_staleness_bounded demo_store 0 demo_typing). reflexivity. Defined.

(** The ceiling at work: the burst began at 2000, so the save ran at 7000
    with the template of that moment, between two key strokes. *)
Example ceiling_forces_save :
  let w := run step (mount demo_store 0) demo_typing in
  now w = 7400 ∧ html (app_state w) = JStr "abcdefg" ∧
  getItem "html" (storage w) = Some "abcdef" ∧
  (firstCall <$> saveTimer w) = Some 7400.
Proof. vm_compute. done. Qed.

(** The writes of that session: the save of the first render after one
    second, and the one the ceiling forced. *)
Example typing_log :
  fired (writer_sched demo_store 0 demo_typing) =
    [(1000, (JStr htmlExample, JStr cssExample, defaultParams));
     (7000, (JStr "abcdef", JStr cssExample, defaultParams))].
Proof. vm_compute. done. Qed.

(** The deliveries of the template's hook while a word is typed with
    pauses under half a second, then one of 700 ms: the pause delivers the
    word so far, and the last key stroke is pending. *)
Example typing_deliveries :
  let evs := typing [(0, "a"); (300, "ab"); (300, "abc"); (700, "abcd")]
               ++ [Elapse 100] in
  let s := hook_sched html_hook demo_store 0 evs in
  fired s = [(1100, JStr "abc")] ∧ (args <$> slot s) = Some (JStr "abcd") ∧
  debouncedHtml (preview_state (run step (mount demo_store 0) evs)) = JStr "abc".
Proof. vm_compute. done. Qed.

(** The data's hook is called by texts that parse, and by a primitive only
    when it differs from the current data. *)
Example data_deliveries :
  fired (hook_sched params_hook demo_store 0
           [EditData "{}"; Elapse 200; EditData "{"; Elapse 300; EditData "1";
            Elapse 500; EditData "1"; Elapse 500]) =
    [(500, JObj []); (1000, JNum 1)].
Proof. vm_compute. done. Qed.

Lemma store_current_when_idle_witness :
  let w := run step (mount demo_store 0) [EditCss "p {}"; Elapse 1000] in
  saved (app_state w) (storage w).
Proof.
  intros w. apply (store_current_when_idle demo_store 0 w);
    [reflexivity|by eexists|vm_compute; reflexivity].
Defined.

Lemma quiescence_updates_preview_witness :
  let w := run step (mount demo_store 0) [EditHtml "Hi {{title}}"] in
  preview_state (elapse 500 w) =
    MkPreview (html (app_state w)) (params (app_state w))
              (compiledHtml_init (html (app_state w)) (params (app_state w))).1
              None None.
Proof.
  intros w. apply (quiescence_updates_preview w 500); [|lia].
  apply (reachable_ok demo_store 0). by eexists.
Defined.

Lemma quiescence_saves_witness :
  let w := run step (mount demo_store 0) [EditHtml "Hi {{title}}"] in
  saved (app_state w) (storage (elapse 1000 w)).
Proof.
  intros w. apply (quiescence_saves w 1000); [|reflexivity|lia].
  apply (reachable_ok demo_store 0). by eexists.
Defined.

Lemma timers_commute_witness :
  let w := run step (mount demo_store 0) [EditHtml "a"; EditData "[1]"] in
  let w12 := fire_timer TParams 500 (fire_timer THtml 500 w) in
  let w21 := fire_timer THtml 500 (fire_timer TParams 500 w) in
  app_state w12 = app_state w21 ∧ preview_state w12 = preview_state w21 ∧
  saveTimer w12 = saveTimer w21 ∧ storage w12 = storage w21.
Proof.
  intros w. apply (timers_commute THtml 500 TParams 500 w);
    [apply world_ok_calm, (reachable_ok demo_store 0); by eexists|done
    |vm_compute; reflexivity..].
Defined.

Lemma invalid_data_changes_nothing_witness :
  let w := mount demo_store 0 in
  let w' := step w (EditData "{") in
  app_state w' = app_state w ∧ preview_state w' = preview_state w ∧
  saveTimer w' = saveTimer w ∧ storage w' = storage w ∧
  trace w' = trace w ++ [ConsoleWarn "Error parsing JSON"].
Proof.
  intros w. apply (invalid_data_changes_nothing "{" w). vm_compute. reflexivity.
Defined.

Lemma valid_data_updates_witness :
  let w := mount demo_store 0 in
  let w' := step w (EditData "[1,2]") in
  let obj := JArr [JNum 1; JNum 2] in
  params (app_state w') = obj ∧ paramsJson (app_state w') = "[1,2]" ∧
  compiledHtml (preview_state w') = compiledHtml (preview_state w) ∧
  trace w' = trace w ∧
  (∃ p, paramsTimer (preview_state w') = Some p ∧ args p = obj ∧
        lastCall p = now w) ∧
  (∃ p, saveTimer w' = Some p ∧
        args p = (html (app_state w), css (app_state w), obj) ∧
        lastCall p = now w).
Proof.
  intros w. apply (valid_data_updates "[1,2]" (JArr [JNum 1; JNum 2]) w).
  vm_compute. reflexivity.
Defined.

(** The number 7 typed again with a space in front: the text changes, and
    no timer restarts. *)
Example same_number_again :
  let w := run step (mount demo_store 0) [EditData "7"; Elapse 2000] in
  let w' := step w (EditData " 7") in
  params (app_state w') = JNum 7 ∧ paramsJson (app_state w') = " 7" ∧
  preview_state w' = preview_state w ∧ saveTimer w' = None.
Proof. vm_compute. done. Qed.

Lemma click_without_key_witness :
  let w := mount demo_store 0 in
  let w' := step w ClickPublish in
  trace w' = trace w ++ [Alert missing_key_message] ∧
  loading (publish_button (publisher_state w')) = false ∧
  inflight (publisher_state w') = inflight (publisher_state w).
Proof. intros w. apply (click_without_key w); reflexivity. Defined.

Lemma click_with_key_posts_witness :
  let w := step (mount demo_store 0) (EditApiKey "secret") in
  let w' := step w ClickPublish in
  trace w' = trace w ++
    [HttpPost (Request "https://ssfy.sh/chrisvxd/og-impact/publish"
                 (html (app_state w)) (css (app_state w))
                 [("Content-Type", "application/json");
                  ("Authorization", apiKey (app_state w))])] ∧
  loading (publish_button (publisher_state w')) = true ∧
  inflight (publisher_state w') = S (inflight (publisher_state w)).
Proof. intros w. apply (click_with_key_posts w); [done|reflexivity]. Defined.

Lemma click_while_loading_witness :
  let w := run step (mount demo_store 0) [EditApiKey "secret"; ClickPublish] in
  step w ClickPublish = w.
Proof. intros w. apply (click_while_loading w). reflexivity. Defined.

(** A whole session: two edits, a publish that the service rejects, saved
    documents at the end. *)
Example session :
  let w := run step (mount demo_store 0)
             [EditHtml "Hi {{title}}"; Elapse 200; EditData "[1,2]";
              Elapse 500; EditApiKey "k"; ClickPublish; ClickPublish;
              Settled (Rejected (Error "401" None)); Elapse 1000] in
  compiledHtml (preview_state w) = JStr "Hi " ∧
  count is_post (trace w) = 1%nat ∧
  count is_alert (trace w) = 1%nat ∧
  getItem "html" (storage w) = Some "Hi {{title}}" ∧
  getItem "params" (storage w) = Some "[1,2]" ∧
  now w = 1700.
Proof. vm_compute. by split_and!. Qed.

(** ** Loading and reloading *)

(** The three documents are values [JSON.parse] could have returned. *)
Definition docs_wf (a : app) : Prop :=
  json_wf (html a) = true ∧ json_wf (css a) = true ∧ json_wf (params a) = true.

Section reload.
Context `{JsonCodec, TemplateEngine, Examples}.
Implicit Types (w : world) (st : store) (a : app).

(** A stored data text that is not JSON is not dropped: the library hands
    it over as a string, and the session starts with that string as its
    data. *)
Lemma App_init_unparsable_params st s :
  getItem "params" st = Some s → parse s = None → s ≠ "" →
  params (App_init st) = JStr s.
Proof.
  intros Hs Hp Hne%string_truthy_iff.
  unfold App_init, storedParams, useLocalStorage. cbn [params].
  rewrite Hs. cbn. rewrite tryParse_text by done. by apply js_or_truthy.
Qed.

(** The initial state on a store from which the library reads three truthy
    values: those values, the data printed with two spaces of
    indentation, and an empty key. *)
Lemma App_init_read st h c p :
  useLocalStorage "html" st = Some h → useLocalStorage "css" st = Some c →
  useLocalStorage "params" st = Some p →
  truthy h = true → truthy c = true → truthy p = true →
  App_init st = MkApp h c p (stringify 2 p) "".
Proof.
  intros Hh Hc Hp ???. unfold App_init, storedHtml, storedCss, storedParams.
  rewrite Hh, Hc, Hp. by rewrite !js_or_truthy.
Qed.

(** Mounting schedules a save although nothing was edited: the save
    effect runs after the first render, so one second after start the
    store is written with the documents just loaded. *)
Theorem mount_schedules_save st t0 :
  saveTimer (mount st t0) = Some (Pending (documents (App_init st)) t0 t0) ∧
  storage (mount st t0) = st ∧ now (mount st t0) = t0.
Proof. done. Qed.

(** What a session shows right after mounting: the documents of the
    initial state, and the preview of its template and data. *)
Lemma mount_state st t0 :
  app_state (mount st t0) = App_init st ∧
  preview_state (mount st t0) =
    MkPreview (html (App_init st)) (params (App_init st))
      (compiledHtml_init (html (App_init st)) (params (App_init st))).1 None None.
Proof. unfold mount. cbn. by rewrite Preview_mount_fst. Qed.

(** *** With a lawful codec *)

Context `{!JsonCodecLaws}.

(** The library hands over well-formed values only. *)
Lemma useLocalStorage_wf k st (d : json) :
  json_wf d = true → json_wf (useLocalStorage k st ||| d)%js = true.
Proof.
  intros Hd. destruct (useLocalStorage k st) as [v|] eqn:Hv; [|done].
  unfold js_or. destruct (truthy v); [|done].
  unfold useLocalStorage in Hv. destruct (getItem k st) as [s|]; simplify_eq/=.
  unfold tryParse. destruct (parse s) eqn:Hp; [by apply (parse_wf s)|done].
Qed.

Lemma App_init_wf st : docs_wf (App_init st).
Proof. split_and!; by apply useLocalStorage_wf. Qed.

Lemma step_docs_wf w e : docs_wf (app_state w) → docs_wf (app_state (step w e)).
Proof.
  intros Hd. destruct e; cbn [step]; try done.
  - unfold on_html. case_decide; [done|]. by destruct Hd as (_ & ? & ?).
  - unfold on_css. case_decide; [done|]. by destruct Hd as (? & _ & ?).
  - destruct (parse val) eqn:Hp; [|unfold on_data; by rewrite Hp].
    rewrite (on_data_app val j) by done. destruct Hd as (? & ? & _).
    split_and!; [done..|by eapply parse_wf].
  - unfold elapse. cbn [with_now app_state].
    by destruct (run_timers_frame 3 (now w + dt) w) as (-> & _).
Qed.

Lemma reachable_docs_wf st t0 w :
  reachable step (mount st t0) w → docs_wf (app_state w).
Proof.
  apply (reachable_invariant step (λ w, docs_wf (app_state w)));
    [apply App_init_wf|apply step_docs_wf].
Qed.

(** C18. In every reachable state the data object is the parse of the data
    text held in state, and it is a well-formed value: the two are set
    together or not at all. *)
Theorem data_always_parsed st t0 w :
  reachable step (mount st t0) w →
  parse (paramsJson (app_state w)) = Some (params (app_state w)) ∧
  json_wf (params (app_state w)) = true.
Proof.
  intros Hw. split; [|by eapply reachable_docs_wf].
  revert Hw. apply (reachable_invariant step (λ w, data_ok (app_state w)));
    [|apply step_data_ok].
  apply parse_stringify, App_init_wf.
Qed.

(** After a second of quiet on a store without quota, the store holds the
    texts of the session's documents, which are well-formed values. *)
Lemma quiet_store_saved st t0 w dt :
  reachable step (mount st t0) w → quota st = None → 1000 ≤ dt →
  saved (app_state w) (storage (elapse dt w)) ∧ docs_wf (app_state w).
Proof.
  intros Hw Hq Hdt. split; [|by eapply reachable_docs_wf].
  apply elapse_stored; [by eapply reachable_ok| |done].
  destruct Hw as [evs ->]. by rewrite run_quota.
Qed.

(** What the library reads from a store that holds the texts of
    well-formed documents that read back: the documents. *)
Lemma saved_read a st :
  saved a st → docs_wf a →
  reads_back (html a) → reads_back (css a) → reads_back (params a) →
  useLocalStorage "html" st = Some (html a) ∧
  useLocalStorage "css" st = Some (css a) ∧
  useLocalStorage "params" st = Some (params a).
Proof. intros (? & ? & ?) (? & ? & ?) ???. split_and!; by apply useLocalStorage_stored. Qed.

(** C20. Types survive a reload.  The library parses every stored text on
    reading, so a document comes back as it was only if it is not a
    string whose text is JSON.  In any reachable state on a store without
    quota, when no document is a string holding a JSON text, one second
    of quiet leaves a store from which the library reads the three values
    the session holds, each with the type it has in the session. *)
Theorem reload_keeps_types st t0 w dt :
  reachable step (mount st t0) w → quota st = None → 1000 ≤ dt →
  reads_back (html (app_state w)) → reads_back (css (app_state w)) →
  reads_back (params (app_state w)) →
  let st' := storage (elapse dt w) in
  useLocalStorage "html" st' = Some (html (app_state w)) ∧
  useLocalStorage "css" st' = Some (css (app_state w)) ∧
  useLocalStorage "params" st' = Some (params (app_state w)).
Proof.
  intros Hw Hq Hdt ???. destruct (quiet_store_saved st t0 w dt) as [??]; [done..|].
  by apply saved_read.
Qed.

(** C13. End to end: in any reachable state on a store without quota, one
    second of quiet is enough for a session mounted on the store to start
    where this one is: with the same three documents and the preview of
    the same template and data, provided no document is falsy or a string
    holding a JSON text.  The data text comes back as the data printed
    with two spaces of indentation, not as the text that was typed, and
    the key comes back empty. *)
Theorem reload_after_quiescence st t0 w dt t1 :
  reachable step (mount st t0) w → quota st = None → 1000 ≤ dt →
  reads_back (html (app_state w)) → reads_back (css (app_state w)) →
  reads_back (params (app_state w)) →
  truthy (html (app_state w)) = true → truthy (css (app_state w)) = true →
  truthy (params (app_state w)) = true →
  let w' := mount (storage (elapse dt w)) t1 in
  app_state w' =
    MkApp (html (app_state w)) (css (app_state w)) (params (app_state w))
          (stringify 2 (params (app_state w))) "" ∧
  preview_state w' =
    MkPreview (html (app_state w)) (params (app_state w))
      (compiledHtml_init (html (app_state w)) (params (app_state w))).1 None None.
Proof.
  intros Hw Hq Hdt ??? ???. cbn zeta.
  destruct (quiet_store_saved st t0 w dt) as [Hs Hwf]; [done..|].
  destruct (saved_read _ _ Hs Hwf) as (? & ? & ?); [done..|].
  destruct (mount_state (storage (elapse dt w)) t1) as [-> ->].
  by rewrite (App_init_read _ (html (app_state w)) (css (app_state w))
                (params (app_state w))).
Qed.

(** C37. What is falsy does not survive a reload.  In any reachable state
    on a store without quota, after one second of quiet a new session
    starts with the built-in example in place of an emptied template or
    stylesheet, and with the default data in place of falsy data ([0],
    [false], [null], the empty string): the [||] defaults of lines 140-143
    cannot tell a stored falsy value from an absent one. *)
Theorem falsy_documents_replaced st t0 w dt :
  reachable step (mount st t0) w → quota st = None → 1000 ≤ dt →
  let a := App_init (storage (elapse dt w)) in
  (html (app_state w) = JStr "" → html a = JStr htmlExample) ∧
  (css (app_state w) = JStr "" → css a = JStr cssExample) ∧
  (truthy (params (app_state w)) = false → reads_back (params (app_state w)) →
   params a = defaultParams).
Proof.
  intros Hw Hq Hdt.
  destruct (quiet_store_saved st t0 w dt) as [(Hh & Hc & Hp) (_ & _ & Hwf)]; [done..|].
  cbn zeta. unfold App_init, storedHtml, storedCss, storedParams. cbn [html css params].
  split_and!.
  - intros E. rewrite E in Hh.
    by rewrite (useLocalStorage_stored _ _ (JStr "")) by auto using reads_back_empty.
  - intros E. rewrite E in Hc.
    by rewrite (useLocalStorage_stored _ _ (JStr "")) by auto using reads_back_empty.
  - intros Ht Hrb. rewrite (useLocalStorage_stored _ _ _ Hp) by done.
    by apply js_or_falsy.
Qed.

(** C21. A document that is a JSON text does not survive a reload as the
    text it was.  When the template the user typed is the text of a JSON
    value (a number, [true], a quoted string, [[1]]), one second of quiet
    stores it as typed and the library parses it on reading: a session
    mounted on the store holds the value, not the text.  When the value
    is truthy the template of the new session is that value, and when it
    is not a string and not a syntax tree the engine refuses it, so the
    preview shows the value itself. *)
Theorem json_text_reloaded_as_value `{!TemplateEngineLaws} st t0 w dt t1 s v :
  reachable step (mount st t0) w → quota st = None → 1000 ≤ dt →
  html (app_state w) = JStr s → parse s = Some v → truthy v = true →
  let w' := mount (storage (elapse dt w)) t1 in
  html (app_state w') = v ∧ debouncedHtml (preview_state w') = v ∧
  (typeof v ≠ TString → get_field "type" v ≠ Some (JStr "Program") →
   compiledHtml (preview_state w') = v).
Proof.
  intros Hw Hq Hdt Hs Hp Ht. cbn zeta.
  destruct (quiet_store_saved st t0 w dt) as [(Hh & _) _]; [done..|].
  destruct (mount_state (storage (elapse dt w)) t1) as [-> ->].
  assert (html (App_init (storage (elapse dt w))) = v) as ->.
  { unfold App_init, storedHtml, useLocalStorage. cbn [html].
    rewrite Hh, Hs. cbn. rewrite (tryParse_json s v) by done. by apply js_or_truthy. }
  split_and!; [done..|]. intros ??. cbn. by rewrite value_template_refused.
Qed.

(** C36. A save cut short by the quota is loaded for what it wrote.  On a
    store that holds no stylesheet and no data, when the template fits and
    the stylesheet does not, the writer stops after the template, and a
    session started on what it left has the saved template, the built-in
    stylesheet and data, and an empty key: each key is loaded on its own. *)
Theorem partial_save_reloaded st s1 h c p :
  getItem "css" st = None → getItem "params" st = None →
  setItem "html" (stored_text h) st = Some s1 →
  setItem "css" (stored_text c) s1 = None →
  json_wf h = true → reads_back h → truthy h = true →
  App_init (debouncedWriteStorage_fn h c p st).1 =
    MkApp h (JStr cssExample) defaultParams (stringify 2 defaultParams) "".
Proof.
  intros Hc Hp Hw1 Hw2 Hwf Hrb Ht. rewrite (save_stops_at_css _ _ _ _ s1) by done.
  unfold App_init, storedHtml, storedCss, storedParams. cbn [fst].
  rewrite (useLocalStorage_stored "html" s1 h); [|by eapply getItem_setItem|done..].
  rewrite !useLocalStorage_absent, js_or_truthy; [done..| |].
  - by rewrite (getItem_setItem_ne "html" "params" (stored_text h) st s1).
  - by rewrite (getItem_setItem_ne "html" "css" (stored_text h) st s1).
Qed.

End reload.

#[local] Existing Instance demo_examples.

(** A concrete text that is not JSON reads back. *)
#[local] Ltac reads_back_text :=
  let s := fresh in let Hs := fresh in
  intros s Hs; vm_compute in Hs; injection Hs as <-; reflexivity.

Example unparsable_params_kept :
  params (App_init (Store {["params" := "{oops"]} None)) = JStr "{oops".
Proof. by apply App_init_unparsable_params. Qed.

Lemma data_always_parsed_witness :
  let w := run step (mount demo_store 0)
             [EditData "[1,2]"; EditData "{"; Elapse 700] in
  parse (paramsJson (app_state w)) = Some (params (app_state w)) ∧
  json_wf (params (app_state w)) = true.
Proof. intros w. apply (data_always_parsed demo_store 0 w). by eexists. Defined.

Lemma reload_after_quiescence_witness :
  let w := run step (mount demo_store 0) [EditData "[1,2]"] in
  let w' := mount (storage (elapse 1000 w)) 5000 in
  app_state w' =
    MkApp (html (app_state w)) (css (app_state w)) (params (app_state w))
          (stringify 2 (params (app_state w))) "" ∧
  preview_state w' =
    MkPreview (html (app_state w)) (params (app_state w))
      (compiledHtml_init (html (app_state w)) (params (app_state w))).1 None None.
Proof.
  intros w. apply (reload_after_quiescence demo_store 0 w 1000 5000);
    [by eexists|reflexivity|lia|reads_back_text|reads_back_text
    |by apply reads_back_object|reflexivity..].
Defined.

(** The data text [[1,2]] comes back on four lines. *)
Example data_text_reformatted :
  let w := run step (mount demo_store 0) [EditData "[1,2]"] in
  let a := App_init (storage (elapse 1000 w)) in
  paramsJson (app_state w) = "[1,2]" ∧
  params a = params (app_state w) ∧ paramsJson a ≠ paramsJson (app_state w).
Proof. vm_compute. by split_and!. Qed.

Lemma reload_keeps_types_witness :
  let w := run step (mount demo_store 0) [EditCss "h1 { margin: 0 }"] in
  let st' := storage (elapse 1000 w) in
  useLocalStorage "html" st' = Some (html (app_state w)) ∧
  useLocalStorage "css" st' = Some (css (app_state w)) ∧
  useLocalStorage "params" st' = Some (params (app_state w)).
Proof.
  intros w. apply (reload_keeps_types demo_store 0 w 1000);
    [by eexists|reflexivity|lia|reads_back_text|reads_back_text
    |by apply reads_back_object].
Defined.

Lemma json_text_reloaded_as_value_witness :
  let w := run step (mount demo_store 0) [EditHtml "123"] in
  let w' := mount (storage (elapse 1000 w)) 5000 in
  html (app_state w') = JNum 123 ∧ debouncedHtml (preview_state w') = JNum 123 ∧
  (typeof (JNum 123) ≠ TString →
   get_field "type" (JNum 123) ≠ Some (JStr "Program") →
   compiledHtml (preview_state w') = JNum 123).
Proof.
  intros w. apply (json_text_reloaded_as_value demo_store 0 w 1000 5000 "123");
    [by eexists|reflexivity|lia|reflexivity..].
Defined.

(** The template [123] and the stylesheet [{}]: the next session starts
    with a number and an object, shows the number, and logs the engine's
    refusal twice (the initialiser and the first effect). *)
Example json_texts_change_type :
  let w := run step (mount demo_store 0) [EditHtml "123"; EditCss "{}"] in
  let w' := mount (storage (elapse 1000 w)) 5000 in
  documents (app_state w') = (JNum 123, JObj [], defaultParams) ∧
  compiledHtml (preview_state w') = JNum 123 ∧
  trace w' =
    [ConsoleWarn compile_warning; ConsoleWarn (not_a_template (JNum 123));
     ConsoleWarn compile_warning; ConsoleWarn (not_a_template (JNum 123))].
Proof. vm_compute. done. Qed.

(** A quoted template loses its quotes. *)
Example quoted_template_unquoted :
  let w := run step (mount demo_store 0) [EditHtml (stringify 0 (JStr "<b>"))] in
  html (app_state w) = JStr (stringify 0 (JStr "<b>")) ∧
  html (App_init (storage (elapse 1000 w))) = JStr "<b>".
Proof. vm_compute. done. Qed.

Lemma falsy_documents_replaced_witness :
  let w := run step (mount demo_store 0) [EditHtml ""; EditData "0"] in
  let a := App_init (storage (elapse 1000 w)) in
  (html (app_state w) = JStr "" → html a = JStr htmlExample) ∧
  (css (app_state w) = JStr "" → css a = JStr cssExample) ∧
  (truthy (params (app_state w)) = false → reads_back (params (app_state w)) →
   params a = defaultParams).
Proof.
  intros w. apply (falsy_documents_replaced demo_store 0 w 1000);
    [by eexists|reflexivity|lia].
Defined.

(** The emptied template and the data [0] are gone after the reload. *)
Example emptied_template_comes_back :
  let w := run step (mount demo_store 0) [EditHtml ""; EditData "0"] in
  let a := App_init (storage (elapse 1000 w)) in
  documents (app_state w) = (JStr "", JStr cssExample, JNum 0) ∧
  documents a = (JStr htmlExample, JStr cssExample, defaultParams).
Proof. vm_compute. done. Qed.

(** And a data value that is a string holding a JSON text: the string
    [5] is stored without its quotes and comes back as the number, and
    the string [null] as [null], which the default then replaces. *)
Example string_data_changes_type :
  let reloaded v :=
    let w := run step (mount demo_store 0) [EditData (stringify 0 (JStr v))] in
    (params (app_state w), params (App_init (storage (elapse 1000 w)))) in
  reloaded "5" = (JStr "5", JNum 5) ∧
  reloaded "null" = (JStr "null", defaultParams) ∧
  reloaded "five" = (JStr "five", JStr "five").
Proof. vm_compute. done. Qed.

(** A store with room for the template and not for the stylesheet. *)
Lemma partial_save_reloaded_witness :
  App_init (debouncedWriteStorage_fn (JStr "<p>") (JStr "p { color: red; }")
              defaultParams (Store ∅ (Some 10%nat))).1 =
    MkApp (JStr "<p>") (JStr cssExample) defaultParams (stringify 2 defaultParams) "".
Proof.
  apply (partial_save_reloaded (Store ∅ (Some 10%nat)) (Store {["html" := "<p>"]} (Some 10%nat)));
    [vm_compute; reflexivity|vm_compute; reflexivity|vm_compute; reflexivity
    |vm_compute; reflexivity|reflexivity|reads_back_text|reflexivity].
Defined.

(** Three key strokes 200 ms apart and a pause: the preview goes from the
    example straight to the last template. *)
Lemma typing_previews_last_witness :
  let w := mount demo_store 0 in
  let rest := [(200, "<p>{{t"); (200, "<p>{{title}}</p>")] in
  (∀ k, debouncedHtml
          (preview_state (run step w (take k (EditHtml "<p>" :: typing rest)))) =
        debouncedHtml (preview_state w)) ∧
  preview_state (run step w (EditHtml "<p>" :: typing rest ++ [Elapse 500])) =
    MkPreview (JStr (List.last rest.*2 "<p>")) (params (app_state w))
      (compiledHtml_init (JStr (List.last rest.*2 "<p>")) (params (app_state w))).1
      None None.
Proof.
  intros w rest. apply (typing_previews_last w "<p>" rest 500);
    [apply mount_ok|by repeat split|repeat constructor|done].
Defined.
