(* ===== verification/Refine.v ===== *)
(** * Refine: the event loop implements the abstract session

    [abs] forgets the timers and the clock of a [world]; what is left is
    a [view] of [Spec], the trace included.  [input_of] reads an event as
    what the user or the service did; the passing of time is no input.

    Every event of [App.step] is the abstract machine's move on that input
    ([step_refines]).  An edit, a click or the request settling is the one
    answer of the machine to it: the same documents, the same text, the
    same words said.  The passing of time is a sequence of moves of the
    machine's own, one for each callback that changes what is shown or
    stored: a timer's callback delivers the current value of what it
    debounces (the invariants [html_synced], [params_synced],
    [save_synced] of [App]), so the preview moves to the compilation of
    the current template or data and the store is written with the
    current documents.  A session is therefore a run of the abstract
    machine on its inputs ([session_refines]), and so is, through
    [Hooks.erase], every run of the components as they are written
    ([hooks_run_refines]). *)

From stdpp Require Import relations.
From S2P Require Import Prelude Json Effects JsonText Debounce Template Storage Preview Publish Spec App Hooks.

#[local] Open Scope N_scope.

(** What a world shows. *)
Definition abs (w : world) : view :=
  View (documents (app_state w))
       (paramsJson (app_state w))
       (apiKey (app_state w))
       (debouncedHtml (preview_state w), debouncedParams (preview_state w))
       (compiledHtml (preview_state w))
       (storage w)
       (loading (publish_button (publisher_state w)))
       (trace w).

(** What an event is to the abstract machine. *)
Definition input_of (e : event) : option input :=
  match e with
  | EditHtml v => Some (TypeHtml v)
  | EditCss v => Some (TypeCss v)
  | EditData val => Some (TypeData val)
  | EditApiKey v => Some (TypeKey v)
  | ClickPublish => Some Click
  | Settled r => Some (Answer r)
  | Elapse _ => None
  end.

Section refine.
Context `{JsonCodec, TemplateEngine, Examples}.
Implicit Types (w : world) (e : event) (st : store).

(** ** The handlers, seen from outside *)

Lemma abs_on_html v w :
  abs (on_html v w) =
    with_docs (JStr v, css (app_state w), params (app_state w)) (abs w).
Proof.
  unfold on_html. case_decide as E; unfold abs, with_docs, documents; cbn;
    [by rewrite <-E|by rewrite app_nil_r].
Qed.

Lemma abs_on_css v w :
  abs (on_css v w) =
    with_docs (html (app_state w), JStr v, params (app_state w)) (abs w).
Proof.
  unfold on_css. case_decide as E; unfold abs, with_docs, documents; cbn;
    [by rewrite <-E|done].
Qed.

Lemma abs_on_data val w :
  abs (on_data val w) =
    match parse val with
    | Some d =>
        with_text val (with_docs (html (app_state w), css (app_state w), d) (abs w))
    | None => say [ConsoleWarn "Error parsing JSON"] (abs w)
    end.
Proof.
  unfold on_data. destruct (parse val); [|done].
  case_match; unfold abs; cbn; by rewrite ?app_nil_r.
Qed.

Lemma abs_on_click w :
  abs (on_click w) =
    if loading (publish_button (publisher_state w)) then abs w
    else if decide (apiKey (app_state w) = "") then say [Alert missing_key_message] (abs w)
    else say [HttpPost (publish_request (html (app_state w)) (css (app_state w))
                          (apiKey (app_state w)))]
             (with_waiting true (abs w)).
Proof.
  unfold on_click, click, Button_onClick, publish_start, abs.
  destruct (loading _) eqn:Hl; cbn; [by rewrite Hl, app_nil_r|].
  destruct (truthy (apiKey (app_state w))) eqn:Hk; case_decide as Hk'; cbn;
    rewrite ?Hl, ?app_nil_r; try done.
  - by apply string_truthy_iff in Hk.
  - apply not_true_iff_false in Hk. by rewrite string_truthy_iff in Hk.
Qed.

Lemma abs_on_settled r w :
  publisher_ok (publisher_state w) →
  abs (on_settled r w) =
    if loading (publish_button (publisher_state w))
    then say (publish_finish r).2 (with_waiting false (abs w))
    else abs w.
Proof.
  unfold publisher_ok, on_settled, respond, abs. intros ->.
  destruct (loading _) eqn:Hl; cbn; [|by rewrite Hl, app_nil_r].
  by rewrite app_nil_r.
Qed.

(** ** Timers *)

(** A timer's callback is a move of the machine's own, or no move at all
    when it delivers the primitive the preview already shows. *)
Lemma fire_timer_refines (t : timer) d w :
  timer_deadline t w = Some d → calm w →
  spec_internal (abs w) (abs (fire_timer t d w)).
Proof.
  intros Ht [_ _ _ Hh Hp Hs _]. destruct t.
  - apply timer_deadline_html in Ht as (p & Hp' & <-).
    unfold html_synced in Hh. rewrite Hp' in Hh.
    unfold abs. cbn [fire_timer]. rewrite (fire_html_at _ p Hp'), Hh.
    destruct (same_primitive _ _) eqn:E; cbn; [by rewrite app_nil_r|].
    apply rtc_once. by apply (spec_show_html (abs w)).
  - apply timer_deadline_params in Ht as (p & Hp' & <-).
    unfold params_synced in Hp. rewrite Hp' in Hp.
    unfold abs. cbn [fire_timer]. rewrite (fire_params_at _ p Hp'), Hp.
    destruct (same_primitive _ _) eqn:E; cbn; [by rewrite app_nil_r|].
    apply rtc_once. by apply (spec_show_params (abs w)).
  - apply timer_deadline_save in Ht as (p & Hp' & <-).
    unfold fire_timer, fire_save. rewrite Hp', fire_due by done.
    rewrite (Hs p Hp'). apply rtc_once, (spec_save (abs w)).
Qed.

Lemma run_timers_refines n limit w :
  calm w → spec_internal (abs w) (abs (run_timers n limit w)).
Proof.
  revert w. induction n as [|n IH]; intros w Hw; simpl; [done|].
  destruct (earliest _) as [[t d]|] eqn:He; [|done].
  apply earliest_elem, due_timers_elem in He as [Ht _].
  etrans; [by apply fire_timer_refines|]. by apply IH, fire_timer_calm.
Qed.

(** ** The simulation *)

(** Every event is the abstract machine's move on its input. *)
Lemma step_refines w e :
  world_ok w → spec_move (input_of e) (abs w) (abs (step w e)).
Proof.
  intros Hw. destruct e; cbn [step input_of spec_move].
  - rewrite abs_on_html. apply (spec_html (abs w)).
  - rewrite abs_on_css. apply (spec_css (abs w)).
  - rewrite abs_on_data. destruct (parse val) eqn:Hp;
      [by apply (spec_data (abs w))|by apply (spec_data_invalid (abs w))].
  - apply (spec_key (abs w)).
  - rewrite abs_on_click. destruct (loading _) eqn:Hl; [by apply spec_click_busy|].
    case_decide; [by apply (spec_click_no_key (abs w))|by apply (spec_send (abs w))].
  - rewrite abs_on_settled by by destruct Hw. destruct (loading _) eqn:Hl;
      [by apply (spec_settle (abs w))|by apply spec_settle_idle].
  - apply (run_timers_refines 3 (now w + dt)). by apply world_ok_calm.
Qed.

Lemma run_refines st t0 evs :
  spec_run (abs (mount st t0)) (input_of <$> evs) (abs (run step (mount st t0) evs)).
Proof.
  induction evs as [|e evs IH] using rev_ind; [constructor|].
  rewrite run_snoc, fmap_app. eapply spec_run_snoc; [exact IH|].
  apply step_refines, (reachable_ok st t0). by exists evs.
Qed.

(** C2. Refinement: a session is a run of the abstract machine on its
    inputs.  Whatever the events and their timing, the state after them
    shows what the abstract machine shows after answering each edit,
    click and response in turn, with moves of its own only while time
    passes: the documents, the data text and the key are the last ones
    typed; whenever the preview changes it changes to the compilation of
    the template or data of that moment; whenever the store is written it
    is written with the documents of that moment; a request is sent only
    for a click with a key while none is in flight, with the template,
    the stylesheet and the key of that moment; and the console, the
    alerts and the requests are those of the abstract machine, in the
    same order. *)
Theorem session_refines st t0 evs :
  spec_run (abs (mount st t0)) (input_of <$> evs) (abs (run step (mount st t0) evs)).
Proof. apply run_refines. Qed.

(** C38. No session touches a key of the store other than [html], [css]
    and [params]: what else the origin keeps in its store is safe. *)
Theorem session_other_keys st t0 w k :
  reachable step (mount st t0) w →
  k ≠ "html" → k ≠ "css" → k ≠ "params" →
  getItem k (storage w) = getItem k st.
Proof.
  intros [evs ->] ???.
  apply (spec_run_invariant (λ v, getItem k (stored v) = getItem k st)
           _ _ _) with (2 := run_refines st t0 evs); [|done].
  intros i v v' Hs <-. by apply (spec_step_other_keys i).
Qed.

(** The two refinements composed: the components as written, run on
    their hooks, are a run of the abstract machine on the same inputs,
    and what they show is the compilation of what it was compiled from. *)
Corollary hooks_run_refines st t0 evs :
  let w := erase (run hstep (hmount st t0) evs) in
  spec_run (abs (mount st t0)) (input_of <$> evs) (abs w) ∧ view_ok (abs w).
Proof.
  cbn zeta. rewrite erase_run. split; [apply run_refines|].
  apply (spec_run_invariant view_ok) with (2 := run_refines st t0 evs);
    [apply spec_step_ok|apply Preview_mount_ok].
Qed.

End refine.

(** A session on a store that holds a key of another program. *)
Lemma session_other_keys_witness :
  let ex := {| htmlExample := "<h1>{{title}}</h1>"; cssExample := "h1 {}" |} in
  let st := Store {["theme" := "dark"]} None in
  let w := run step (mount st 0)
             [EditHtml "Hi {{title}}"; Elapse 600; ClickPublish; Elapse 1000] in
  getItem "theme" (storage w) = getItem "theme" st.
Proof.
  intros ex st w. apply (session_other_keys st 0 w "theme"); [by eexists|done..].
Defined.
