(* ===== verification/View.v ===== *)
(** * View: what the components render (App.js lines 27-45, 50-66, 95-122, 180-256)

    The JSX of the four components as functions from their state to a tree
    of elements.  An element has a tag, attributes and children; an
    attribute is a string, a number, a boolean, an object (styles and
    options), a value of the state passed as it is ([AVal]: the template,
    the stylesheet and the compiled markup are whatever the store and the
    editors made them), a handler, or a fragment of elements (the [head]
    of the frame).  A child is an element, a literal text, or a value of
    the state in braces ([Expr]).  A handler is the event of [App.step]
    it raises: [AChange f] raises [f text] when the widget's text changes,
    [AClick e] raises [e] when the element is clicked and is not disabled.

    The collectors at the end read a tree the way the browser exposes it:
    the clicks and changes it offers, the values its widgets show, the
    style sheets and markup in the preview frame.  The theorems tie these
    to the session: the publish button offers a click exactly when no
    request is in flight, every edit event is wired to one widget, and a
    stylesheet edit reaches the frame in the same step although the markup
    there waits for the debounce.  The last section fixes the engine of
    [Template] and follows a template from the editor to the frame
    ([typed_template_shown]) and the data into the markup
    ([data_adds_no_markup]). *)

From Stdlib Require Import QArith_base.
From S2P Require Import Prelude Json Effects JsonText Debounce Template TemplateLaws Storage Preview Publish App.

(** ** Trees of elements *)

Inductive attr : Type :=
  | AStr (s : string)
  | ANum (q : Q)
  | ABool (b : bool)
  | AObj (fields : list (string * attr))
  | AVal (v : json)
  | AChange (f : string → event)
  | AClick (e : event)
  | ANodes (ns : list vnode)
with vnode : Type :=
  | Elem (tag : string) (attrs : list (string * attr)) (children : list vnode)
  | Text (s : string)
  | Expr (v : json).

(** [s.toUpperCase()] on ASCII letters. *)
Definition upper_char (c : ascii) : ascii :=
  let n := Ascii.N_of_ascii c in
  if ((97 <=? n) && (n <=? 122))%N then Ascii.ascii_of_N (n - 32) else c.

Fixpoint toUpperCase (s : string) : string :=
  match s with
  | "" => ""
  | String c s => String (upper_char c) (toUpperCase s)
  end.

(** ** The components *)

(** [Editor] (lines 27-45): a title and the Ace editor, with the props the
    caller adds. *)
Definition Editor_view (label mode : string) (props : list (string * attr)) : vnode :=
  Elem "div" [("className", AStr "Editor")]
    [Elem "div" [("className", AStr "Editor-title")] [Text label];
     Elem "AceEditor"
       ([("mode", AStr mode);
         ("theme", AStr "monokai");
         ("name", AStr (toUpperCase mode +:+ "Editor"));
         ("height", AStr "100%");
         ("width", AStr "100%");
         ("wrapEnabled", ABool true);
         ("setOptions", AObj [("tabSize", ANum 2%Q); ("useSoftTabs", ABool true)])]
        ++ props)
       []].

(** [Button] (lines 50-66): disabled and dimmed while loading, with a
    spinner in place of its label. *)
Definition Button_view (b : button) (onClick : event) (children : list vnode) : vnode :=
  Elem "button"
    [("className", AStr "Button");
     ("style", AObj [("opacity", ANum (if loading b then 8 # 10 else 1)%Q)]);
     ("disabled", ABool (loading b));
     ("onClick", AClick onClick)]
    [Elem "span" [("style", AObj [("opacity", ANum (if loading b then 0 else 1)%Q)])]
       children;
     Elem "span" [("className", AStr "Button-spinner")]
       (if loading b
        then [Elem "ClipLoader" [("size", ANum 16%Q); ("color", AStr "white")] []]
        else [])].

(** The style sheet that makes the frame fill its pane (lines 105-111). *)
Definition frame_reset_css : string :=
"
                body, html, .frame-root, .frame-content, .frame-content > div {
                  height: 100%;
                  padding: 0;
                  margin: 0;
                }
            ".

(** [Preview] (lines 95-122): a frame whose head holds the fixed style
    sheet and the user's, and whose body is the compiled markup. *)
Definition Preview_view (css : json) (pv : preview) : vnode :=
  Elem "div" [("className", AStr "Preview")]
    [Elem "div" [("className", AStr "Preview-item")]
       [Elem "div" [("className", AStr "Preview-title")] [Text "Preview"];
        Elem "Frame"
          [("className", AStr "Preview-frame");
           ("head", ANodes
              [Elem "style" [("type", AStr "text/css")] [Text frame_reset_css];
               Elem "style" [("type", AStr "text/css")] [Expr css]])]
          [Elem "InnerHTML" [("html", AVal (compiledHtml pv))] []]]].

(** [App] (lines 180-256). *)
Definition App_view (w : world) : vnode :=
  let a := app_state w in
  Elem "div" [("className", AStr "App")]
    [Elem "header" [("className", AStr "Header")]
       [Elem "div" [("className", AStr "Header-logo")]
          [Elem "a" [("href", AStr "https://ogimpact.sh")]
             [Elem "img" [("src", AStr "https://i.imgur.com/lRT8FxE.png");
                          ("alt", AStr "OG IMPACT");
                          ("width", ANum 200%Q)] []];
           Elem "div" [("className", AStr "Header-logoProduct")] [Text "Editor"];
           Elem "div" [("className", AStr "Header-logoBeta")] [Text "BETA"]];
        Elem "div" [("className", AStr "Header-actions")]
          [Elem "div" [("className", AStr "Header-action")]
             [Elem "a" [("href", AStr "https://ogimpact.sh")] [Text "What's this?"]];
           Elem "div" [("className", AStr "Header-action")]
             [Elem "a" [("href", AStr "https://github.com/chrisvxd/og-impact")]
                [Text "GitHub"]];
           Elem "div" [("className", AStr "Header-action")]
             [Elem "input"
                [("type", AStr "text");
                 ("placeholder", AStr "API Key");
                 ("value", AStr (apiKey a));
                 ("onChange", AChange EditApiKey);
                 ("style", AObj [("border", AStr "none");
                                 ("borderRadius", ANum 4%Q);
                                 ("fontSize", ANum 16%Q);
                                 ("padding", AStr "12px 16px");
                                 ("width", ANum 200%Q);
                                 ("marginRight", ANum 16%Q)])]
                [];
              Button_view (publish_button (publisher_state w)) ClickPublish
                [Text "Publish to ogi.sh"]]]];
     Elem "main" [("className", AStr "Main")]
       [Elem "section"
          [("style", AObj [("height", AStr "100%");
                           ("position", AStr "relative");
                           ("flexGrow", ANum 1%Q)])]
          [Elem "SplitPane" [("defaultSize", AStr "66.7%"); ("split", AStr "vertical")]
             [Elem "SplitPane" [("defaultSize", AStr "50%");
                                ("split", AStr "vertical");
                                ("primary", AStr "second")]
                [Editor_view "HTML / Handlebars" "html"
                   [("onChange", AChange EditHtml); ("value", AVal (html a))];
                 Editor_view "CSS" "css"
                   [("onChange", AChange EditCss); ("value", AVal (css a))]];
              Editor_view "Data" "json"
                [("onChange", AChange EditData); ("value", AStr (paramsJson a))]]];
        Preview_view (css a) (preview_state w)]].

(** ** Reading a tree *)

(** The attribute [k] of an element; of two with the same name the later
    wins, as with a spread before or after a prop. *)
Fixpoint attr_of (k : string) (attrs : list (string * attr)) : option attr :=
  match attrs with
  | [] => None
  | (k', a) :: attrs =>
      match attr_of k attrs with
      | Some b => Some b
      | None => if String.eqb k k' then Some a else None
      end
  end.

Definition disabled (attrs : list (string * attr)) : bool :=
  match attr_of "disabled" attrs with
  | Some (ABool true) => true
  | _ => false
  end.

(** The events a click can raise: the click handlers of the elements that
    are not disabled. *)
Fixpoint clicks (v : vnode) : list event :=
  match v with
  | Text _ | Expr _ => []
  | Elem _ attrs children =>
      match attr_of "onClick" attrs with
      | Some (AClick e) => if disabled attrs then [] else [e]
      | _ => []
      end ++ flat_map clicks children
  end.

(** The change handlers, in document order. *)
Fixpoint changes (v : vnode) : list (string → event) :=
  match v with
  | Text _ | Expr _ => []
  | Elem _ attrs children =>
      match attr_of "onChange" attrs with
      | Some (AChange f) => [f]
      | _ => []
      end ++ flat_map changes children
  end.

(** A prop that is a literal text or a value of the state. *)
Definition attr_value (a : option attr) : list json :=
  match a with
  | Some (AStr s) => [JStr s]
  | Some (AVal v) => [v]
  | _ => []
  end.

(** What the widgets are given to show, in document order. *)
Fixpoint values (v : vnode) : list json :=
  match v with
  | Text _ | Expr _ => []
  | Elem _ attrs children =>
      attr_value (attr_of "value" attrs) ++ flat_map values children
  end.

(** What is injected into the page as markup. *)
Fixpoint markup (v : vnode) : list json :=
  match v with
  | Text _ | Expr _ => []
  | Elem _ attrs children =>
      attr_value (attr_of "html" attrs) ++ flat_map markup children
  end.

(** The style sheets, in the frame's head or elsewhere. *)
Fixpoint styles (v : vnode) : list json :=
  match v with
  | Text _ | Expr _ => []
  | Elem tag attrs children =>
      (if String.eqb tag "style"
       then flat_map (λ c, match c with
                           | Text s => [JStr s]
                           | Expr v => [v]
                           | _ => []
                           end) children
       else [])
      ++ flat_map (λ '(_, a), match a with
                               | ANodes ns => flat_map styles ns
                               | _ => []
                               end) attrs
      ++ flat_map styles children
  end.

(** ** What the page shows and offers *)

Section view.
Context `{JsonCodec, TemplateEngine, Examples}.
Implicit Types (w : world) (st : store).

Lemma clicks_App_view w :
  clicks (App_view w) =
    if loading (publish_button (publisher_state w)) then [] else [ClickPublish].
Proof. cbn. by destruct (loading _). Qed.

Lemma values_App_view w :
  values (App_view w) =
    [JStr (apiKey (app_state w)); html (app_state w); css (app_state w);
     JStr (paramsJson (app_state w))].
Proof. cbn. by destruct (loading _). Qed.

Lemma styles_App_view w :
  styles (App_view w) = [JStr frame_reset_css; css (app_state w)].
Proof. cbn. by destruct (loading _). Qed.

Lemma markup_App_view w : markup (App_view w) = [compiledHtml (preview_state w)].
Proof. cbn. by destruct (loading _). Qed.

(** The publish button offers a click exactly when no request is in
    flight, in every state a session reaches: a second request cannot be
    started from the page while the first is pending. *)
Theorem publish_offered_iff_idle st t0 w :
  reachable step (mount st t0) w →
  ClickPublish ∈ clicks (App_view w) ↔ inflight (publisher_state w) = 0%nat.
Proof.
  intros [_ Hpub _ _ _ _ _]%reachable_ok. unfold publisher_ok in Hpub.
  rewrite clicks_App_view, Hpub. destruct (loading _).
  - split; [by intros ?%elem_of_nil|done].
  - split; [done|]. intros _. by left.
Qed.

(** Every edit event of the loop is wired to one widget, in this
    order: the key field, the template editor, the stylesheet editor, the
    data editor; and each widget shows the text the state holds for it. *)
Theorem edits_wired w :
  changes (App_view w) = [EditApiKey; EditHtml; EditCss; EditData] ∧
  values (App_view w) =
    [JStr (apiKey (app_state w)); html (app_state w); css (app_state w);
     JStr (paramsJson (app_state w))].
Proof. split; [cbn; by destruct (loading _)|apply values_App_view]. Qed.

(** The stylesheet is not debounced: an edit reaches the frame's head
    in the same step, while the markup in the frame stays what it was
    until the preview recompiles. *)
Theorem css_shown_at_once w v :
  styles (App_view (step w (EditCss v))) = [JStr frame_reset_css; JStr v] ∧
  markup (App_view (step w (EditCss v))) = markup (App_view w).
Proof.
  rewrite styles_App_view, !markup_App_view. cbn [step]. unfold on_css.
  case_decide as E; [by rewrite E|done].
Qed.

(** A template edit does not reach the frame in its own step: the
    editor shows the new text at once, the frame's markup waits for the
    debounce. *)
Theorem html_shown_later w v :
  nth 1 (values (App_view (step w (EditHtml v)))) JNull = JStr v ∧
  markup (App_view (step w (EditHtml v))) = markup (App_view w).
Proof.
  rewrite values_App_view, !markup_App_view. cbn [step nth]. unfold on_html.
  case_decide as E; [by rewrite E|done].
Qed.

End view.

(** ** With the engine of [Template] *)

Section engine.
Context `{JsonCodec, Examples}.
Implicit Types (w : world) (st : store).

(** C19. Data cannot put markup into the page.  In every state a session
    reaches, if the template the preview was compiled from is a text that
    asks for no unescaped substitution ([{{{] or [{{&]), then what is
    injected into the frame is a text, and each character that delimits
    markup or an attribute value occurs in it at most as often as in that
    template: whatever the data holds, it adds no element and no
    attribute. *)
Theorem data_adds_no_markup st t0 w c t out :
  reachable step (mount st t0) w → escaped c = true →
  debouncedHtml (preview_state w) = JStr t → has_raw_marker t = false →
  out ∈ markup (App_view w) →
  ∃ o, out = JStr o ∧ occurs c o ≤ occurs c t.
Proof.
  intros [Hpv _ _ _ _ _ _]%reachable_ok Hc Ht Hraw.
  rewrite markup_App_view, Hpv, Ht. intros ->%list_elem_of_singleton.
  by apply compiledHtml_init_no_markup.
Qed.

(** C29. From the keyboard to the frame.  Typing a template, given as the
    printed form of a syntax tree in normal form, and pausing for half a
    second puts the evaluation of the tree against the data into the
    frame, and nothing else. *)
Theorem typed_template_shown w ns dt :
  world_ok w → nodes_ok ns = true → (500 ≤ dt)%N →
  markup (App_view (elapse dt (step w (EditHtml (print_template ns))))) =
    [JStr (render (params (app_state w)) ns)].
Proof.
  intros Hw Hns Hdt. rewrite markup_App_view, elapse_preview by (done || by apply step_ok).
  cbn [compiledHtml step]. unfold on_html.
  case_decide as Hv; [rewrite <-Hv|cbn]; by rewrite compiledHtml_init_print.
Qed.

End engine.

Lemma publish_offered_iff_idle_witness :
  let ex := {| htmlExample := "<h1>{{title}}</h1>"; cssExample := "h1 {}" |} in
  let w := run step (mount (Store ∅ None) 0) [EditApiKey "k"; ClickPublish] in
  ClickPublish ∈ clicks (App_view w) ↔ inflight (publisher_state w) = 0%nat.
Proof.
  intros ex w. apply (publish_offered_iff_idle (Store ∅ None) 0%N w). by eexists.
Defined.

(** A click without a key, as the page shows it: the button is rendered
    disabled, offering no click, and then enabled again. *)
Example keyless_click_rendered :
  (λ b, clicks (Button_view b ClickPublish [Text "Publish to ogi.sh"])) <$>
    Button_frames (publish_start (JStr "<p></p>") (JStr "p {}") "") (MkButton false) =
  [[]; [ClickPublish]].
Proof. done. Qed.

(** A title that is a script element reaches the frame as text. *)
Lemma data_adds_no_markup_witness :
  let ex := {| htmlExample := "<h1>{{title}}</h1>"; cssExample := "h1 {}" |} in
  let d := JObj [("title", JStr "<script>alert(1)</script>")] in
  let w := run step (mount (Store ∅ None) 0) [EditData (stringify 0 d); Elapse 500] in
  compiledHtml (preview_state w) =
    JStr "<h1>&lt;script&gt;alert(1)&lt;/script&gt;</h1>" ∧
  ∃ o, compiledHtml (preview_state w) = JStr o ∧
       occurs "<" o ≤ occurs "<" "<h1>{{title}}</h1>".
Proof.
  intros ex d w. split; [by vm_compute|].
  apply (data_adds_no_markup (Store ∅ None) 0%N w "<" "<h1>{{title}}</h1>"
           (compiledHtml (preview_state w)));
    [by eexists|reflexivity|by vm_compute|by vm_compute|vm_compute; by left].
Defined.

(** The first scenario of the specification, typed into the editor. *)
Lemma typed_template_shown_witness :
  let ex := {| htmlExample := "<h1>{{title}}</h1>"; cssExample := "h1 {}" |} in
  let w := mount (Store ∅ None) 0 in
  let ns := [NText "Hello, "; NVar ["title"]; NText "!"] in
  print_template ns = "Hello, {{title}}!" ∧
  markup (App_view (elapse 500 (step w (EditHtml (print_template ns))))) =
    [JStr (render (params (app_state w)) ns)].
Proof.
  intros ex w ns. split; [reflexivity|].
  apply (typed_template_shown w ns 500%N); [apply mount_ok|reflexivity|done].
Defined.
